(* ===================================================================== *)
(*  ig-debugheap: a shallow embedding of DebugHeap.c and its properties  *)
(* ===================================================================== *)
(*  The page-granular debugging allocator of DebugHeap.c is embedded as
    executable functions over an explicit heap record.  Block records
    live in the pool [m_Blocks]; a pointer to a record is [Some i] (the
    address of [m_Blocks[i]]) and the null pointer is [None].  Machine
    integers are values of Z with the wrap-around of every C conversion
    written out.  The embedding follows the POSIX branch of the source
    (mmap / munmap / mprotect / madvise) on an LP64 target. *)

From Stdlib Require Import ZArith Lia String Sorted.
From stdpp Require Import base option list.

Local Open Scope Z_scope.

(* --------------------------------------------------------------------- *)
(** * Machine integers                                                   *)
(* --------------------------------------------------------------------- *)

Definition u31 (x : Z) : Z := x mod 2 ^ 31.
Definition u32 (x : Z) : Z := x mod 2 ^ 32.
Definition u64 (x : Z) : Z := x mod 2 ^ 64.

(** [INT_MAX]: the bit-fields [m_PageCount : 31] and [m_PageIndex : 31]
    promote to [int], so arithmetic on them is signed. *)
Definition INT_MAX : Z := 2 ^ 31 - 1.

(** [a + b] and [a * b] on [int] operands; overflow is undefined in C and
    is a fault here. *)
Definition in_int (x : Z) : bool := (- 2 ^ 31 <=? x) && (x <=? INT_MAX).

(** [~x] on a [uint32_t]. *)
Definition not32 (x : Z) : Z := u32 (Z.lnot x).

(** kPageSize *)
Definition kPageSize : Z := 4096.

(** [sizeof] of the three types that enter the bookkeeping footprint, on
    an LP64 target. *)
Definition sizeof_DebugHeap : Z := 80.
Definition sizeof_ptr : Z := 8.
Definition sizeof_DebugBlockInfo : Z := 24.

(* --------------------------------------------------------------------- *)
(** * Faults and the result monad                                        *)
(* --------------------------------------------------------------------- *)

(** What ends a run: a failed [ASSERT_FATAL], a read or write through a
    null block pointer, an array access outside the array, signed
    overflow of an [int] expression, or a write to a page that is not
    committed. *)
Inductive Fault : Type :=
  | AssertFatal (msg : string)
  | NullDeref
  | OutOfBounds
  | SignedOverflow
  | AccessViolation.

Inductive Result (A : Type) : Type :=
  | Ok (a : A)
  | Err (f : Fault).
Arguments Ok {A} a.
Arguments Err {A} f.

Definition bind {A B} (m : Result A) (k : A -> Result B) : Result B :=
  match m with
  | Ok a => k a
  | Err f => Err f
  end.

Notation "'let*' p ':=' m 'in' k" := (bind m (fun p => k))
  (at level 10, p pattern, m at level 100, k at level 200).

(** ASSERT_FATAL(expr, message) *)
Definition ASSERT_FATAL (expr : bool) (message : string) : Result unit :=
  if expr then Ok tt else Err (AssertFatal message).

(** [for (i = start, n iterations; ++i) body] over a state [St]. *)
Fixpoint for_loop {St : Type} (n : nat) (i : Z) (body : Z -> St -> Result St) (s : St)
  : Result St :=
  match n with
  | O => Ok s
  | S n' => let* s' := body i s in for_loop n' (i + 1) body s'
  end.

(** Array read and write with the bounds of the array checked. *)
Definition arr_get {A} (l : list A) (i : Z) : Result A :=
  match l !! Z.to_nat i with
  | Some x => Ok x
  | None => Err OutOfBounds
  end.

Definition arr_set {A} (l : list A) (i : Z) (x : A) : Result (list A) :=
  if decide (Z.to_nat i < length l)%nat then Ok (<[Z.to_nat i := x]> l)
  else Err OutOfBounds.

(* --------------------------------------------------------------------- *)
(** * Data model                                                         *)
(* --------------------------------------------------------------------- *)

(** A pointer to a block record: the index of the record in [m_Blocks],
    or [None] for NULL. *)
Abbreviation blockptr := (option nat).

(** struct DebugBlockInfo.  The fields live in a module of their own
    because [m_PageCount] is also a field of struct DebugHeap. *)
Module Blk.
Record t : Type := mk {
  m_Allocated : bool;
  m_PageCount : Z;
  m_PendingFree : bool;
  m_PageIndex : Z;
  m_Prev : blockptr;
  m_Next : blockptr
}.

(** memset(result, 0, sizeof *result) *)
Definition zero : t := mk false 0 false 0 None None.

Definition set_Allocated (v : bool) (b : t) : t :=
  mk v (m_PageCount b) (m_PendingFree b) (m_PageIndex b) (m_Prev b) (m_Next b).
(** A store to a 31-bit field keeps the low 31 bits. *)
Definition set_PageCount (v : Z) (b : t) : t :=
  mk (m_Allocated b) (u31 v) (m_PendingFree b) (m_PageIndex b) (m_Prev b) (m_Next b).
Definition set_PendingFree (v : bool) (b : t) : t :=
  mk (m_Allocated b) (m_PageCount b) v (m_PageIndex b) (m_Prev b) (m_Next b).
Definition set_PageIndex (v : Z) (b : t) : t :=
  mk (m_Allocated b) (m_PageCount b) (m_PendingFree b) (u31 v) (m_Prev b) (m_Next b).
Definition set_Prev (v : blockptr) (b : t) : t :=
  mk (m_Allocated b) (m_PageCount b) (m_PendingFree b) (m_PageIndex b) v (m_Next b).
Definition set_Next (v : blockptr) (b : t) : t :=
  mk (m_Allocated b) (m_PageCount b) (m_PendingFree b) (m_PageIndex b) (m_Prev b) v.
End Blk.

Abbreviation DebugBlockInfo := Blk.t.

(** struct DebugHeap.  The four arrays that follow the header in the
    bookkeeping region are held by value; each has [mem_page_count]
    slots. *)
Record DebugHeap : Type := mkHeap {
  m_MaxAllocs : Z;
  m_PageCount : Z;
  m_BaseAddress : Z;
  m_FreeListSize : Z;
  m_FreeList : list blockptr;
  m_PendingListSize : Z;
  m_PendingList : list blockptr;
  m_BlockLookup : list blockptr;
  m_FirstUnusedBlockInfo : blockptr;
  m_Blocks : list DebugBlockInfo;
  m_ReentrancyGuard : Z
}.

Definition set_FreeListSize (v : Z) (h : DebugHeap) : DebugHeap :=
  mkHeap (m_MaxAllocs h) (m_PageCount h) (m_BaseAddress h) v (m_FreeList h)
    (m_PendingListSize h) (m_PendingList h) (m_BlockLookup h)
    (m_FirstUnusedBlockInfo h) (m_Blocks h) (m_ReentrancyGuard h).
Definition set_FreeList (v : list blockptr) (h : DebugHeap) : DebugHeap :=
  mkHeap (m_MaxAllocs h) (m_PageCount h) (m_BaseAddress h) (m_FreeListSize h) v
    (m_PendingListSize h) (m_PendingList h) (m_BlockLookup h)
    (m_FirstUnusedBlockInfo h) (m_Blocks h) (m_ReentrancyGuard h).
Definition set_PendingListSize (v : Z) (h : DebugHeap) : DebugHeap :=
  mkHeap (m_MaxAllocs h) (m_PageCount h) (m_BaseAddress h) (m_FreeListSize h)
    (m_FreeList h) v (m_PendingList h) (m_BlockLookup h)
    (m_FirstUnusedBlockInfo h) (m_Blocks h) (m_ReentrancyGuard h).
Definition set_PendingList (v : list blockptr) (h : DebugHeap) : DebugHeap :=
  mkHeap (m_MaxAllocs h) (m_PageCount h) (m_BaseAddress h) (m_FreeListSize h)
    (m_FreeList h) (m_PendingListSize h) v (m_BlockLookup h)
    (m_FirstUnusedBlockInfo h) (m_Blocks h) (m_ReentrancyGuard h).
Definition set_BlockLookup (v : list blockptr) (h : DebugHeap) : DebugHeap :=
  mkHeap (m_MaxAllocs h) (m_PageCount h) (m_BaseAddress h) (m_FreeListSize h)
    (m_FreeList h) (m_PendingListSize h) (m_PendingList h) v
    (m_FirstUnusedBlockInfo h) (m_Blocks h) (m_ReentrancyGuard h).
Definition set_FirstUnusedBlockInfo (v : blockptr) (h : DebugHeap) : DebugHeap :=
  mkHeap (m_MaxAllocs h) (m_PageCount h) (m_BaseAddress h) (m_FreeListSize h)
    (m_FreeList h) (m_PendingListSize h) (m_PendingList h) (m_BlockLookup h)
    v (m_Blocks h) (m_ReentrancyGuard h).
Definition set_Blocks (v : list DebugBlockInfo) (h : DebugHeap) : DebugHeap :=
  mkHeap (m_MaxAllocs h) (m_PageCount h) (m_BaseAddress h) (m_FreeListSize h)
    (m_FreeList h) (m_PendingListSize h) (m_PendingList h) (m_BlockLookup h)
    (m_FirstUnusedBlockInfo h) v (m_ReentrancyGuard h).
Definition set_ReentrancyGuard (v : Z) (h : DebugHeap) : DebugHeap :=
  mkHeap (m_MaxAllocs h) (m_PageCount h) (m_BaseAddress h) (m_FreeListSize h)
    (m_FreeList h) (m_PendingListSize h) (m_PendingList h) (m_BlockLookup h)
    (m_FirstUnusedBlockInfo h) (m_Blocks h) v.

(** Reading a record through a block pointer: [p->field]. *)
Definition deref (h : DebugHeap) (p : blockptr) : Result (nat * DebugBlockInfo) :=
  match p with
  | None => Err NullDeref
  | Some i =>
      match m_Blocks h !! i with
      | Some b => Ok (i, b)
      | None => Err OutOfBounds
      end
  end.

(** Writing a record of the pool in place. *)
Definition store (i : nat) (b : DebugBlockInfo) (h : DebugHeap) : DebugHeap :=
  set_Blocks (<[i := b]> (m_Blocks h)) h.

(** [p->field = v] for a pointer that may be null. *)
Definition update (p : blockptr) (f : DebugBlockInfo -> DebugBlockInfo) (h : DebugHeap)
  : Result DebugHeap :=
  let* (i, b) := deref h p in Ok (store i (f b) h).

(* --------------------------------------------------------------------- *)
(** * The virtual-memory shim (POSIX branch)                             *)
(* --------------------------------------------------------------------- *)

(** The calls the heap makes on the operating system, with their
    arguments, and the garbage fill of user memory. *)
Inductive VmCall : Type :=
  | CallVmAllocate (size : Z) (result : Z)
  | CallVmFree (ptr size : Z)
  | CallVmCommit (ptr size : Z)
  | CallVmDecommit (ptr size : Z)
  | CallMemset (ptr byte len : Z).

(** [vm_mapped] is the part of the reservation that is still mapped, as
    (start, length in bytes); [vm_trace] lists the calls, latest first. *)
Record Vm : Type := mkVm {
  vm_mapped : option (Z * Z);
  vm_trace : list VmCall
}.

Definition page_aligned (ptr : Z) : bool := ptr mod kPageSize =? 0.

(** mprotect and madvise succeed on a page-aligned range that lies inside
    the mapping, and on an empty range. *)
Definition range_mapped (vm : Vm) (ptr size : Z) : bool :=
  match vm_mapped vm with
  | Some (start, len) =>
      page_aligned ptr && (start <=? ptr) && (ptr + size <=? start + len)
  | None => false
  end.

(** VmAllocate: mmap(NULL, size, PROT_NONE, ...).  [os_range] is the
    address the kernel picks. *)
Definition VmAllocate (os_range : Z) (size : Z) : Result (Z * Vm) :=
  let* _ := ASSERT_FATAL (negb (os_range =? 0)) "Couldn't allocate address space" in
  Ok (os_range, mkVm (Some (os_range, size)) [CallVmAllocate size os_range]).

(** VmFree: munmap(ptr, size) unmaps the pages of [ptr, ptr + size); a
    zero length is refused. *)
Definition VmFree (ptr size : Z) (vm : Vm) : Result Vm :=
  let* _ := ASSERT_FATAL (page_aligned ptr && (0 <? size)) "Failed to free memory" in
  let mapped :=
    match vm_mapped vm with
    | Some (start, len) =>
        if (ptr =? start) && (len <=? size) then None
        else if ptr =? start then Some (start + size, len - size)
        else Some (start, len)
    | None => None
    end in
  Ok (mkVm mapped (CallVmFree ptr size :: vm_trace vm)).

Definition VmCommit (ptr size : Z) (vm : Vm) : Result Vm :=
  let* _ := ASSERT_FATAL (range_mapped vm ptr size) "Failed to commit memory" in
  Ok (mkVm (vm_mapped vm) (CallVmCommit ptr size :: vm_trace vm)).

Definition VmDecommit (ptr size : Z) (vm : Vm) : Result Vm :=
  let* _ := ASSERT_FATAL (range_mapped vm ptr size) "madvise() failed" in
  let* _ := ASSERT_FATAL (range_mapped vm ptr size) "Failed to decommit memory" in
  Ok (mkVm (vm_mapped vm) (CallVmDecommit ptr size :: vm_trace vm)).

(** AtomicInc32 / AtomicDec32 on the reentrancy guard. *)
Definition AtomicInc32 (h : DebugHeap) : Z * DebugHeap :=
  let v := u32 (m_ReentrancyGuard h + 1) in (v, set_ReentrancyGuard v h).
Definition AtomicDec32 (h : DebugHeap) : Z * DebugHeap :=
  let v := u32 (m_ReentrancyGuard h - 1) in (v, set_ReentrancyGuard v h).

Definition DEBUG_THREAD_GUARD_ENTER (h : DebugHeap) : Result DebugHeap :=
  let '(v, h') := AtomicInc32 h in
  let* _ := ASSERT_FATAL (1 =? v) "Unsynchronized MT usage detected" in Ok h'.

Definition DEBUG_THREAD_GUARD_LEAVE (h : DebugHeap) : Result DebugHeap :=
  let '(v, h') := AtomicDec32 h in
  let* _ := ASSERT_FATAL (0 =? v) "Unsynchronized MT usage detected" in Ok h'.

(* --------------------------------------------------------------------- *)
(** * Block-record pool                                                  *)
(* --------------------------------------------------------------------- *)

(** AllocBlockInfo *)
Definition AllocBlockInfo (h : DebugHeap) : Result (nat * DebugHeap) :=
  let* (result, b) := deref h (m_FirstUnusedBlockInfo h) in
  let* _ := ASSERT_FATAL (Blk.m_Allocated b) "Block info corrupted" in
  let* _ := ASSERT_FATAL (Blk.m_PendingFree b) "Block info corrupted" in
  let h := set_FirstUnusedBlockInfo (Blk.m_Next b) h in
  Ok (result, store result Blk.zero h).

(** FreeBlockInfo *)
Definition FreeBlockInfo (block_info : nat) (h : DebugHeap) : Result DebugHeap :=
  let* h := update (Some block_info)
         (fun b => Blk.set_Next (m_FirstUnusedBlockInfo h)
                     (Blk.set_Prev None
                        (Blk.set_PendingFree true (Blk.set_Allocated true b)))) h in
  Ok (set_FirstUnusedBlockInfo (Some block_info) h).

(* --------------------------------------------------------------------- *)
(** * Heap construction and destruction                                  *)
(* --------------------------------------------------------------------- *)

(** A heap as the caller holds it: the address of the heap object (the
    start of the reservation), the bookkeeping it points to, and the
    state of the operating system's mapping. *)
Record World : Type := mkWorld {
  w_self : Z;
  w_heap : DebugHeap;
  w_vm : Vm
}.

Definition int_add (a b : Z) : Result Z :=
  if in_int (a + b) then Ok (a + b) else Err SignedOverflow.
Definition int_mul (a b : Z) : Result Z :=
  if in_int (a * b) then Ok (a * b) else Err SignedOverflow.

(** One round of the loop that links the unused records. *)
Definition init_block (count : Z) (i : Z) (blocks : list DebugBlockInfo)
  : Result (list DebugBlockInfo) :=
  let* b := arr_get blocks i in
  arr_set blocks i
    (Blk.set_Next (if i + 1 <? count then Some (Z.to_nat (i + 1)) else None)
       (Blk.set_Prev None
          (Blk.set_PendingFree true (Blk.set_Allocated true b)))).

(** DebugHeapInit.  The pages of the bookkeeping region come zero-filled
    from the kernel, so every array slot starts as NULL and every record
    as all-zero. *)
Definition DebugHeapInit (os_range : Z) (mem_size_bytes : Z) : Result (option World) :=
  let mem_page_count := mem_size_bytes / kPageSize in
  let max_allocs := mem_page_count / 2 in
  let bookkeeping_bytes :=
    u64 (sizeof_DebugHeap
         + 3 * mem_page_count * sizeof_ptr
         + sizeof_DebugBlockInfo * mem_page_count) in
  let bookkeeping_pages := u64 (bookkeeping_bytes + kPageSize - 1) / kPageSize in
  let total_pages := u64 (bookkeeping_pages + mem_page_count) in
  let total_bytes := u64 (total_pages * kPageSize) in
  let* (range, vm) := VmAllocate os_range total_bytes in
  if range =? 0 then Ok None
  else
    let* vm := VmCommit range (u64 (bookkeeping_pages * kPageSize)) vm in
    let n := Z.to_nat mem_page_count in
    let self :=
      mkHeap (u32 max_allocs) (u32 mem_page_count)
        (u64 (range + kPageSize * bookkeeping_pages))
        1 (replicate n None) 0 (replicate n None) (replicate n None)
        None (replicate n Blk.zero) 0 in
    let count := m_MaxAllocs self in
    let* blocks := for_loop (Z.to_nat count) 0 (init_block count) (m_Blocks self) in
    let self := set_FirstUnusedBlockInfo (Some 0%nat) (set_Blocks blocks self) in
    let* (root_block, self) := AllocBlockInfo self in
    let* self :=
      update (Some root_block)
        (fun b => Blk.set_Next None (Blk.set_Prev None
                    (Blk.set_PageCount (u32 mem_page_count)
                       (Blk.set_PendingFree false (Blk.set_Allocated false
                          (Blk.set_PageIndex 0 b)))))) self in
    let* fl := arr_set (m_FreeList self) 0 (Some root_block) in
    Ok (Some (mkWorld range (set_FreeList fl self) vm)).

(** DebugHeapDestroy: [heap->m_PageCount * kPageSize] is a product of a
    [uint32_t] and an [int], taken in 32 bits. *)
Definition DebugHeapDestroy (w : World) : Result Vm :=
  VmFree (w_self w) (u32 (m_PageCount (w_heap w) * kPageSize)) (w_vm w).

(* --------------------------------------------------------------------- *)
(** * Allocation                                                         *)
(* --------------------------------------------------------------------- *)

Definition is_null (p : blockptr) : bool :=
  match p with None => true | Some _ => false end.

(** The state of the best-fit scan: best_block, best_block_size and
    best_freelist_index. *)
Definition scan_state : Type := blockptr * Z * Z.

Definition scan_init : scan_state := (None, not32 0, 0).

(** One round of the scan over the free list. *)
Definition scan_body (h : DebugHeap) (page_req : Z) (i : Z) (st : scan_state)
  : Result scan_state :=
  let '(best_block, best_block_size, best_freelist_index) := st in
  let* block := arr_get (m_FreeList h) i in
  let* (r, b) := deref h block in
  let block_count := Blk.m_PageCount b in
  let* _ := ASSERT_FATAL (negb (Blk.m_Allocated b)) "block info corrupted" in
  let* _ := ASSERT_FATAL (negb (Blk.m_PendingFree b)) "block info corrupted" in
  if (page_req <=? block_count) && (block_count <? best_block_size)
  then Ok (Some r, block_count, i)
  else Ok st.

Definition scan_free_list (h : DebugHeap) (page_req : Z) : Result scan_state :=
  for_loop (Z.to_nat (m_FreeListSize h)) 0 (scan_body h page_req) scan_init.

(** Taking slot [index] off the free list: the last entry moves into it. *)
Definition free_list_remove (index : Z) (h : DebugHeap) : Result DebugHeap :=
  let* h :=
    if 1 <? m_FreeListSize h then
      let* last := arr_get (m_FreeList h) (u32 (m_FreeListSize h - 1)) in
      let* fl := arr_set (m_FreeList h) index last in
      Ok (set_FreeList fl h)
    else Ok h in
  Ok (set_FreeListSize (u32 (m_FreeListSize h - 1)) h).

(** heap->m_FreeList[heap->m_FreeListSize++] = block *)
Definition free_list_push (block : nat) (h : DebugHeap) : Result DebugHeap :=
  let* fl := arr_set (m_FreeList h) (m_FreeListSize h) (Some block) in
  Ok (set_FreeListSize (u32 (m_FreeListSize h + 1)) (set_FreeList fl h)).

(** The split of the best block: a new record takes the tail end. *)
Definition carve_tail (best_block : nat) (page_req unused_page_count : Z)
    (h : DebugHeap) : Result DebugHeap :=
  let* (tail_block, h) := AllocBlockInfo h in
  let* (_, bb) := deref h (Some best_block) in
  let* end_index := int_add (Blk.m_PageIndex bb) (Blk.m_PageCount bb) in
  let* h :=
    update (Some tail_block)
      (fun t => Blk.set_PageCount unused_page_count
                  (Blk.set_PageIndex (u32 (end_index - unused_page_count))
                     (Blk.set_PendingFree false (Blk.set_Allocated false t)))) h in
  let* (_, bb) := deref h (Some best_block) in
  let* h := update (Some tail_block) (Blk.set_Next (Blk.m_Next bb)) h in
  let* h := update (Some tail_block) (Blk.set_Prev (Some best_block)) h in
  let* h := update (Some best_block) (Blk.set_Next (Some tail_block)) h in
  let* h := free_list_push tail_block h in
  update (Some best_block) (Blk.set_PageCount (u32 page_req)) h.

(** The loop that asserts the inner lookup slots of a block are NULL. *)
Definition check_lookup_null (h : DebugHeap) (page_index max : Z) : Result unit :=
  for_loop (Z.to_nat (max - 1)) 1
    (fun i _ =>
       let* e := arr_get (m_BlockLookup h) (u32 (page_index + i)) in
       ASSERT_FATAL (is_null e) "block lookup corrupted") tt.

(** AllocFromFreeList; the result pointer is 0 for NULL. *)
Definition AllocFromFreeList (h : DebugHeap) (page_req : Z) : Result (Z * DebugHeap) :=
  let* (best_block, best_block_size, best_freelist_index) := scan_free_list h page_req in
  match best_block with
  | None => Ok (0, h)
  | Some best_block =>
      let* h := free_list_remove best_freelist_index h in
      let unused_page_count := u32 (u64 (best_block_size - page_req)) in
      let* h :=
        if 0 <? unused_page_count
        then carve_tail best_block page_req unused_page_count h
        else Ok h in
      let* h := update (Some best_block) (Blk.set_Allocated true) h in
      let* (_, bb) := deref h (Some best_block) in
      let* e := arr_get (m_BlockLookup h) (Blk.m_PageIndex bb) in
      let* _ := ASSERT_FATAL (is_null e) "block lookup corrupted" in
      let* bl := arr_set (m_BlockLookup h) (Blk.m_PageIndex bb) (Some best_block) in
      let h := set_BlockLookup bl h in
      let* _ := check_lookup_null h (Blk.m_PageIndex bb) (Blk.m_PageCount bb) in
      Ok (u64 (m_BaseAddress h + Blk.m_PageIndex bb * kPageSize), h)
  end.

(** Whether a write to [addr] succeeds: the latest call that covers the
    address decides. *)
Fixpoint accessible (trace : list VmCall) (addr : Z) : bool :=
  match trace with
  | [] => false
  | CallVmCommit p n :: t =>
      if (p <=? addr) && (addr <? p + n) then true else accessible t addr
  | CallVmDecommit p n :: t =>
      if (p <=? addr) && (addr <? p + n) then false else accessible t addr
  | CallVmFree p n :: t =>
      if (p <=? addr) && (addr <? p + n) then false else accessible t addr
  | _ :: t => accessible t addr
  end.

(** memset(ptr, byte, len) on user memory; only the fact of the write is
    kept. *)
Definition memset (ptr byte len : Z) (vm : Vm) : Result Vm :=
  if (0 <? len)
     && negb (accessible (vm_trace vm) ptr && accessible (vm_trace vm) (ptr + len - 1))
  then Err AccessViolation
  else Ok (mkVm (vm_mapped vm) (CallMemset ptr byte len :: vm_trace vm)).

(** FinalizeAlloc *)
Definition FinalizeAlloc (ptr user_size pages_allocated user_alignment : Z) (vm : Vm)
  : Result (Z * Vm) :=
  let* vm := VmCommit ptr (u64 ((pages_allocated - 1) * kPageSize)) vm in
  let* vm := VmDecommit (u64 (ptr + u64 ((pages_allocated - 1) * kPageSize))) kPageSize vm in
  let ideal_offset := u32 (u64 (kPageSize - user_size)) mod kPageSize in
  let aligned_offset := Z.land ideal_offset (not32 (u32 (u64 (user_alignment - 1)))) in
  let* vm := memset ptr 252 aligned_offset vm in
  Ok (u64 (ptr + aligned_offset), vm).

(* --------------------------------------------------------------------- *)
(** * Pending-free flush                                                 *)
(* --------------------------------------------------------------------- *)

(** [!n->m_Allocated && !n->m_PendingFree && cond], with the short
    circuit of the source: the page arithmetic is evaluated only for a
    neighbour whose two state bits are clear. *)
Definition neighbour_free (n : DebugBlockInfo) (cond : Result bool) : Result bool :=
  if negb (Blk.m_Allocated n) && negb (Blk.m_PendingFree n) then cond else Ok false.

(** [if (block->m_Next) block->m_Next->m_Prev = target] *)
Definition relink_next (block : nat) (target : nat) (h : DebugHeap) : Result DebugHeap :=
  let* (_, b) := deref h (Some block) in
  match Blk.m_Next b with
  | Some n => update (Some n) (Blk.set_Prev (Some target)) h
  | None => Ok h
  end.

(** [a->m_PageCount += b->m_PageCount] *)
Definition absorb_pages (a b : nat) (h : DebugHeap) : Result DebugHeap :=
  let* (_, ab) := deref h (Some a) in
  let* (_, bb) := deref h (Some b) in
  let* sum := int_add (Blk.m_PageCount ab) (Blk.m_PageCount bb) in
  update (Some a) (Blk.set_PageCount sum) h.

(** The attempt to merge [block] into its left neighbour.  The result is
    the block to go on with and the flag block_removed. *)
Definition merge_left (block : nat) (h : DebugHeap) : Result (nat * bool * DebugHeap) :=
  let* (_, b) := deref h (Some block) in
  match Blk.m_Prev b with
  | None => Ok (block, false, h)
  | Some prev =>
      let* (_, pb) := deref h (Some prev) in
      let* adjacent :=
        neighbour_free pb
          (let* e := int_add (Blk.m_PageIndex pb) (Blk.m_PageCount pb) in
           Ok (e =? Blk.m_PageIndex b)) in
      if adjacent then
        let* h := update (Some prev) (Blk.set_Next (Blk.m_Next b)) h in
        let* h := relink_next block prev h in
        let* h := absorb_pages prev block h in
        let* h := FreeBlockInfo block h in
        Ok (prev, true, h)
      else Ok (block, false, h)
  end.

(** The scan that finds [next] on the free list and removes it. *)
Fixpoint free_list_find_remove (n : nat) (fi : Z) (next : nat) (h : DebugHeap)
  : Result DebugHeap :=
  match n with
  | O => Ok h
  | S n' =>
      let* e := arr_get (m_FreeList h) fi in
      if decide (e = Some next) then
        let* last := arr_get (m_FreeList h) (u32 (m_FreeListSize h - 1)) in
        let* fl := arr_set (m_FreeList h) fi last in
        Ok (set_FreeListSize (u32 (m_FreeListSize h - 1)) (set_FreeList fl h))
      else free_list_find_remove n' (fi + 1) next h
  end.

(** The attempt to merge the right neighbour into [block]. *)
Definition merge_right (block : nat) (h : DebugHeap) : Result DebugHeap :=
  let* (_, b) := deref h (Some block) in
  match Blk.m_Next b with
  | None => Ok h
  | Some next =>
      let* (_, nb) := deref h (Some next) in
      let* adjacent :=
        neighbour_free nb
          (let* e := int_add (Blk.m_PageIndex b) (Blk.m_PageCount b) in
           Ok (Blk.m_PageIndex nb =? e)) in
      if adjacent then
        let* h := update (Some block) (Blk.set_Next (Blk.m_Next nb)) h in
        let* h := relink_next block block h in
        let* h := absorb_pages block next h in
        let* h := free_list_find_remove (Z.to_nat (m_FreeListSize h)) 0 next h in
        FreeBlockInfo next h
      else Ok h
  end.

(** One round of the loop over the pending list. *)
Definition flush_body (i : Z) (h : DebugHeap) : Result DebugHeap :=
  let* e := arr_get (m_PendingList h) i in
  let* (block, _) := deref h e in
  let* (block, block_removed, h) := merge_left block h in
  let* h := merge_right block h in
  if block_removed : bool then Ok h
  else
    let* h := update (Some block) (Blk.set_PendingFree false) h in
    free_list_push block h.

(** FlushPendingFrees *)
Definition FlushPendingFrees (h : DebugHeap) : Result DebugHeap :=
  let* h := for_loop (Z.to_nat (m_PendingListSize h)) 0 flush_body h in
  Ok (set_PendingListSize 0 h).

(* --------------------------------------------------------------------- *)
(** * Public operations                                                  *)
(* --------------------------------------------------------------------- *)

Definition with_heap (w : World) (h : DebugHeap) : World :=
  mkWorld (w_self w) h (w_vm w).

(** [1 + (uint32_t) ((size + kPageSize - 1) / kPageSize)] *)
Definition page_requirement (size : Z) : Z :=
  u32 (1 + u32 (u64 (size + kPageSize - 1) / kPageSize)).

(** DebugHeapAllocate; the result is 0 for NULL. *)
Definition DebugHeapAllocate (w : World) (size alignment : Z) : Result (Z * World) :=
  let* h := DEBUG_THREAD_GUARD_ENTER (w_heap w) in
  let page_req := page_requirement size in
  let* (ptr, h) := AllocFromFreeList h page_req in
  if negb (ptr =? 0) then
    let* (result, vm) := FinalizeAlloc ptr size page_req alignment (w_vm w) in
    let* h := DEBUG_THREAD_GUARD_LEAVE h in
    Ok (result, mkWorld (w_self w) h vm)
  else
    let* h := FlushPendingFrees h in
    let* (ptr, h) := AllocFromFreeList h page_req in
    if negb (ptr =? 0) then
      let* (result, vm) := FinalizeAlloc ptr size page_req alignment (w_vm w) in
      let* h := DEBUG_THREAD_GUARD_LEAVE h in
      Ok (result, mkWorld (w_self w) h vm)
    else
      let* h := DEBUG_THREAD_GUARD_LEAVE h in
      Ok (0, with_heap w h).

(** [(uint32_t) ((ptr - base) / kPageSize)] *)
Definition page_index_of (h : DebugHeap) (ptr : Z) : Z :=
  u32 (u64 (ptr - m_BaseAddress h) / kPageSize).

(** DebugHeapFree *)
Definition DebugHeapFree (w : World) (ptr : Z) : Result World :=
  let* h := DEBUG_THREAD_GUARD_ENTER (w_heap w) in
  let page_index := page_index_of h ptr in
  let* _ := ASSERT_FATAL (page_index <? m_PageCount h) "Invalid pointer %p freed" in
  let* block := arr_get (m_BlockLookup h) page_index in
  let* _ := ASSERT_FATAL (negb (is_null block)) "Double free of %p" in
  let* (r, b) := deref h block in
  let* _ := ASSERT_FATAL (Blk.m_Allocated b) "Block state corrupted" in
  let* _ := ASSERT_FATAL (negb (Blk.m_PendingFree b)) "Block state corrupted" in
  let* h := update block (fun b => Blk.set_PendingFree true (Blk.set_Allocated false b)) h in
  let* bl := arr_set (m_BlockLookup h) page_index None in
  let h := set_BlockLookup bl h in
  let* (_, b) := deref h block in
  let* _ := check_lookup_null h page_index (Blk.m_PageCount b) in
  let* pl := arr_set (m_PendingList h) (m_PendingListSize h) block in
  let h := set_PendingListSize (u32 (m_PendingListSize h + 1)) (set_PendingList pl h) in
  let* (_, b) := deref h block in
  let block_base := u64 (m_BaseAddress h + Blk.m_PageIndex b * kPageSize) in
  let* vm := VmDecommit block_base (u64 ((Blk.m_PageCount b - 1) * kPageSize)) (w_vm w) in
  let* h := DEBUG_THREAD_GUARD_LEAVE h in
  Ok (mkWorld (w_self w) h vm).

(** DebugHeapGetAllocSize.  [(block->m_PageCount - 1) * kPageSize] is a
    product of [int]s, converted to [size_t] for the subtraction. *)
Definition DebugHeapGetAllocSize (w : World) (ptr : Z) : Result (Z * World) :=
  let* h := DEBUG_THREAD_GUARD_ENTER (w_heap w) in
  let page_index := page_index_of h ptr in
  let* _ := ASSERT_FATAL (page_index <? m_PageCount h) "Invalid pointer %p" in
  let* block := arr_get (m_BlockLookup h) page_index in
  let* (_, b) := deref h block in
  let* bytes := int_mul (Blk.m_PageCount b - 1) kPageSize in
  let result := u64 (bytes - ptr mod kPageSize) in
  let* h := DEBUG_THREAD_GUARD_LEAVE h in
  Ok (result, with_heap w h).

(** DebugHeapOwns *)
Definition DebugHeapOwns (w : World) (buffer : Z) : Result (bool * World) :=
  let* h := DEBUG_THREAD_GUARD_ENTER (w_heap w) in
  let ptr := buffer in
  let base := m_BaseAddress h in
  let end_ := u64 (base + m_PageCount h * kPageSize) in
  let status := (base <=? ptr) && (ptr <=? end_) in
  let* h := DEBUG_THREAD_GUARD_LEAVE h in
  Ok (status, with_heap w h).

(** A call of one of the public operations on a live heap, and what it
    returned. *)
Inductive Op : Type :=
  | OpAllocate (size alignment : Z)
  | OpFree (ptr : Z)
  | OpGetAllocSize (ptr : Z)
  | OpOwns (buffer : Z).

Inductive Ret : Type :=
  | RetPtr (ptr : Z)
  | RetUnit
  | RetSize (size : Z)
  | RetBool (status : bool).

Definition run_op (op : Op) (w : World) : Result (Ret * World) :=
  match op with
  | OpAllocate size alignment =>
      let* (p, w) := DebugHeapAllocate w size alignment in Ok (RetPtr p, w)
  | OpFree ptr =>
      let* w := DebugHeapFree w ptr in Ok (RetUnit, w)
  | OpGetAllocSize ptr =>
      let* (n, w) := DebugHeapGetAllocSize w ptr in Ok (RetSize n, w)
  | OpOwns buffer =>
      let* (s, w) := DebugHeapOwns w buffer in Ok (RetBool s, w)
  end.

Fixpoint run_ops (ops : list Op) (w : World) : Result (list Ret * World) :=
  match ops with
  | [] => Ok ([], w)
  | op :: rest =>
      let* (r, w) := run_op op w in
      let* (rs, w) := run_ops rest w in
      Ok (r :: rs, w)
  end.

(* --------------------------------------------------------------------- *)
(** * Predicates and invariants used in the statements                   *)
(* --------------------------------------------------------------------- *)

(** [Seg bl l p s q e]: following [m_Next] from the pointer [p] visits
    the records [l] in turn and arrives at [q]; the first block starts at
    page [s], each next one starts where the one before it ends, none is
    empty, and the last one ends at page [e]. *)
Fixpoint Seg (bl : list DebugBlockInfo) (l : list nat) (p : blockptr) (s : Z)
    (q : blockptr) (e : Z) : Prop :=
  match l with
  | [] => p = q /\ s = e
  | r :: l' =>
      p = Some r /\
      exists b, bl !! r = Some b /\ Blk.m_PageIndex b = s /\ 0 < Blk.m_PageCount b /\
                Seg bl l' (Blk.m_Next b) (s + Blk.m_PageCount b) q e
  end.

(** Two versions of a record that the traversal cannot tell apart. *)
Definition same_link (b b' : DebugBlockInfo) : Prop :=
  Blk.m_PageIndex b' = Blk.m_PageIndex b /\
  Blk.m_PageCount b' = Blk.m_PageCount b /\
  Blk.m_Next b' = Blk.m_Next b.

Definition flags (b : DebugBlockInfo) : bool * bool :=
  (Blk.m_Allocated b, Blk.m_PendingFree b).

(** The slots [lo, hi) of a pointer array hold distinct non-null pointers
    to records that satisfy [P]. *)
Definition entries (P : nat -> Prop) (arr : list blockptr) (lo hi : nat) : Prop :=
  (forall i e, (lo <= i < hi)%nat -> arr !! i = Some e -> exists r, e = Some r /\ P r) /\
  (forall i j e, (lo <= i < hi)%nat -> (lo <= j < hi)%nat ->
                 arr !! i = Some e -> arr !! j = Some e -> i = j).

(** Record [r] is a block of the list [l] in the state [fl]. *)
Definition block_in (h : DebugHeap) (l : list nat) (fl : bool * bool) (r : nat) : Prop :=
  r ∈ l /\ exists b, m_Blocks h !! r = Some b /\ flags b = fl.

(** The invariant of the bookkeeping between (and, for the pending list,
    during) public calls.  [l] lists the records of the blocks in address
    order; [k] is the number of pending-list slots already flushed. *)
Record InvK (k : nat) (l : list nat) (h : DebugHeap) : Prop := mkInvK {
  inv_pages : 0 < m_PageCount h < 2 ^ 31;
  inv_chain : Seg (m_Blocks h) l (Some 0%nat) 0 None (m_PageCount h);
  inv_live : forall r b, r ∈ l -> m_Blocks h !! r = Some b -> flags b <> (true, true);
  inv_free : entries (block_in h l (false, false)) (m_FreeList h)
               0 (Z.to_nat (m_FreeListSize h));
  inv_pend : entries (block_in h l (false, true)) (m_PendingList h)
               k (Z.to_nat (m_PendingListSize h));
  inv_prev : forall r b q qb,
      r ∈ l -> m_Blocks h !! r = Some b -> Blk.m_Prev b = Some q ->
      m_Blocks h !! q = Some qb -> q ∈ l \/ Blk.m_Allocated qb = true;
  inv_lookup : forall i r,
      m_BlockLookup h !! i = Some (Some r) ->
      r ∈ l /\ exists b, m_Blocks h !! r = Some b /\ Blk.m_Allocated b = true /\
                         Blk.m_PageIndex b = Z.of_nat i;
  inv_sizes : 0 <= m_FreeListSize h < 2 ^ 32 /\ 0 <= m_PendingListSize h < 2 ^ 32 /\
              Z.of_nat (length (m_FreeList h)) < 2 ^ 31 /\
              Z.of_nat (length (m_PendingList h)) < 2 ^ 31
}.

(** The page count and the three pointer arrays are the same. *)
Definition same_tables (h h' : DebugHeap) : Prop :=
  m_PageCount h' = m_PageCount h /\
  m_FreeListSize h' = m_FreeListSize h /\ m_FreeList h' = m_FreeList h /\
  m_PendingListSize h' = m_PendingListSize h /\ m_PendingList h' = m_PendingList h /\
  m_BlockLookup h' = m_BlockLookup h.

(** A block that keeps its place: same pages, same successor, same state
    bits, and a predecessor pointer that is unchanged or redirected to a
    block of the list. *)
Definition kept (l' : list nat) (x x' : DebugBlockInfo) : Prop :=
  same_link x x' /\ flags x' = flags x /\
  (Blk.m_Prev x' = Blk.m_Prev x \/ exists q, Blk.m_Prev x' = Some q /\ q ∈ l').

(** A record outside the list that was flagged invalid stays so. *)
Definition still_dead (x x' : DebugBlockInfo) : Prop :=
  Blk.m_Allocated x = true -> Blk.m_Allocated x' = true.

(** What a step does to the records other than the ones it works on. *)
Definition others_kept (l l' : list nat) (except : list nat)
    (bl bl' : list DebugBlockInfo) : Prop :=
  length bl' = length bl /\
  forall r x x', r ∉ except -> bl !! r = Some x -> bl' !! r = Some x' ->
                 (r ∈ l -> kept l' x x') /\ (r ∉ l -> still_dead x x').

(** What the scan has established after the slots [0, n) of the free
    list: the candidate is a fitting block of least page count, the first
    such in the array. *)
Definition scan_spec (h : DebugHeap) (page_req n : Z) (st : scan_state) : Prop :=
  let '(best_block, best_block_size, best_freelist_index) := st in
  (forall j r b,
      0 <= j < n -> m_FreeList h !! Z.to_nat j = Some (Some r) ->
      m_Blocks h !! r = Some b -> page_req <= Blk.m_PageCount b ->
      best_block_size <= Blk.m_PageCount b /\
      (Blk.m_PageCount b = best_block_size -> best_block <> None ->
       best_freelist_index <= j)) /\
  match best_block with
  | None => best_block_size = not32 0
  | Some r =>
      0 <= best_freelist_index < n /\
      m_FreeList h !! Z.to_nat best_freelist_index = Some (Some r) /\
      exists b, m_Blocks h !! r = Some b /\ flags b = (false, false) /\
                Blk.m_PageCount b = best_block_size /\ page_req <= best_block_size
  end.

(** A step that touches the free list and its size only. *)
Definition free_list_only (h h' : DebugHeap) : Prop :=
  m_Blocks h' = m_Blocks h /\ m_FirstUnusedBlockInfo h' = m_FirstUnusedBlockInfo h /\
  m_PendingList h' = m_PendingList h /\ m_PendingListSize h' = m_PendingListSize h /\
  m_BlockLookup h' = m_BlockLookup h /\ m_PageCount h' = m_PageCount h /\
  m_BaseAddress h' = m_BaseAddress h /\ m_MaxAllocs h' = m_MaxAllocs h /\
  m_ReentrancyGuard h' = m_ReentrancyGuard h /\
  length (m_FreeList h') = length (m_FreeList h).

(** The fields a merge leaves alone. *)
Definition merge_frame (h h' : DebugHeap) : Prop :=
  m_PendingList h' = m_PendingList h /\ m_PendingListSize h' = m_PendingListSize h /\
  m_BlockLookup h' = m_BlockLookup h /\ m_PageCount h' = m_PageCount h /\
  m_BaseAddress h' = m_BaseAddress h /\ m_MaxAllocs h' = m_MaxAllocs h /\
  m_ReentrancyGuard h' = m_ReentrancyGuard h /\
  length (m_FreeList h') = length (m_FreeList h) /\
  length (m_Blocks h') = length (m_Blocks h).

(** The invariant of a live heap: the bookkeeping invariant between
    calls, a user region that lies in the address space, and a mapping
    that is still in place. *)
Definition WInv (w : World) : Prop :=
  (exists l, InvK 0 l (w_heap w)) /\
  0 < m_BaseAddress (w_heap w) /\
  m_BaseAddress (w_heap w) + m_PageCount (w_heap w) * kPageSize <= 2 ^ 64 /\
  exists start len, vm_mapped (w_vm w) = Some (start, len) /\ len < 2 ^ 64 - kPageSize.

(** The number of pages the bookkeeping takes, for a budget of [P]
    pages. *)
Definition bookkeeping_pages_of (P : Z) : Z :=
  u64 (u64 (sizeof_DebugHeap + 3 * P * sizeof_ptr + sizeof_DebugBlockInfo * P)
       + kPageSize - 1) / kPageSize.

(** The traversal of the address-order list: follow [m_Next] from the
    pointer [p], collecting the records met.  [fuel] bounds the number of
    records visited. *)
Fixpoint walk (fuel : nat) (blocks : list DebugBlockInfo) (p : blockptr)
  : option (list DebugBlockInfo) :=
  match p with
  | None => Some []
  | Some r =>
      match fuel with
      | O => None
      | S fuel' =>
          match blocks !! r with
          | None => None
          | Some b =>
              match walk fuel' blocks (Blk.m_Next b) with
              | Some rest => Some (b :: rest)
              | None => None
              end
          end
      end
  end.

(** The blocks [bs] tile the pages [start, stop): each starts where the
    one before it ends, and none is empty. *)
Fixpoint tiles (start stop : Z) (bs : list DebugBlockInfo) : Prop :=
  match bs with
  | [] => start = stop
  | b :: rest =>
      Blk.m_PageIndex b = start /\ 0 < Blk.m_PageCount b /\
      tiles (start + Blk.m_PageCount b) stop rest
  end.

(** The sessions the properties below are run on.  The heap of eight
    pages that DebugHeapInit sets up in a range at 65536 has its base
    address at 69632. *)
Definition demo_ops : list Op :=
  [OpAllocate 8192 1; OpAllocate 1 1; OpFree 69632; OpAllocate 1 1].

(** [aligned_offset] of FinalizeAlloc. *)
Definition placement_offset (user_size user_alignment : Z) : Z :=
  Z.land (u32 (u64 (kPageSize - user_size)) mod kPageSize)
    (not32 (u32 (u64 (user_alignment - 1)))).

(** Some block on the free list has at least [page_req] pages. *)
Definition fits (h : DebugHeap) (page_req : Z) : Prop :=
  exists j r b,
    0 <= j < m_FreeListSize h /\ m_FreeList h !! Z.to_nat j = Some (Some r) /\
    m_Blocks h !! r = Some b /\ page_req <= Blk.m_PageCount b.

(** The pages a request of [size] bytes needs: the pages that hold its
    bytes, and the guard page. *)
Definition pages_needed (size : Z) : Z := 1 + (size + kPageSize - 1) / kPageSize.

(** The result [r] of an operation is a pointer into the page of [ptr]. *)
Definition reuses_page (h : DebugHeap) (ptr : Z) (r : Ret) : bool :=
  match r with
  | RetPtr q => negb (q =? 0) && (page_index_of h q =? page_index_of h ptr)
  | _ => false
  end.

(** The world a session ends in: the heap is created and the operations
    are run on it. *)
Definition final_world (os_range mem_size_bytes : Z) (ops : list Op) : option World :=
  match DebugHeapInit os_range mem_size_bytes with
  | Ok (Some w) =>
      match run_ops ops w with
      | Ok (_, w') => Some w'
      | Err _ => None
      end
  | _ => None
  end.

Definition best_fit_ops : list Op :=
  [OpAllocate 8192 1; OpAllocate 1 1; OpAllocate 4096 1; OpAllocate 1 1;
   OpFree 69632; OpFree 90112; OpAllocate 32768 1].

Definition pending_ops : list Op :=
  [OpAllocate 1 1; OpAllocate 1 1; OpFree 73727].


(** What stays fixed on a heap made by [DebugHeapInit os_range
    mem_size_bytes] while it is used: the guard is released, the user
    region follows the bookkeeping pages of the reservation, which stays
    mapped, and the pointer arrays keep their [mem_page_count] slots. *)
Definition Shape (os_range mem_size_bytes : Z) (w : World) : Prop :=
  let P := mem_size_bytes / kPageSize in
  let B := bookkeeping_pages_of P in
  m_ReentrancyGuard (w_heap w) = 0 /\
  m_PageCount (w_heap w) = P /\
  m_BaseAddress (w_heap w) = os_range + B * kPageSize /\
  os_range mod kPageSize = 0 /\
  w_self w = os_range /\
  vm_mapped (w_vm w) = Some (os_range, (B + P) * kPageSize) /\
  length (m_BlockLookup (w_heap w)) = Z.to_nat P /\
  length (m_PendingList (w_heap w)) = Z.to_nat P /\
  m_PendingListSize (w_heap w) <= P.

(** The session the pool and guard properties are run on. *)
Definition small_ops : list Op := [OpAllocate 128 4].

(** A heap caught inside a call: the guard is at 1. *)
Definition entered (w : World) : World :=
  with_heap w (set_ReentrancyGuard 1 (w_heap w)).

(** The address of the first page of a block. *)
Definition block_base (h : DebugHeap) (b : DebugBlockInfo) : Z :=
  m_BaseAddress h + Blk.m_PageIndex b * kPageSize.

(** A step leaves the blocks in use alone: a record that is Allocated and
    not PendingFree keeps its pages and its state. *)
Definition live_kept (bl bl' : list DebugBlockInfo) : Prop :=
  forall q b, bl !! q = Some b -> flags b = (true, false) ->
    exists b', bl' !! q = Some b' /\ Blk.m_PageIndex b' = Blk.m_PageIndex b /\
               Blk.m_PageCount b' = Blk.m_PageCount b /\ flags b' = (true, false).

(** A step changes no state bit, and no page field of a block in use. *)
Definition soft (bl bl' : list DebugBlockInfo) : Prop :=
  forall q b, bl !! q = Some b ->
    exists b', bl' !! q = Some b' /\ flags b' = flags b /\
               (flags b = (true, false) ->
                Blk.m_PageIndex b' = Blk.m_PageIndex b /\
                Blk.m_PageCount b' = Blk.m_PageCount b).

(** [x] lies in a page of the block [b] other than its last page, the
    guard page. *)
Definition in_user_pages (h : DebugHeap) (b : DebugBlockInfo) (x : Z) : Prop :=
  block_base h b <= x < block_base h b + (Blk.m_PageCount b - 1) * kPageSize.

(** The protection the heap is for: an address of the user region is
    accessible exactly when it lies in a page, other than the guard
    page, of a block entered in the lookup table. *)
Definition Protected (h : DebugHeap) (trace : list VmCall) : Prop :=
  forall x,
    m_BaseAddress h <= x < m_BaseAddress h + m_PageCount h * kPageSize ->
    accessible trace x = true <->
    exists i r b,
      m_BlockLookup h !! i = Some (Some r) /\ m_Blocks h !! r = Some b /\
      in_user_pages h b x.



(** A step leaves the records other than [except] with their pages and
    their state bits. *)
Definition pages_kept (except : list nat) (bl bl' : list DebugBlockInfo) : Prop :=
  forall q x, q ∉ except -> bl !! q = Some x ->
    exists x', bl' !! q = Some x' /\ Blk.m_PageIndex x' = Blk.m_PageIndex x /\
               Blk.m_PageCount x' = Blk.m_PageCount x /\ flags x' = flags x.

(* --------------------------------------------------------------------- *)
(** * The demo program (demo.c)                                          *)
(* --------------------------------------------------------------------- *)

(** [ptr[i] = c] in demo.c: a store of one byte through a pointer the
    heap handed out. *)
Definition store_char (ptr i c : Z) (w : World) : Result World :=
  let* vm := memset (u64 (ptr + i)) c 1 (w_vm w) in
  Ok (mkWorld (w_self w) (w_heap w) vm).

(** The [switch] of demo.c over the test case. *)
Definition test_case (testcase : Z) (w : World) : Result World :=
  match testcase with
  | 0 =>
      let* (ptr, w) := DebugHeapAllocate w 128 4 in
      let* w := store_char ptr 127 97 w in
      DebugHeapFree w ptr
  | 1 =>
      let* (ptr, w) := DebugHeapAllocate w 128 4 in
      store_char ptr 128 97 w
  | 2 =>
      let* (ptr, w) := DebugHeapAllocate w 128 4 in
      let* w := DebugHeapFree w ptr in
      let* w := DebugHeapFree w ptr in
      store_char ptr 127 97 w
  | 3 =>
      let* (ptr, w) := DebugHeapAllocate w 128 4 in
      let* w := DebugHeapFree w ptr in
      store_char ptr 0 97 w
  | _ => Ok w
  end.

(** demo.c, [main].  [argv1] is [atoi(argv[1])], or [None] when the
    program is started without an argument; the result is the exit
    status.  A NULL heap is dereferenced by the first call that gets
    it. *)
Definition main (os_range : Z) (argv1 : option Z) : Result Z :=
  match argv1 with
  | None => Ok 1
  | Some testcase =>
      let* heap := DebugHeapInit os_range (2 * 1024 * 1024) in
      let* w := match heap with Some w => Ok w | None => Err NullDeref end in
      let* w := test_case testcase w in
      let* _ := DebugHeapDestroy w in
      Ok 0
  end.

(* ===================================================================== *)
(** * Reasoning about runs                                               *)
(* ===================================================================== *)

Lemma bind_Ok {A B} (m : Result A) (k : A -> Result B) (y : B) :
  bind m k = Ok y -> exists a, m = Ok a /\ k a = Ok y.
Proof. destruct m as [a|f]; simpl; [eauto | discriminate]. Qed.

Lemma ASSERT_FATAL_Ok (c : bool) (msg : string) (u : unit) :
  ASSERT_FATAL c msg = Ok u -> c = true.
Proof. destruct c; [reflexivity | discriminate]. Qed.

Lemma arr_get_Ok {A} (l : list A) (i : Z) (x : A) :
  arr_get l i = Ok x -> l !! Z.to_nat i = Some x.
Proof. unfold arr_get. destruct (l !! Z.to_nat i); congruence. Qed.

Lemma arr_set_Ok {A} (l : list A) (i : Z) (x : A) (l' : list A) :
  arr_set l i x = Ok l' -> (Z.to_nat i < length l)%nat /\ l' = <[Z.to_nat i := x]> l.
Proof. unfold arr_set. case_decide; [|discriminate]. intros [= <-]. done. Qed.

Lemma deref_Ok (h : DebugHeap) (p : blockptr) (i : nat) (b : DebugBlockInfo) :
  deref h p = Ok (i, b) -> Some i = p /\ m_Blocks h !! i = Some b.
Proof.
  destruct p as [j|]; simpl; [|discriminate].
  destruct (m_Blocks h !! j) eqn:E; [|discriminate].
  intros [= <- <-]. done.
Qed.

Lemma update_Ok (p : blockptr) (f : DebugBlockInfo -> DebugBlockInfo) (h h' : DebugHeap) :
  update p f h = Ok h' ->
  exists i b, Some i = p /\ m_Blocks h !! i = Some b /\ h' = store i (f b) h.
Proof.
  unfold update. intros H. apply bind_Ok in H as [[i b] [H1 H2]].
  apply deref_Ok in H1 as [<- H1]. injection H2 as <-. eauto.
Qed.

Lemma int_add_Ok (a b c : Z) : int_add a b = Ok c -> c = a + b /\ a + b <= INT_MAX.
Proof.
  unfold int_add, in_int. destruct (_ && _) eqn:E; [|discriminate].
  intros [= <-]. apply andb_prop in E as [_ E]. split; [done | lia].
Qed.

Lemma int_mul_Ok (a b c : Z) : int_mul a b = Ok c -> c = a * b /\ a * b <= INT_MAX.
Proof.
  unfold int_mul, in_int. destruct (_ && _) eqn:E; [|discriminate].
  intros [= <-]. apply andb_prop in E as [_ E]. split; [done | lia].
Qed.

(** One step of a run that ended in [Ok]: the first call of the bind
    succeeded, an assertion held, a read was in bounds. *)
Ltac step_ok H :=
  let H1 := fresh "E" in
  match type of H with
  | bind _ _ = Ok _ =>
      apply bind_Ok in H as [? [H1 H]]
  | Ok _ = Ok _ => injection H as H
  | Err _ = Ok _ => discriminate H
  end.

Ltac norm_ok H :=
  match type of H with
  | ASSERT_FATAL _ _ = Ok _ => apply ASSERT_FATAL_Ok in H
  | arr_get _ _ = Ok _ => apply arr_get_Ok in H
  | arr_set _ _ _ = Ok _ => apply arr_set_Ok in H as [? H]
  | deref _ _ = Ok _ => apply deref_Ok in H as [? H]
  | update _ _ _ = Ok _ => apply update_Ok in H as (? & ? & ? & ? & H)
  | int_add _ _ = Ok _ => apply int_add_Ok in H as [H ?]
  | int_mul _ _ = Ok _ => apply int_mul_Ok in H as [H ?]
  end.

(** Invariants of a [for_loop]: what every round keeps holds at the end. *)
Lemma for_loop_ind {St} (I : Z -> St -> Prop) (body : Z -> St -> Result St) :
  forall (n : nat) (i : Z) (s s' : St),
    I i s ->
    (forall j t t', i <= j < i + Z.of_nat n -> I j t -> body j t = Ok t' -> I (j + 1) t') ->
    for_loop n i body s = Ok s' ->
    I (i + Z.of_nat n) s'.
Proof.
  induction n as [|n IH]; intros i s s' Hi Hstep Hrun; simpl in Hrun.
  - injection Hrun as <-. by replace (i + Z.of_nat 0) with i by lia.
  - apply bind_Ok in Hrun as [t [Hb Hrun]].
    replace (i + Z.of_nat (S n)) with ((i + 1) + Z.of_nat n) by lia.
    eapply IH; [| |exact Hrun].
    + eapply Hstep; [|exact Hi|exact Hb]. lia.
    + intros j u u' Hj. apply Hstep. lia.
Qed.
(* ===================================================================== *)
(** * The address-order list of blocks                                   *)
(* ===================================================================== *)

Lemma Seg_app bl l1 l2 p s q e :
  Seg bl (l1 ++ l2) p s q e <->
  exists pm m, Seg bl l1 p s pm m /\ Seg bl l2 pm m q e.
Proof.
  revert p s. induction l1 as [|r l1 IH]; intros p s; simpl.
  - split.
    + intros H. exists p, s. done.
    + intros (pm & m & [-> ->] & H). done.
  - split.
    + intros [-> (b & Hb & Hs & Hc & H)].
      apply IH in H as (pm & m & H1 & H2).
      exists pm, m. split; [|done]. split; [done|]. exists b. done.
    + intros (pm & m & [-> (b & Hb & Hs & Hc & H1)] & H2).
      split; [done|]. exists b. repeat split; try done.
      apply IH. eauto.
Qed.

Lemma Seg_le bl l p s q e : Seg bl l p s q e -> s <= e.
Proof.
  revert p s. induction l as [|r l IH]; intros p s; simpl.
  - intros [_ ->]. lia.
  - intros [_ (b & _ & _ & Hc & H)]. apply IH in H. lia.
Qed.

Lemma Seg_elem bl l p s q e r :
  Seg bl l p s q e -> r ∈ l ->
  exists b, bl !! r = Some b /\ s <= Blk.m_PageIndex b /\
            Blk.m_PageIndex b + Blk.m_PageCount b <= e /\ 0 < Blk.m_PageCount b.
Proof.
  revert p s. induction l as [|r' l IH]; intros p s H Hin.
  - by apply elem_of_nil in Hin.
  - destruct H as [_ (b & Hb & Hs & Hc & H)].
    apply elem_of_cons in Hin as [->|Hin].
    + exists b. pose proof (Seg_le _ _ _ _ _ _ H). repeat split; try done; lia.
    + destruct (IH _ _ H Hin) as (b' & Hb' & H1 & H2 & H3).
      exists b'. repeat split; try done; lia.
Qed.

Lemma Seg_NoDup bl l p s q e : Seg bl l p s q e -> NoDup l.
Proof.
  revert p s. induction l as [|r l IH]; intros p s H.
  - constructor.
  - destruct H as [_ (b & Hb & Hs & Hc & H)]. constructor; [|by eapply IH].
    intros Hin. destruct (Seg_elem _ _ _ _ _ _ _ H Hin) as (b' & Hb' & H1 & _).
    simplify_eq. lia.
Qed.

Lemma Seg_frame bl bl' l p s q e :
  Seg bl l p s q e ->
  (forall r b, r ∈ l -> bl !! r = Some b -> exists b', bl' !! r = Some b' /\ same_link b b') ->
  Seg bl' l p s q e.
Proof.
  revert p s. induction l as [|r l IH]; intros p s H Hsame; [done|].
  destruct H as [-> (b & Hb & Hs & Hc & H)].
  destruct (Hsame r b) as (b' & Hb' & H1 & H2 & H3); [by left|done|].
  split; [done|]. exists b'. rewrite H1, H2, H3. repeat split; try done.
  apply IH; [done|]. intros r' b0 Hin. apply Hsame. by right.
Qed.

(** A block that starts where another block of the list ends is its
    successor in the list. *)
Lemma Seg_adjacent bl l p s q e x y bx by_ :
  Seg bl l p s q e -> x ∈ l -> y ∈ l ->
  bl !! x = Some bx -> bl !! y = Some by_ ->
  Blk.m_PageIndex bx + Blk.m_PageCount bx = Blk.m_PageIndex by_ ->
  exists l1 l2, l = l1 ++ x :: y :: l2.
Proof.
  intros HS Hx Hy Hbx Hby Hadj.
  apply list_elem_of_split in Hx as (l1 & l2 & ->).
  exists l1.
  apply Seg_app in HS as (pm & m & HS1 & HS2).
  destruct HS2 as [-> (b & Hb & Hs & Hc & HS2)]. simplify_eq.
  assert (y ∈ l2) as Hy2.
  { apply elem_of_app in Hy as [Hy|Hy].
    - destruct (Seg_elem _ _ _ _ _ _ _ HS1 Hy) as (b' & Hb' & _ & H2 & H3).
      simplify_eq. lia.
    - apply elem_of_cons in Hy as [->|Hy]; [|done]. simplify_eq. lia. }
  destruct l2 as [|y' l2]; [by apply elem_of_nil in Hy2|].
  exists l2. destruct HS2 as [Hn (b' & Hb' & Hs' & Hc' & HS3)].
  apply elem_of_cons in Hy2 as [->|Hy2]; [done|].
  destruct (Seg_elem _ _ _ _ _ _ _ HS3 Hy2) as (b'' & Hb'' & H1 & _).
  simplify_eq. lia.
Qed.

(** The successor pointer of a block of the list is the next element. *)
Lemma Seg_next bl l1 l2 p s q e x bx :
  Seg bl (l1 ++ x :: l2) p s q e -> bl !! x = Some bx ->
  match l2 with
  | [] => Blk.m_Next bx = q
  | y :: _ => Blk.m_Next bx = Some y
  end.
Proof.
  intros HS Hbx. apply Seg_app in HS as (pm & m & _ & HS2).
  destruct HS2 as [-> (b & Hb & Hs & Hc & HS2)]. simplify_eq.
  destruct l2 as [|y l2]; simpl in HS2; by destruct HS2.
Qed.
(* ===================================================================== *)
(** * The heap invariant                                                 *)
(* ===================================================================== *)

Lemma entries_mono (P Q : nat -> Prop) arr lo hi :
  entries P arr lo hi -> (forall r, P r -> Q r) -> entries Q arr lo hi.
Proof.
  intros [H1 H2] HPQ. split; [|done].
  intros i e Hi He. destruct (H1 i e Hi He) as (r & -> & Hr). eauto.
Qed.

Lemma entries_shrink P arr lo lo' hi :
  entries P arr lo hi -> (lo <= lo')%nat -> entries P arr lo' hi.
Proof.
  intros [H1 H2] Hle. split.
  - intros i e Hi. apply H1. lia.
  - intros i j e Hi Hj. apply H2; lia.
Qed.

Lemma entries_empty P arr lo : entries P arr lo 0.
Proof. split; intros; lia. Qed.

(** arr[n] = x, n + 1 entries *)
Lemma entries_push P arr lo n x :
  entries P arr lo n -> P x ->
  (forall i, (lo <= i < n)%nat -> arr !! i <> Some (Some x)) ->
  entries P (<[n := Some x]> arr) lo (S n).
Proof.
  intros [H1 H2] Hx Hfresh. split.
  - intros i e Hi He. destruct (decide (i = n)) as [->|Hne].
    + apply lookup_lt_Some in He as Hlt. rewrite length_insert in Hlt.
      rewrite list_lookup_insert_eq in He by done. simplify_eq. eauto.
    + rewrite list_lookup_insert_ne in He by done. apply (H1 i); [lia|done].
  - intros i j e Hi Hj Hei Hej.
    destruct (decide (i = n)) as [->|Hi'], (decide (j = n)) as [->|Hj']; [done| | |].
    + apply lookup_lt_Some in Hei as Hlt. rewrite length_insert in Hlt.
      rewrite list_lookup_insert_eq in Hei by done.
      rewrite list_lookup_insert_ne in Hej by done. simplify_eq.
      exfalso. apply (Hfresh j); [lia|done].
    + apply lookup_lt_Some in Hej as Hlt. rewrite length_insert in Hlt.
      rewrite list_lookup_insert_eq in Hej by done.
      rewrite list_lookup_insert_ne in Hei by done. simplify_eq.
      exfalso. apply (Hfresh i); [lia|done].
    + rewrite list_lookup_insert_ne in Hei by done.
      rewrite list_lookup_insert_ne in Hej by done.
      apply (H2 i j e); [lia|lia|done|done].
Qed.

(** arr[idx] = arr[n - 1], n - 1 entries: slot [idx] is gone. *)
Lemma entries_swap_remove P arr n idx last e0 :
  entries P arr 0 n -> (idx < n)%nat ->
  arr !! (n - 1)%nat = Some last -> arr !! idx = Some e0 ->
  entries P (<[idx := last]> arr) 0 (n - 1) /\
  (forall i, (i < n - 1)%nat -> <[idx := last]> arr !! i <> Some e0).
Proof.
  intros [H1 H2] Hidx Hlast He0.
  assert (forall i, (i < n - 1)%nat ->
            <[idx := last]> arr !! i = if decide (i = idx) then Some last else arr !! i) as Hlk.
  { intros i Hi. case_decide as Hd.
    - subst. apply list_lookup_insert_eq. by eapply lookup_lt_Some.
    - by apply list_lookup_insert_ne. }
  split; [split|].
  - intros i e Hi He. rewrite Hlk in He by lia. case_decide.
    + simplify_eq. apply (H1 (n - 1)%nat); [lia|done].
    + apply (H1 i); [lia|done].
  - intros i j e Hi Hj Hei Hej. rewrite Hlk in Hei, Hej by lia.
    destruct (decide (i = idx)) as [->|Hi'], (decide (j = idx)) as [->|Hj']; [done| | |].
    + injection Hei as <-.
      assert ((n - 1)%nat = j) by (apply (H2 _ _ last); [lia|lia|done|done]). lia.
    + injection Hej as <-.
      assert ((n - 1)%nat = i) by (apply (H2 _ _ last); [lia|lia|done|done]). lia.
    + apply (H2 i j e); [lia|lia|done|done].
  - intros i Hi He. rewrite Hlk in He by lia.
    destruct (decide (i = idx)) as [->|Hi'].
    + injection He as ->.
      assert ((n - 1)%nat = idx) by (apply (H2 _ _ e0); [lia|lia|done|done]). lia.
    + assert (i = idx) by (apply (H2 _ _ e0); [lia|lia|done|done]). done.
Qed.

(** Dropping the last entry. *)
Lemma entries_pop P arr lo n :
  entries P arr lo (S n) -> entries P arr lo n.
Proof.
  intros [H1 H2]. split.
  - intros i e Hi. apply H1. lia.
  - intros i j e Hi Hj. apply H2; lia.
Qed.
(* --------------------------------------------------------------------- *)
(** ** Steps that keep the invariant                                     *)
(* --------------------------------------------------------------------- *)

Lemma others_lookup l l' ex bl bl' r x :
  others_kept l l' ex bl bl' -> bl !! r = Some x -> exists x', bl' !! r = Some x'.
Proof.
  intros [Hlen _] Hx. apply lookup_lt_Some in Hx. rewrite <- Hlen in Hx.
  by apply lookup_lt_is_Some_2 in Hx as [x' ?]; eauto.
Qed.

Lemma others_lookup_inv l l' ex bl bl' r x' :
  others_kept l l' ex bl bl' -> bl' !! r = Some x' -> exists x, bl !! r = Some x.
Proof.
  intros [Hlen _] Hx. apply lookup_lt_Some in Hx. rewrite Hlen in Hx.
  by apply lookup_lt_is_Some_2 in Hx as [x ?]; eauto.
Qed.

Lemma block_in_kept h h' l l' ex fl r :
  others_kept l l' ex (m_Blocks h) (m_Blocks h') ->
  r ∉ ex -> r ∈ l' ->
  block_in h l fl r -> block_in h' l' fl r.
Proof.
  intros Hoth Hex Hl' [Hl (x & Hx & Hfl)].
  destruct (others_lookup _ _ _ _ _ _ _ Hoth Hx) as [x' Hx'].
  destruct Hoth as [_ Hoth].
  destruct (Hoth r x x' Hex Hx Hx') as [Hk _].
  destruct (Hk Hl) as (_ & Hf & _).
  split; [done|]. exists x'. split; [done|]. congruence.
Qed.

Lemma entries_mono_ix (P Q : nat -> Prop) arr lo hi :
  entries P arr lo hi ->
  (forall i r, (lo <= i < hi)%nat -> arr !! i = Some (Some r) -> P r -> Q r) ->
  entries Q arr lo hi.
Proof.
  intros [H1 H2] HPQ. split; [|done].
  intros i e Hi He. destruct (H1 i e Hi He) as (r & -> & Hr). eauto.
Qed.

(** The general step: the records in [ex] are the ones the step works
    on, and what the invariant asks of them is checked by hand; every
    other record keeps its place. *)
Lemma InvK_transfer k l l' ex h h' :
  InvK k l h -> same_tables h h' ->
  others_kept l l' ex (m_Blocks h) (m_Blocks h') ->
  Seg (m_Blocks h') l' (Some 0%nat) 0 None (m_PageCount h) ->
  (forall r, r ∉ ex -> (r ∈ l <-> r ∈ l')) ->
  (forall r x', r ∈ ex -> m_Blocks h' !! r = Some x' ->
     if decide (r ∈ l') then
       flags x' <> (true, true) /\
       (forall q qb', Blk.m_Prev x' = Some q -> m_Blocks h' !! q = Some qb' ->
                      q ∈ l' \/ Blk.m_Allocated qb' = true)
     else Blk.m_Allocated x' = true) ->
  (forall r i, r ∈ ex -> (i < Z.to_nat (m_FreeListSize h))%nat ->
               m_FreeList h !! i = Some (Some r) -> block_in h' l' (false, false) r) ->
  (forall r i, r ∈ ex -> (k <= i < Z.to_nat (m_PendingListSize h))%nat ->
               m_PendingList h !! i = Some (Some r) -> block_in h' l' (false, true) r) ->
  (forall r i, r ∈ ex -> m_BlockLookup h !! i = Some (Some r) ->
               r ∈ l' /\ exists b, m_Blocks h' !! r = Some b /\ Blk.m_Allocated b = true /\
                                  Blk.m_PageIndex b = Z.of_nat i) ->
  InvK k l' h'.
Proof.
  intros [HP HC HL HF HPd HPr HLk HSz] (E1 & E2 & E3 & E4 & E5 & E6) Hoth HC' Hmem
    Hex HexF HexP HexL.
  constructor; rewrite ?E1, ?E2, ?E3, ?E4, ?E5, ?E6; try done.
  - intros r b' Hr Hb'. destruct (decide (r ∈ ex)) as [Hx|Hx].
    + specialize (Hex r b' Hx Hb'). rewrite decide_True in Hex by done. apply Hex.
    + destruct (others_lookup_inv _ _ _ _ _ _ _ Hoth Hb') as [b Hb].
      destruct Hoth as [_ Hoth].
      destruct (Hoth r b b' Hx Hb Hb') as [Hk _].
      apply Hmem in Hr as Hr0; [|done].
      destruct (Hk Hr0) as (_ & -> & _). by eapply HL.
  - eapply entries_mono_ix; [exact HF|]. intros i r Hi Hri Hr.
    destruct (decide (r ∈ ex)) as [Hx|Hx].
    + eapply HexF; [done| |done]. lia.
    + eapply block_in_kept; [exact Hoth|done| |done]. apply Hmem; [done|]. apply Hr.
  - eapply entries_mono_ix; [exact HPd|]. intros i r Hi Hri Hr.
    destruct (decide (r ∈ ex)) as [Hx|Hx].
    + eapply HexP; [done| |done]. lia.
    + eapply block_in_kept; [exact Hoth|done| |done]. apply Hmem; [done|]. apply Hr.
  - intros r b' q qb' Hr Hb' Hq Hqb'.
    destruct (decide (r ∈ ex)) as [Hx|Hx].
    { specialize (Hex r b' Hx Hb'). rewrite decide_True in Hex by done.
      destruct Hex as [_ Hex]. by eapply Hex. }
    destruct (decide (q ∈ l')) as [|Hql']; [by left|]. right.
    destruct (others_lookup_inv _ _ _ _ _ _ _ Hoth Hb') as [b Hb].
    destruct (others_lookup_inv _ _ _ _ _ _ _ Hoth Hqb') as [qb Hqb].
    apply Hmem in Hr as Hr0; [|done].
    destruct (decide (q ∈ ex)) as [Hqx|Hqx].
    { specialize (Hex q qb' Hqx Hqb'). by rewrite decide_False in Hex. }
    destruct Hoth as [_ Hoth].
    destruct (Hoth r b b' Hx Hb Hb') as [Hk _].
    destruct (Hk Hr0) as (_ & _ & [Hp|(q' & Hp & Hq')]); [|congruence].
    rewrite Hp in Hq.
    destruct (Hoth q qb qb' Hqx Hqb Hqb') as [_ Hd].
    assert (q ∉ l) as Hql by (intros ?; apply Hql'; by apply Hmem).
    destruct (HPr r b q qb Hr0 Hb Hq Hqb) as [?|Ha]; [done|]. by apply Hd.
  - intros i r Hi. destruct (decide (r ∈ ex)) as [Hx|Hx]; [by eapply HexL|].
    destruct (HLk i r Hi) as (Hr & b & Hb & Ha & Hpi).
    split; [by apply Hmem|].
    destruct (others_lookup _ _ _ _ _ _ _ Hoth Hb) as [b' Hb'].
    exists b'. split; [done|]. destruct Hoth as [_ Hoth].
    destruct (Hoth r b b' Hx Hb Hb') as [Hk _].
    destruct (Hk Hr) as ((Hpi' & _) & Hf & _).
    unfold flags in Hf. split; congruence.
Qed.

(** A step that changes no link and no state bit of any block. *)
Lemma InvK_pointwise k l h h' :
  InvK k l h -> same_tables h h' ->
  others_kept l l [] (m_Blocks h) (m_Blocks h') ->
  InvK k l h'.
Proof.
  intros HI HT Hoth.
  assert (forall r, r ∉ ([] : list nat)) as Hnil by (intros r Hr; by apply elem_of_nil in Hr).
  eapply InvK_transfer; [exact HI|exact HT|exact Hoth| | | | | |];
    try (intros r ? Hr; by apply elem_of_nil in Hr); [|done].
  eapply Seg_frame; [apply HI|]. intros r b Hr Hb.
  destruct (others_lookup _ _ _ _ _ _ _ Hoth Hb) as [b' Hb'].
  exists b'. split; [done|]. destruct Hoth as [_ Hoth].
  by destruct (Hoth r b b' (Hnil r) Hb Hb') as [Hk _]; destruct (Hk Hr).
Qed.

Lemma Seg_frame_others L L' ex bl bl' l p s q e :
  Seg bl l p s q e -> others_kept L L' ex bl bl' ->
  (forall r, r ∈ l -> (r ∉ ex) /\ (r ∈ L)) ->
  Seg bl' l p s q e.
Proof.
  intros HS Hoth Hl. eapply Seg_frame; [exact HS|].
  intros r b Hr Hb. destruct (Hl r Hr) as [Hex HL].
  destruct (others_lookup _ _ _ _ _ _ _ Hoth Hb) as [b' Hb'].
  exists b'. split; [done|]. destruct Hoth as [_ Hoth].
  by destruct (Hoth r b b' Hex Hb Hb') as [Hk _]; destruct (Hk HL).
Qed.

(** Block [a] absorbs its successor [b], whose record is retired. *)
Lemma InvK_merge k l1 a b l2 h h' xa xb xa' xb' :
  InvK k (l1 ++ a :: b :: l2) h -> same_tables h h' ->
  others_kept (l1 ++ a :: b :: l2) (l1 ++ a :: l2) [a; b] (m_Blocks h) (m_Blocks h') ->
  m_Blocks h !! a = Some xa -> m_Blocks h !! b = Some xb ->
  m_Blocks h' !! a = Some xa' -> m_Blocks h' !! b = Some xb' ->
  Blk.m_PageIndex xa' = Blk.m_PageIndex xa ->
  Blk.m_PageCount xa' = Blk.m_PageCount xa + Blk.m_PageCount xb ->
  Blk.m_Next xa' = Blk.m_Next xb ->
  flags xa' = flags xa -> Blk.m_Prev xa' = Blk.m_Prev xa ->
  Blk.m_Allocated xb' = true ->
  (forall i, (i < Z.to_nat (m_FreeListSize h))%nat -> m_FreeList h !! i <> Some (Some b)) ->
  (forall i, (k <= i < Z.to_nat (m_PendingListSize h))%nat ->
             m_PendingList h !! i <> Some (Some b)) ->
  (forall i, m_BlockLookup h !! i <> Some (Some b)) ->
  InvK k (l1 ++ a :: l2) h'.
Proof.
  intros HI HT Hoth Ha Hb Ha' Hb' Hpi Hpc Hnx Hfl Hpv Hdead HnF HnP HnL.
  apply pair_equal_spec in Hfl as [Hfl1 Hfl2].
  pose proof (Seg_NoDup _ _ _ _ _ _ (inv_chain _ _ _ HI)) as Hnd.
  apply NoDup_app in Hnd as (Hnd1 & Hnd12 & Hnd2).
  apply NoDup_cons in Hnd2 as [Hab Hnd2]. apply NoDup_cons in Hnd2 as [Hbl2 Hnd2].
  assert (a <> b) as Hne by (intros ->; apply Hab; by left).
  assert (a ∉ l2) as Hal2 by (intros ?; apply Hab; by right).
  assert (a ∉ l1) as Hal1 by (intros ?; eapply Hnd12; [done|by left]).
  assert (b ∉ l1) as Hbl1 by (intros ?; eapply Hnd12; [done|by right; left]).
  assert (b ∉ l1 ++ a :: l2) as Hbl'.
  { rewrite elem_of_app, elem_of_cons. intros [?|[?|?]]; done. }
  assert (forall r, r ∉ [a; b] -> (r ∈ l1 ++ a :: b :: l2 <-> r ∈ l1 ++ a :: l2)) as Hmem.
  { intros r Hr. rewrite !elem_of_app, !elem_of_cons.
    rewrite !elem_of_cons, elem_of_nil in Hr. tauto. }
  eapply InvK_transfer; [exact HI|exact HT|exact Hoth| |exact Hmem| | | |].
  - pose proof (inv_chain _ _ _ HI) as HS.
    apply Seg_app in HS as (pm & m & HS1 & HS2).
    destruct HS2 as [-> (xa0 & Ha0 & Hs & Hc & HS2)]. simplify_eq.
    destruct HS2 as [Hn (xb0 & Hb0 & Hsb & Hcb & HS2)]. simplify_eq.
    apply Seg_app. exists (Some a), (Blk.m_PageIndex xa). split.
    + eapply Seg_frame_others; [exact HS1|exact Hoth|]. intros r Hr. split.
      * rewrite !elem_of_cons, elem_of_nil. intros [->|[->|[]]]; done.
      * apply elem_of_app. by left.
    + split; [done|]. exists xa'. repeat split; [done|done|lia|].
      rewrite Hnx, Hpc, Z.add_assoc.
      eapply Seg_frame_others; [exact HS2|exact Hoth|]. intros r Hr. split.
      * rewrite !elem_of_cons, elem_of_nil. intros [->|[->|[]]]; done.
      * apply elem_of_app. right. by do 2 right.
  - intros r x' Hr Hx'. rewrite !elem_of_cons, elem_of_nil in Hr.
    destruct Hr as [->|[->|[]]].
    + rewrite decide_True by (apply elem_of_app; right; by left). simplify_eq.
      assert (a ∈ l1 ++ a :: b :: l2) as Hain by (apply elem_of_app; right; by left).
      split.
      { replace (flags xa') with (flags xa) by (unfold flags; congruence).
        by eapply (inv_live _ _ _ HI). }
      intros q qb' Hq Hqb'. rewrite Hpv in Hq.
      destruct (decide (q ∈ l1 ++ a :: l2)) as [|Hql']; [by left|]. right.
      destruct (decide (q = b)) as [->|Hqb]; [by simplify_eq|].
      assert (q <> a) by (intros ->; apply Hql'; apply elem_of_app; right; by left).
      destruct (others_lookup_inv _ _ _ _ _ _ _ Hoth Hqb') as [qb Hqb0].
      assert (q ∉ [a; b]) as Hqx by (rewrite !elem_of_cons, elem_of_nil; tauto).
      assert (q ∉ l1 ++ a :: b :: l2) as Hql by (intros ?; apply Hql'; by apply Hmem).
      destruct (inv_prev _ _ _ HI a xa q qb Hain Ha Hq Hqb0) as [?|Hal]; [done|].
      destruct Hoth as [_ Hoth]. destruct (Hoth q qb qb' Hqx Hqb0 Hqb') as [_ Hd]. by apply Hd.
    + rewrite decide_False by done. by simplify_eq.
  - intros r i Hr Hi Hri. rewrite !elem_of_cons, elem_of_nil in Hr.
    destruct Hr as [->|[->|[]]]; [|by destruct (HnF i Hi)].
    destruct (inv_free _ _ _ HI) as [HF _].
    destruct (HF i (Some a)) as (r & [= <-] & Hin & x & Hx & Hfx); [lia|done|].
    simplify_eq. split; [apply elem_of_app; right; by left|].
    exists xa'. split; [done|]. unfold flags in *. congruence.
  - intros r i Hr Hi Hri. rewrite !elem_of_cons, elem_of_nil in Hr.
    destruct Hr as [->|[->|[]]]; [|by destruct (HnP i Hi)].
    destruct (inv_pend _ _ _ HI) as [HF _].
    destruct (HF i (Some a)) as (r & [= <-] & Hin & x & Hx & Hfx); [lia|done|].
    simplify_eq. split; [apply elem_of_app; right; by left|].
    exists xa'. split; [done|]. unfold flags in *. congruence.
  - intros r i Hr Hri. rewrite !elem_of_cons, elem_of_nil in Hr.
    destruct Hr as [->|[->|[]]]; [|by destruct (HnL i)].
    destruct (inv_lookup _ _ _ HI i a Hri) as (Hin & x & Hx & Hax & Hpx). simplify_eq.
    split; [apply elem_of_app; right; by left|].
    exists xa'. split; [done|]. split; congruence.
Qed.

(** Block [r] is split: it keeps its first pages and the fresh record [t]
    takes the rest. *)
Lemma InvK_split k l1 r l2 t h h' xr xr' xt' :
  InvK k (l1 ++ r :: l2) h -> same_tables h h' ->
  others_kept (l1 ++ r :: l2) (l1 ++ r :: t :: l2) [r; t] (m_Blocks h) (m_Blocks h') ->
  t ∉ l1 ++ r :: l2 ->
  m_Blocks h !! r = Some xr ->
  m_Blocks h' !! r = Some xr' -> m_Blocks h' !! t = Some xt' ->
  Blk.m_PageIndex xr' = Blk.m_PageIndex xr ->
  0 < Blk.m_PageCount xr' < Blk.m_PageCount xr ->
  Blk.m_Next xr' = Some t ->
  flags xr' = flags xr -> Blk.m_Prev xr' = Blk.m_Prev xr ->
  Blk.m_PageIndex xt' = Blk.m_PageIndex xr + Blk.m_PageCount xr' ->
  Blk.m_PageCount xt' = Blk.m_PageCount xr - Blk.m_PageCount xr' ->
  Blk.m_Next xt' = Blk.m_Next xr ->
  flags xt' = (false, false) -> Blk.m_Prev xt' = Some r ->
  InvK k (l1 ++ r :: t :: l2) h'.
Proof.
  intros HI HT Hoth Htl Hr Hr' Ht' Hpi Hpc Hnx Hfl Hpv Htpi Htpc Htnx Htfl Htpv.
  apply pair_equal_spec in Hfl as [Hfl1 Hfl2].
  apply pair_equal_spec in Htfl as [Htfl1 Htfl2].
  pose proof (Seg_NoDup _ _ _ _ _ _ (inv_chain _ _ _ HI)) as Hnd.
  apply NoDup_app in Hnd as (Hnd1 & Hnd12 & Hnd2).
  apply NoDup_cons in Hnd2 as [Hrl2 Hnd2].
  assert (r ∉ l1) as Hrl1 by (intros ?; eapply Hnd12; [done|by left]).
  assert (t <> r) as Hne by (intros ->; apply Htl; apply elem_of_app; right; by left).
  assert (t ∉ l1) as Htl1 by (intros ?; apply Htl; apply elem_of_app; by left).
  assert (t ∉ l2) as Htl2 by (intros ?; apply Htl; apply elem_of_app; right; by right).
  assert (r ∈ l1 ++ r :: l2) as Hrin by (apply elem_of_app; right; by left).
  assert (r ∈ l1 ++ r :: t :: l2) as Hrin' by (apply elem_of_app; right; by left).
  assert (t ∈ l1 ++ r :: t :: l2) as Htin' by (apply elem_of_app; right; right; by left).
  assert (forall q, q ∉ [r; t] -> (q ∈ l1 ++ r :: l2 <-> q ∈ l1 ++ r :: t :: l2)) as Hmem.
  { intros q Hq. rewrite !elem_of_app, !elem_of_cons.
    rewrite !elem_of_cons, elem_of_nil in Hq. tauto. }
  eapply InvK_transfer; [exact HI|exact HT|exact Hoth| |exact Hmem| | | |].
  - pose proof (inv_chain _ _ _ HI) as HS.
    apply Seg_app in HS as (pm & m & HS1 & HS2).
    destruct HS2 as [-> (xr0 & Hr0 & Hs & Hc & HS2)].
    rewrite Hr in Hr0. injection Hr0 as <-.
    apply Seg_app. exists (Some r), m. split.
    + eapply Seg_frame_others; [exact HS1|exact Hoth|]. intros q Hq. split.
      * rewrite !elem_of_cons, elem_of_nil. intros [->|[->|[]]]; done.
      * apply elem_of_app. by left.
    + split; [done|]. exists xr'.
      split; [done|]. split; [congruence|]. split; [lia|].
      rewrite Hnx. split; [done|]. exists xt'.
      split; [done|]. split; [lia|]. split; [lia|].
      rewrite Htnx. replace (m + Blk.m_PageCount xr' + Blk.m_PageCount xt')
        with (m + Blk.m_PageCount xr) by lia.
      eapply Seg_frame_others; [exact HS2|exact Hoth|]. intros q Hq. split.
      * rewrite !elem_of_cons, elem_of_nil. intros [->|[->|[]]]; done.
      * apply elem_of_app. right. by right.
  - intros q x' Hq Hx'. rewrite !elem_of_cons, elem_of_nil in Hq.
    destruct Hq as [->|[->|[]]].
    + rewrite decide_True by done.
      rewrite Hr' in Hx'. injection Hx' as <-.
      split.
      { replace (flags xr') with (flags xr) by (unfold flags; congruence).
        by eapply (inv_live _ _ _ HI). }
      intros q qb' Hq Hqb'. rewrite Hpv in Hq.
      destruct (decide (q ∈ l1 ++ r :: t :: l2)) as [|Hql']; [by left|]. right.
      assert (q <> r) by (intros ->; done).
      assert (q <> t) by (intros ->; done).
      destruct (others_lookup_inv _ _ _ _ _ _ _ Hoth Hqb') as [qb Hqb0].
      assert (q ∉ [r; t]) as Hqx by (rewrite !elem_of_cons, elem_of_nil; tauto).
      assert (q ∉ l1 ++ r :: l2) as Hql by (intros ?; apply Hql'; by apply Hmem).
      destruct (inv_prev _ _ _ HI r xr q qb Hrin Hr Hq Hqb0) as [?|Hal]; [done|].
      destruct Hoth as [_ Hoth]. destruct (Hoth q qb qb' Hqx Hqb0 Hqb') as [_ Hd]. by apply Hd.
    + rewrite decide_True by done.
      rewrite Ht' in Hx'. injection Hx' as <-.
      split. { unfold flags. congruence. }
      intros q qb' Hq Hqb'. left. congruence.
  - intros q i Hq Hi Hqi. rewrite !elem_of_cons, elem_of_nil in Hq.
    destruct (inv_free _ _ _ HI) as [HF _].
    destruct (HF i (Some q)) as (q0 & [= <-] & Hin & x & Hx & Hfx); [lia|done|].
    destruct Hq as [->|[->|[]]]; [|done].
    rewrite Hr in Hx. injection Hx as <-.
    split; [done|]. exists xr'. split; [done|]. unfold flags in *. congruence.
  - intros q i Hq Hi Hqi. rewrite !elem_of_cons, elem_of_nil in Hq.
    destruct (inv_pend _ _ _ HI) as [HF _].
    destruct (HF i (Some q)) as (q0 & [= <-] & Hin & x & Hx & Hfx); [lia|done|].
    destruct Hq as [->|[->|[]]]; [|done].
    rewrite Hr in Hx. injection Hx as <-.
    split; [done|]. exists xr'. split; [done|]. unfold flags in *. congruence.
  - intros q i Hq Hqi. rewrite !elem_of_cons, elem_of_nil in Hq.
    destruct (inv_lookup _ _ _ HI i q Hqi) as (Hin & x & Hx & Hax & Hpx).
    destruct Hq as [->|[->|[]]]; [|done].
    rewrite Hr in Hx. injection Hx as <-.
    split; [done|]. exists xr'. split; [done|]. split; congruence.
Qed.

(** The state bits of block [r] change; no array points to it. *)
Lemma InvK_flags k l h h' r x x' :
  InvK k l h -> same_tables h h' ->
  others_kept l l [r] (m_Blocks h) (m_Blocks h') ->
  r ∈ l -> m_Blocks h !! r = Some x -> m_Blocks h' !! r = Some x' ->
  same_link x x' -> Blk.m_Prev x' = Blk.m_Prev x -> flags x' <> (true, true) ->
  (forall i, (i < Z.to_nat (m_FreeListSize h))%nat -> m_FreeList h !! i <> Some (Some r)) ->
  (forall i, (k <= i < Z.to_nat (m_PendingListSize h))%nat ->
             m_PendingList h !! i <> Some (Some r)) ->
  (forall i, m_BlockLookup h !! i <> Some (Some r)) ->
  InvK k l h'.
Proof.
  intros HI HT Hoth Hrl Hx Hx' Hsl Hpv Hfl HnF HnP HnL.
  eapply InvK_transfer; [exact HI|exact HT|exact Hoth| |done| | | |].
  - eapply Seg_frame; [apply HI|]. intros q b Hq Hb.
    destruct (decide (q = r)) as [->|Hne].
    + rewrite Hx in Hb. injection Hb as <-. eauto.
    + destruct (others_lookup _ _ _ _ _ _ _ Hoth Hb) as [b' Hb'].
      exists b'. split; [done|]. destruct Hoth as [_ Hoth].
      assert (q ∉ [r]) as Hqx by (rewrite list_elem_of_singleton; done).
      by destruct (Hoth q b b' Hqx Hb Hb') as [Hk _]; destruct (Hk Hq).
  - intros q y' Hq Hy'. apply list_elem_of_singleton in Hq as ->.
    rewrite decide_True by done. rewrite Hx' in Hy'. injection Hy' as <-.
    split; [done|]. intros q qb' Hq Hqb'. rewrite Hpv in Hq.
    destruct (decide (q ∈ l)) as [|Hql]; [by left|]. right.
    assert (q ∉ [r]) as Hqx by (rewrite list_elem_of_singleton; by intros ->).
    destruct (others_lookup_inv _ _ _ _ _ _ _ Hoth Hqb') as [qb Hqb0].
    destruct (inv_prev _ _ _ HI r x q qb Hrl Hx Hq Hqb0) as [?|Hal]; [done|].
    destruct Hoth as [_ Hoth]. destruct (Hoth q qb qb' Hqx Hqb0 Hqb') as [_ Hd]. by apply Hd.
  - intros q i Hq Hi Hqi. apply list_elem_of_singleton in Hq as ->. by destruct (HnF i Hi).
  - intros q i Hq Hi Hqi. apply list_elem_of_singleton in Hq as ->. by destruct (HnP i Hi).
  - intros q i Hq Hqi. apply list_elem_of_singleton in Hq as ->. by destruct (HnL i).
Qed.

(** Changes to the arrays alone. *)
Lemma InvK_set_free k l h arr n :
  InvK k l h ->
  entries (block_in h l (false, false)) arr 0 (Z.to_nat n) ->
  0 <= n < 2 ^ 32 -> length arr = length (m_FreeList h) ->
  InvK k l (set_FreeListSize n (set_FreeList arr h)).
Proof.
  intros [HP HC HL HF HPd HPr HLk HSz] Harr Hn Hlen.
  constructor; simpl; try done. rewrite Hlen. tauto.
Qed.

Lemma InvK_set_pending k k' l h arr n :
  InvK k l h ->
  entries (block_in h l (false, true)) arr k' (Z.to_nat n) ->
  0 <= n < 2 ^ 32 -> length arr = length (m_PendingList h) ->
  InvK k' l (set_PendingListSize n (set_PendingList arr h)).
Proof.
  intros [HP HC HL HF HPd HPr HLk HSz] Harr Hn Hlen.
  constructor; simpl; try done. rewrite Hlen. tauto.
Qed.

Lemma InvK_set_lookup k l h arr :
  InvK k l h ->
  (forall i r, arr !! i = Some (Some r) ->
     r ∈ l /\ exists b, m_Blocks h !! r = Some b /\ Blk.m_Allocated b = true /\
                        Blk.m_PageIndex b = Z.of_nat i) ->
  InvK k l (set_BlockLookup arr h).
Proof. intros [HP HC HL HF HPd HPr HLk HSz] Harr. constructor; simpl; done. Qed.

Lemma InvK_set_guard k l h v : InvK k l h -> InvK k l (set_ReentrancyGuard v h).
Proof. intros [HP HC HL HF HPd HPr HLk HSz]. constructor; simpl; done. Qed.

Lemma InvK_set_first_unused k l h v : InvK k l h -> InvK k l (set_FirstUnusedBlockInfo v h).
Proof. intros [HP HC HL HF HPd HPr HLk HSz]. constructor; simpl; done. Qed.

Lemma InvK_advance k k' l h : InvK k l h -> (k <= k')%nat -> InvK k' l h.
Proof.
  intros [HP HC HL HF HPd HPr HLk HSz] Hk. constructor; try done.
  by eapply entries_shrink.
Qed.
Ltac destruct_pairs :=
  repeat match goal with
         | x : (_ * _)%type |- _ => destruct x
         | x : unit |- _ => destruct x
         end.

Ltac run_inv H :=
  repeat
    (match type of H with
     | bind _ _ = Ok _ =>
         let E := fresh "E" in
         apply bind_Ok in H as [? [E H]]; destruct_pairs; try norm_ok E
     end);
  try norm_ok H.

Lemma u31_small x : 0 <= x < 2 ^ 31 -> u31 x = x.
Proof. intros. unfold u31. by apply Z.mod_small. Qed.
Lemma u32_small x : 0 <= x < 2 ^ 32 -> u32 x = x.
Proof. intros. unfold u32. by apply Z.mod_small. Qed.
Lemma u64_small x : 0 <= x < 2 ^ 64 -> u64 x = x.
Proof. intros. unfold u64. by apply Z.mod_small. Qed.

Lemma AllocBlockInfo_Ok h t h' :
  AllocBlockInfo h = Ok (t, h') ->
  exists b, m_FirstUnusedBlockInfo h = Some t /\ m_Blocks h !! t = Some b /\
            flags b = (true, true) /\
            h' = store t Blk.zero (set_FirstUnusedBlockInfo (Blk.m_Next b) h).
Proof.
  unfold AllocBlockInfo. intros H. run_inv H.
  injection H as <- <-. eexists. repeat split; try done.
  unfold flags. congruence.
Qed.

Lemma FreeBlockInfo_Ok x h h' :
  FreeBlockInfo x h = Ok h' ->
  exists b, m_Blocks h !! x = Some b /\
    h' = set_FirstUnusedBlockInfo (Some x)
           (store x (Blk.mk true (Blk.m_PageCount b) true (Blk.m_PageIndex b) None
                       (m_FirstUnusedBlockInfo h)) h).
Proof.
  unfold FreeBlockInfo. intros H. run_inv H. simplify_eq. eauto.
Qed.
(** Reading records back after writes to the pool. *)
Ltac lk_all :=
  repeat first
    [ progress simplify_eq/=
    | match goal with
      | H : <[_ := _]> _ !! _ = Some _ |- _ =>
          first [ rewrite list_lookup_insert_ne in H by congruence
                | rewrite list_lookup_insert_eq in H
                    by (rewrite ?length_insert; eauto using lookup_lt_Some) ]
      | H1 : ?l !! ?i = Some _, H2 : ?l !! ?i = Some _ |- _ => rewrite H1 in H2
      end ].

Ltac flg := unfold flags in *; simpl in *; congruence.

Lemma free_list_push_Ok x h h' :
  free_list_push x h = Ok h' ->
  (Z.to_nat (m_FreeListSize h) < length (m_FreeList h))%nat /\
  h' = set_FreeListSize (u32 (m_FreeListSize h + 1))
         (set_FreeList (<[Z.to_nat (m_FreeListSize h) := Some x]> (m_FreeList h)) h).
Proof. unfold free_list_push. intros H. run_inv H. by simplify_eq. Qed.

(** Reading a record of the goal back through the writes. *)
Ltac lkg :=
  repeat (simpl;
          first [ rewrite list_lookup_insert_ne by congruence
                | rewrite list_lookup_insert_eq
                    by (rewrite ?length_insert; eauto using lookup_lt_Some) ]).

Lemma carve_tail_Ok r req unused h h' xr :
  carve_tail r req unused h = Ok h' ->
  m_Blocks h !! r = Some xr -> Blk.m_Allocated xr = false ->
  exists t xt,
    m_FirstUnusedBlockInfo h = Some t /\ m_Blocks h !! t = Some xt /\
    flags xt = (true, true) /\ t <> r /\
    (Z.to_nat (m_FreeListSize h) < length (m_FreeList h))%nat /\
    Blk.m_PageIndex xr + Blk.m_PageCount xr <= INT_MAX /\
    m_Blocks h' !! r = Some (Blk.set_PageCount (u32 req) (Blk.set_Next (Some t) xr)) /\
    m_Blocks h' !! t =
      Some (Blk.mk false (u31 unused) false
              (u31 (u32 (Blk.m_PageIndex xr + Blk.m_PageCount xr - unused)))
              (Some r) (Blk.m_Next xr)) /\
    (forall q, q <> r -> q <> t -> m_Blocks h' !! q = m_Blocks h !! q) /\
    length (m_Blocks h') = length (m_Blocks h) /\
    m_FreeList h' = <[Z.to_nat (m_FreeListSize h) := Some t]> (m_FreeList h) /\
    m_FreeListSize h' = u32 (m_FreeListSize h + 1) /\
    m_PendingList h' = m_PendingList h /\ m_PendingListSize h' = m_PendingListSize h /\
    m_BlockLookup h' = m_BlockLookup h /\ m_PageCount h' = m_PageCount h /\
    m_BaseAddress h' = m_BaseAddress h /\ m_MaxAllocs h' = m_MaxAllocs h /\
    m_ReentrancyGuard h' = m_ReentrancyGuard h.
Proof.
  unfold carve_tail. intros H Hr Har.
  apply bind_Ok in H as [[t h1] [E1 H]].
  apply AllocBlockInfo_Ok in E1 as (xt & Hfu & Hxt & Hfl & ->).
  assert (t <> r) as Hne.
  { intros ->. flg. }
  run_inv H.
  match goal with E : free_list_push _ _ = Ok _ |- _ =>
    apply free_list_push_Ok in E as [Hlen ->] end.
  lk_all. do 2 eexists.
  repeat match goal with |- _ /\ _ => split end;
    try eassumption; try done; try flg.
  - by lkg.
  - by lkg.
  - intros q Hq1 Hq2. by lkg.
  - by rewrite !length_insert.
Qed.

Lemma kept_refl l x : kept l x x.
Proof. repeat split; by left. Qed.

Lemma others_kept_agree l l' ex bl bl' :
  length bl' = length bl ->
  (forall q, q ∉ ex -> bl' !! q = bl !! q) ->
  others_kept l l' ex bl bl'.
Proof.
  intros Hlen Hag. split; [done|]. intros r x x' Hr Hx Hx'.
  rewrite Hag in Hx' by done. simplify_eq. split; intros _; [apply kept_refl|by unfold still_dead].
Qed.

(** The invariant reads the heap through seven of its fields only. *)
Lemma InvK_ext k l h h' :
  InvK k l h ->
  m_PageCount h' = m_PageCount h -> m_Blocks h' = m_Blocks h ->
  m_FreeListSize h' = m_FreeListSize h -> m_FreeList h' = m_FreeList h ->
  m_PendingListSize h' = m_PendingListSize h -> m_PendingList h' = m_PendingList h ->
  m_BlockLookup h' = m_BlockLookup h ->
  InvK k l h'.
Proof.
  intros [HP HC HL HF HPd HPr HLk HSz] E1 E2 E3 E4 E5 E6 E7.
  constructor; unfold block_in in *; rewrite ?E1, ?E2, ?E3, ?E4, ?E5, ?E6, ?E7; done.
Qed.

Lemma InvK_block_range k l h r x :
  InvK k l h -> r ∈ l -> m_Blocks h !! r = Some x ->
  0 <= Blk.m_PageIndex x /\ 0 < Blk.m_PageCount x /\
  Blk.m_PageIndex x + Blk.m_PageCount x <= m_PageCount h /\ m_PageCount h < 2 ^ 31.
Proof.
  intros HI Hr Hx.
  destruct (Seg_elem _ _ _ _ _ _ _ (inv_chain _ _ _ HI) Hr) as (x0 & Hx0 & H1 & H2 & H3).
  simplify_eq. pose proof (inv_pages _ _ _ HI). lia.
Qed.

Lemma carve_tail_inv k l r req unused h h' xr :
  InvK k l h -> r ∈ l -> m_Blocks h !! r = Some xr -> flags xr = (false, false) ->
  0 < req < Blk.m_PageCount xr -> unused = Blk.m_PageCount xr - req ->
  carve_tail r req unused h = Ok h' ->
  exists l', InvK k l' h' /\ r ∈ l' /\ (forall q, q ∈ l -> q ∈ l').
Proof.
  intros HI Hrl Hr Hfl Hreq -> H.
  apply pair_equal_spec in Hfl as [Hfl1 Hfl2].
  destruct (carve_tail_Ok _ _ _ _ _ _ H Hr Hfl1)
    as (t & xt & Hfu & Hxt & Hflt & Hne & Hlen & Hov & Hr' & Ht' & Hoth & Hbl &
        HFL & HnF & HPL & HnP & HLK & HP & _).
  destruct (InvK_block_range _ _ _ _ _ HI Hrl Hr) as (Hpi0 & Hpc0 & Hend & HP31).
  assert (t ∉ l) as Htl.
  { intros Hin. by apply (inv_live _ _ _ HI t xt Hin Hxt). }
  apply list_elem_of_split in Hrl as (l1 & l2 & ->).
  exists (l1 ++ r :: t :: l2).
  split; [|split].
  2:{ apply elem_of_app; right; by left. }
  2:{ intros q. rewrite !elem_of_app, !elem_of_cons. tauto. }
  set (hm := set_FreeListSize (m_FreeListSize h) (set_FreeList (m_FreeList h) h')).
  assert (u31 (u32 req) = req) as Hu1 by (rewrite u32_small, u31_small; lia).
  assert (u31 (Blk.m_PageCount xr - req) = Blk.m_PageCount xr - req) as Hu2
    by (rewrite u31_small; lia).
  assert (u31 (u32 (Blk.m_PageIndex xr + Blk.m_PageCount xr - (Blk.m_PageCount xr - req)))
          = Blk.m_PageIndex xr + req) as Hu3.
  { replace (Blk.m_PageIndex xr + Blk.m_PageCount xr - (Blk.m_PageCount xr - req))
      with (Blk.m_PageIndex xr + req) by lia.
    rewrite u32_small, u31_small; lia. }
  assert (InvK k (l1 ++ r :: t :: l2) hm) as HIm.
  { eapply (InvK_split k l1 r l2 t h hm xr);
      [exact HI| | |exact Htl|exact Hr|exact Hr'|exact Ht'|..];
      simpl; rewrite ?Hu1, ?Hu2, ?Hu3; try done; try lia.
    - apply others_kept_agree; [done|]. intros q Hq.
      rewrite !elem_of_cons, elem_of_nil in Hq. apply Hoth; tauto. }
  eapply (InvK_ext _ _
            (set_FreeListSize (m_FreeListSize h + 1)
               (set_FreeList (<[Z.to_nat (m_FreeListSize h) := Some t]> (m_FreeList h)) hm)));
    simpl; try done.
  2:{ rewrite HnF. apply u32_small.
      pose proof (inv_sizes _ _ _ HI). lia. }
  pose proof (inv_sizes _ _ _ HI) as (HnF0 & _ & HlF & _).
  apply InvK_set_free; simpl; [exact HIm| |lia|by rewrite length_insert].
  replace (Z.to_nat (m_FreeListSize h + 1)) with (S (Z.to_nat (m_FreeListSize h))) by lia.
  apply entries_push.
  - apply (inv_free _ _ _ HIm).
  - split; [apply elem_of_app; right; right; by left|].
    eexists. split; [exact Ht'|done].
  - intros i Hi Hti. destruct (inv_free _ _ _ HI) as [HF _].
    destruct (HF i (Some t)) as (q & [= <-] & [Hin _]); [lia|done|]. done.
Qed.
(* --------------------------------------------------------------------- *)
(** ** The best-fit scan                                                 *)
(* --------------------------------------------------------------------- *)

Lemma scan_body_spec h page_req i st st' :
  0 <= i -> scan_spec h page_req i st ->
  scan_body h page_req i st = Ok st' ->
  scan_spec h page_req (i + 1) st'.
Proof.
  intros Hi Hst H. destruct st as [[best size] idx].
  unfold scan_body in H. run_inv H.
  apply negb_true_iff in E1, E2.
  destruct Hst as [Hmin Hbest].
  destruct (_ && _) eqn:Hc; injection H as <-.
  - apply andb_prop in Hc as [Hc1 Hc2]. apply Z.leb_le in Hc1. apply Z.ltb_lt in Hc2.
    split.
    + intros j r b Hj Hjr Hb Hfit.
      destruct (decide (j = i)) as [->|Hne].
      * lk_all. split; [lia|]. intros _ _. lia.
      * destruct (Hmin j r b) as [Hle _]; [lia|done|done|done|]. split; [lia|]. lia.
    + split; [lia|]. split; [by subst|]. eexists. split; [done|].
      split; [flg|]. split; [done|lia].
  - apply andb_false_iff in Hc. rewrite Z.leb_gt, Z.ltb_ge in Hc.
    split.
    + intros j r b Hj Hjr Hb Hfit.
      destruct (decide (j = i)) as [->|Hne].
      * lk_all. split; [lia|]. intros Heq Hsome. destruct best as [r'|]; [|done].
        destruct Hbest as (Hidx & _). lia.
      * destruct (Hmin j r b) as [Hle Heq]; [lia|done|done|done|]. done.
    + destruct best as [r'|]; [|done].
      destruct Hbest as (Hidx & Hrest). split; [lia|done].
Qed.

Lemma scan_free_list_spec h page_req st :
  scan_free_list h page_req = Ok st ->
  scan_spec h page_req (Z.of_nat (Z.to_nat (m_FreeListSize h))) st.
Proof.
  unfold scan_free_list. intros H.
  apply (for_loop_ind (fun i st => 0 <= i /\ scan_spec h page_req i st)) in H.
  - apply H.
  - split; [done|]. split; [intros; lia|done].
  - intros j t t' Hj [Hj0 Hsp] Hb. split; [lia|]. by eapply scan_body_spec.
Qed.

(* --------------------------------------------------------------------- *)
(** ** Taking a block off the free list                                  *)
(* --------------------------------------------------------------------- *)

Lemma free_list_remove_Ok index h h' :
  free_list_remove index h = Ok h' ->
  m_Blocks h' = m_Blocks h /\ m_FirstUnusedBlockInfo h' = m_FirstUnusedBlockInfo h /\
  m_PendingList h' = m_PendingList h /\ m_PendingListSize h' = m_PendingListSize h /\
  m_BlockLookup h' = m_BlockLookup h /\ m_PageCount h' = m_PageCount h /\
  m_BaseAddress h' = m_BaseAddress h /\ m_MaxAllocs h' = m_MaxAllocs h /\
  m_ReentrancyGuard h' = m_ReentrancyGuard h /\
  m_FreeListSize h' = u32 (m_FreeListSize h - 1) /\
  length (m_FreeList h') = length (m_FreeList h) /\
  (if 1 <? m_FreeListSize h then
     exists last, m_FreeList h !! Z.to_nat (u32 (m_FreeListSize h - 1)) = Some last /\
                  m_FreeList h' = <[Z.to_nat index := last]> (m_FreeList h)
   else m_FreeList h' = m_FreeList h).
Proof.
  unfold free_list_remove. intros H.
  apply bind_Ok in H as [h1 [E H]]. injection H as <-.
  destruct (1 <? m_FreeListSize h) eqn:Hc; run_inv E; simplify_eq/=.
  - repeat split; try done; rewrite ?length_insert; eauto.
  - repeat split; done.
Qed.

Lemma free_list_remove_inv k l index h h' e0 :
  InvK k l h -> 0 <= index < m_FreeListSize h ->
  m_FreeList h !! Z.to_nat index = Some e0 ->
  free_list_remove index h = Ok h' ->
  InvK k l h' /\
  (forall i, (i < Z.to_nat (m_FreeListSize h'))%nat -> m_FreeList h' !! i <> Some e0).
Proof.
  intros HI Hidx He0 H.
  destruct (free_list_remove_Ok _ _ _ H)
    as (Hbl & _ & HPL & HnP & HLK & HP & _ & _ & _ & HnF & Hlen & HFL).
  pose proof (inv_sizes _ _ _ HI) as (HnF0 & _ & HlF & _).
  assert (u32 (m_FreeListSize h - 1) = m_FreeListSize h - 1) as Hu.
  { apply u32_small. lia. }
  rewrite Hu in *.
  assert (entries (block_in h l (false, false)) (m_FreeList h')
            0 (Z.to_nat (m_FreeListSize h) - 1) /\
          (forall i, (i < Z.to_nat (m_FreeListSize h) - 1)%nat ->
                     m_FreeList h' !! i <> Some e0)) as [Hent Hfresh].
  { destruct (1 <? m_FreeListSize h) eqn:Hc.
    - destruct HFL as (last & Hlast & ->).
      replace (Z.to_nat (m_FreeListSize h - 1)) with (Z.to_nat (m_FreeListSize h) - 1)%nat
        in Hlast by lia.
      apply entries_swap_remove; [apply HI|lia|done|done].
    - apply Z.ltb_ge in Hc.
      replace (Z.to_nat (m_FreeListSize h) - 1)%nat with 0%nat by lia.
      split; [apply entries_empty|]. intros; lia. }
  replace (Z.to_nat (m_FreeListSize h')) with (Z.to_nat (m_FreeListSize h) - 1)%nat by lia.
  split; [|done].
  eapply (InvK_ext _ _ (set_FreeListSize (m_FreeListSize h - 1)
                          (set_FreeList (m_FreeList h') h))); simpl; try done.
  apply InvK_set_free; [done| |lia|done].
  by replace (Z.to_nat (m_FreeListSize h - 1)) with (Z.to_nat (m_FreeListSize h) - 1)%nat by lia.
Qed.
(* --------------------------------------------------------------------- *)
(** ** AllocFromFreeList                                                 *)
(* --------------------------------------------------------------------- *)

(** What a successful carve does, read off the code. *)
Lemma AllocFromFreeList_Ok h page_req ptr h' :
  AllocFromFreeList h page_req = Ok (ptr, h') ->
  exists best size idx,
    scan_free_list h page_req = Ok (best, size, idx) /\
    match best with
    | None => ptr = 0 /\ h' = h
    | Some r =>
        exists xr xr',
          m_Blocks h !! r = Some xr /\ m_Blocks h' !! r = Some xr' /\
          flags xr' = (true, false) /\
          Blk.m_PageIndex xr' = Blk.m_PageIndex xr /\
          Blk.m_PageCount xr' =
            (if 0 <? u32 (u64 (size - page_req)) then u31 (u32 page_req)
             else Blk.m_PageCount xr) /\
          m_BlockLookup h !! Z.to_nat (Blk.m_PageIndex xr) = Some None /\
          m_BlockLookup h' = <[Z.to_nat (Blk.m_PageIndex xr) := Some r]> (m_BlockLookup h) /\
          ptr = u64 (m_BaseAddress h + Blk.m_PageIndex xr * kPageSize) /\
          m_PendingList h' = m_PendingList h /\
          m_PendingListSize h' = m_PendingListSize h /\
          m_PageCount h' = m_PageCount h /\ m_BaseAddress h' = m_BaseAddress h /\
          m_MaxAllocs h' = m_MaxAllocs h /\
          m_ReentrancyGuard h' = m_ReentrancyGuard h
    end.
Proof.
  unfold AllocFromFreeList. intros H.
  apply bind_Ok in H as [[[best size] idx] [Hscan H]].
  exists best, size, idx. split; [done|].
  destruct best as [r|]; [|by injection H as <- <-].
  apply scan_free_list_spec in Hscan as [_ (Hidx & Hfl & xr & Hxr & Hflg & Hsz & Hfit)].
  apply pair_equal_spec in Hflg as [Hfa Hfp].
  apply bind_Ok in H as [h1 [E1 H]].
  apply free_list_remove_Ok in E1
    as (Hbl1 & _ & HPL1 & HnP1 & HLK1 & HP1 & HB1 & HM1 & HG1 & _).
  apply bind_Ok in H as [h2 [E2 H]].
  assert (exists x2, m_Blocks h2 !! r = Some x2 /\ flags x2 = (false, false) /\
            Blk.m_PageIndex x2 = Blk.m_PageIndex xr /\
            Blk.m_PageCount x2 =
              (if 0 <? u32 (u64 (size - page_req)) then u31 (u32 page_req)
               else Blk.m_PageCount xr) /\
            m_PendingList h2 = m_PendingList h /\
            m_PendingListSize h2 = m_PendingListSize h /\
            m_BlockLookup h2 = m_BlockLookup h /\
            m_PageCount h2 = m_PageCount h /\ m_BaseAddress h2 = m_BaseAddress h /\
            m_MaxAllocs h2 = m_MaxAllocs h /\
            m_ReentrancyGuard h2 = m_ReentrancyGuard h)
    as (x2 & Hx2 & Hfl2 & Hpi2 & Hpc2 & HPL2 & HnP2 & HLK2 & HP2 & HB2 & HM2 & HG2).
  { destruct (0 <? u32 (u64 (size - page_req))) eqn:Hc.
    - rewrite <- Hbl1 in Hxr.
      destruct (carve_tail_Ok _ _ _ _ _ _ E2 Hxr Hfa)
        as (t & xt & _ & _ & _ & _ & _ & _ & Hr' & _ & _ & _ & _ & _ & ? & ? & ? & ? & ? & ? & ?).
      eexists. split; [exact Hr'|]. simpl.
      repeat split; try congruence. unfold flags. simpl. congruence.
    - injection E2 as <-. exists xr. rewrite Hbl1.
      repeat split; try done. unfold flags. congruence. }
  apply pair_equal_spec in Hfl2 as [Hfa2 Hfp2].
  run_inv H. lk_all.
  match goal with E : is_null ?x = true |- _ => assert (x = None) as -> by (by destruct x) end.
  exists xr. eexists. split; [done|]. split; [by lkg|].
  rewrite HLK2, Hpi2, HB2 in *. simpl.
  repeat split; try done. unfold flags. simpl. congruence.
Qed.

Lemma others_kept_store l l' r x h :
  others_kept l l' [r] (m_Blocks h) (m_Blocks (store r x h)).
Proof.
  apply others_kept_agree; simpl; [by rewrite length_insert|].
  intros q Hq. apply list_lookup_insert_ne. intros ->. apply Hq. by left.
Qed.

(** A carve keeps the invariant, provided at least one page is asked
    for. *)
Lemma AllocFromFreeList_inv k l h page_req ptr h' :
  InvK k l h -> 0 < page_req ->
  AllocFromFreeList h page_req = Ok (ptr, h') ->
  exists l', InvK k l' h'.
Proof.
  unfold AllocFromFreeList. intros HI Hreq H.
  apply bind_Ok in H as [[[best size] idx] [Hscan H]].
  destruct best as [r|]; [|injection H as <- <-; eauto].
  apply scan_free_list_spec in Hscan as [_ (Hidx & Hfl & xr & Hxr & Hflg & Hsz & Hfit)].
  pose proof (inv_sizes _ _ _ HI) as (HnF0 & _ & HlF & _).
  destruct (inv_free _ _ _ HI) as [HF _].
  destruct (HF (Z.to_nat idx) (Some r)) as (r0 & [= <-] & Hrl & _); [lia|done|].
  destruct (InvK_block_range _ _ _ _ _ HI Hrl Hxr) as (Hpi0 & Hpc0 & Hend & HP31).
  apply bind_Ok in H as [h1 [E1 H]].
  assert (0 <= idx < m_FreeListSize h) as Hidx' by lia.
  destruct (free_list_remove_inv _ _ _ _ _ _ HI Hidx' Hfl E1) as [HI1 Hfresh1].
  apply free_list_remove_Ok in E1
    as (Hbl1 & _ & HPL1 & HnP1 & HLK1 & HP1 & _ & _ & _ & HnF1 & _).
  apply bind_Ok in H as [h2 [E2 H]].
  assert (u32 (u64 (size - page_req)) = size - page_req) as Hu.
  { rewrite u64_small, u32_small; lia. }
  rewrite Hu in E2.
  assert (exists l2 x2, InvK k l2 h2 /\ r ∈ l2 /\ m_Blocks h2 !! r = Some x2 /\
            flags x2 = (false, false) /\
            (forall i, (i < Z.to_nat (m_FreeListSize h2))%nat ->
                       m_FreeList h2 !! i <> Some (Some r)))
    as (l2 & x2 & HI2 & Hrl2 & Hx2 & Hfl2 & Hfresh2).
  { rewrite <- Hbl1 in Hxr.
    destruct (0 <? size - page_req) eqn:Hc.
    - apply Z.ltb_lt in Hc. pose proof Hflg as Hflg'.
      apply pair_equal_spec in Hflg' as [Hfa Hfp].
      destruct (carve_tail_inv k l r page_req (size - page_req) h1 h2 xr)
        as (l2 & HI2 & Hrl2 & _); [done|done|done|done|lia|lia|done|].
      destruct (carve_tail_Ok _ _ _ _ _ _ E2 Hxr Hfa)
        as (t & xt & _ & _ & _ & Hne & Hlen & _ & Hr' & _ & _ & _ & HFL2 & HnF2 & _).
      exists l2. eexists. split; [done|]. split; [done|]. split; [exact Hr'|].
      split; [unfold flags; simpl; congruence|].
      intros i Hi. rewrite HFL2.
      assert (u32 (m_FreeListSize h1 + 1) = m_FreeListSize h1 + 1) as Hu2.
      { apply u32_small. pose proof (inv_sizes _ _ _ HI1). lia. }
      rewrite HnF2, Hu2 in Hi.
      destruct (decide (i = Z.to_nat (m_FreeListSize h1))) as [->|Hne'].
      + rewrite list_lookup_insert_eq by done. congruence.
      + rewrite list_lookup_insert_ne by done. apply Hfresh1. lia.
    - injection E2 as <-. exists l, xr. done. }
  pose proof Hfl2 as Hfl2'. apply pair_equal_spec in Hfl2' as [Hfa2 Hfp2].
  run_inv H. lk_all.
  match goal with E : is_null ?x = true |- _ => assert (x = None) as -> by (by destruct x) end.
  exists l2.
  match goal with |- InvK _ _ (set_BlockLookup ?arr ?h3) =>
    assert (InvK k l2 h3) as HI3 end.
  { eapply (InvK_flags k l2 h2 _ r x1);
      [exact HI2| |apply others_kept_store|done|done|by lkg|done|done| | | |].
    - by repeat split.
    - unfold flags. simpl. congruence.
    - done.
    - intros i Hi Hpi. destruct (inv_pend _ _ _ HI2) as [HPd _].
      destruct (HPd i (Some r) Hi Hpi) as (q & [= <-] & _ & y & Hy & Hfy).
      lk_all. flg.
    - intros i Hli. destruct (inv_lookup _ _ _ HI2 i r Hli) as (_ & y & Hy & Hay & _).
      lk_all. congruence. }
  apply InvK_set_lookup; [done|].
  intros i q Hq.
  destruct (InvK_block_range _ _ _ _ _ HI2 Hrl2 H1) as (Hpi2 & _).
  apply list_lookup_insert_Some in Hq as [(<- & [= <-] & Hlen)|[Hne Hq]].
  - split; [done|]. eexists. split; [by lkg|]. simpl. split; [done|lia].
  - apply (inv_lookup _ _ _ HI3 i q Hq).
Qed.
(* --------------------------------------------------------------------- *)
(** ** The pending-free flush                                            *)
(* --------------------------------------------------------------------- *)

Lemma free_list_find_remove_Ok n fi next h h' :
  free_list_find_remove n fi next h = Ok h' -> 0 <= fi ->
  free_list_only h h' /\
  ((m_FreeList h' = m_FreeList h /\ m_FreeListSize h' = m_FreeListSize h /\
    forall i, (Z.to_nat fi <= i < Z.to_nat fi + n)%nat ->
              m_FreeList h !! i <> Some (Some next)) \/
   (exists i last,
      (Z.to_nat fi <= i < Z.to_nat fi + n)%nat /\
      m_FreeList h !! i = Some (Some next) /\
      m_FreeList h !! Z.to_nat (u32 (m_FreeListSize h - 1)) = Some last /\
      m_FreeList h' = <[i := last]> (m_FreeList h) /\
      m_FreeListSize h' = u32 (m_FreeListSize h - 1))).
Proof.
  revert fi. induction n as [|n IH]; intros fi H Hfi; simpl in H.
  - injection H as <-. split; [by unfold free_list_only|]. left. repeat split; try done. intros; lia.
  - apply bind_Ok in H as [e [E H]]. norm_ok E.
    destruct (decide (e = Some next)) as [->|Hne].
    + run_inv H. simplify_eq/=.
      split; [unfold free_list_only; simpl; repeat split; try done; by rewrite ?length_insert|].
      right. exists (Z.to_nat fi), x. repeat split; try done; lia.
    + destruct (IH _ H ltac:(lia)) as [Hfo Hcase]. split; [done|].
      replace (Z.to_nat (fi + 1)) with (S (Z.to_nat fi)) in Hcase by lia.
      destruct Hcase as [(E1 & E2 & Hnot)|(i & last & Hi & Hrest)].
      * left. repeat split; try done. intros i Hi.
        destruct (decide (i = Z.to_nat fi)) as [->|]; [congruence|]. apply Hnot. lia.
      * right. exists i, last. split; [lia|done].
Qed.

Lemma free_list_find_remove_entries (P : nat -> Prop) next h h' :
  free_list_find_remove (Z.to_nat (m_FreeListSize h)) 0 next h = Ok h' ->
  entries P (m_FreeList h) 0 (Z.to_nat (m_FreeListSize h)) ->
  0 <= m_FreeListSize h < 2 ^ 32 ->
  free_list_only h h' /\
  entries P (m_FreeList h') 0 (Z.to_nat (m_FreeListSize h')) /\
  0 <= m_FreeListSize h' < 2 ^ 32 /\
  (forall i, (i < Z.to_nat (m_FreeListSize h'))%nat -> m_FreeList h' !! i <> Some (Some next)).
Proof.
  intros H Hent HnF0.
  destruct (free_list_find_remove_Ok _ _ _ _ _ H ltac:(done)) as [Hfo Hcase].
  split; [done|].
  destruct Hcase as [(E1 & E2 & Hnot)|(i & last & Hi & Hin & Hlast & E1 & E2)].
  - rewrite E1, E2. split; [done|]. split; [lia|]. intros i Hi. apply Hnot. lia.
  - assert (u32 (m_FreeListSize h - 1) = m_FreeListSize h - 1) as Hu
      by (apply u32_small; lia).
    rewrite Hu in *.
    replace (Z.to_nat (m_FreeListSize h - 1)) with (Z.to_nat (m_FreeListSize h) - 1)%nat
      in Hlast by lia.
    destruct (entries_swap_remove _ _ _ i last (Some next) Hent)
      as [Hent' Hfresh]; [lia|done|done|].
    rewrite E1, E2.
    replace (Z.to_nat (m_FreeListSize h - 1)) with (Z.to_nat (m_FreeListSize h) - 1)%nat by lia.
    split; [done|]. split; [lia|done].
Qed.

Lemma relink_next_Ok b target h h' :
  relink_next b target h = Ok h' ->
  exists xb, m_Blocks h !! b = Some xb /\
    match Blk.m_Next xb with
    | Some n => exists xn, m_Blocks h !! n = Some xn /\
                           h' = store n (Blk.set_Prev (Some target) xn) h
    | None => h' = h
    end.
Proof.
  unfold relink_next. intros H. run_inv H. simplify_eq. eexists. split; [done|].
  destruct (Blk.m_Next _); run_inv H; simplify_eq; eauto.
Qed.

Lemma absorb_pages_Ok a b h h' :
  absorb_pages a b h = Ok h' ->
  exists xa xb, m_Blocks h !! a = Some xa /\ m_Blocks h !! b = Some xb /\
    Blk.m_PageCount xa + Blk.m_PageCount xb <= INT_MAX /\
    h' = store a (Blk.set_PageCount (Blk.m_PageCount xa + Blk.m_PageCount xb) xa) h.
Proof.
  unfold absorb_pages. intros H. run_inv H. lk_all. eauto 10.
Qed.

Lemma neighbour_free_true n cond :
  neighbour_free n cond = Ok true ->
  flags n = (false, false) /\ cond = Ok true.
Proof.
  unfold neighbour_free, flags.
  destruct (Blk.m_Allocated n), (Blk.m_PendingFree n); simpl; done.
Qed.

Lemma others_kept_relink l l' ex bl bl' n a :
  length bl' = length bl -> a ∈ l' ->
  (forall q, q ∉ ex -> q <> n -> bl' !! q = bl !! q) ->
  (forall xn, bl !! n = Some xn -> bl' !! n = Some (Blk.set_Prev (Some a) xn)) ->
  others_kept l l' ex bl bl'.
Proof.
  intros Hlen Ha Hag Hn. split; [done|]. intros r x x' Hr Hx Hx'.
  destruct (decide (r = n)) as [->|Hne].
  - rewrite (Hn _ Hx) in Hx'. injection Hx' as <-. split; intros _.
    + split; [by repeat split|]. split; [done|]. right. eauto.
    + by unfold still_dead.
  - rewrite Hag in Hx' by done. simplify_eq. split; intros _; [apply kept_refl|by unfold still_dead].
Qed.

Lemma merge_frame_refl h : merge_frame h h.
Proof. by unfold merge_frame. Qed.

Lemma merge_right_inv k l y h h' xy :
  InvK k l h -> y ∈ l -> m_Blocks h !! y = Some xy ->
  merge_right y h = Ok h' ->
  exists l' xy',
    InvK k l' h' /\ y ∈ l' /\ m_Blocks h' !! y = Some xy' /\ flags xy' = flags xy /\
    merge_frame h h'.
Proof.
  intros HI Hyl Hy H. unfold merge_right in H.
  apply bind_Ok in H as [[y0 xy0] [E H]]. apply deref_Ok in E as [[= ->] E].
  rewrite Hy in E. injection E as <-.
  destruct (Blk.m_Next xy) as [n|] eqn:Hnx;
    [|injection H as <-; exists l, xy; eauto using merge_frame_refl].
  apply bind_Ok in H as [[n0 xn] [E H]]. apply deref_Ok in E as [[= ->] E].
  apply bind_Ok in H as [adj [Hadj H]].
  destruct adj; [|injection H as <-; exists l, xy; eauto using merge_frame_refl].
  apply neighbour_free_true in Hadj as [Hfln Hadj].
  apply bind_Ok in Hadj as [e [He Hadj]]. norm_ok He. injection Hadj as Hadj.
  apply Z.eqb_eq in Hadj. subst e.
  (* the place of [y] and [n] in the list *)
  pose proof (inv_chain _ _ _ HI) as HS.
  pose proof (Seg_NoDup _ _ _ _ _ _ HS) as Hnd.
  apply list_elem_of_split in Hyl as (l1 & l2 & ->).
  pose proof (Seg_next _ _ _ _ _ _ _ _ _ HS Hy) as Hsucc.
  destruct l2 as [|n1 l2]; [congruence|].
  rewrite Hnx in Hsucc. injection Hsucc as <-.
  assert (y <> n) as Hyn.
  { intros ->. apply NoDup_app in Hnd as (_ & _ & Hnd).
    apply NoDup_cons in Hnd as [Hnd _]. apply Hnd. by left. }
  assert (Seg (m_Blocks h) ((l1 ++ [y]) ++ n :: l2) (Some 0%nat) 0 None (m_PageCount h))
    as HS' by (by rewrite <- app_assoc).
  pose proof (Seg_next _ _ _ _ _ _ _ _ _ HS' E) as Hsucc.
  assert (forall n', Blk.m_Next xn = Some n' -> n' <> y /\ n' <> n /\ n' ∈ l1 ++ y :: l2) as Hn'.
  { intros n' Hn'. destruct l2 as [|n2 l2]; [congruence|].
    rewrite Hn' in Hsucc. injection Hsucc as <-.
    apply NoDup_app in Hnd as (_ & _ & Hnd).
    apply NoDup_cons in Hnd as [Hnd1 Hnd]. apply NoDup_cons in Hnd as [Hnd2 _].
    split; [intros ->; apply Hnd1; right; by left|].
    split; [intros ->; apply Hnd2; by left|].
    apply elem_of_app. right. right. by left. }
  (* the run *)
  apply bind_Ok in H as [h1 [E1 H]]. norm_ok E1. simplify_eq.
  apply bind_Ok in H as [h2 [E2 H]]. apply relink_next_Ok in E2 as (xb & Hxb & E2).
  lk_all.
  apply bind_Ok in H as [h3 [E3 H]].
  apply absorb_pages_Ok in E3 as (xa & xb & Hxa & Hxb & Hov & ->).
  apply bind_Ok in H as [h4 [E4 H]].
  apply FreeBlockInfo_Ok in H as (xd & Hxd & ->).
  pose proof (inv_sizes _ _ _ HI) as (HnF0 & HnP0 & HlF & HlP).
  assert (m_FreeList h2 = m_FreeList h /\ m_FreeListSize h2 = m_FreeListSize h /\
          merge_frame h h2 /\
          m_Blocks h2 !! y = Some (Blk.set_Next (Blk.m_Next xn) xy) /\
          m_Blocks h2 !! n = Some xn /\
          length (m_Blocks h2) = length (m_Blocks h) /\
          others_kept (l1 ++ y :: n :: l2) (l1 ++ y :: l2) [y; n] (m_Blocks h) (m_Blocks h2))
    as (HFL2 & HnF2 & Hfr2 & Hy2 & Hn2 & Hlen2 & Hoth2).
  { destruct (Blk.m_Next xn) as [n'|] eqn:Hnn.
    - destruct (Hn' n' eq_refl) as (Hn'y & Hn'n & Hn'l).
      destruct E2 as (xn' & Hxn' & ->). lk_all.
      split_and!; simpl; rewrite ?length_insert; try done.
      + unfold merge_frame. simpl. by rewrite !length_insert.
      + by lkg.
      + by lkg.
      + apply (others_kept_relink _ _ _ _ _ n' y);
          [by rewrite !length_insert|apply elem_of_app; right; by left| |].
        * intros q Hq Hqn. rewrite !elem_of_cons, elem_of_nil in Hq.
          rewrite !list_lookup_insert_ne by (intros ?; subst; tauto). done.
        * intros x Hx. lk_all. by lkg.
    - subst h2. split_and!; simpl; rewrite ?length_insert; try done.
      + unfold merge_frame. simpl. by rewrite !length_insert.
      + by lkg.
      + by lkg.
      + apply others_kept_agree; [by rewrite length_insert|].
        intros q Hq. rewrite !elem_of_cons, elem_of_nil in Hq.
        rewrite list_lookup_insert_ne by (intros ?; subst; tauto). done. }
  rewrite Hy2 in Hxa. injection Hxa as <-.
  rewrite Hn2 in Hxb. injection Hxb as <-.
  simpl in *.
  destruct (free_list_find_remove_entries (block_in h (l1 ++ y :: n :: l2) (false, false))
              n _ _ E4) as (Hfo & Hent4 & HnF4 & Hfresh4).
  { simpl. rewrite HFL2, HnF2. apply HI. }
  { simpl. lia. }
  destruct Hfo as (Hbl4 & _ & HPL4 & HnP4 & HLK4 & HP4 & HB4 & HM4 & HG4 & Hlen4).
  simpl in *.
  destruct Hfr2 as (HPL2 & HnP2 & HLK2 & HP2 & HB2 & HM2 & HG2 & HlenF2 & _).
  set (hm := set_FreeListSize (m_FreeListSize h4) (set_FreeList (m_FreeList h4) h)).
  assert (InvK k (l1 ++ y :: n :: l2) hm) as HIm.
  { apply InvK_set_free; [done|done|done|congruence]. }
  assert (m_Blocks h4 !! y =
            Some (Blk.set_PageCount (Blk.m_PageCount xy + Blk.m_PageCount xn)
                    (Blk.set_Next (Blk.m_Next xn) xy))) as Hy4
    by (rewrite Hbl4; by lkg).
  exists (l1 ++ y :: l2). eexists.
  split; [|split; [apply elem_of_app; right; by left|split; [|split]]].
  - eapply (InvK_merge k l1 y n l2 hm _ xy xn
              (Blk.set_PageCount (Blk.m_PageCount xy + Blk.m_PageCount xn)
                 (Blk.set_Next (Blk.m_Next xn) xy))
              (Blk.mk true (Blk.m_PageCount xd) true (Blk.m_PageIndex xd) None
                 (m_FirstUnusedBlockInfo h4))); try done.
    + unfold same_tables. simpl. split_and!; congruence.
    + simpl. rewrite Hbl4. destruct Hoth2 as [Hl2 Hoth2]. split.
      { by rewrite !length_insert. }
      intros r x x' Hr Hx Hx'. rewrite !elem_of_cons, elem_of_nil in Hr.
      rewrite !list_lookup_insert_ne in Hx' by (intros ?; subst; tauto).
      apply (Hoth2 r x x'); [|done|done]. rewrite !elem_of_cons, elem_of_nil. tauto.
    + simpl. rewrite list_lookup_insert_ne by done. exact Hy4.
    + simpl. apply list_lookup_insert_eq. by eapply lookup_lt_Some.
    + simpl. apply u31_small.
      destruct (InvK_block_range _ _ _ _ _ HI ltac:(apply elem_of_app; right; by left) Hy)
        as (? & ? & ? & ?).
      destruct (InvK_block_range _ _ _ _ _ HI
                  ltac:(apply elem_of_app; right; right; by left) E) as (? & ? & ? & ?).
      lia.
    + intros i Hi Hpi. destruct (inv_pend _ _ _ HI) as [HPd _].
      destruct (HPd i (Some n) Hi Hpi) as (q & [= <-] & _ & z & Hz & Hfz).
      lk_all. flg.
    + intros i Hli. destruct (inv_lookup _ _ _ HI i n Hli) as (_ & z & Hz & Haz & _).
      lk_all. flg.
  - simpl. rewrite list_lookup_insert_ne by done. exact Hy4.
  - done.
  - unfold merge_frame. simpl. rewrite ?length_insert. split_and!; try congruence.
    rewrite Hbl4, length_insert. done.
Qed.

Lemma merge_left_inv k l x h y removed h' xx :
  InvK k l h -> x ∈ l -> m_Blocks h !! x = Some xx -> flags xx = (false, true) ->
  (forall i, (k <= i < Z.to_nat (m_PendingListSize h))%nat ->
             m_PendingList h !! i <> Some (Some x)) ->
  merge_left x h = Ok (y, removed, h') ->
  (removed = false /\ y = x /\ h' = h) \/
  (removed = true /\
   exists l' xy',
     InvK k l' h' /\ y ∈ l' /\ m_Blocks h' !! y = Some xy' /\
     merge_frame h h' /\
     m_FreeList h' = m_FreeList h /\ m_FreeListSize h' = m_FreeListSize h).
Proof.
  intros HI Hxl Hx Hflx HnP H. unfold merge_left in H.
  apply bind_Ok in H as [[x0 xx0] [E H]]. apply deref_Ok in E as [[= ->] E].
  rewrite Hx in E. injection E as <-.
  destruct (Blk.m_Prev xx) as [a|] eqn:Hpv; [|injection H as <- <- <-; by left].
  apply bind_Ok in H as [[a0 xa] [E H]]. apply deref_Ok in E as [[= ->] Ha].
  apply bind_Ok in H as [adj [Hadj H]].
  destruct adj; [|injection H as <- <- <-; by left].
  right.
  apply neighbour_free_true in Hadj as [Hfla Hadj].
  apply bind_Ok in Hadj as [e [He Hadj]]. norm_ok He. injection Hadj as Hadj.
  apply Z.eqb_eq in Hadj. subst e.
  assert (a ∈ l) as Hal.
  { destruct (inv_prev _ _ _ HI x xx a xa Hxl Hx Hpv Ha) as [?|Hall]; [done|]. flg. }
  pose proof (inv_chain _ _ _ HI) as HS.
  destruct (Seg_adjacent _ _ _ _ _ _ _ _ _ _ HS Hal Hxl Ha Hx Hadj) as (l1 & l2 & ->).
  pose proof (Seg_NoDup _ _ _ _ _ _ HS) as Hnd.
  assert (a <> x) as Hax.
  { intros ->. apply NoDup_app in Hnd as (_ & _ & Hnd).
    apply NoDup_cons in Hnd as [Hnd _]. apply Hnd. by left. }
  assert (Seg (m_Blocks h) ((l1 ++ [a]) ++ x :: l2) (Some 0%nat) 0 None (m_PageCount h))
    as HS' by (by rewrite <- app_assoc).
  pose proof (Seg_next _ _ _ _ _ _ _ _ _ HS' Hx) as Hsucc.
  assert (forall n', Blk.m_Next xx = Some n' -> n' <> a /\ n' <> x /\ n' ∈ l1 ++ a :: l2) as Hn'.
  { intros n' Hn'. destruct l2 as [|n2 l2]; [congruence|].
    rewrite Hn' in Hsucc. injection Hsucc as <-.
    apply NoDup_app in Hnd as (_ & _ & Hnd).
    apply NoDup_cons in Hnd as [Hnd1 Hnd]. apply NoDup_cons in Hnd as [Hnd2 _].
    split; [intros ->; apply Hnd1; right; by left|].
    split; [intros ->; apply Hnd2; by left|].
    apply elem_of_app. right. right. by left. }
  (* the run *)
  apply bind_Ok in H as [h1 [E1 H]].
  apply update_Ok in E1 as (a1 & xa1 & [= ->] & Ha1 & ->).
  rewrite Ha in Ha1. injection Ha1 as <-.
  apply bind_Ok in H as [h2 [E2 H]]. apply relink_next_Ok in E2 as (xb & Hxb & E2).
  simpl in Hxb. rewrite list_lookup_insert_ne in Hxb by done.
  rewrite Hx in Hxb. injection Hxb as <-.
  apply bind_Ok in H as [h3 [E3 H]].
  apply absorb_pages_Ok in E3 as (xa2 & xb & Hxa & Hxb & Hov & ->).
  apply bind_Ok in H as [h4 [E4 H]]. injection H as <- <- <-.
  apply FreeBlockInfo_Ok in E4 as (xd & Hxd & ->).
  assert (m_FreeList h2 = m_FreeList h /\ m_FreeListSize h2 = m_FreeListSize h /\
          merge_frame h h2 /\
          m_Blocks h2 !! a = Some (Blk.set_Next (Blk.m_Next xx) xa) /\
          m_Blocks h2 !! x = Some xx /\
          others_kept (l1 ++ a :: x :: l2) (l1 ++ a :: l2) [a; x] (m_Blocks h) (m_Blocks h2))
    as (HFL2 & HnF2 & Hfr2 & Ha2 & Hx2 & Hoth2).
  { destruct (Blk.m_Next xx) as [n'|] eqn:Hnn.
    - destruct (Hn' n' eq_refl) as (Hn'a & Hn'x & Hn'l).
      destruct E2 as (xn' & Hxn' & ->).
      simpl in Hxn'. rewrite list_lookup_insert_ne in Hxn' by done.
      split_and!; simpl; rewrite ?length_insert; try done.
      + unfold merge_frame. simpl. by rewrite !length_insert.
      + rewrite list_lookup_insert_ne by done. apply list_lookup_insert_eq.
        by eapply lookup_lt_Some.
      + by rewrite !list_lookup_insert_ne by done.
      + apply (others_kept_relink _ _ _ _ _ n' a);
          [by rewrite !length_insert|apply elem_of_app; right; by left| |].
        * intros q Hq Hqn. rewrite !elem_of_cons, elem_of_nil in Hq.
          rewrite !list_lookup_insert_ne by (intros ?; subst; tauto). done.
        * intros z Hz. rewrite Hxn' in Hz. injection Hz as <-.
          apply list_lookup_insert_eq. rewrite length_insert. by eapply lookup_lt_Some.
    - subst h2. split_and!; simpl; rewrite ?length_insert; try done.
      + unfold merge_frame. simpl. by rewrite !length_insert.
      + apply list_lookup_insert_eq. by eapply lookup_lt_Some.
      + by rewrite list_lookup_insert_ne by done.
      + apply others_kept_agree; [by rewrite length_insert|].
        intros q Hq. rewrite !elem_of_cons, elem_of_nil in Hq.
        rewrite list_lookup_insert_ne by (intros ?; subst; tauto). done. }
  rewrite Ha2 in Hxa. injection Hxa as <-.
  rewrite Hx2 in Hxb. injection Hxb as <-.
  simpl in *.
  destruct Hfr2 as (HPL2 & HnP2 & HLK2 & HP2 & HB2 & HM2 & HG2 & HlenF2 & Hlen2).
  split; [done|]. exists (l1 ++ a :: l2). eexists.
  split; [|split; [apply elem_of_app; right; by left|split; [|split]]].
  - eapply (InvK_merge k l1 a x l2 h _ xa xx
              (Blk.set_PageCount (Blk.m_PageCount xa + Blk.m_PageCount xx)
                 (Blk.set_Next (Blk.m_Next xx) xa))
              (Blk.mk true (Blk.m_PageCount xd) true (Blk.m_PageIndex xd) None
                 (m_FirstUnusedBlockInfo h2))); try done.
    + simpl. destruct Hoth2 as [Hl2 Hoth2]. split.
      { by rewrite !length_insert. }
      intros r z z' Hr Hz Hz'. rewrite !elem_of_cons, elem_of_nil in Hr.
      rewrite !list_lookup_insert_ne in Hz' by (intros ?; subst; tauto).
      apply (Hoth2 r z z'); [|done|done]. rewrite !elem_of_cons, elem_of_nil. tauto.
    + simpl. rewrite list_lookup_insert_ne by done.
      apply list_lookup_insert_eq. by eapply lookup_lt_Some.
    + simpl. apply list_lookup_insert_eq. by eapply lookup_lt_Some.
    + simpl. apply u31_small.
      destruct (InvK_block_range _ _ _ _ _ HI ltac:(apply elem_of_app; right; by left) Ha)
        as (? & ? & ? & ?).
      destruct (InvK_block_range _ _ _ _ _ HI
                  ltac:(apply elem_of_app; right; right; by left) Hx) as (? & ? & ? & ?).
      lia.
    + intros i Hi Hfi. destruct (inv_free _ _ _ HI) as [HF _].
      destruct (HF i (Some x)) as (q & [= <-] & _ & z & Hz & Hfz); [lia|done|].
      rewrite Hx in Hz. injection Hz as <-. flg.
    + intros i Hli. destruct (inv_lookup _ _ _ HI i x Hli) as (_ & z & Hz & Haz & _).
      rewrite Hx in Hz. injection Hz as <-. flg.
  - simpl. rewrite list_lookup_insert_ne by done.
    apply list_lookup_insert_eq. by eapply lookup_lt_Some.
  - unfold merge_frame. simpl. rewrite ?length_insert. split_and!; congruence.
  - done.
Qed.
Lemma merge_frame_trans h1 h2 h3 :
  merge_frame h1 h2 -> merge_frame h2 h3 -> merge_frame h1 h3.
Proof. unfold merge_frame. intros. split_and!; destruct_and!; congruence. Qed.

(** One round of the flush: the slot [i] of the pending list is done. *)
Lemma flush_body_inv (i : nat) l h h' :
  InvK i l h -> (i < Z.to_nat (m_PendingListSize h))%nat ->
  flush_body (Z.of_nat i) h = Ok h' ->
  exists l', InvK (S i) l' h' /\ merge_frame h h'.
Proof.
  intros HI Hi H. unfold flush_body in H.
  apply bind_Ok in H as [e [E H]]. apply arr_get_Ok in E. rewrite Nat2Z.id in E.
  apply bind_Ok in H as [[x xx] [Hx H]]. apply deref_Ok in Hx as [<- Hx].
  destruct (inv_pend _ _ _ HI) as [HPd HPinj].
  destruct (HPd i (Some x)) as (x0 & [= <-] & Hxl & xx0 & Hxx0 & Hflx); [lia|done|].
  rewrite Hx in Hxx0. injection Hxx0 as <-.
  assert (InvK (S i) l h) as HI' by (eapply InvK_advance; [done|lia]).
  assert (forall j, (S i <= j < Z.to_nat (m_PendingListSize h))%nat ->
                    m_PendingList h !! j <> Some (Some x)) as HnP.
  { intros j Hj Hjx. assert (j = i) by (apply (HPinj j i (Some x)); [lia|lia|done|done]). lia. }
  apply bind_Ok in H as [[[y removed] h1] [E1 H]].
  apply bind_Ok in H as [h2 [E2 H]].
  destruct (merge_left_inv _ _ _ _ _ _ _ _ HI' Hxl Hx Hflx HnP E1)
    as [(-> & -> & ->)|(-> & l1 & xy & HI1 & Hyl1 & Hy1 & Hfr1 & _)].
  - destruct (merge_right_inv _ _ _ _ _ _ HI' Hxl Hx E2)
      as (l2 & xx2 & HI2 & Hxl2 & Hx2 & Hflx2 & Hfr2).
    rewrite Hflx in Hflx2.
    apply bind_Ok in H as [h3 [E3 H]].
    apply update_Ok in E3 as (x3 & xx3 & [= ->] & Hx3 & ->).
    rewrite Hx2 in Hx3. injection Hx3 as <-.
    apply free_list_push_Ok in H as [Hlen ->].
    pose proof Hfr2 as (HPL2 & HnP2 & HLK2 & HP2 & _).
    assert (forall j, (j < Z.to_nat (m_FreeListSize h2))%nat ->
                      m_FreeList h2 !! j <> Some (Some x)) as HnF2.
    { intros j Hj Hjx. destruct (inv_free _ _ _ HI2) as [HF _].
      destruct (HF j (Some x)) as (q & [= <-] & _ & z & Hz & Hfz); [lia|done|].
      rewrite Hx2 in Hz. injection Hz as <-. flg. }
    assert (InvK (S i) l2 (store x (Blk.set_PendingFree false xx2) h2)) as HI3.
    { apply (InvK_flags (S i) l2 h2 _ x xx2 (Blk.set_PendingFree false xx2));
        [exact HI2| |apply others_kept_store|done|done| | |done| |done| |].
      - by unfold same_tables.
      - simpl. apply list_lookup_insert_eq. by eapply lookup_lt_Some.
      - by unfold same_link.
      - unfold flags. simpl. congruence.
      - rewrite HPL2, HnP2. done.
      - intros j Hjx. destruct (inv_lookup _ _ _ HI2 j x Hjx) as (_ & z & Hz & Haz & _).
        rewrite Hx2 in Hz. injection Hz as <-. flg. }
    exists l2. split.
    + pose proof (inv_sizes _ _ _ HI2) as (HnF0 & _ & HlF & _).
      simpl in *.
      assert (u32 (m_FreeListSize h2 + 1) = m_FreeListSize h2 + 1) as ->
        by (apply u32_small; lia).
      apply InvK_set_free; simpl; [done| |lia|by rewrite length_insert].
      replace (Z.to_nat (m_FreeListSize h2 + 1)) with (S (Z.to_nat (m_FreeListSize h2))) by lia.
      apply entries_push; [apply (inv_free _ _ _ HI3)| |].
      * split; [done|]. eexists. split.
        { simpl. apply list_lookup_insert_eq. by eapply lookup_lt_Some. }
        unfold flags in *. simpl. congruence.
      * intros j Hj. apply HnF2. lia.
    + eapply merge_frame_trans; [exact Hfr2|].
      unfold merge_frame. simpl. by rewrite !length_insert.
  - destruct (merge_right_inv _ _ _ _ _ _ HI1 Hyl1 Hy1 E2)
      as (l2 & xy2 & HI2 & _ & _ & _ & Hfr2).
    injection H as <-. exists l2. split; [done|]. by eapply merge_frame_trans.
Qed.

(** FlushPendingFrees keeps the invariant and empties the pending list. *)
Lemma FlushPendingFrees_inv l h h' :
  InvK 0 l h -> FlushPendingFrees h = Ok h' ->
  (exists l', InvK 0 l' h') /\
  m_PendingListSize h' = 0 /\
  m_BlockLookup h' = m_BlockLookup h /\ m_PageCount h' = m_PageCount h /\
  m_BaseAddress h' = m_BaseAddress h /\ m_MaxAllocs h' = m_MaxAllocs h /\
  m_ReentrancyGuard h' = m_ReentrancyGuard h.
Proof.
  intros HI H. unfold FlushPendingFrees in H.
  apply bind_Ok in H as [h1 [E H]]. injection H as <-.
  pose proof (inv_sizes _ _ _ HI) as (_ & HnP0 & _).
  apply (for_loop_ind
           (fun j t => 0 <= j <= m_PendingListSize h /\
                       (exists l', InvK (Z.to_nat j) l' t) /\ merge_frame h t)) in E.
  - destruct E as (_ & [l1 HI1] & (HPL & HnP & HLK & HP & HB & HM & HG & _)).
    simpl. split_and!; try done.
    exists l1.
    eapply (InvK_ext _ _ (set_PendingListSize 0 (set_PendingList (m_PendingList h1) h1)));
      simpl; try done.
    eapply InvK_set_pending; [exact HI1| |done|done].
    apply entries_empty.
  - split; [lia|]. split; [by exists l|apply merge_frame_refl].
  - intros j t t' Hj (Hj0 & [l1 HI1] & Hfr) Hb.
    rewrite <- (Z2Nat.id j) in Hb by lia.
    assert (Z.to_nat j < Z.to_nat (m_PendingListSize t))%nat as Hjt.
    { destruct Hfr as (_ & -> & _). lia. }
    destruct (flush_body_inv _ _ _ _ HI1 Hjt Hb) as (l2 & HI2 & Hfr2).
    split; [lia|]. split; [|by eapply merge_frame_trans].
    exists l2. by replace (Z.to_nat (j + 1)) with (S (Z.to_nat j)) by lia.
Qed.
(* --------------------------------------------------------------------- *)
(** ** The public operations keep the invariant                          *)
(* --------------------------------------------------------------------- *)

Lemma page_requirement_range size : 0 <= page_requirement size < 2 ^ 32.
Proof. unfold page_requirement, u32. apply Z.mod_pos_bound. lia. Qed.

Lemma VmCommit_Ok ptr size vm vm' :
  VmCommit ptr size vm = Ok vm' ->
  range_mapped vm ptr size = true /\ vm_mapped vm' = vm_mapped vm /\
  vm_trace vm' = CallVmCommit ptr size :: vm_trace vm.
Proof. unfold VmCommit. intros H. run_inv H. by simplify_eq. Qed.

Lemma VmDecommit_Ok ptr size vm vm' :
  VmDecommit ptr size vm = Ok vm' ->
  range_mapped vm ptr size = true /\ vm_mapped vm' = vm_mapped vm /\
  vm_trace vm' = CallVmDecommit ptr size :: vm_trace vm.
Proof. unfold VmDecommit. intros H. run_inv H. by simplify_eq. Qed.

Lemma memset_Ok ptr byte len vm vm' :
  memset ptr byte len vm = Ok vm' ->
  vm_mapped vm' = vm_mapped vm /\ vm_trace vm' = CallMemset ptr byte len :: vm_trace vm.
Proof. unfold memset. destruct (_ && _); [done|]. by intros [= <-]. Qed.

(** A successful FinalizeAlloc was asked for at least one page. *)
Lemma FinalizeAlloc_Ok ptr user_size pages user_alignment vm result vm' start len :
  FinalizeAlloc ptr user_size pages user_alignment vm = Ok (result, vm') ->
  vm_mapped vm = Some (start, len) -> len < 2 ^ 64 - kPageSize ->
  0 <= pages < 2 ^ 32 ->
  0 < pages /\ vm_mapped vm' = vm_mapped vm /\
  result = u64 (ptr + Z.land (u32 (u64 (kPageSize - user_size)) mod kPageSize)
                        (not32 (u32 (u64 (user_alignment - 1))))).
Proof.
  unfold FinalizeAlloc. intros H Hm Hlen Hp.
  apply bind_Ok in H as [vm1 [E1 H]]. apply VmCommit_Ok in E1 as (Hr1 & Hm1 & _).
  apply bind_Ok in H as [vm2 [E2 H]]. apply VmDecommit_Ok in E2 as (_ & Hm2 & _).
  apply bind_Ok in H as [vm3 [E3 H]]. apply memset_Ok in E3 as (Hm3 & _).
  injection H as <- <-. split; [|split; [congruence|done]].
  destruct (decide (pages = 0)) as [->|]; [|lia]. exfalso.
  unfold range_mapped in Hr1. rewrite Hm in Hr1.
  apply andb_prop in Hr1 as [Hr1 Hr2]. apply andb_prop in Hr1 as [_ Hr1].
  apply Z.leb_le in Hr1, Hr2.
  assert (u64 ((0 - 1) * kPageSize) = 2 ^ 64 - kPageSize) as Hu by reflexivity.
  rewrite Hu in Hr2. unfold kPageSize in *. lia.
Qed.

Lemma ENTER_Ok h h' :
  DEBUG_THREAD_GUARD_ENTER h = Ok h' -> h' = set_ReentrancyGuard 1 h.
Proof.
  unfold DEBUG_THREAD_GUARD_ENTER, AtomicInc32. intros H. run_inv H.
  apply Z.eqb_eq in E. injection H as <-. by rewrite <- E.
Qed.

Lemma LEAVE_Ok h h' :
  DEBUG_THREAD_GUARD_LEAVE h = Ok h' -> h' = set_ReentrancyGuard 0 h.
Proof.
  unfold DEBUG_THREAD_GUARD_LEAVE, AtomicDec32. intros H. run_inv H.
  apply Z.eqb_eq in E. injection H as <-. by rewrite <- E.
Qed.

(** A carve that returns the null pointer found no fitting block and
    changed nothing. *)
Lemma AllocFromFreeList_null k l h page_req h' :
  InvK k l h -> 0 < m_BaseAddress h ->
  m_BaseAddress h + m_PageCount h * kPageSize <= 2 ^ 64 ->
  AllocFromFreeList h page_req = Ok (0, h') ->
  h' = h /\ exists size idx, scan_free_list h page_req = Ok (None, size, idx).
Proof.
  intros HI Hb0 Hb1 H.
  destruct (AllocFromFreeList_Ok _ _ _ _ H) as (best & size & idx & Hscan & Hbest).
  destruct best as [r|]; [exfalso|destruct Hbest as [_ ->]; eauto].
  destruct Hbest as (xr & xr' & Hxr & _ & _ & _ & _ & _ & _ & Hptr & _).
  apply scan_free_list_spec in Hscan as [_ (Hidx & Hfl & _)].
  destruct (inv_free _ _ _ HI) as [HF _].
  destruct (HF (Z.to_nat idx) (Some r)) as (r0 & [= <-] & Hrl & _); [lia|done|].
  destruct (InvK_block_range _ _ _ _ _ HI Hrl Hxr) as (Hpi0 & Hpc0 & Hend & HP31).
  rewrite u64_small in Hptr; unfold kPageSize in *; lia.
Qed.

Lemma DebugHeapAllocate_inv w size alignment p w' :
  WInv w -> DebugHeapAllocate w size alignment = Ok (p, w') -> WInv w'.
Proof.
  intros ([l HI] & Hb0 & Hb1 & start & len & Hm & Hlen) H.
  unfold DebugHeapAllocate in H.
  apply bind_Ok in H as [h0 [E0 H]]. apply ENTER_Ok in E0 as ->.
  pose proof (page_requirement_range size) as Hreq.
  apply (InvK_set_guard _ _ _ 1) in HI.
  apply bind_Ok in H as [[ptr h1] [E1 H]].
  destruct (negb (ptr =? 0)) eqn:Hptr.
  - apply bind_Ok in H as [[result vm] [E2 H]].
    apply bind_Ok in H as [h2 [E3 H]]. apply LEAVE_Ok in E3 as ->. injection H as <- <-.
    destruct (FinalizeAlloc_Ok _ _ _ _ _ _ _ _ _ E2 Hm Hlen Hreq) as (Hpos & Hm2 & _).
    destruct (AllocFromFreeList_inv _ _ _ _ _ _ HI Hpos E1) as [l1 HI1].
    destruct (AllocFromFreeList_Ok _ _ _ _ E1) as (best & sz & idx & _ & Hbest).
    assert (m_PageCount h1 = m_PageCount (w_heap w) /\
            m_BaseAddress h1 = m_BaseAddress (w_heap w)) as [HP HB].
    { destruct best; [|by destruct Hbest as [_ ->]].
      destruct Hbest as (? & ? & ? & ? & ? & ? & ? & ? & ? & ? & ? & ? & ? & ? & ?). done. }
    split; [exists l1; by apply InvK_set_guard|]. simpl. rewrite HP, HB, Hm2. eauto 10.
  - apply negb_false_iff, Z.eqb_eq in Hptr. subst ptr.
    destruct (AllocFromFreeList_null _ _ _ _ _ HI Hb0 Hb1 E1) as [-> _].
    apply bind_Ok in H as [h2 [E2 H]].
    destruct (FlushPendingFrees_inv _ _ _ HI E2)
      as ([l2 HI2] & _ & _ & HP2 & HB2 & _).
    simpl in HP2, HB2.
    apply bind_Ok in H as [[ptr h3] [E3 H]].
    destruct (negb (ptr =? 0)) eqn:Hptr.
    + apply bind_Ok in H as [[result vm] [E4 H]].
      apply bind_Ok in H as [h4 [E5 H]]. apply LEAVE_Ok in E5 as ->. injection H as <- <-.
      destruct (FinalizeAlloc_Ok _ _ _ _ _ _ _ _ _ E4 Hm Hlen Hreq) as (Hpos & Hm2 & _).
      destruct (AllocFromFreeList_inv _ _ _ _ _ _ HI2 Hpos E3) as [l3 HI3].
      destruct (AllocFromFreeList_Ok _ _ _ _ E3) as (best & sz & idx & _ & Hbest).
      assert (m_PageCount h3 = m_PageCount h2 /\ m_BaseAddress h3 = m_BaseAddress h2)
        as [HP HB].
      { destruct best; [|by destruct Hbest as [_ ->]].
        destruct Hbest as (? & ? & ? & ? & ? & ? & ? & ? & ? & ? & ? & ? & ? & ? & ?). done. }
      split; [exists l3; by apply InvK_set_guard|]. simpl.
      rewrite HP, HB, HP2, HB2, Hm2. eauto 10.
    + apply negb_false_iff, Z.eqb_eq in Hptr. subst ptr.
      rewrite <- HP2, <- HB2 in Hb1. rewrite <- HB2 in Hb0.
      destruct (AllocFromFreeList_null _ _ _ _ _ HI2 Hb0 Hb1 E3) as [-> _].
      apply bind_Ok in H as [h4 [E5 H]]. apply LEAVE_Ok in E5 as ->. injection H as <- <-.
      split; [exists l2; by apply InvK_set_guard|]. simpl. eauto 10.
Qed.

Lemma DebugHeapFree_inv w ptr w' :
  WInv w -> DebugHeapFree w ptr = Ok w' -> WInv w'.
Proof.
  intros ([l HI] & Hb0 & Hb1 & start & len & Hm & Hlen) H.
  unfold DebugHeapFree in H.
  apply bind_Ok in H as [h0 [E0 H]]. apply ENTER_Ok in E0 as ->.
  apply bind_Ok in H as [[] [_ H]].
  apply bind_Ok in H as [block [Hlk H]]. apply arr_get_Ok in Hlk.
  apply bind_Ok in H as [[] [Hnn H]]. apply ASSERT_FATAL_Ok in Hnn.
  destruct block as [r|]; [clear Hnn|done].
  apply bind_Ok in H as [[r0 xr] [Hr H]]. apply deref_Ok in Hr as [[= ->] Hr].
  apply bind_Ok in H as [[] [Ha H]]. apply ASSERT_FATAL_Ok in Ha.
  apply bind_Ok in H as [[] [Hp H]]. apply ASSERT_FATAL_Ok, negb_true_iff in Hp.
  apply bind_Ok in H as [h1 [E1 H]].
  apply update_Ok in E1 as (r1 & xr1 & [= ->] & Hr1 & ->).
  rewrite Hr in Hr1. injection Hr1 as <-.
  apply bind_Ok in H as [bl [E2 H]]. apply arr_set_Ok in E2 as [Hlen2 ->].
  apply bind_Ok in H as [[r2 xr2] [_ H]].
  apply bind_Ok in H as [[] [_ H]].
  apply bind_Ok in H as [pl [E3 H]]. apply arr_set_Ok in E3 as [Hlen3 ->].
  apply bind_Ok in H as [[r3 xr3] [_ H]].
  apply bind_Ok in H as [vm [E4 H]]. apply VmDecommit_Ok in E4 as (_ & Hm4 & _).
  apply bind_Ok in H as [h5 [E5 H]]. apply LEAVE_Ok in E5 as ->. injection H as <-.
  simpl in *.
  set (h := w_heap w) in *.
  set (pi := Z.to_nat (page_index_of (set_ReentrancyGuard 1 h) ptr)) in *.
  destruct (inv_lookup _ _ _ HI pi r Hlk) as (Hrl & xr0 & Hxr0 & _ & Hpi).
  rewrite Hr in Hxr0. injection Hxr0 as <-.
  pose proof (inv_sizes _ _ _ HI) as (_ & HnP0 & _ & HlP).
  (* the lookup slot is cleared *)
  assert (InvK 0 l (set_BlockLookup (<[pi := None]> (m_BlockLookup h)) h)) as HIa.
  { apply InvK_set_lookup; [done|]. intros i q Hq.
    apply list_lookup_insert_Some in Hq as [(_ & [=] & _)|[_ Hq]].
    by apply (inv_lookup _ _ _ HI). }
  (* the block becomes pending *)
  set (xr' := Blk.set_PendingFree true (Blk.set_Allocated false xr)).
  assert (InvK 0 l (store r xr' (set_BlockLookup (<[pi := None]> (m_BlockLookup h)) h)))
    as HIb.
  { apply (InvK_flags 0 l (set_BlockLookup (<[pi := None]> (m_BlockLookup h)) h) _ r xr xr');
      [exact HIa|by unfold same_tables|apply others_kept_store|done|done| | |done| | | |].
    - simpl. apply list_lookup_insert_eq. by eapply lookup_lt_Some.
    - by unfold same_link.
    - unfold flags. simpl. congruence.
    - intros i Hi Hfi. destruct (inv_free _ _ _ HI) as [HF _].
      destruct (HF i (Some r)) as (q & [= <-] & _ & z & Hz & Hfz); [simpl in *; lia|done|].
      rewrite Hr in Hz. injection Hz as <-. flg.
    - intros i Hi Hfi. destruct (inv_pend _ _ _ HI) as [HF _].
      destruct (HF i (Some r)) as (q & [= <-] & _ & z & Hz & Hfz); [simpl in *; lia|done|].
      rewrite Hr in Hz. injection Hz as <-. flg.
    - simpl. intros i Hq.
      apply list_lookup_insert_Some in Hq as [(_ & [=] & _)|[Hne Hq]].
      destruct (inv_lookup _ _ _ HI i r Hq) as (_ & z & Hz & _ & Hzi).
      rewrite Hr in Hz. injection Hz as <-. lia. }
  (* and goes on the pending list *)
  split; [|simpl; rewrite Hm4; eauto 10].
  exists l. apply InvK_set_guard.
  assert (u32 (m_PendingListSize h + 1) = m_PendingListSize h + 1) as ->.
  { apply u32_small. lia. }
  eapply (InvK_ext _ _
            (set_PendingListSize (m_PendingListSize h + 1)
               (set_PendingList
                  (<[Z.to_nat (m_PendingListSize h) := Some r]> (m_PendingList h))
                  (store r xr' (set_BlockLookup (<[pi := None]> (m_BlockLookup h)) h)))));
    simpl; try done.
  apply InvK_set_pending with (k := 0%nat); simpl;
    [done| |lia|by rewrite length_insert].
  replace (Z.to_nat (m_PendingListSize h + 1))
    with (S (Z.to_nat (m_PendingListSize h))) by lia.
  apply entries_push; [apply (inv_pend _ _ _ HIb)| |].
  - split; [done|]. eexists. split.
    { simpl. apply list_lookup_insert_eq. by eapply lookup_lt_Some. }
    done.
  - intros i Hi Hfi. destruct (inv_pend _ _ _ HI) as [HF _].
    destruct (HF i (Some r)) as (q & [= <-] & _ & z & Hz & Hfz); [lia|done|].
    rewrite Hr in Hz. injection Hz as <-. flg.
Qed.

Lemma DebugHeapGetAllocSize_inv w ptr n w' :
  WInv w -> DebugHeapGetAllocSize w ptr = Ok (n, w') -> WInv w'.
Proof.
  intros ([l HI] & Hb0 & Hb1 & Hvm) H. unfold DebugHeapGetAllocSize in H.
  apply bind_Ok in H as [h0 [E0 H]]. apply ENTER_Ok in E0 as ->.
  run_inv H.
  match goal with E : DEBUG_THREAD_GUARD_LEAVE _ = Ok _ |- _ => apply LEAVE_Ok in E as -> end.
  injection H as <- <-. split; [|done]. exists l. simpl. by do 2 apply InvK_set_guard.
Qed.

Lemma DebugHeapOwns_inv w buffer s w' :
  WInv w -> DebugHeapOwns w buffer = Ok (s, w') -> WInv w'.
Proof.
  intros ([l HI] & Hb0 & Hb1 & Hvm) H. unfold DebugHeapOwns in H.
  apply bind_Ok in H as [h0 [E0 H]]. apply ENTER_Ok in E0 as ->.
  apply bind_Ok in H as [h1 [E1 H]]. apply LEAVE_Ok in E1 as ->.
  injection H as <- <-. split; [|done]. exists l. simpl. by do 2 apply InvK_set_guard.
Qed.

Lemma run_op_inv op w r w' : WInv w -> run_op op w = Ok (r, w') -> WInv w'.
Proof.
  intros HW H. destruct op; simpl in H;
    apply bind_Ok in H as [a [E H]]; destruct_pairs; injection H as <- <-.
  - by eapply DebugHeapAllocate_inv.
  - by eapply DebugHeapFree_inv.
  - by eapply DebugHeapGetAllocSize_inv.
  - by eapply DebugHeapOwns_inv.
Qed.

Lemma run_ops_inv ops w rs w' : WInv w -> run_ops ops w = Ok (rs, w') -> WInv w'.
Proof.
  revert w rs. induction ops as [|op ops IH]; intros w rs HW H; simpl in H.
  - by injection H as <- <-.
  - apply bind_Ok in H as [[r w1] [E1 H]].
    apply bind_Ok in H as [[rs1 w2] [E2 H]]. injection H as <- <-.
    eapply IH; [|exact E2]. by eapply run_op_inv.
Qed.
(* --------------------------------------------------------------------- *)
(** ** DebugHeapInit establishes the invariant                           *)
(* --------------------------------------------------------------------- *)

Lemma init_block_length count i blocks blocks' :
  init_block count i blocks = Ok blocks' -> length blocks' = length blocks.
Proof.
  unfold init_block. intros H. run_inv H. subst. by rewrite length_insert.
Qed.

Lemma init_loop_length count n i blocks blocks' :
  for_loop n i (init_block count) blocks = Ok blocks' -> length blocks' = length blocks.
Proof.
  intros H.
  apply (for_loop_ind (fun _ bl => length bl = length blocks)) in H; [done|done|].
  intros j t t' _ Ht Hb. apply init_block_length in Hb. congruence.
Qed.

Lemma bookkeeping_pages_range P :
  0 <= P < 2 ^ 31 -> 1 <= bookkeeping_pages_of P <= P + 2.
Proof.
  intros HP. unfold bookkeeping_pages_of, sizeof_DebugHeap, sizeof_ptr,
    sizeof_DebugBlockInfo, kPageSize.
  rewrite (u64_small (80 + 3 * P * 8 + 24 * P)) by lia.
  rewrite u64_small by lia.
  split.
  - apply Z.div_le_lower_bound; lia.
  - apply Z.div_le_upper_bound; lia.
Qed.

Lemma DebugHeapInit_Ok os_range mem_size_bytes w :
  DebugHeapInit os_range mem_size_bytes = Ok (Some w) ->
  0 <= mem_size_bytes < 2 ^ 43 ->
  let P := mem_size_bytes / kPageSize in
  let B := bookkeeping_pages_of P in
  0 < P /\ os_range <> 0 /\
  w_self w = os_range /\
  vm_mapped (w_vm w) = Some (os_range, (B + P) * kPageSize) /\
  m_PageCount (w_heap w) = P /\ m_MaxAllocs (w_heap w) = P / 2 /\
  m_BaseAddress (w_heap w) = u64 (os_range + kPageSize * B) /\
  m_FreeListSize (w_heap w) = 1 /\
  m_FreeList (w_heap w) = <[0%nat := Some 0%nat]> (replicate (Z.to_nat P) None) /\
  m_PendingListSize (w_heap w) = 0 /\
  m_PendingList (w_heap w) = replicate (Z.to_nat P) None /\
  m_BlockLookup (w_heap w) = replicate (Z.to_nat P) None /\
  m_ReentrancyGuard (w_heap w) = 0 /\
  m_Blocks (w_heap w) !! 0%nat = Some (Blk.mk false P false 0 None None).
Proof.
  intros H Hmem P B.
  assert (0 <= P < 2 ^ 31) as HP.
  { unfold P, kPageSize. split; [apply Z.div_pos; lia|].
    apply Z.div_lt_upper_bound; lia. }
  pose proof (bookkeeping_pages_range P HP) as HB. fold B in HB.
  unfold DebugHeapInit in H. cbv zeta in H. fold P in H.
  change (u64 (u64 (sizeof_DebugHeap + 3 * P * sizeof_ptr + sizeof_DebugBlockInfo * P)
               + kPageSize - 1) / kPageSize) with B in H.
  apply bind_Ok in H as [[range vm] [E1 H]].
  unfold VmAllocate in E1. apply bind_Ok in E1 as [[] [Hnz E1]].
  apply ASSERT_FATAL_Ok, negb_true_iff, Z.eqb_neq in Hnz. injection E1 as <- <-.
  apply Z.eqb_neq in Hnz as Hnz'. rewrite Hnz' in H.
  apply bind_Ok in H as [vm1 [E2 H]]. apply VmCommit_Ok in E2 as (_ & Hm1 & _).
  apply bind_Ok in H as [blocks [E3 H]]. apply init_loop_length in E3. simpl in E3.
  apply bind_Ok in H as [[root self1] [E4 H]].
  apply AllocBlockInfo_Ok in E4 as (b0 & Hfu & Hb0 & _ & ->). simpl in Hfu, Hb0.
  injection Hfu as <-.
  apply bind_Ok in H as [self2 [E5 H]].
  apply update_Ok in E5 as (r & xr & [= ->] & Hxr & ->). simpl in Hxr.
  rewrite list_lookup_insert_eq in Hxr by (by eapply lookup_lt_Some).
  injection Hxr as <-.
  apply bind_Ok in H as [fl [E6 H]]. apply arr_set_Ok in E6 as [Hlen6 ->].
  injection H as <-. simpl in *.
  assert (0 < P) as HP0.
  { apply lookup_lt_Some in Hb0. rewrite E3, length_replicate in Hb0. lia. }
  assert (u64 (B + P) = B + P) as Hu1 by (apply u64_small; lia).
  assert (u64 ((B + P) * kPageSize) = (B + P) * kPageSize) as Hu2
    by (apply u64_small; unfold kPageSize; lia).
  rewrite Hm1, Hu1, Hu2.
  assert (0 <= P / 2 < 2 ^ 32) as HP2.
  { split; [apply Z.div_pos; lia|apply Z.div_lt_upper_bound; lia]. }
  rewrite !(u32_small P), (u32_small (P / 2)) by lia.
  split_and!; try done.
  rewrite list_lookup_insert_eq by (rewrite length_insert; by eapply lookup_lt_Some).
  unfold Blk.set_Next, Blk.set_Prev, Blk.set_PageCount, Blk.set_PendingFree,
    Blk.set_Allocated, Blk.set_PageIndex. simpl.
  rewrite (u31_small P) by lia. done.
Qed.

Lemma DebugHeapInit_inv os_range mem_size_bytes w :
  DebugHeapInit os_range mem_size_bytes = Ok (Some w) ->
  0 <= mem_size_bytes < 2 ^ 43 -> 0 <= os_range < 2 ^ 63 ->
  WInv w.
Proof.
  intros H Hmem Hos.
  destruct (DebugHeapInit_Ok _ _ _ H Hmem)
    as (HP0 & Hnz & _ & Hvm & HP & _ & HB & HnF & HFL & HnP & HPL & HLK & _ & Hroot).
  set (P := mem_size_bytes / kPageSize) in *.
  assert (0 <= P < 2 ^ 31) as HP31.
  { unfold P, kPageSize. split; [apply Z.div_pos; lia|].
    apply Z.div_lt_upper_bound; lia. }
  pose proof (bookkeeping_pages_range P HP31) as HBr.
  set (B := bookkeeping_pages_of P) in *.
  assert (m_BaseAddress (w_heap w) = os_range + kPageSize * B) as HB'.
  { rewrite HB. apply u64_small. unfold kPageSize. lia. }
  split; [|split; [|split]].
  - exists [0%nat]. constructor.
    + rewrite HP. lia.
    + simpl. split; [done|]. eexists. split; [exact Hroot|]. simpl.
      split; [done|]. split; [lia|]. split; [done|]. rewrite HP. lia.
    + intros r b Hr Hb. apply list_elem_of_singleton in Hr as ->.
      rewrite Hroot in Hb. by injection Hb as <-.
    + rewrite HnF, HFL. split.
      * intros i e Hi He. assert (i = 0%nat) as -> by lia.
        apply list_lookup_insert_Some in He as [(_ & <- & _)|[? _]]; [|done].
        exists 0%nat. split; [done|]. split; [by apply list_elem_of_singleton|].
        eexists. split; [exact Hroot|done].
      * intros i j e Hi Hj _ _. lia.
    + rewrite HnP. apply entries_empty.
    + intros r b q qb Hr Hb Hq. apply list_elem_of_singleton in Hr as ->.
      rewrite Hroot in Hb. injection Hb as <-. done.
    + intros i r Hi. rewrite HLK in Hi. apply lookup_replicate in Hi as [? _]. done.
    + rewrite HnF, HnP, HFL, HPL, length_insert, !length_replicate. lia.
  - rewrite HB'. unfold kPageSize. lia.
  - rewrite HB', HP. unfold kPageSize. lia.
  - rewrite Hvm. do 2 eexists. split; [done|]. unfold kPageSize. lia.
Qed.

(* ===================================================================== *)
(** * The blocks tile the page range                                     *)
(* ===================================================================== *)

Lemma Seg_walk bl l p s e fuel :
  Seg bl l p s None e -> (length l <= fuel)%nat ->
  exists bs, walk fuel bl p = Some bs /\ tiles s e bs /\ length bs = length l.
Proof.
  revert p s fuel. induction l as [|r l IH]; intros p s fuel HS Hf; simpl in HS.
  - destruct HS as [-> ->]. exists []. by destruct fuel.
  - destruct HS as [-> (b & Hb & Hs & Hc & HS)].
    destruct fuel as [|fuel]; [simpl in Hf; lia|].
    destruct (IH _ _ fuel HS) as (bs & Hw & Ht & Hl); [simpl in Hf; lia|].
    exists (b :: bs). simpl. rewrite Hb, Hw. split; [done|]. split; [done|].
    by rewrite Hl.
Qed.

Lemma Seg_length bl l p s q e : Seg bl l p s q e -> (length l <= length bl)%nat.
Proof.
  intros HS.
  assert (l ⊆+ seq 0 (length bl)) as Hsub.
  { apply NoDup_submseteq; [by eapply Seg_NoDup|].
    intros r Hr. destruct (Seg_elem _ _ _ _ _ _ _ HS Hr) as (b & Hb & _).
    apply elem_of_seq. apply lookup_lt_Some in Hb. lia. }
  apply submseteq_length in Hsub. by rewrite length_seq in Hsub.
Qed.

Lemma tiles_sorted start stop bs :
  tiles start stop bs ->
  StronglySorted Z.lt (map Blk.m_PageIndex bs) /\
  Forall (fun b => start <= Blk.m_PageIndex b) bs.
Proof.
  revert start. induction bs as [|b bs IH]; intros start Ht; simpl.
  - split; constructor.
  - destruct Ht as (Hi & Hc & Ht). destruct (IH _ Ht) as [Hs Hf]. split.
    + constructor; [done|]. apply Forall_map. eapply Forall_impl; [exact Hf|].
      intros c Hcx. simpl in *. lia.
    + constructor; [lia|]. eapply Forall_impl; [exact Hf|]. intros c Hcx. simpl in *. lia.
Qed.

(** C8 (tiling invariant): after DebugHeapInit and after every sequence
    of public operations that follows it, traversing the block list from
    the first block (the record [m_Blocks[0]]) along [m_Next] ends, and
    the blocks met have strictly increasing page indices, each starts
    where the one before it ends, the first starts at page 0 and the last
    ends at page [m_PageCount]: they tile [0, m_PageCount) without gap or
    overlap.  The budget is below 2^31 pages, the range of the 31-bit
    page fields, and the kernel hands out an address in the lower half of
    the address space. *)
Theorem tiling_invariant (os_range mem_size_bytes : Z) (ops : list Op)
    (w0 w : World) (rs : list Ret) :
  0 <= mem_size_bytes < 2 ^ 43 -> 0 <= os_range < 2 ^ 63 ->
  DebugHeapInit os_range mem_size_bytes = Ok (Some w0) ->
  run_ops ops w0 = Ok (rs, w) ->
  exists bs,
    walk (length (m_Blocks (w_heap w))) (m_Blocks (w_heap w)) (Some 0%nat) = Some bs /\
    bs <> [] /\
    tiles 0 (m_PageCount (w_heap w)) bs /\
    StronglySorted Z.lt (map Blk.m_PageIndex bs).
Proof.
  intros Hmem Hos Hinit Hrun.
  pose proof (DebugHeapInit_inv _ _ _ Hinit Hmem Hos) as HW0.
  pose proof (run_ops_inv _ _ _ _ HW0 Hrun) as ([l HI] & _).
  pose proof (inv_chain _ _ _ HI) as HS.
  destruct (Seg_walk _ _ _ _ _ (length (m_Blocks (w_heap w))) HS (Seg_length _ _ _ _ _ _ HS))
    as (bs & Hw & Ht & Hl).
  exists bs. split; [done|]. split; [|split; [done|by apply (tiles_sorted 0 (m_PageCount (w_heap w)) bs)]].
  intros ->. destruct l; [|done]. simpl in HS. destruct HS; done.
Qed.

(** A run of C8: four operations on a heap of eight pages. *)
Lemma tiling_invariant_witness :
  exists w0 rs w,
    DebugHeapInit 65536 32768 = Ok (Some w0) /\ run_ops demo_ops w0 = Ok (rs, w) /\
    exists bs,
      walk (length (m_Blocks (w_heap w))) (m_Blocks (w_heap w)) (Some 0%nat) = Some bs /\
      bs <> [] /\ tiles 0 (m_PageCount (w_heap w)) bs /\
      StronglySorted Z.lt (map Blk.m_PageIndex bs).
Proof.
  eexists _, _, _.
  split; [vm_compute; reflexivity|].
  split; [vm_compute; reflexivity|].
  eapply (tiling_invariant 65536 32768 demo_ops);
    [lia|lia|vm_compute; reflexivity..].
Defined.

(* ===================================================================== *)
(** * What a call does to the lookup table                               *)
(* ===================================================================== *)

Lemma land_low_bound a b : 0 <= a < 2 ^ 12 -> 0 <= Z.land a b < 2 ^ 12.
Proof.
  intros Ha.
  assert (a = Z.land a (Z.ones 12)) as Ha'.
  { rewrite Z.land_ones by lia. symmetry. apply Z.mod_small. lia. }
  rewrite Ha', <- Z.land_assoc, (Z.land_comm (Z.ones 12)), Z.land_assoc.
  rewrite Z.land_ones by lia. apply Z.mod_pos_bound. lia.
Qed.

Lemma AllocFromFreeList_cases k l h page_req ptr h' :
  InvK k l h -> 0 < m_BaseAddress h ->
  m_BaseAddress h + m_PageCount h * kPageSize <= 2 ^ 64 ->
  AllocFromFreeList h page_req = Ok (ptr, h') ->
  (ptr = 0 /\ h' = h /\ ~ fits h page_req) \/
  (fits h page_req /\
   exists r xr,
     m_Blocks h !! r = Some xr /\
     0 <= Blk.m_PageIndex xr < m_PageCount h /\
     ptr = m_BaseAddress h + Blk.m_PageIndex xr * kPageSize /\
     m_BlockLookup h' = <[Z.to_nat (Blk.m_PageIndex xr) := Some r]> (m_BlockLookup h) /\
     m_PageCount h' = m_PageCount h /\ m_BaseAddress h' = m_BaseAddress h /\
     m_ReentrancyGuard h' = m_ReentrancyGuard h).
Proof.
  intros HI Hb0 Hb1 H.
  destruct (AllocFromFreeList_Ok _ _ _ _ H) as (best & size & idx & Hscan & Hbest).
  apply scan_free_list_spec in Hscan.
  pose proof (inv_sizes _ _ _ HI) as (HnF & _).
  rewrite Z2Nat.id in Hscan by lia.
  destruct (inv_free _ _ _ HI) as [HF _].
  destruct best as [r|].
  - right. destruct Hscan as [_ (Hidx & Hfl & b & Hb & _ & Hpc & Hreq)].
    split. { exists idx, r, b. split_and!; try done; lia. }
    destruct Hbest as (xr & xr' & Hxr & _ & _ & _ & _ & _ & Hlk & Hptr & _ & _ & HP & HB & _ & HG).
    destruct (HF (Z.to_nat idx) (Some r)) as (r0 & [= <-] & Hrl & _); [lia|done|].
    destruct (InvK_block_range _ _ _ _ _ HI Hrl Hxr) as (Hpi0 & Hpc0 & Hend & HP31).
    exists r, xr. split_and!; try done; try lia.
    rewrite Hptr. apply u64_small. unfold kPageSize in *. lia.
  - left. destruct Hbest as [-> ->]. split_and!; try done.
    intros (j & r & b & Hj & Hfl & Hb & Hreq).
    destruct Hscan as [Hall ->].
    destruct (Hall j r b Hj Hfl Hb Hreq) as [Hle _].
    destruct (HF (Z.to_nat j) (Some r)) as (r0 & [= <-] & Hrl & _); [lia|done|].
    destruct (InvK_block_range _ _ _ _ _ HI Hrl Hb) as (Hpi0 & Hpc0 & Hend & HP31).
    change (not32 0) with 4294967295 in Hle. lia.
Qed.

Lemma page_index_of_base h h' ptr :
  m_BaseAddress h = m_BaseAddress h' -> page_index_of h ptr = page_index_of h' ptr.
Proof. unfold page_index_of. by intros ->. Qed.

Lemma page_index_of_block h pi off :
  0 < m_BaseAddress h -> m_BaseAddress h + m_PageCount h * kPageSize <= 2 ^ 64 ->
  0 <= pi < m_PageCount h -> m_PageCount h < 2 ^ 31 -> 0 <= off < 2 ^ 12 ->
  u64 (m_BaseAddress h + pi * kPageSize + off) = m_BaseAddress h + pi * kPageSize + off /\
  page_index_of h (m_BaseAddress h + pi * kPageSize + off) = pi.
Proof.
  intros Hb0 Hb1 Hpi HP Hoff. unfold kPageSize in *. split.
  - apply u64_small. lia.
  - unfold page_index_of.
    replace (m_BaseAddress h + pi * 4096 + off - m_BaseAddress h) with (off + pi * 4096) by lia.
    rewrite u64_small by lia. unfold kPageSize.
    rewrite Z.div_add by lia. rewrite Z.div_small by lia. apply u32_small. lia.
Qed.

Lemma DebugHeapAllocate_Ok w size alignment p w' :
  WInv w -> DebugHeapAllocate w size alignment = Ok (p, w') ->
  m_PageCount (w_heap w') = m_PageCount (w_heap w) /\
  m_BaseAddress (w_heap w') = m_BaseAddress (w_heap w) /\
  m_ReentrancyGuard (w_heap w') = 0 /\
  vm_mapped (w_vm w') = vm_mapped (w_vm w) /\
  ((p = 0 /\ ~ fits (w_heap w) (page_requirement size) /\
    w_vm w' = w_vm w /\ w_self w' = w_self w /\
    exists hf, FlushPendingFrees (set_ReentrancyGuard 1 (w_heap w)) = Ok hf /\
               ~ fits hf (page_requirement size) /\
               w_heap w' = set_ReentrancyGuard 0 hf) \/
   (p <> 0 /\
    (fits (w_heap w) (page_requirement size) \/
     exists hf, FlushPendingFrees (set_ReentrancyGuard 1 (w_heap w)) = Ok hf /\
                fits hf (page_requirement size)) /\
    0 <= page_index_of (w_heap w) p < m_PageCount (w_heap w) /\
    exists r,
      m_BlockLookup (w_heap w') =
        <[Z.to_nat (page_index_of (w_heap w) p) := Some r]> (m_BlockLookup (w_heap w)))).
Proof.
  intros ([l HI] & Hb0 & Hb1 & start & len & Hm & Hlen) H.
  unfold DebugHeapAllocate in H.
  apply bind_Ok in H as [h0 [E0 H]]. apply ENTER_Ok in E0 as ->.
  pose proof (page_requirement_range size) as Hreq.
  apply (InvK_set_guard _ _ _ 1) in HI.
  apply bind_Ok in H as [[ptr h1] [E1 H]].
  pose proof (inv_pages _ _ _ HI) as HP31. simpl in HP31.
  destruct (AllocFromFreeList_cases _ _ _ _ _ _ HI Hb0 Hb1 E1)
    as [(-> & -> & Hnf)|(Hf & r & xr & Hxr & Hpi & -> & Hlk & HP & HB & HG)]; simpl in *.
  - apply bind_Ok in H as [h2 [E2 H]].
    destruct (FlushPendingFrees_inv _ _ _ HI E2)
      as ([l2 HI2] & HnP & Hlk2 & HP2 & HB2 & _).
    simpl in HP2, HB2, Hlk2.
    apply bind_Ok in H as [[ptr h3] [E3 H]].
    rewrite <- HP2, <- HB2 in Hb1. rewrite <- HB2 in Hb0.
    destruct (AllocFromFreeList_cases _ _ _ _ _ _ HI2 Hb0 Hb1 E3)
      as [(-> & -> & Hnf2)|(Hf & r & xr & Hxr & Hpi & -> & Hlk & HP & HB & HG)]; simpl in *.
    + apply bind_Ok in H as [h4 [E5 H]]. apply LEAVE_Ok in E5 as ->. injection H as <- <-.
      simpl. split_and!; try done. left. split_and!; try done. by exists h2.
    + assert (negb (m_BaseAddress h2 + Blk.m_PageIndex xr * kPageSize =? 0) = true) as Hnz.
      { apply negb_true_iff, Z.eqb_neq. unfold kPageSize. lia. }
      rewrite Hnz in H.
      apply bind_Ok in H as [[result vm] [E4 H]].
      apply bind_Ok in H as [h4 [E5 H]]. apply LEAVE_Ok in E5 as ->. injection H as <- <-.
      destruct (FinalizeAlloc_Ok _ _ _ _ _ _ _ _ _ E4 Hm Hlen Hreq) as (Hpos & Hm2 & ->).
      simpl.
      set (off := Z.land _ _).
      assert (0 <= off < 2 ^ 12) as Hoff.
      { apply land_low_bound. apply Z.mod_pos_bound. unfold kPageSize. lia. }
      destruct (page_index_of_block h2 (Blk.m_PageIndex xr) off) as [Hu Hpg];
        [lia|lia|lia|lia|done|].
      rewrite Hu.
      rewrite (page_index_of_base (w_heap w) h2) by done. rewrite Hpg.
      split_and!; try done; try lia. right. split_and!; try (unfold kPageSize in *; lia).
      * right. by exists h2.
      * exists r. by rewrite Hlk, Hlk2.
  - assert (negb (m_BaseAddress (w_heap w) + Blk.m_PageIndex xr * kPageSize =? 0) = true)
      as Hnz.
    { apply negb_true_iff, Z.eqb_neq. unfold kPageSize. lia. }
    rewrite Hnz in H.
    apply bind_Ok in H as [[result vm] [E4 H]].
    apply bind_Ok in H as [h4 [E5 H]]. apply LEAVE_Ok in E5 as ->. injection H as <- <-.
    destruct (FinalizeAlloc_Ok _ _ _ _ _ _ _ _ _ E4 Hm Hlen Hreq) as (Hpos & Hm2 & ->).
    simpl.
    set (off := Z.land _ _).
    assert (0 <= off < 2 ^ 12) as Hoff.
    { apply land_low_bound. apply Z.mod_pos_bound. unfold kPageSize. lia. }
    destruct (page_index_of_block (w_heap w) (Blk.m_PageIndex xr) off) as [Hu Hpg];
      [lia|lia|lia|lia|done|].
    rewrite Hu, Hpg.
    split_and!; try done; try lia. right. split_and!; try (unfold kPageSize in *; lia).
    + by left.
    + by exists r.
Qed.

Lemma DebugHeapFree_Ok w ptr w' :
  DebugHeapFree w ptr = Ok w' ->
  page_index_of (w_heap w) ptr < m_PageCount (w_heap w) /\
  (exists r b,
      m_BlockLookup (w_heap w) !! Z.to_nat (page_index_of (w_heap w) ptr) = Some (Some r) /\
      m_Blocks (w_heap w) !! r = Some b /\
      Blk.m_Allocated b = true /\ Blk.m_PendingFree b = false) /\
  m_BlockLookup (w_heap w') =
    <[Z.to_nat (page_index_of (w_heap w) ptr) := None]> (m_BlockLookup (w_heap w)) /\
  m_PageCount (w_heap w') = m_PageCount (w_heap w) /\
  m_BaseAddress (w_heap w') = m_BaseAddress (w_heap w) /\
  m_ReentrancyGuard (w_heap w') = 0.
Proof.
  intros H. unfold DebugHeapFree in H.
  apply bind_Ok in H as [h0 [E0 H]]. apply ENTER_Ok in E0 as ->.
  apply bind_Ok in H as [[] [Hlt H]]. apply ASSERT_FATAL_Ok, Z.ltb_lt in Hlt.
  apply bind_Ok in H as [block [Hlk H]]. apply arr_get_Ok in Hlk.
  apply bind_Ok in H as [[] [Hnn H]]. apply ASSERT_FATAL_Ok in Hnn.
  destruct block as [r|]; [clear Hnn|done].
  apply bind_Ok in H as [[r0 xr] [Hr H]]. apply deref_Ok in Hr as [[= ->] Hr].
  apply bind_Ok in H as [[] [Ha H]]. apply ASSERT_FATAL_Ok in Ha.
  apply bind_Ok in H as [[] [Hp H]]. apply ASSERT_FATAL_Ok, negb_true_iff in Hp.
  apply bind_Ok in H as [h1 [E1 H]].
  apply update_Ok in E1 as (r1 & xr1 & [= ->] & Hr1 & ->).
  apply bind_Ok in H as [bl [E2 H]]. apply arr_set_Ok in E2 as [Hlen2 ->].
  apply bind_Ok in H as [[r2 xr2] [_ H]].
  apply bind_Ok in H as [[] [_ H]].
  apply bind_Ok in H as [pl [E3 H]]. apply arr_set_Ok in E3 as [Hlen3 ->].
  apply bind_Ok in H as [[r3 xr3] [_ H]].
  apply bind_Ok in H as [vm [E4 H]].
  apply bind_Ok in H as [h5 [E5 H]]. apply LEAVE_Ok in E5 as ->. injection H as <-.
  simpl in *. split_and!; try done. by exists r, xr.
Qed.

Lemma run_op_frame op w r w' ptr :
  WInv w -> run_op op w = Ok (r, w') ->
  m_PageCount (w_heap w') = m_PageCount (w_heap w) /\
  m_BaseAddress (w_heap w') = m_BaseAddress (w_heap w) /\
  m_ReentrancyGuard (w_heap w') = 0 /\
  (m_BlockLookup (w_heap w) !! Z.to_nat (page_index_of (w_heap w) ptr) = Some None ->
   reuses_page (w_heap w) ptr r = false ->
   m_BlockLookup (w_heap w') !! Z.to_nat (page_index_of (w_heap w) ptr) = Some None).
Proof.
  intros HW H. destruct op; simpl in H;
    apply bind_Ok in H as [a [E H]]; destruct_pairs; injection H as <- <-.
  - destruct (DebugHeapAllocate_Ok _ _ _ _ _ HW E) as (HP & HB & HG & _ & Hcase).
    split_and!; try done. intros Hlk Hre. simpl in Hre.
    destruct Hcase as [(-> & _ & _ & _ & hf & Hfl & _ & ->)|(Hnz & _ & Hpi & r & ->)].
    + destruct HW as ([l HI] & _).
      apply (InvK_set_guard _ _ _ 1) in HI.
      destruct (FlushPendingFrees_inv _ _ _ HI Hfl) as (_ & _ & Hlk2 & _).
      simpl in *. by rewrite Hlk2.
    + apply Z.eqb_neq in Hnz. rewrite Hnz in Hre. simpl in Hre. apply Z.eqb_neq in Hre.
      rewrite list_lookup_insert_ne; [done|].
      unfold page_index_of, u32 in *.
      pose proof (Z.mod_pos_bound (u64 (ptr - m_BaseAddress (w_heap w)) / kPageSize) (2 ^ 32)).
      lia.
  - destruct (DebugHeapFree_Ok _ _ _ E) as (_ & _ & -> & HP & HB & HG).
    split_and!; try done. intros Hlk _.
    destruct (decide (Z.to_nat (page_index_of (w_heap w) ptr0) =
                      Z.to_nat (page_index_of (w_heap w) ptr))) as [->|Hne].
    + apply list_lookup_insert_eq. by eapply lookup_lt_Some.
    + by rewrite list_lookup_insert_ne.
  - unfold DebugHeapGetAllocSize in E.
    apply bind_Ok in E as [h0 [E0 E]]. apply ENTER_Ok in E0 as ->.
    run_inv E.
    match goal with E : DEBUG_THREAD_GUARD_LEAVE _ = Ok _ |- _ => apply LEAVE_Ok in E as -> end.
    injection E as <- <-. done.
  - unfold DebugHeapOwns in E.
    apply bind_Ok in E as [h0 [E0 E]]. apply ENTER_Ok in E0 as ->.
    apply bind_Ok in E as [h1 [E1 E]]. apply LEAVE_Ok in E1 as ->.
    injection E as <- <-. done.
Qed.

Lemma forallb_pointwise {A} (f g : A -> bool) (l : list A) :
  (forall x, f x = g x) -> forallb f l = forallb g l.
Proof. intros Hfg. induction l as [|x l IH]; simpl; [done|]. by rewrite Hfg, IH. Qed.

Lemma run_ops_frame ops w rs w' ptr :
  WInv w -> run_ops ops w = Ok (rs, w') ->
  m_ReentrancyGuard (w_heap w) = 0 ->
  m_BlockLookup (w_heap w) !! Z.to_nat (page_index_of (w_heap w) ptr) = Some None ->
  forallb (fun r => negb (reuses_page (w_heap w) ptr r)) rs = true ->
  m_PageCount (w_heap w') = m_PageCount (w_heap w) /\
  m_BaseAddress (w_heap w') = m_BaseAddress (w_heap w) /\
  m_ReentrancyGuard (w_heap w') = 0 /\
  m_BlockLookup (w_heap w') !! Z.to_nat (page_index_of (w_heap w) ptr) = Some None.
Proof.
  revert w rs. induction ops as [|op ops IH]; intros w rs HW H HG Hlk Hall; simpl in H.
  - by injection H as <- <-.
  - apply bind_Ok in H as [[r w1] [E1 H]].
    apply bind_Ok in H as [[rs1 w2] [E2 H]]. injection H as <- <-.
    simpl in Hall. apply andb_true_iff in Hall as [Hr Hall]. apply negb_true_iff in Hr.
    destruct (run_op_frame _ _ _ _ ptr HW E1) as (HP & HB & HG1 & Hlk1).
    specialize (Hlk1 Hlk Hr).
    assert (forall q, page_index_of (w_heap w1) q = page_index_of (w_heap w) q) as Hpg.
    { intros q. by apply page_index_of_base. }
    destruct (IH w1 rs1 (run_op_inv _ _ _ _ HW E1) E2 HG1) as (HP2 & HB2 & HG2 & Hlk2).
    + by rewrite Hpg.
    + rewrite <- Hall. apply forallb_pointwise. intros x. unfold reuses_page.
      destruct x; try done. by rewrite !Hpg.
    + rewrite Hpg in Hlk2. split_and!; try done; congruence.
Qed.

(* ===================================================================== *)
(** * Double free and the missing null check                             *)
(* ===================================================================== *)

Lemma ENTER_idle h :
  m_ReentrancyGuard h = 0 -> DEBUG_THREAD_GUARD_ENTER h = Ok (set_ReentrancyGuard 1 h).
Proof. intros Hg. unfold DEBUG_THREAD_GUARD_ENTER, AtomicInc32. by rewrite Hg. Qed.

Lemma DebugHeapFree_null_entry w ptr :
  m_ReentrancyGuard (w_heap w) = 0 ->
  page_index_of (w_heap w) ptr < m_PageCount (w_heap w) ->
  m_BlockLookup (w_heap w) !! Z.to_nat (page_index_of (w_heap w) ptr) = Some None ->
  DebugHeapFree w ptr = Err (AssertFatal "Double free of %p").
Proof.
  intros Hg Hlt Hlk. unfold DebugHeapFree. rewrite (ENTER_idle _ Hg). simpl.
  change (page_index_of (set_ReentrancyGuard 1 (w_heap w)) ptr)
    with (page_index_of (w_heap w) ptr).
  apply Z.ltb_lt in Hlt. rewrite Hlt. simpl. unfold arr_get. by rewrite Hlk.
Qed.

Lemma DebugHeapGetAllocSize_null_entry w ptr :
  m_ReentrancyGuard (w_heap w) = 0 ->
  page_index_of (w_heap w) ptr < m_PageCount (w_heap w) ->
  m_BlockLookup (w_heap w) !! Z.to_nat (page_index_of (w_heap w) ptr) = Some None ->
  DebugHeapGetAllocSize w ptr = Err NullDeref.
Proof.
  intros Hg Hlt Hlk. unfold DebugHeapGetAllocSize. rewrite (ENTER_idle _ Hg). simpl.
  change (page_index_of (set_ReentrancyGuard 1 (w_heap w)) ptr)
    with (page_index_of (w_heap w) ptr).
  apply Z.ltb_lt in Hlt. rewrite Hlt. simpl. unfold arr_get. by rewrite Hlk.
Qed.

Lemma DebugHeapFree_bad_state w ptr r b :
  m_ReentrancyGuard (w_heap w) = 0 ->
  page_index_of (w_heap w) ptr < m_PageCount (w_heap w) ->
  m_BlockLookup (w_heap w) !! Z.to_nat (page_index_of (w_heap w) ptr) = Some (Some r) ->
  m_Blocks (w_heap w) !! r = Some b ->
  Blk.m_Allocated b = false \/ Blk.m_PendingFree b = true ->
  DebugHeapFree w ptr = Err (AssertFatal "Block state corrupted").
Proof.
  intros Hg Hlt Hlk Hb Hst. unfold DebugHeapFree. rewrite (ENTER_idle _ Hg). simpl.
  change (page_index_of (set_ReentrancyGuard 1 (w_heap w)) ptr)
    with (page_index_of (w_heap w) ptr).
  apply Z.ltb_lt in Hlt. rewrite Hlt. simpl. unfold arr_get. rewrite Hlk. simpl.
  rewrite Hb. simpl. destruct (Blk.m_Allocated b); [|done]. simpl.
  destruct Hst as [Hst| ->]; done.
Qed.

(** C9 (double-free detection): on a heap made by DebugHeapInit (for a
    budget below 2^43 bytes, in a range the kernel places in the lower
    half of the address space) and used through the public operations, a
    successful DebugHeapFree of [ptr]
    found the block of its page Allocated and not PendingFree and leaves
    the lookup entry of that page null; after any further operations none
    of which returns a pointer into that page, a second DebugHeapFree of
    [ptr] stops at the fatal assertion [Double free of %p].  Moreover a
    DebugHeapFree whose block is not Allocated, or is PendingFree, stops
    at the fatal assertion [Block state corrupted]. *)
Theorem double_free_detected (os_range mem_size_bytes : Z) (ops1 ops2 : list Op)
    (w0 w1 w2 w3 : World) (rs1 rs2 : list Ret) (ptr : Z) :
  0 <= mem_size_bytes < 2 ^ 43 -> 0 <= os_range < 2 ^ 63 ->
  DebugHeapInit os_range mem_size_bytes = Ok (Some w0) ->
  run_ops ops1 w0 = Ok (rs1, w1) ->
  DebugHeapFree w1 ptr = Ok w2 ->
  run_ops ops2 w2 = Ok (rs2, w3) ->
  forallb (fun r => negb (reuses_page (w_heap w1) ptr r)) rs2 = true ->
  (exists r b,
      m_BlockLookup (w_heap w1) !! Z.to_nat (page_index_of (w_heap w1) ptr) = Some (Some r) /\
      m_Blocks (w_heap w1) !! r = Some b /\
      Blk.m_Allocated b = true /\ Blk.m_PendingFree b = false) /\
  m_BlockLookup (w_heap w2) !! Z.to_nat (page_index_of (w_heap w1) ptr) = Some None /\
  DebugHeapFree w3 ptr = Err (AssertFatal "Double free of %p") /\
  (forall w r b,
      m_ReentrancyGuard (w_heap w) = 0 ->
      page_index_of (w_heap w) ptr < m_PageCount (w_heap w) ->
      m_BlockLookup (w_heap w) !! Z.to_nat (page_index_of (w_heap w) ptr) = Some (Some r) ->
      m_Blocks (w_heap w) !! r = Some b ->
      Blk.m_Allocated b = false \/ Blk.m_PendingFree b = true ->
      DebugHeapFree w ptr = Err (AssertFatal "Block state corrupted")).
Proof.
  intros Hmem Hos Hinit Hrun1 Hfree Hrun2 Hall.
  pose proof (DebugHeapInit_inv _ _ _ Hinit Hmem Hos) as HW0.
  pose proof (run_ops_inv _ _ _ _ HW0 Hrun1) as HW1.
  pose proof (DebugHeapFree_inv _ _ _ HW1 Hfree) as HW2.
  destruct (DebugHeapFree_Ok _ _ _ Hfree) as (Hlt & (r & b & Hlk & Hb & Ha & Hp) & Hlk2 & HP & HB & HG).
  assert (forall q, page_index_of (w_heap w2) q = page_index_of (w_heap w1) q) as Hpg.
  { intros q. by apply page_index_of_base. }
  assert (m_BlockLookup (w_heap w2) !! Z.to_nat (page_index_of (w_heap w1) ptr) = Some None)
    as Hnull.
  { rewrite Hlk2. apply list_lookup_insert_eq. by eapply lookup_lt_Some. }
  split; [by exists r, b|]. split; [done|]. split.
  - destruct (run_ops_frame ops2 w2 rs2 w3 ptr HW2 Hrun2 HG) as (HP3 & HB3 & HG3 & Hlk3).
    + by rewrite Hpg.
    + rewrite <- Hall. apply forallb_pointwise. intros x. unfold reuses_page.
      destruct x; try done. by rewrite !Hpg.
    + assert (page_index_of (w_heap w3) ptr = page_index_of (w_heap w1) ptr) as Hpg3.
      { rewrite <- Hpg. by apply page_index_of_base. }
      apply DebugHeapFree_null_entry; [done| |].
      * rewrite Hpg3, HP3, HP. done.
      * rewrite Hpg3, <- Hpg. done.
  - intros w r' b'. apply DebugHeapFree_bad_state.
Qed.

(** A run of C9: an allocation of 128 bytes is freed twice, with an
    unrelated allocation between the two frees. *)
Lemma double_free_detected_witness :
  exists w0 rs1 w1 w2 rs2 w3,
    DebugHeapInit 65536 32768 = Ok (Some w0) /\
    run_ops [OpAllocate 128 4] w0 = Ok (rs1, w1) /\
    DebugHeapFree w1 73600 = Ok w2 /\
    run_ops [OpAllocate 1 1; OpOwns 73600] w2 = Ok (rs2, w3) /\
    m_BlockLookup (w_heap w2) !! Z.to_nat (page_index_of (w_heap w1) 73600) = Some None /\
    DebugHeapFree w3 73600 = Err (AssertFatal "Double free of %p").
Proof.
  eexists _, _, _, _, _, _.
  split; [vm_compute; reflexivity|].
  split; [vm_compute; reflexivity|].
  split; [vm_compute; reflexivity|].
  split; [vm_compute; reflexivity|].
  refine (let H := double_free_detected 65536 32768 [OpAllocate 128 4]
                     [OpAllocate 1 1; OpOwns 73600] _ _ _ _ _ _ 73600 _ _ _ _ _ _ _ in
          conj (proj1 (proj2 H)) (proj1 (proj2 (proj2 H))));
    [lia|lia|vm_compute; reflexivity..].
Defined.

(** C10 (no null check in DebugHeapGetAllocSize): on a heap that is not
    inside another call (the reentrancy guard is 0), for a pointer whose
    page index is below [m_PageCount] but whose lookup entry is null,
    DebugHeapGetAllocSize reads [m_PageCount] through the null block
    pointer, where DebugHeapFree stops at its fatal assertion. *)
Theorem GetAllocSize_reads_null_block (w : World) (ptr : Z) :
  m_ReentrancyGuard (w_heap w) = 0 ->
  page_index_of (w_heap w) ptr < m_PageCount (w_heap w) ->
  m_BlockLookup (w_heap w) !! Z.to_nat (page_index_of (w_heap w) ptr) = Some None ->
  DebugHeapGetAllocSize w ptr = Err NullDeref /\
  DebugHeapFree w ptr = Err (AssertFatal "Double free of %p").
Proof.
  intros Hg Hlt Hlk. split.
  - by apply DebugHeapGetAllocSize_null_entry.
  - by apply DebugHeapFree_null_entry.
Qed.

(** A run of C10: the size of an allocation is asked for after it was
    freed. *)
Lemma GetAllocSize_reads_null_block_witness :
  exists w,
    final_world 65536 32768 [OpAllocate 128 4; OpFree 73600] = Some w /\
    DebugHeapGetAllocSize w 73600 = Err NullDeref /\
    DebugHeapFree w 73600 = Err (AssertFatal "Double free of %p").
Proof.
  eexists. split; [vm_compute; reflexivity|].
  apply GetAllocSize_reads_null_block; vm_compute; reflexivity.
Defined.

(* ===================================================================== *)
(** * Best fit                                                           *)
(* ===================================================================== *)

(** C5 (best fit): when AllocFromFreeList hands out a block for a request
    of [page_req] pages, that block sat on the free list at an index
    [idx] below [m_FreeListSize], has at least [page_req] pages, and every
    free-list block with at least [page_req] pages has at least as many
    pages as it; those with exactly as many sit at indices not below
    [idx].  The block handed out is that record: it is marked Allocated,
    entered in the lookup table at its page index, and the pointer
    returned is the address of its first page. *)
Theorem best_fit (h h' : DebugHeap) (page_req ptr : Z) :
  AllocFromFreeList h page_req = Ok (ptr, h') -> ptr <> 0 ->
  exists idx r b b',
    0 <= idx < m_FreeListSize h /\
    m_FreeList h !! Z.to_nat idx = Some (Some r) /\
    m_Blocks h !! r = Some b /\
    page_req <= Blk.m_PageCount b /\
    (forall j r' c,
        0 <= j < m_FreeListSize h ->
        m_FreeList h !! Z.to_nat j = Some (Some r') ->
        m_Blocks h !! r' = Some c ->
        page_req <= Blk.m_PageCount c ->
        Blk.m_PageCount b <= Blk.m_PageCount c /\
        (Blk.m_PageCount c = Blk.m_PageCount b -> idx <= j)) /\
    m_Blocks h' !! r = Some b' /\
    Blk.m_Allocated b' = true /\
    Blk.m_PageIndex b' = Blk.m_PageIndex b /\
    m_BlockLookup h' !! Z.to_nat (Blk.m_PageIndex b) = Some (Some r) /\
    ptr = u64 (m_BaseAddress h + Blk.m_PageIndex b * kPageSize).
Proof.
  intros H Hnz.
  destruct (AllocFromFreeList_Ok _ _ _ _ H) as (best & size & idx & Hscan & Hbest).
  apply scan_free_list_spec in Hscan.
  destruct best as [r|]; [|by destruct Hbest as [-> _]].
  destruct Hscan as [Hall (Hidx & Hfl & b & Hb & _ & Hpc & Hreq)].
  destruct Hbest as (xr & xr' & Hxr & Hxr' & Hfl' & Hpi & _ & Hlk & Hlk' & Hptr & _).
  rewrite Hb in Hxr. injection Hxr as <-.
  assert (0 <= idx < m_FreeListSize h) as Hidx' by lia.
  exists idx, r, b, xr'. split_and!; try done; try lia.
  - intros j r' c Hj Hflj Hc Hreqc.
    destruct (Hall j r' c) as [Hle Htie]; [lia|done|done|done|].
    split; [lia|]. intros Heq. apply Htie; [lia|done].
  - unfold flags in Hfl'. congruence.
  - rewrite Hlk'. apply list_lookup_insert_eq. by eapply lookup_lt_Some.
Qed.

(** A run of C5: the free list holds blocks of 7, 3 and 2 pages, in that
    order, and two pages are asked for. *)
Lemma best_fit_witness :
  exists w ptr h',
    final_world 65536 65536 best_fit_ops = Some w /\
    AllocFromFreeList (w_heap w) 2 = Ok (ptr, h') /\ ptr = 90112 /\
    exists idx r b b',
      0 <= idx < m_FreeListSize (w_heap w) /\
      m_FreeList (w_heap w) !! Z.to_nat idx = Some (Some r) /\
      m_Blocks (w_heap w) !! r = Some b /\
      2 <= Blk.m_PageCount b /\
      (forall j r' c,
          0 <= j < m_FreeListSize (w_heap w) ->
          m_FreeList (w_heap w) !! Z.to_nat j = Some (Some r') ->
          m_Blocks (w_heap w) !! r' = Some c ->
          2 <= Blk.m_PageCount c ->
          Blk.m_PageCount b <= Blk.m_PageCount c /\
          (Blk.m_PageCount c = Blk.m_PageCount b -> idx <= j)) /\
      m_Blocks h' !! r = Some b' /\
      Blk.m_Allocated b' = true /\
      Blk.m_PageIndex b' = Blk.m_PageIndex b /\
      m_BlockLookup h' !! Z.to_nat (Blk.m_PageIndex b) = Some (Some r) /\
      ptr = u64 (m_BaseAddress (w_heap w) + Blk.m_PageIndex b * kPageSize).
Proof.
  eexists _, _, _.
  split; [vm_compute; reflexivity|].
  split; [vm_compute; reflexivity|].
  split; [reflexivity|].
  apply best_fit; [vm_compute; reflexivity|discriminate].
Defined.

(* ===================================================================== *)
(** * Allocation failure                                                 *)
(* ===================================================================== *)

(** Against C4 as stated, a failed allocation is observable: on the
    same heap, the allocation of one byte returns one pointer when it is
    made directly and another when a request that fails is made first. *)
Lemma failed_allocate_changes_heap :
  exists w w' w1 w2,
    final_world 65536 32768 pending_ops = Some w /\
    DebugHeapAllocate w 40000 1 = Ok (0, w') /\
    DebugHeapAllocate w 1 1 = Ok (90111, w1) /\
    DebugHeapAllocate w' 1 1 = Ok (73727, w2) /\
    m_PendingListSize (w_heap w) = 1 /\ m_PendingListSize (w_heap w') = 0 /\
    m_FreeListSize (w_heap w) = 1 /\ m_FreeListSize (w_heap w') = 2.
Proof.
  eexists _, _, _, _.
  split; [vm_compute; reflexivity|].
  split; [vm_compute; reflexivity|].
  split; [vm_compute; reflexivity|].
  split; [vm_compute; reflexivity|].
  vm_compute. done.
Qed.

(** For a request of at most 2^44 - 8192 bytes, the page count that
    DebugHeapAllocate computes in 32 bits is the number of pages the
    request needs. *)
Lemma page_requirement_exact (size : Z) :
  0 <= size <= 2 ^ 44 - 8192 -> page_requirement size = pages_needed size.
Proof.
  intros Hsize. unfold page_requirement, pages_needed, kPageSize.
  rewrite (u64_small (size + 4096 - 1)) by lia.
  assert (0 <= (size + 4096 - 1) / 4096 < 2 ^ 32 - 1) as Hq.
  { split; [apply Z.div_pos; lia|]. apply Z.div_lt_upper_bound; lia. }
  rewrite (u32_small ((size + 4096 - 1) / 4096)) by lia.
  apply u32_small. lia.
Qed.

(** C4, amended: on a heap made by DebugHeapInit (for a budget below
    2^43 bytes, in a range the kernel places in the lower half of the
    address space) and used through the public operations, for a request
    of at most 2^44 - 8192 bytes (the largest whose page count is not
    cut by the 32 bits it is computed in), a call of DebugHeapAllocate
    that returns, returns null exactly when no free-list block has the
    pages the request needs, those that hold its bytes and one guard
    page, before the pending-free list is flushed, and none has them
    after the flush.  When it returns null the heap is left
    as the flush made it, with the guard released: the pending list is
    empty, and the lookup table, the page count, the base address and
    the state of the virtual memory are those from before the call. *)
Theorem allocate_null_iff (os_range mem_size_bytes : Z) (ops : list Op)
    (w0 w w' : World) (rs : list Ret) (size alignment p : Z) :
  0 <= mem_size_bytes < 2 ^ 43 -> 0 <= os_range < 2 ^ 63 ->
  DebugHeapInit os_range mem_size_bytes = Ok (Some w0) ->
  run_ops ops w0 = Ok (rs, w) ->
  0 <= size <= 2 ^ 44 - 8192 ->
  DebugHeapAllocate w size alignment = Ok (p, w') ->
  (p = 0 <->
   ~ fits (w_heap w) (pages_needed size) /\
   exists hf, FlushPendingFrees (set_ReentrancyGuard 1 (w_heap w)) = Ok hf /\
              ~ fits hf (pages_needed size)) /\
  (p = 0 ->
   exists hf, FlushPendingFrees (set_ReentrancyGuard 1 (w_heap w)) = Ok hf /\
              w_heap w' = set_ReentrancyGuard 0 hf /\
              w_vm w' = w_vm w /\ w_self w' = w_self w /\
              m_PendingListSize (w_heap w') = 0 /\
              m_BlockLookup (w_heap w') = m_BlockLookup (w_heap w) /\
              m_PageCount (w_heap w') = m_PageCount (w_heap w) /\
              m_BaseAddress (w_heap w') = m_BaseAddress (w_heap w)).
Proof.
  intros Hmem Hos Hinit Hrun Hsize Halloc.
  pose proof (DebugHeapInit_inv _ _ _ Hinit Hmem Hos) as HW0.
  pose proof (run_ops_inv _ _ _ _ HW0 Hrun) as HW.
  destruct (DebugHeapAllocate_Ok _ _ _ _ _ HW Halloc) as (HP & HB & HG & _ & Hcase).
  rewrite (page_requirement_exact size Hsize) in Hcase.
  destruct Hcase as [(-> & Hnf & Hvm & Hself & hf & Hfl & Hnf2 & Hh)|(Hnz & Hf & _)].
  - split.
    + split; [intros _|done]. split; [done|]. by exists hf.
    + intros _. exists hf. split_and!; try done.
      * destruct HW as ([l HI] & _). apply (InvK_set_guard _ _ _ 1) in HI.
        destruct (FlushPendingFrees_inv _ _ _ HI Hfl) as (_ & HnP & _).
        by rewrite Hh.
      * destruct HW as ([l HI] & _). apply (InvK_set_guard _ _ _ 1) in HI.
        destruct (FlushPendingFrees_inv _ _ _ HI Hfl) as (_ & _ & Hlk & _).
        by rewrite Hh.
  - split; [|done]. split; [done|]. intros [Hnf (hf & Hfl & Hnf2)].
    destruct Hf as [Hf|(hf' & Hfl' & Hf)]; [done|].
    rewrite Hfl in Hfl'. by injection Hfl' as <-.
Qed.

(** A run of C4, amended: a request for 40000 bytes on a heap of eight
    pages. *)
Lemma allocate_null_iff_witness :
  exists w0 rs w w',
    DebugHeapInit 65536 32768 = Ok (Some w0) /\
    run_ops pending_ops w0 = Ok (rs, w) /\
    DebugHeapAllocate w 40000 1 = Ok (0, w') /\
    exists hf, FlushPendingFrees (set_ReentrancyGuard 1 (w_heap w)) = Ok hf /\
               w_heap w' = set_ReentrancyGuard 0 hf /\
               w_vm w' = w_vm w /\ w_self w' = w_self w /\
               m_PendingListSize (w_heap w') = 0 /\
               m_BlockLookup (w_heap w') = m_BlockLookup (w_heap w) /\
               m_PageCount (w_heap w') = m_PageCount (w_heap w) /\
               m_BaseAddress (w_heap w') = m_BaseAddress (w_heap w).
Proof.
  eexists _, _, _, _.
  split; [vm_compute; reflexivity|].
  split; [vm_compute; reflexivity|].
  split; [vm_compute; reflexivity|].
  refine (proj2 (allocate_null_iff 65536 32768 pending_ops _ _ _ _ 40000 1 0 _ _ _ _ _ _)
            eq_refl);
    [lia|lia|vm_compute; reflexivity|vm_compute; reflexivity|lia|vm_compute; reflexivity].
Defined.

(* ===================================================================== *)
(** * Coalescing within one flush                                        *)
(* ===================================================================== *)



Lemma pages_kept_refl ex bl : pages_kept ex bl bl.
Proof. intros q x _ Hx. by exists x. Qed.








(* ===================================================================== *)
(** * DebugHeapDestroy                                                   *)
(* ===================================================================== *)

(** C1 (DebugHeapDestroy): for every heap made by DebugHeapInit (for a
    budget below 2^43 bytes), the size DebugHeapDestroy passes to VmFree
    is the user page count times the page size, which is at least one
    page short of the size that was reserved: the end of the reservation
    stays mapped. *)
Theorem destroy_releases_less_than_reserved (os_range mem_size_bytes : Z)
    (w : World) (vm : Vm) :
  0 <= mem_size_bytes < 2 ^ 43 ->
  DebugHeapInit os_range mem_size_bytes = Ok (Some w) ->
  DebugHeapDestroy w = Ok vm ->
  exists reserved released,
    vm_mapped (w_vm w) = Some (os_range, reserved) /\
    reserved =
      (bookkeeping_pages_of (mem_size_bytes / kPageSize) + mem_size_bytes / kPageSize)
      * kPageSize /\
    vm_trace vm = CallVmFree os_range released :: vm_trace (w_vm w) /\
    released = u32 (m_PageCount (w_heap w) * kPageSize) /\
    released + kPageSize <= reserved /\
    vm_mapped vm = Some (os_range + released, reserved - released).
Proof.
  intros Hmem Hinit Hd.
  destruct (DebugHeapInit_Ok _ _ _ Hinit Hmem)
    as (HP0 & Hos & Hself & Hm & HP & _).
  set (P := mem_size_bytes / kPageSize) in *.
  assert (0 < P < 2 ^ 31) as HPr.
  { split; [done|]. unfold P, kPageSize. apply Z.div_lt_upper_bound; lia. }
  pose proof (bookkeeping_pages_range P ltac:(lia)) as HB.
  set (B := bookkeeping_pages_of P) in *.
  unfold DebugHeapDestroy, VmFree in Hd.
  apply bind_Ok in Hd as [[] [Ha Hd]]. apply ASSERT_FATAL_Ok in Ha.
  injection Hd as <-. simpl.
  rewrite Hself, Hm, HP, Z.eqb_refl. simpl.
  assert (u32 (P * kPageSize) + kPageSize <= (B + P) * kPageSize) as Hlt.
  { unfold u32, kPageSize.
    pose proof (Z.mod_le (P * 4096) (2 ^ 32) ltac:(lia) ltac:(lia)). lia. }
  exists ((B + P) * kPageSize), (u32 (P * kPageSize)).
  split_and!; try done.
  destruct ((B + P) * kPageSize <=? u32 (P * kPageSize)) eqn:Hle; [|done].
  apply Z.leb_le in Hle. unfold kPageSize in *. lia.
Qed.

(** A run of C1: a heap of 512 pages reserves 519 pages at 65536;
    DebugHeapDestroy releases the first 512 of them and the last 7 stay
    mapped. *)
Lemma destroy_releases_less_than_reserved_witness :
  exists w vm,
    DebugHeapInit 65536 2097152 = Ok (Some w) /\
    DebugHeapDestroy w = Ok vm /\
    vm_mapped (w_vm w) = Some (65536, 2125824) /\
    vm_trace vm = CallVmFree 65536 2097152 :: vm_trace (w_vm w) /\
    vm_mapped vm = Some (2162688, 28672) /\
    exists reserved released,
      vm_mapped (w_vm w) = Some (65536, reserved) /\
      reserved = (bookkeeping_pages_of (2097152 / kPageSize) + 2097152 / kPageSize)
                 * kPageSize /\
      vm_trace vm = CallVmFree 65536 released :: vm_trace (w_vm w) /\
      released = u32 (m_PageCount (w_heap w) * kPageSize) /\
      released + kPageSize <= reserved /\
      vm_mapped vm = Some (65536 + released, reserved - released).
Proof.
  eexists _, _.
  split; [vm_compute; reflexivity|].
  split; [vm_compute; reflexivity|].
  split; [vm_compute; reflexivity|].
  split; [vm_compute; reflexivity|].
  split; [vm_compute; reflexivity|].
  apply (destroy_releases_less_than_reserved 65536 2097152);
    [lia|vm_compute; reflexivity..].
Defined.

(* ===================================================================== *)
(** * The pool of block records                                          *)
(* ===================================================================== *)

(** C3 (the pool of block records): the pool runs out.  A heap of eight
    pages links four records; after the four operations of [demo_ops]
    all four are in use and the list of unused records is empty, so the
    next allocation, which has to split a free block of three pages,
    dereferences the null head of that list in AllocBlockInfo.  On a
    heap of three pages the very first allocation does. *)
Theorem block_record_pool_runs_out :
  (exists w0 w,
      DebugHeapInit 65536 32768 = Ok (Some w0) /\
      m_MaxAllocs (w_heap w0) = 4 /\
      final_world 65536 32768 demo_ops = Some w /\
      m_FirstUnusedBlockInfo (w_heap w) = None /\
      AllocBlockInfo (w_heap w) = Err NullDeref /\
      DebugHeapAllocate w 1 1 = Err NullDeref /\
      run_ops (demo_ops ++ [OpAllocate 1 1]) w0 = Err NullDeref) /\
  (exists w0,
      DebugHeapInit 65536 12288 = Ok (Some w0) /\
      m_MaxAllocs (w_heap w0) = 1 /\
      m_FirstUnusedBlockInfo (w_heap w0) = None /\
      DebugHeapAllocate w0 1 1 = Err NullDeref).
Proof.
  split.
  - eexists _, _.
    split; [vm_compute; reflexivity|].
    split; [vm_compute; reflexivity|].
    split; [vm_compute; reflexivity|].
    split; [vm_compute; reflexivity|].
    split; [vm_compute; reflexivity|].
    split; vm_compute; reflexivity.
  - eexists.
    split; [vm_compute; reflexivity|].
    split; [vm_compute; reflexivity|].
    split; vm_compute; reflexivity.
Qed.

(* ===================================================================== *)
(** * Requests beyond 32-bit page counts and page-size alignments        *)
(* ===================================================================== *)

(** C6 (DebugHeapGetAllocSize): a request whose page count does not fit
    32 bits is served from a block that is too small.  On a heap of
    eight pages DebugHeapAllocate of 2^44 bytes returns the base address,
    on a block of one page, and DebugHeapGetAllocSize of that pointer is
    0, which is below the size asked for. *)
Theorem alloc_size_below_request :
  exists w0 w1 w2 b,
    DebugHeapInit 65536 32768 = Ok (Some w0) /\
    page_requirement (2 ^ 44) = 1 /\
    DebugHeapAllocate w0 (2 ^ 44) 1 = Ok (69632, w1) /\
    m_BlockLookup (w_heap w1) !! Z.to_nat (page_index_of (w_heap w1) 69632) = Some (Some 0%nat) /\
    m_Blocks (w_heap w1) !! 0%nat = Some b /\ Blk.m_PageCount b = 1 /\
    DebugHeapGetAllocSize w1 69632 = Ok (0, w2) /\
    0 = (Blk.m_PageCount b - 1) * 4096 - 69632 mod 4096 /\
    ~ (2 ^ 44 <= 0).
Proof.
  eexists _, _, _, _.
  split; [vm_compute; reflexivity|].
  split; [vm_compute; reflexivity|].
  split; [vm_compute; reflexivity|].
  split; [vm_compute; reflexivity|].
  split; [vm_compute; reflexivity|].
  split; [vm_compute; reflexivity|].
  split; [vm_compute; reflexivity|].
  split; [vm_compute; reflexivity|]. lia.
Qed.

(** C7 (pointer placement): an alignment above the page size is not
    honoured.  With the heap based at 69632, DebugHeapAllocate of one
    byte aligned to 8192 returns 69632; with the heap based at 65536,
    after an allocation of three pages, it returns 77824.  Neither is
    divisible by 8192, although both follow the placement formula, whose
    offset is 0 here. *)
Theorem alignment_above_page_not_honoured :
  (exists w0 w1,
      DebugHeapInit 65536 32768 = Ok (Some w0) /\
      m_BaseAddress (w_heap w0) = 69632 /\
      DebugHeapAllocate w0 1 8192 = Ok (69632, w1) /\
      Z.land ((4096 - 1) mod 4096) (Z.lnot (8192 - 1)) = 0 /\
      69632 mod 8192 = 4096) /\
  (exists w0 w1 w2,
      DebugHeapInit 61440 32768 = Ok (Some w0) /\
      m_BaseAddress (w_heap w0) = 65536 /\
      DebugHeapAllocate w0 4097 1 = Ok (69631, w1) /\
      DebugHeapAllocate w1 1 8192 = Ok (77824, w2) /\
      77824 = 65536 + 3 * 4096 + Z.land ((4096 - 1) mod 4096) (Z.lnot (8192 - 1)) /\
      77824 mod 8192 = 4096).
Proof.
  split.
  - eexists _, _.
    split; [vm_compute; reflexivity|].
    split; [vm_compute; reflexivity|].
    split; [vm_compute; reflexivity|].
    split; vm_compute; reflexivity.
  - eexists _, _, _.
    split; [vm_compute; reflexivity|].
    split; [vm_compute; reflexivity|].
    split; [vm_compute; reflexivity|].
    split; [vm_compute; reflexivity|].
    split; vm_compute; reflexivity.
Qed.

(* ===================================================================== *)
(** * The extent of pointer placement and of the capacity bound          *)
(* ===================================================================== *)

Lemma land_split x m : 0 <= x -> x = Z.ldiff x m + Z.land x m.
Proof.
  intros Hx.
  assert (Z.ldiff (Z.land x m) x = 0) as H0.
  { apply Z.bits_inj'. intros n Hn.
    rewrite Z.ldiff_spec, Z.land_spec, Z.bits_0.
    destruct (Z.testbit x n), (Z.testbit m n); done. }
  apply Z.sub_nocarry_ldiff in H0.
  assert (Z.ldiff x (Z.land x m) = Z.ldiff x m) as H1.
  { apply Z.bits_inj'. intros n Hn.
    rewrite !Z.ldiff_spec, Z.land_spec.
    destruct (Z.testbit x n), (Z.testbit m n); done. }
  lia.
Qed.

Lemma land_le_r x m : 0 <= x -> 0 <= m -> 0 <= Z.land x m <= m.
Proof.
  intros Hx Hm. split; [apply Z.land_nonneg; lia|].
  pose proof (land_split m x Hm) as H. rewrite (Z.land_comm m x) in H.
  assert (0 <= Z.ldiff m x) by (apply Z.ldiff_nonneg; lia). lia.
Qed.

Lemma land_not32 x m : 0 <= x < 2 ^ 32 -> Z.land x (not32 m) = x - Z.land x m.
Proof.
  intros Hx. unfold not32, u32.
  rewrite <- Z.land_ones by lia.
  rewrite (Z.land_comm (Z.lnot m)), Z.land_assoc.
  rewrite (Z.land_ones x) by lia. rewrite Z.mod_small by lia.
  rewrite <- Z.ldiff_land. pose proof (land_split x m ltac:(lia)). lia.
Qed.
Lemma AllocFromFreeList_block k l h page_req ptr h' :
  InvK k l h -> 0 <= page_req ->
  AllocFromFreeList h page_req = Ok (ptr, h') -> ptr <> 0 ->
  exists r b,
    m_Blocks h' !! r = Some b /\ Blk.m_PageCount b = page_req /\
    0 <= Blk.m_PageIndex b < m_PageCount h /\
    m_BlockLookup h' !! Z.to_nat (Blk.m_PageIndex b) = Some (Some r) /\
    ptr = u64 (m_BaseAddress h + Blk.m_PageIndex b * kPageSize).
Proof.
  intros HI Hreq H Hnz.
  destruct (AllocFromFreeList_Ok _ _ _ _ H) as (best & size & idx & Hscan & Hbest).
  apply scan_free_list_spec in Hscan.
  destruct best as [r|]; [|by destruct Hbest as [-> _]].
  destruct Hscan as [_ (Hidx & Hfl & b & Hb & _ & Hpc & Hle)].
  destruct Hbest as (xr & xr' & Hxr & Hxr' & _ & Hpi & Hpc' & Hlk & Hlk' & Hptr & _).
  rewrite Hb in Hxr. injection Hxr as <-.
  destruct (inv_free _ _ _ HI) as [HF _].
  destruct (HF (Z.to_nat idx) (Some r)) as (r0 & [= <-] & Hrl & _); [lia|done|].
  destruct (InvK_block_range _ _ _ _ _ HI Hrl Hb) as (Hpi0 & Hpc0 & Hend & HP31).
  exists r, xr'. rewrite Hpi. split_and!; try done; try lia.
  - rewrite Hpc'. rewrite (u64_small (size - page_req)) by lia.
    rewrite (u32_small (size - page_req)) by lia.
    destruct (0 <? size - page_req) eqn:Hlt.
    + rewrite u32_small by lia. apply u31_small. lia.
    + apply Z.ltb_ge in Hlt. lia.
  - rewrite Hlk'. apply list_lookup_insert_eq. by eapply lookup_lt_Some.
Qed.

Lemma DebugHeapAllocate_block w size alignment p w' :
  WInv w -> DebugHeapAllocate w size alignment = Ok (p, w') -> p <> 0 ->
  exists r b,
    m_Blocks (w_heap w') !! r = Some b /\
    Blk.m_PageCount b = page_requirement size /\
    0 <= Blk.m_PageIndex b < m_PageCount (w_heap w') /\
    m_BlockLookup (w_heap w') !! Z.to_nat (Blk.m_PageIndex b) = Some (Some r) /\
    p = m_BaseAddress (w_heap w') + Blk.m_PageIndex b * kPageSize
        + placement_offset size alignment /\
    page_index_of (w_heap w') p = Blk.m_PageIndex b /\
    m_ReentrancyGuard (w_heap w') = 0.
Proof.
  intros ([l HI] & Hb0 & Hb1 & start & len & Hm & Hlen) H Hpnz.
  unfold DebugHeapAllocate in H.
  apply bind_Ok in H as [h0 [E0 H]]. apply ENTER_Ok in E0 as ->.
  pose proof (page_requirement_range size) as Hreq.
  apply (InvK_set_guard _ _ _ 1) in HI.
  pose proof (inv_pages _ _ _ HI) as HP31. simpl in HP31.
  assert (forall hs ls ptr h1 result vm,
             InvK 0 ls hs -> 0 < m_BaseAddress hs ->
             m_BaseAddress hs + m_PageCount hs * kPageSize <= 2 ^ 64 ->
             AllocFromFreeList hs (page_requirement size) = Ok (ptr, h1) -> ptr <> 0 ->
             FinalizeAlloc ptr size (page_requirement size) alignment (w_vm w)
               = Ok (result, vm) ->
             m_PageCount h1 = m_PageCount hs /\ m_BaseAddress h1 = m_BaseAddress hs /\
             exists r b,
               m_Blocks h1 !! r = Some b /\
               Blk.m_PageCount b = page_requirement size /\
               0 <= Blk.m_PageIndex b < m_PageCount hs /\
               m_BlockLookup h1 !! Z.to_nat (Blk.m_PageIndex b) = Some (Some r) /\
               result = m_BaseAddress hs + Blk.m_PageIndex b * kPageSize
                        + placement_offset size alignment /\
               page_index_of hs result = Blk.m_PageIndex b) as Hsucc.
  { intros hs ls ptr h1 result vm HIs Hs0 Hs1 E1 Hnz E2.
    pose proof (inv_pages _ _ _ HIs) as HPs.
    destruct (AllocFromFreeList_cases _ _ _ _ _ _ HIs Hs0 Hs1 E1)
      as [(-> & _)|(_ & _ & _ & _ & _ & _ & _ & HP & HB & _)]; [done|].
    destruct (AllocFromFreeList_block _ _ _ _ _ _ HIs (proj1 Hreq) E1 Hnz)
      as (r & b & Hb & Hpc & Hpi & Hlk & ->).
    destruct (FinalizeAlloc_Ok _ _ _ _ _ _ _ _ _ E2 Hm Hlen Hreq) as (_ & _ & ->).
    fold (placement_offset size alignment).
    assert (0 <= placement_offset size alignment < 2 ^ 12) as Hoff.
    { apply land_low_bound. apply Z.mod_pos_bound. unfold kPageSize. lia. }
    destruct (page_index_of_block hs (Blk.m_PageIndex b) (placement_offset size alignment))
      as [Hu Hpg]; [lia|lia|lia|lia|done|].
    rewrite (u64_small (m_BaseAddress hs + _)) by (unfold kPageSize in *; lia).
    rewrite Hu. split_and!; try done. by exists r, b. }
  apply bind_Ok in H as [[ptr h1] [E1 H]].
  destruct (negb (ptr =? 0)) eqn:Hptr.
  - apply negb_true_iff, Z.eqb_neq in Hptr.
    apply bind_Ok in H as [[result vm] [E2 H]].
    apply bind_Ok in H as [h2 [E3 H]]. apply LEAVE_Ok in E3 as ->. injection H as <- <-.
    destruct (Hsucc _ _ _ _ _ _ HI Hb0 Hb1 E1 Hptr E2)
      as (HP & HB & r & b & Hb & Hpc & Hpi & Hlk & Hres & Hpg).
    simpl in *. exists r, b. rewrite HP, HB.
    rewrite (page_index_of_base _ (w_heap w)) by done. done.
  - apply negb_false_iff, Z.eqb_eq in Hptr. subst ptr.
    destruct (AllocFromFreeList_null _ _ _ _ _ HI Hb0 Hb1 E1) as [-> _].
    apply bind_Ok in H as [h2 [E2 H]].
    destruct (FlushPendingFrees_inv _ _ _ HI E2) as ([l2 HI2] & _ & _ & HP2 & HB2 & _).
    simpl in HP2, HB2.
    apply bind_Ok in H as [[ptr h3] [E3 H]].
    destruct (negb (ptr =? 0)) eqn:Hptr.
    + apply negb_true_iff, Z.eqb_neq in Hptr.
      apply bind_Ok in H as [[result vm] [E4 H]].
      apply bind_Ok in H as [h4 [E5 H]]. apply LEAVE_Ok in E5 as ->. injection H as <- <-.
      rewrite <- HP2, <- HB2 in Hb1. rewrite <- HB2 in Hb0.
      destruct (Hsucc _ _ _ _ _ _ HI2 Hb0 Hb1 E3 Hptr E4)
        as (HP & HB & r & b & Hb & Hpc & Hpi & Hlk & Hres & Hpg).
      simpl in *. exists r, b. rewrite HP, HB.
      rewrite (page_index_of_base _ h2) by done. done.
    + apply bind_Ok in H as [h4 [E5 H]]. by injection H as <- <-.
Qed.
Lemma DebugHeapInit_aligned os_range mem_size_bytes w :
  DebugHeapInit os_range mem_size_bytes = Ok (Some w) -> os_range mod kPageSize = 0.
Proof.
  intros H. unfold DebugHeapInit in H.
  apply bind_Ok in H as [[range vm] [E0 H]].
  unfold VmAllocate in E0. apply bind_Ok in E0 as [[] [_ E0]]. injection E0 as <- <-.
  destruct (os_range =? 0); [done|].
  apply bind_Ok in H as [vm1 [E1 _]].
  unfold VmCommit in E1. apply bind_Ok in E1 as [[] [E1 _]].
  apply ASSERT_FATAL_Ok in E1. unfold range_mapped in E1. simpl in E1.
  apply andb_true_iff in E1 as [E1 _]. apply andb_true_iff in E1 as [E1 _].
  by apply Z.eqb_eq in E1.
Qed.

Lemma run_ops_static ops w rs w' :
  WInv w -> run_ops ops w = Ok (rs, w') ->
  m_PageCount (w_heap w') = m_PageCount (w_heap w) /\
  m_BaseAddress (w_heap w') = m_BaseAddress (w_heap w).
Proof.
  revert w rs. induction ops as [|op ops IH]; intros w rs HW H; simpl in H.
  - by injection H as <- <-.
  - apply bind_Ok in H as [[r w1] [E1 H]].
    apply bind_Ok in H as [[rs1 w2] [E2 H]]. injection H as <- <-.
    destruct (run_op_frame _ _ _ _ 0 HW E1) as (HP & HB & _).
    destruct (IH w1 rs1 (run_op_inv _ _ _ _ HW E1) E2) as (HP2 & HB2).
    split; congruence.
Qed.

Lemma reachable_base_aligned os_range mem_size_bytes ops w0 rs w :
  0 <= mem_size_bytes < 2 ^ 43 -> 0 <= os_range < 2 ^ 63 ->
  DebugHeapInit os_range mem_size_bytes = Ok (Some w0) ->
  run_ops ops w0 = Ok (rs, w) ->
  WInv w /\ m_BaseAddress (w_heap w) mod kPageSize = 0.
Proof.
  intros Hmem Hos Hinit Hrun.
  pose proof (DebugHeapInit_inv _ _ _ Hinit Hmem Hos) as HW0.
  split; [by eapply run_ops_inv|].
  destruct (run_ops_static _ _ _ _ HW0 Hrun) as [_ ->].
  destruct (DebugHeapInit_Ok _ _ _ Hinit Hmem) as (HP0 & _ & _ & _ & _ & _ & -> & _).
  pose proof (DebugHeapInit_aligned _ _ _ Hinit) as Hal.
  set (P := mem_size_bytes / kPageSize) in *.
  assert (0 < P < 2 ^ 31) as HPr.
  { split; [done|]. unfold P, kPageSize. apply Z.div_lt_upper_bound; lia. }
  pose proof (bookkeeping_pages_range P ltac:(lia)) as HB.
  rewrite u64_small by (unfold kPageSize; lia).
  unfold kPageSize in *.
  replace (os_range + 4096 * bookkeeping_pages_of P)
    with (os_range + bookkeeping_pages_of P * 4096) by lia.
  rewrite Z.mod_add by lia. done.
Qed.

Lemma placement_offset_range size alignment :
  0 <= placement_offset size alignment < kPageSize.
Proof.
  apply land_low_bound. apply Z.mod_pos_bound. unfold kPageSize. lia.
Qed.

(** The offset is the ideal offset rounded down to a multiple of a
    power-of-two alignment that does not exceed the page size. *)
Lemma placement_offset_aligned size k :
  0 <= k <= 12 -> placement_offset size (2 ^ k) mod 2 ^ k = 0.
Proof.
  intros Hk. unfold placement_offset.
  set (ideal := u32 (u64 (kPageSize - size)) mod kPageSize).
  assert (0 <= ideal < 4096) as Hid by (apply Z.mod_pos_bound; unfold kPageSize; lia).
  assert (0 < 2 ^ k <= 2 ^ 12) as Hpow.
  { split; [apply Z.pow_pos_nonneg; lia|apply Z.pow_le_mono_r; lia]. }
  rewrite (u64_small (2 ^ k - 1)), (u32_small (2 ^ k - 1)) by lia.
  rewrite land_not32 by lia.
  replace (2 ^ k - 1) with (Z.ones k) by (rewrite Z.ones_equiv; lia).
  rewrite Z.land_ones by lia.
  rewrite (Z.div_mod ideal (2 ^ k)) at 1 by lia.
  replace (2 ^ k * (ideal / 2 ^ k) + ideal mod 2 ^ k - ideal mod 2 ^ k)
    with (ideal / 2 ^ k * 2 ^ k) by lia.
  apply Z.mod_mul. lia.
Qed.

(** Where pointer placement does hold: on a heap made by DebugHeapInit
    and used through the public operations, the pointer a successful
    DebugHeapAllocate returns is the base address of its block plus the
    offset of FinalizeAlloc, and it is divisible by an alignment that is
    a power of two up to the page size. *)
Lemma placement_up_to_page_size (os_range mem_size_bytes : Z) (ops : list Op)
    (w0 w w' : World) (rs : list Ret) (size alignment p : Z) :
  0 <= mem_size_bytes < 2 ^ 43 -> 0 <= os_range < 2 ^ 63 ->
  DebugHeapInit os_range mem_size_bytes = Ok (Some w0) ->
  run_ops ops w0 = Ok (rs, w) ->
  DebugHeapAllocate w size alignment = Ok (p, w') -> p <> 0 ->
  exists r b,
    m_BlockLookup (w_heap w') !! Z.to_nat (page_index_of (w_heap w') p) = Some (Some r) /\
    m_Blocks (w_heap w') !! r = Some b /\
    Blk.m_PageCount b = page_requirement size /\
    p = m_BaseAddress (w_heap w') + Blk.m_PageIndex b * kPageSize
        + placement_offset size alignment /\
    (forall k, 0 <= k <= 12 -> alignment = 2 ^ k -> p mod alignment = 0).
Proof.
  intros Hmem Hos Hinit Hrun Halloc Hnz.
  destruct (reachable_base_aligned _ _ _ _ _ _ Hmem Hos Hinit Hrun) as [HW Hal].
  destruct (DebugHeapAllocate_Ok _ _ _ _ _ HW Halloc) as (_ & HB & _).
  destruct (DebugHeapAllocate_block _ _ _ _ _ HW Halloc Hnz)
    as (r & b & Hb & Hpc & Hpi & Hlk & Hp & Hpg & _).
  exists r, b. rewrite Hpg. split_and!; try done.
  intros k Hk ->. rewrite Hp.
  assert (0 < 2 ^ k) as Hpos by (apply Z.pow_pos_nonneg; lia).
  assert (kPageSize = 2 ^ k * 2 ^ (12 - k)) as Hpage.
  { rewrite <- Z.pow_add_r by lia. replace (k + (12 - k)) with 12 by lia. done. }
  rewrite <- HB in Hal. apply Z.mod_divide in Hal; [|unfold kPageSize; lia].
  destruct Hal as [q Hq]. rewrite Hq, Hpage.
  replace (q * (2 ^ k * 2 ^ (12 - k)) + Blk.m_PageIndex b * (2 ^ k * 2 ^ (12 - k))
           + placement_offset size (2 ^ k))
    with (placement_offset size (2 ^ k)
          + (q * 2 ^ (12 - k) + Blk.m_PageIndex b * 2 ^ (12 - k)) * 2 ^ k) by lia.
  rewrite Z.mod_add by lia. by apply placement_offset_aligned.
Qed.

Lemma page_requirement_small size :
  0 <= size <= 2 ^ 31 - 4096 ->
  page_requirement size = 1 + (size + 4095) / 4096 /\
  0 <= (size + 4095) / 4096 * 4096 <= INT_MAX.
Proof.
  intros Hs. unfold page_requirement, kPageSize, INT_MAX.
  assert (0 <= (size + 4095) / 4096 < 2 ^ 19).
  { split; [apply Z.div_pos; lia|apply Z.div_lt_upper_bound; lia]. }
  rewrite (u64_small (size + 4096 - 1)) by lia.
  replace (size + 4096 - 1) with (size + 4095) by lia.
  rewrite (u32_small ((size + 4095) / 4096)), u32_small by lia.
  split; [done|]. pose proof (Z.mul_div_le (size + 4095) 4096 ltac:(lia)). lia.
Qed.

Lemma ideal_offset_small size :
  0 <= size <= 2 ^ 31 - 4096 ->
  (size + 4095) / 4096 * 4096 - u32 (u64 (kPageSize - size)) mod kPageSize = size.
Proof.
  intros Hs. unfold u32, u64, kPageSize.
  Z.div_mod_to_equations. lia.
Qed.

(** Where the capacity bound does hold: on a heap made by DebugHeapInit
    and used through the public operations, for a request of at most
    2^31 - 4096 bytes with an alignment between 1 and 2^32,
    DebugHeapGetAllocSize of the pointer DebugHeapAllocate returned is
    [(PageCount - 1) * 4096 - (p mod 4096)] for the block of [p], and lies
    between the size asked for and that size plus the alignment less
    one. *)
Lemma alloc_size_within_int (os_range mem_size_bytes : Z) (ops : list Op)
    (w0 w w' : World) (rs : list Ret) (size alignment p : Z) :
  0 <= mem_size_bytes < 2 ^ 43 -> 0 <= os_range < 2 ^ 63 ->
  DebugHeapInit os_range mem_size_bytes = Ok (Some w0) ->
  run_ops ops w0 = Ok (rs, w) ->
  DebugHeapAllocate w size alignment = Ok (p, w') -> p <> 0 ->
  0 <= size <= 2 ^ 31 - 4096 -> 1 <= alignment <= 2 ^ 32 ->
  exists r b n,
    m_BlockLookup (w_heap w') !! Z.to_nat (page_index_of (w_heap w') p) = Some (Some r) /\
    m_Blocks (w_heap w') !! r = Some b /\
    DebugHeapGetAllocSize w' p = Ok (n, w') /\
    n = (Blk.m_PageCount b - 1) * 4096 - p mod 4096 /\
    size <= n <= size + alignment - 1.
Proof.
  intros Hmem Hos Hinit Hrun Halloc Hnz Hs Ha.
  destruct (reachable_base_aligned _ _ _ _ _ _ Hmem Hos Hinit Hrun) as [HW Hal].
  destruct (DebugHeapAllocate_Ok _ _ _ _ _ HW Halloc) as (_ & HB & _).
  destruct (DebugHeapAllocate_block _ _ _ _ _ HW Halloc Hnz)
    as (r & b & Hb & Hpc & Hpi & Hlk & Hp & Hpg & HG).
  destruct (page_requirement_small _ Hs) as [Hreq Hint].
  pose proof (ideal_offset_small _ Hs) as Hideal.
  pose proof (placement_offset_range size alignment) as Hoff.
  assert (p mod 4096 = placement_offset size alignment) as Hmod.
  { rewrite Hp. rewrite <- HB in Hal. apply Z.mod_divide in Hal; [|unfold kPageSize; lia].
    destruct Hal as [q Hq]. rewrite Hq. unfold kPageSize in *.
    replace (q * 4096 + Blk.m_PageIndex b * 4096 + placement_offset size alignment)
      with (placement_offset size alignment + (q + Blk.m_PageIndex b) * 4096) by lia.
    rewrite Z.mod_add by lia. apply Z.mod_small. lia. }
  assert (placement_offset size alignment =
          u32 (u64 (kPageSize - size)) mod kPageSize
          - Z.land (u32 (u64 (kPageSize - size)) mod kPageSize) (alignment - 1)) as Hland.
  { unfold placement_offset.
    rewrite (u64_small (alignment - 1)), (u32_small (alignment - 1)) by lia.
    apply land_not32.
    pose proof (Z.mod_pos_bound (u32 (u64 (kPageSize - size))) kPageSize).
    unfold kPageSize in *. lia. }
  assert (0 <= Z.land (u32 (u64 (kPageSize - size)) mod kPageSize) (alignment - 1)
          <= alignment - 1) as Hlb.
  { apply land_le_r; [|lia]. apply Z.mod_pos_bound. unfold kPageSize. lia. }
  exists r, b, ((Blk.m_PageCount b - 1) * 4096 - p mod 4096).
  rewrite Hpg. split_and!; try done.
  - unfold DebugHeapGetAllocSize. rewrite (ENTER_idle _ HG). simpl.
    change (page_index_of (set_ReentrancyGuard 1 (w_heap w')) p)
      with (page_index_of (w_heap w') p).
    rewrite Hpg. destruct Hpi as [Hpi0 Hpi1]. apply Z.ltb_lt in Hpi1. rewrite Hpi1. simpl.
    unfold arr_get. rewrite Hlk. simpl. rewrite Hb. simpl.
    unfold int_mul, in_int, kPageSize, INT_MAX in *.
    rewrite Hpc, Hreq.
    replace (1 + (size + 4095) / 4096 - 1) with ((size + 4095) / 4096) by lia.
    assert ((- 2 ^ 31 <=? (size + 4095) / 4096 * 4096)
            && ((size + 4095) / 4096 * 4096 <=? 2 ^ 31 - 1) = true) as ->.
    { apply andb_true_iff. split; apply Z.leb_le; lia. }
    simpl. unfold DEBUG_THREAD_GUARD_LEAVE, AtomicDec32. simpl.
    rewrite u64_small by lia.
    destruct w' as [ws [] wv]. simpl in *. by subst.
  - rewrite Hpc, Hreq, Hmod. unfold kPageSize in *. lia.
  - rewrite Hpc, Hreq, Hmod. unfold kPageSize in *. lia.
Qed.

Lemma final_world_Some os_range mem_size_bytes ops w :
  final_world os_range mem_size_bytes ops = Some w ->
  exists w0 rs,
    DebugHeapInit os_range mem_size_bytes = Ok (Some w0) /\ run_ops ops w0 = Ok (rs, w).
Proof.
  unfold final_world. intros H.
  destruct (DebugHeapInit os_range mem_size_bytes) as [[w0|]|]; try done.
  destruct (run_ops ops w0) as [[rs w1]|] eqn:E; [|done].
  injection H as ->. by exists w0, rs.
Qed.

Lemma Seg_disjoint bl l p s q e x y bx by_ :
  Seg bl l p s q e -> x ∈ l -> y ∈ l ->
  bl !! x = Some bx -> bl !! y = Some by_ ->
  Blk.m_PageIndex bx <= Blk.m_PageIndex by_ < Blk.m_PageIndex bx + Blk.m_PageCount bx ->
  x = y.
Proof.
  revert p s. induction l as [|r l IH]; intros p s HS Hx Hy Hbx Hby Hin.
  - by apply elem_of_nil in Hx.
  - simpl in HS. destruct HS as [-> (b & Hb & Hs & Hc & HS)].
    apply elem_of_cons in Hx as [->|Hx]; apply elem_of_cons in Hy as [->|Hy]; try done.
    + destruct (Seg_elem _ _ _ _ _ _ _ HS Hy) as (b' & Hb' & Hlo & _).
      rewrite Hbx in Hb. injection Hb as <-. rewrite Hby in Hb'. injection Hb' as <-. lia.
    + destruct (Seg_elem _ _ _ _ _ _ _ HS Hx) as (b' & Hb' & Hlo & _ & Hpos).
      rewrite Hby in Hb. injection Hb as <-. rewrite Hbx in Hb'. injection Hb' as <-. lia.
    + by eapply IH.
Qed.

Lemma Seg_pages bl l p s q e : Seg bl l p s q e -> Z.of_nat (length l) <= e - s.
Proof.
  revert p s. induction l as [|r l IH]; intros p s HS; simpl in HS.
  - destruct HS as [_ ->]. simpl. lia.
  - destruct HS as [_ (b & _ & _ & Hc & HS)]. apply IH in HS. simpl length. lia.
Qed.

Lemma FlushPendingFrees_frame l h h' :
  InvK 0 l h -> FlushPendingFrees h = Ok h' ->
  m_PendingList h' = m_PendingList h /\
  length (m_FreeList h') = length (m_FreeList h) /\
  length (m_Blocks h') = length (m_Blocks h).
Proof.
  intros HI H. unfold FlushPendingFrees in H.
  apply bind_Ok in H as [h1 [E H]]. injection H as <-.
  pose proof (inv_sizes _ _ _ HI) as (_ & HnP0 & _).
  apply (for_loop_ind
           (fun j t => 0 <= j <= m_PendingListSize h /\
                       (exists l', InvK (Z.to_nat j) l' t) /\ merge_frame h t)) in E.
  - destruct E as (_ & _ & (HPL & _ & _ & _ & _ & _ & _ & HFL & HBL)). done.
  - split; [lia|]. split; [by exists l|apply merge_frame_refl].
  - intros j t t' Hj (Hj0 & [l1 HI1] & Hfr) Hb.
    rewrite <- (Z2Nat.id j) in Hb by lia.
    assert (Z.to_nat j < Z.to_nat (m_PendingListSize t))%nat as Hjt.
    { destruct Hfr as (_ & -> & _). lia. }
    destruct (flush_body_inv _ _ _ _ HI1 Hjt Hb) as (l2 & HI2 & Hfr2).
    split; [lia|]. split; [|by eapply merge_frame_trans].
    exists l2. by replace (Z.to_nat (j + 1)) with (S (Z.to_nat j)) by lia.
Qed.

Lemma AllocFromFreeList_pending h page_req ptr h' :
  AllocFromFreeList h page_req = Ok (ptr, h') ->
  m_PendingList h' = m_PendingList h /\ m_PendingListSize h' = m_PendingListSize h.
Proof.
  intros H.
  destruct (AllocFromFreeList_Ok _ _ _ _ H) as (best & size & idx & _ & Hbest).
  destruct best; [|by destruct Hbest as [_ ->]].
  destruct Hbest as (? & ? & ? & ? & ? & ? & ? & ? & ? & ? & ? & ? & _). done.
Qed.

Lemma DebugHeapAllocate_pending w size alignment p w' :
  WInv w -> DebugHeapAllocate w size alignment = Ok (p, w') ->
  w_self w' = w_self w /\
  m_PendingList (w_heap w') = m_PendingList (w_heap w) /\
  (m_PendingListSize (w_heap w') = m_PendingListSize (w_heap w) \/
   m_PendingListSize (w_heap w') = 0).
Proof.
  intros ([l HI] & Hb0 & Hb1 & _) H.
  unfold DebugHeapAllocate in H.
  apply bind_Ok in H as [h0 [E0 H]]. apply ENTER_Ok in E0 as ->.
  apply (InvK_set_guard _ _ _ 1) in HI.
  apply bind_Ok in H as [[ptr h1] [E1 H]].
  destruct (AllocFromFreeList_pending _ _ _ _ E1) as [HPL1 HnP1]. simpl in HPL1, HnP1.
  destruct (negb (ptr =? 0)) eqn:Hptr.
  - apply bind_Ok in H as [[result vm] [E2 H]].
    apply bind_Ok in H as [h2 [E3 H]]. apply LEAVE_Ok in E3 as ->. injection H as <- <-.
    simpl. split_and!; try done. by left.
  - apply negb_false_iff, Z.eqb_eq in Hptr. subst ptr.
    destruct (AllocFromFreeList_null _ _ _ _ _ HI Hb0 Hb1 E1) as [-> _].
    apply bind_Ok in H as [h2 [E2 H]].
    destruct (FlushPendingFrees_inv _ _ _ HI E2) as (_ & HnP2 & _).
    destruct (FlushPendingFrees_frame _ _ _ HI E2) as (HPL2 & _).
    apply bind_Ok in H as [[ptr h3] [E3 H]].
    destruct (AllocFromFreeList_pending _ _ _ _ E3) as [HPL3 HnP3].
    destruct (negb (ptr =? 0)) eqn:Hptr.
    + apply bind_Ok in H as [[result vm] [E4 H]].
      apply bind_Ok in H as [h4 [E5 H]]. apply LEAVE_Ok in E5 as ->. injection H as <- <-.
      simpl in *. split_and!; try done; [congruence|right; congruence].
    + apply bind_Ok in H as [h4 [E5 H]]. apply LEAVE_Ok in E5 as ->. injection H as <- <-.
      simpl in *. split_and!; try done; [congruence|right; congruence].
Qed.

Lemma DebugHeapFree_frame w ptr w' :
  DebugHeapFree w ptr = Ok w' ->
  w_self w' = w_self w /\ vm_mapped (w_vm w') = vm_mapped (w_vm w) /\
  length (m_PendingList (w_heap w')) = length (m_PendingList (w_heap w)) /\
  (Z.to_nat (m_PendingListSize (w_heap w)) < length (m_PendingList (w_heap w)))%nat /\
  m_PendingListSize (w_heap w') = u32 (m_PendingListSize (w_heap w) + 1).
Proof.
  intros H. unfold DebugHeapFree in H.
  apply bind_Ok in H as [h0 [E0 H]]. apply ENTER_Ok in E0 as ->.
  apply bind_Ok in H as [[] [Hlt H]].
  apply bind_Ok in H as [block [Hlk H]].
  apply bind_Ok in H as [[] [Hnn H]].
  apply bind_Ok in H as [[r0 xr] [Hr H]].
  apply bind_Ok in H as [[] [Ha H]].
  apply bind_Ok in H as [[] [Hp H]].
  apply bind_Ok in H as [h1 [E1 H]].
  apply update_Ok in E1 as (r1 & xr1 & _ & Hr1 & ->).
  apply bind_Ok in H as [bl [E2 H]]. apply arr_set_Ok in E2 as [Hlen2 ->].
  apply bind_Ok in H as [[r2 xr2] [_ H]].
  apply bind_Ok in H as [[] [_ H]].
  apply bind_Ok in H as [pl [E3 H]]. apply arr_set_Ok in E3 as [Hlen3 ->].
  apply bind_Ok in H as [[r3 xr3] [_ H]].
  apply bind_Ok in H as [vm [E4 H]]. apply VmDecommit_Ok in E4 as (_ & Hm4 & _).
  apply bind_Ok in H as [h5 [E5 H]]. apply LEAVE_Ok in E5 as ->. injection H as <-.
  simpl in *. rewrite length_insert. done.
Qed.

Lemma run_op_shape os_range mem_size_bytes op w r w' :
  WInv w -> Shape os_range mem_size_bytes w -> run_op op w = Ok (r, w') ->
  Shape os_range mem_size_bytes w'.
Proof.
  intros HW (HG & HP & HB & Hal & Hself & Hm & HLK & HPL & HnP) H.
  pose proof HW as ([l HI] & _).
  pose proof (inv_pages _ _ _ HI) as HP31.
  pose proof (inv_sizes _ _ _ HI) as (_ & HnP0 & _).
  unfold Shape.
  destruct op; simpl in H;
    apply bind_Ok in H as [a [E H]]; destruct_pairs; injection H as <- <-.
  - destruct (DebugHeapAllocate_Ok _ _ _ _ _ HW E) as (HP' & HB' & HG' & Hm' & Hcase).
    destruct (DebugHeapAllocate_pending _ _ _ _ _ HW E) as (Hself' & HPL' & HnP').
    rewrite HP', HB', Hm', Hself', HPL'. split_and!; try done.
    + destruct Hcase as [(-> & _ & _ & _ & hf & Hfl & _ & ->)|(_ & _ & _ & r & ->)].
      * apply (InvK_set_guard _ _ _ 1) in HI.
        destruct (FlushPendingFrees_inv _ _ _ HI Hfl) as (_ & _ & Hlk2 & _).
        simpl in *. by rewrite Hlk2.
      * by rewrite length_insert.
    + destruct HnP' as [->| ->]; lia.
  - destruct (DebugHeapFree_Ok _ _ _ E) as (_ & _ & Hlk' & HP' & HB' & HG').
    destruct (DebugHeapFree_frame _ _ _ E) as (Hself' & Hm' & HPL' & Hlt & HnP').
    rewrite HP', HB', Hm', Hself', HPL', Hlk', HnP', length_insert.
    split_and!; try done. rewrite u32_small by lia. lia.
  - unfold DebugHeapGetAllocSize in E.
    apply bind_Ok in E as [h0 [E0 E]]. apply ENTER_Ok in E0 as ->.
    run_inv E.
    match goal with E : DEBUG_THREAD_GUARD_LEAVE _ = Ok _ |- _ => apply LEAVE_Ok in E as -> end.
    injection E as <- <-. done.
  - unfold DebugHeapOwns in E.
    apply bind_Ok in E as [h0 [E0 E]]. apply ENTER_Ok in E0 as ->.
    apply bind_Ok in E as [h1 [E1 E]]. apply LEAVE_Ok in E1 as ->.
    injection E as <- <-. done.
Qed.

Lemma run_ops_shape os_range mem_size_bytes ops w rs w' :
  WInv w -> Shape os_range mem_size_bytes w -> run_ops ops w = Ok (rs, w') ->
  Shape os_range mem_size_bytes w'.
Proof.
  revert w rs. induction ops as [|op ops IH]; intros w rs HW HS H; simpl in H.
  - by injection H as <- <-.
  - apply bind_Ok in H as [[r w1] [E1 H]].
    apply bind_Ok in H as [[rs1 w2] [E2 H]]. injection H as <- <-.
    eapply IH; [by eapply run_op_inv|by eapply run_op_shape|done].
Qed.

Lemma live_heap os_range mem_size_bytes ops w :
  0 <= mem_size_bytes < 2 ^ 43 -> 0 <= os_range < 2 ^ 63 ->
  final_world os_range mem_size_bytes ops = Some w ->
  WInv w /\ Shape os_range mem_size_bytes w /\
  0 < mem_size_bytes / kPageSize < 2 ^ 31 /\
  1 <= bookkeeping_pages_of (mem_size_bytes / kPageSize) <= mem_size_bytes / kPageSize + 2.
Proof.
  intros Hmem Hos Hw.
  destruct (final_world_Some _ _ _ _ Hw) as (w0 & rs & Hinit & Hrun).
  pose proof (DebugHeapInit_inv _ _ _ Hinit Hmem Hos) as HW0.
  destruct (DebugHeapInit_Ok _ _ _ Hinit Hmem)
    as (HP0 & _ & Hself & Hm & HP & _ & HB & _ & _ & HnP & HPL & HLK & HG & _).
  pose proof (DebugHeapInit_aligned _ _ _ Hinit) as Hal.
  set (P := mem_size_bytes / kPageSize) in *.
  assert (0 < P < 2 ^ 31) as HPr.
  { split; [done|]. unfold P, kPageSize. apply Z.div_lt_upper_bound; lia. }
  pose proof (bookkeeping_pages_range P ltac:(lia)) as HBr.
  split; [by eapply run_ops_inv|]. split; [|done].
  eapply run_ops_shape; [exact HW0| |exact Hrun].
  unfold Shape. fold P. rewrite HG, HP, HB, Hm, HLK, HPL, HnP, !length_replicate.
  split_and!; try done; try lia.
  rewrite u64_small by (unfold kPageSize; lia). lia.
Qed.

(* ===================================================================== *)
(** * Further properties: the pool of records                             *)
(* ===================================================================== *)

(** X1 (FreeBlockInfo, AllocBlockInfo): the record FreeBlockInfo puts
    back is the one the next AllocBlockInfo hands out; it comes back
    zeroed, and the list of unused records is again what it was before
    the record was put back.  Nothing else in the heap changes. *)
Theorem block_info_round_trip (x : nat) (h h1 : DebugHeap) :
  FreeBlockInfo x h = Ok h1 ->
  exists h2,
    AllocBlockInfo h1 = Ok (x, h2) /\
    m_FirstUnusedBlockInfo h2 = m_FirstUnusedBlockInfo h /\
    m_Blocks h2 = <[x := Blk.zero]> (m_Blocks h) /\
    h2 = set_Blocks (<[x := Blk.zero]> (m_Blocks h)) h.
Proof.
  intros H. apply FreeBlockInfo_Ok in H as (b & Hb & ->).
  unfold AllocBlockInfo. simpl.
  rewrite list_lookup_insert_eq by (by eapply lookup_lt_Some). simpl.
  eexists. split; [done|]. unfold store. simpl.
  rewrite list_insert_insert_eq. split_and!; try done; by destruct h.
Qed.

(** A run of X1 on the heap of eight pages after one allocation: record
    0, the block in use, is put back and handed out again. *)
Lemma block_info_round_trip_witness :
  exists w h1,
    final_world 65536 32768 small_ops = Some w /\
    FreeBlockInfo 0 (w_heap w) = Ok h1 /\
    exists h2,
      AllocBlockInfo h1 = Ok (0%nat, h2) /\
      m_FirstUnusedBlockInfo h2 = m_FirstUnusedBlockInfo (w_heap w) /\
      m_Blocks h2 = <[0%nat := Blk.zero]> (m_Blocks (w_heap w)) /\
      h2 = set_Blocks (<[0%nat := Blk.zero]> (m_Blocks (w_heap w))) (w_heap w).
Proof.
  eexists _, _.
  split; [vm_compute; reflexivity|].
  split; [vm_compute; reflexivity|].
  apply block_info_round_trip. vm_compute. reflexivity.
Defined.

(* ===================================================================== *)
(** * Further properties: the reentrancy guard                            *)
(* ===================================================================== *)

Lemma ENTER_busy h :
  0 < m_ReentrancyGuard h < 2 ^ 32 ->
  DEBUG_THREAD_GUARD_ENTER h = Err (AssertFatal "Unsynchronized MT usage detected").
Proof.
  intros Hg. unfold DEBUG_THREAD_GUARD_ENTER, AtomicInc32.
  assert ((1 =? u32 (m_ReentrancyGuard h + 1)) = false) as ->; [|done].
  apply Z.eqb_neq. unfold u32.
  destruct (decide (m_ReentrancyGuard h + 1 = 2 ^ 32)) as [->|Hne].
  - rewrite Z.mod_same by lia. lia.
  - rewrite Z.mod_small by lia. lia.
Qed.

(** X2 (DEBUG_THREAD_GUARD_ENTER): while a call is in progress on the
    heap, that is while the reentrancy guard is not 0, each of the four
    public operations stops at the assertion [Unsynchronized MT usage
    detected], whatever its arguments. *)
Theorem guard_rejects_reentry (w : World) :
  0 < m_ReentrancyGuard (w_heap w) < 2 ^ 32 ->
  (forall size alignment,
      DebugHeapAllocate w size alignment
      = Err (AssertFatal "Unsynchronized MT usage detected")) /\
  (forall ptr,
      DebugHeapFree w ptr = Err (AssertFatal "Unsynchronized MT usage detected")) /\
  (forall ptr,
      DebugHeapGetAllocSize w ptr
      = Err (AssertFatal "Unsynchronized MT usage detected")) /\
  (forall buffer,
      DebugHeapOwns w buffer = Err (AssertFatal "Unsynchronized MT usage detected")).
Proof.
  intros Hg. pose proof (ENTER_busy _ Hg) as HE.
  split_and!; intros;
    unfold DebugHeapAllocate, DebugHeapFree, DebugHeapGetAllocSize, DebugHeapOwns;
    by rewrite HE.
Qed.

(** A run of X2: the heap of eight pages, caught inside a call. *)
Lemma guard_rejects_reentry_witness :
  exists w,
    final_world 65536 32768 small_ops = Some w /\
    DebugHeapFree (entered w) 73600
    = Err (AssertFatal "Unsynchronized MT usage detected") /\
    DebugHeapOwns (entered w) 73600
    = Err (AssertFatal "Unsynchronized MT usage detected").
Proof.
  eexists. split; [vm_compute; reflexivity|].
  refine (let H := guard_rejects_reentry (entered _) _ in
          conj (proj1 (proj2 H) 73600) (proj2 (proj2 (proj2 H)) 73600)).
  vm_compute. done.
Defined.

(* ===================================================================== *)
(** * Further properties: which pointers a call accepts                   *)
(* ===================================================================== *)

Lemma page_index_of_period h ptr : page_index_of h (ptr + 2 ^ 44) = page_index_of h ptr.
Proof.
  unfold page_index_of, u32, u64, kPageSize.
  replace (ptr + 2 ^ 44 - m_BaseAddress h) with (ptr - m_BaseAddress h + 2 ^ 44) by lia.
  Z.div_mod_to_equations. lia.
Qed.

(** X3 (DebugHeapFree, DebugHeapGetAllocSize): the page of a pointer is
    its distance from the base address in pages, truncated to 32 bits.
    So a pointer 2^44 bytes above another is taken for it: both calls do
    to the one exactly what they do to the other. *)
Theorem far_pointer_aliases (w : World) (ptr : Z) :
  page_index_of (w_heap w) (ptr + 2 ^ 44) = page_index_of (w_heap w) ptr /\
  DebugHeapFree w (ptr + 2 ^ 44) = DebugHeapFree w ptr /\
  DebugHeapGetAllocSize w (ptr + 2 ^ 44) = DebugHeapGetAllocSize w ptr.
Proof.
  split; [apply page_index_of_period|]. split.
  - unfold DebugHeapFree.
    destruct (DEBUG_THREAD_GUARD_ENTER (w_heap w)) as [h|]; [|done]. simpl.
    by rewrite page_index_of_period.
  - unfold DebugHeapGetAllocSize.
    destruct (DEBUG_THREAD_GUARD_ENTER (w_heap w)) as [h|]; [|done]. simpl.
    rewrite page_index_of_period.
    replace ((ptr + 2 ^ 44) mod kPageSize) with (ptr mod kPageSize); [done|].
    unfold kPageSize. Z.div_mod_to_equations. lia.
Qed.

(** X4 (DebugHeapFree, DebugHeapGetAllocSize): on a heap that is not
    inside a call, a pointer that lies outside the user region, less than
    2^44 bytes above its start or less than 2^44 bytes below its end, is
    refused by the assertion on the page index: [Invalid pointer %p freed]
    in DebugHeapFree, [Invalid pointer %p] in DebugHeapGetAllocSize. *)
Theorem invalid_pointer_rejected (w : World) (ptr : Z) :
  m_ReentrancyGuard (w_heap w) = 0 ->
  0 <= m_PageCount (w_heap w) < 2 ^ 32 ->
  m_PageCount (w_heap w) * kPageSize - 2 ^ 44 <= ptr - m_BaseAddress (w_heap w) < 0 \/
  m_PageCount (w_heap w) * kPageSize <= ptr - m_BaseAddress (w_heap w) < 2 ^ 44 ->
  DebugHeapFree w ptr = Err (AssertFatal "Invalid pointer %p freed") /\
  DebugHeapGetAllocSize w ptr = Err (AssertFatal "Invalid pointer %p").
Proof.
  intros Hg HP Hptr.
  assert ((page_index_of (w_heap w) ptr <? m_PageCount (w_heap w)) = false) as Hlt.
  { apply Z.ltb_ge. unfold page_index_of, u32, u64, kPageSize in *.
    Z.div_mod_to_equations. lia. }
  split.
  - unfold DebugHeapFree. rewrite (ENTER_idle _ Hg). simpl.
    change (page_index_of (set_ReentrancyGuard 1 (w_heap w)) ptr)
      with (page_index_of (w_heap w) ptr).
    by rewrite Hlt.
  - unfold DebugHeapGetAllocSize. rewrite (ENTER_idle _ Hg). simpl.
    change (page_index_of (set_ReentrancyGuard 1 (w_heap w)) ptr)
      with (page_index_of (w_heap w) ptr).
    by rewrite Hlt.
Qed.

(** A run of X4: the first byte after the user region of the heap of
    eight pages, and the last byte before it. *)
Lemma invalid_pointer_rejected_witness :
  exists w,
    final_world 65536 32768 small_ops = Some w /\
    (DebugHeapFree w 102400 = Err (AssertFatal "Invalid pointer %p freed") /\
     DebugHeapGetAllocSize w 102400 = Err (AssertFatal "Invalid pointer %p")) /\
    (DebugHeapFree w 69631 = Err (AssertFatal "Invalid pointer %p freed") /\
     DebugHeapGetAllocSize w 69631 = Err (AssertFatal "Invalid pointer %p")).
Proof.
  eexists. split; [vm_compute; reflexivity|].
  split; apply invalid_pointer_rejected; vm_compute; intuition congruence.
Defined.

(* ===================================================================== *)
(** * Further properties: DebugHeapOwns                                   *)
(* ===================================================================== *)

Lemma world_eta w :
  m_ReentrancyGuard (w_heap w) = 0 ->
  with_heap w (set_ReentrancyGuard 0 (set_ReentrancyGuard 1 (w_heap w))) = w.
Proof. destruct w as [s [] v]. simpl. by intros ->. Qed.

(** X5 (DebugHeapOwns): on a heap made by DebugHeapInit and used through
    the public operations, DebugHeapOwns leaves the heap as it is and
    answers true exactly for the addresses from the base address up to
    and including the first address after the user region. *)
Theorem owns_iff_in_region (os_range mem_size_bytes : Z) (ops : list Op)
    (w : World) (buffer : Z) :
  0 <= mem_size_bytes < 2 ^ 43 -> 0 <= os_range < 2 ^ 63 ->
  final_world os_range mem_size_bytes ops = Some w ->
  exists status,
    DebugHeapOwns w buffer = Ok (status, w) /\
    (status = true <->
     m_BaseAddress (w_heap w) <= buffer
     <= m_BaseAddress (w_heap w) + m_PageCount (w_heap w) * kPageSize).
Proof.
  intros Hmem Hos Hw.
  destruct (live_heap _ _ _ _ Hmem Hos Hw)
    as (HW & (HG & HP & HB & _) & HPr & HBr).
  unfold DebugHeapOwns. rewrite (ENTER_idle _ HG). simpl.
  unfold DEBUG_THREAD_GUARD_LEAVE, AtomicDec32. simpl.
  change (u32 (1 - 1)) with 0.
  rewrite (world_eta _ HG). eexists. split; [done|].
  rewrite u64_small by (rewrite HP, HB; unfold kPageSize in *; lia).
  rewrite andb_true_iff, !Z.leb_le. done.
Qed.

(** A run of X5: the first address after the user region of the heap of
    eight pages is owned. *)
Lemma owns_iff_in_region_witness :
  exists w,
    final_world 65536 32768 small_ops = Some w /\
    m_BaseAddress (w_heap w) + m_PageCount (w_heap w) * kPageSize = 102400 /\
    exists status,
      DebugHeapOwns w 102400 = Ok (status, w) /\
      (status = true <->
       m_BaseAddress (w_heap w) <= 102400
       <= m_BaseAddress (w_heap w) + m_PageCount (w_heap w) * kPageSize).
Proof.
  eexists. split; [vm_compute; reflexivity|]. split; [vm_compute; reflexivity|].
  apply (owns_iff_in_region 65536 32768 small_ops); [lia|lia|vm_compute; reflexivity].
Defined.

(** X6 (DebugHeapAllocate, DebugHeapOwns): every pointer a successful
    DebugHeapAllocate returns is owned by the heap. *)
Theorem owns_allocated_pointer (os_range mem_size_bytes : Z) (ops : list Op)
    (w w' : World) (size alignment p : Z) :
  0 <= mem_size_bytes < 2 ^ 43 -> 0 <= os_range < 2 ^ 63 ->
  final_world os_range mem_size_bytes ops = Some w ->
  DebugHeapAllocate w size alignment = Ok (p, w') -> p <> 0 ->
  DebugHeapOwns w' p = Ok (true, w').
Proof.
  intros Hmem Hos Hw Halloc Hnz.
  destruct (live_heap _ _ _ _ Hmem Hos Hw) as (HW & HS & HPr & HBr).
  assert (run_op (OpAllocate size alignment) w = Ok (RetPtr p, w')) as Hop.
  { simpl. by rewrite Halloc. }
  pose proof (run_op_shape _ _ _ _ _ _ HW HS Hop) as (HG & HP & HB & _).
  destruct (DebugHeapAllocate_block _ _ _ _ _ HW Halloc Hnz)
    as (r & b & _ & _ & Hpi & _ & Hp & _).
  pose proof (placement_offset_range size alignment) as Hoff.
  unfold DebugHeapOwns. rewrite (ENTER_idle _ HG). simpl.
  unfold DEBUG_THREAD_GUARD_LEAVE, AtomicDec32. simpl.
  change (u32 (1 - 1)) with 0.
  rewrite (world_eta _ HG).
  rewrite u64_small by (rewrite HP, HB; unfold kPageSize in *; lia).
  assert ((m_BaseAddress (w_heap w') <=? p)
          && (p <=? m_BaseAddress (w_heap w') + m_PageCount (w_heap w') * kPageSize)
          = true) as ->; [|done].
  apply andb_true_iff. rewrite !Z.leb_le. unfold kPageSize in *. lia.
Qed.

(** A run of X6: an allocation of 128 bytes on the heap of eight pages. *)
Lemma owns_allocated_pointer_witness :
  exists w w',
    final_world 65536 32768 [] = Some w /\
    DebugHeapAllocate w 128 4 = Ok (73600, w') /\
    DebugHeapOwns w' 73600 = Ok (true, w').
Proof.
  eexists _, _. split; [vm_compute; reflexivity|]. split; [vm_compute; reflexivity|].
  eapply (owns_allocated_pointer 65536 32768 [] _ _ 128 4);
    [lia|lia|vm_compute; reflexivity|vm_compute; reflexivity|discriminate].
Defined.

(* ===================================================================== *)
(** * Further properties: DebugHeapInit                                   *)
(* ===================================================================== *)


Lemma init_loop_Ok count n i blocks :
  0 <= i -> (Z.to_nat i + n <= length blocks)%nat ->
  exists blocks',
    for_loop n i (init_block count) blocks = Ok blocks' /\
    (forall j, (j < Z.to_nat i)%nat -> blocks' !! j = blocks !! j) /\
    (forall j, (Z.to_nat i <= j < Z.to_nat i + n)%nat ->
               exists b, blocks' !! j = Some b /\ flags b = (true, true)).
Proof.
  revert i blocks. induction n as [|n IH]; intros i blocks Hi Hlen.
  - exists blocks. split_and!; try done. intros j Hj. lia.
  - simpl. unfold init_block at 1. unfold arr_get, arr_set.
    destruct (lookup_lt_is_Some_2 blocks (Z.to_nat i) ltac:(lia)) as [b Hb].
    rewrite Hb. simpl. rewrite decide_True by lia. simpl.
    set (b' := Blk.set_Next _ _).
    destruct (IH (i + 1) (<[Z.to_nat i := b']> blocks)) as (blocks' & Hrun & Hlo & Hhi);
      [lia|rewrite length_insert; lia|].
    exists blocks'. split; [done|]. split.
    + intros j Hj. rewrite Hlo by lia. apply list_lookup_insert_ne. lia.
    + intros j Hj. destruct (decide (j = Z.to_nat i)) as [->|Hne].
      * rewrite Hlo by lia. rewrite list_lookup_insert_eq by lia. by exists b'.
      * apply Hhi. lia.
Qed.

(** X8 (DebugHeapInit): for a budget of at least two pages, on a
    page-aligned range, DebugHeapInit returns a heap.  The whole user
    region is one free block: the free list holds the root record alone,
    which spans the pages from 0 to [mem_page_count]; the pending list is
    empty, no page has a block in the lookup table, and the reservation
    is the bookkeeping pages followed by the user pages. *)
Theorem init_succeeds (os_range mem_size_bytes : Z) :
  8192 <= mem_size_bytes < 2 ^ 43 -> 0 < os_range < 2 ^ 63 ->
  os_range mod kPageSize = 0 ->
  exists w,
    DebugHeapInit os_range mem_size_bytes = Ok (Some w) /\
    m_PageCount (w_heap w) = mem_size_bytes / kPageSize /\
    m_FreeListSize (w_heap w) = 1 /\
    m_FreeList (w_heap w) !! 0%nat = Some (Some 0%nat) /\
    m_Blocks (w_heap w) !! 0%nat
    = Some (Blk.mk false (mem_size_bytes / kPageSize) false 0 None None) /\
    m_PendingListSize (w_heap w) = 0 /\
    (forall i e, m_BlockLookup (w_heap w) !! i = Some e -> e = None) /\
    m_BaseAddress (w_heap w)
    = os_range + bookkeeping_pages_of (mem_size_bytes / kPageSize) * kPageSize /\
    vm_mapped (w_vm w)
    = Some (os_range,
            (bookkeeping_pages_of (mem_size_bytes / kPageSize)
             + mem_size_bytes / kPageSize) * kPageSize).
Proof.
  intros Hmem Hos Hal.
  set (P := mem_size_bytes / kPageSize).
  assert (2 <= P < 2 ^ 31) as HP.
  { unfold P, kPageSize. split; [apply Z.div_le_lower_bound; lia|].
    apply Z.div_lt_upper_bound; lia. }
  pose proof (bookkeeping_pages_range P ltac:(lia)) as HB.
  assert (exists w, DebugHeapInit os_range mem_size_bytes = Ok (Some w)) as [w Hw].
  { unfold DebugHeapInit. cbv zeta. fold P.
    change (u64 (u64 (sizeof_DebugHeap + 3 * P * sizeof_ptr + sizeof_DebugBlockInfo * P)
                 + kPageSize - 1) / kPageSize) with (bookkeeping_pages_of P).
    set (B := bookkeeping_pages_of P) in *.
    unfold VmAllocate.
    assert ((os_range =? 0) = false) as Hnz by (apply Z.eqb_neq; lia).
    rewrite Hnz. simpl. rewrite Hnz.
    unfold VmCommit, range_mapped, page_aligned. simpl.
    rewrite (u64_small (B + P)), (u64_small ((B + P) * kPageSize)),
      (u64_small (B * kPageSize)) by (unfold kPageSize; lia).
    assert ((os_range mod kPageSize =? 0) && (os_range <=? os_range)
            && (os_range + B * kPageSize <=? os_range + (B + P) * kPageSize) = true)
      as ->.
    { rewrite !andb_true_iff, Z.eqb_eq, !Z.leb_le. unfold kPageSize in *. lia. }
    simpl.
    assert (1 <= P / 2 <= P) as HP2.
    { split; [apply Z.div_le_lower_bound; lia|apply Z.div_le_upper_bound; lia]. }
    rewrite (u32_small (P / 2)) by lia.
    destruct (init_loop_Ok (P / 2) (Z.to_nat (P / 2)) 0 (replicate (Z.to_nat P) Blk.zero))
      as (blocks & Hrun & _ & Hhi); [lia|rewrite length_replicate; lia|].
    rewrite Hrun. simpl.
    destruct (Hhi 0%nat ltac:(lia)) as (b0 & Hb0 & Hfl).
    apply pair_equal_spec in Hfl as [Hfa Hfp].
    unfold AllocBlockInfo. simpl. rewrite Hb0. simpl. rewrite Hfa, Hfp. simpl.
    unfold update, deref, store. simpl.
    rewrite list_lookup_insert_eq by (by eapply lookup_lt_Some). simpl.
    unfold arr_set. simpl. rewrite decide_True by (rewrite length_replicate; lia).
    simpl. eauto. }
  exists w. split; [done|].
  destruct (DebugHeapInit_Ok _ _ _ Hw ltac:(lia))
    as (_ & _ & _ & Hm & HPc & _ & HBa & HnF & HFL & HnP & _ & HLK & _ & Hb0).
  fold P in Hm, HPc, HBa, HFL, HLK, Hb0.
  rewrite HPc, HnF, HFL, Hb0, HnP, HLK, HBa, Hm.
  split_and!; try done.
  - apply list_lookup_insert_eq. rewrite length_replicate. lia.
  - intros i e He. by apply lookup_replicate in He as [-> _].
  - rewrite u64_small by (unfold kPageSize; lia). lia.
Qed.

(** A run of X8: a budget of 32 KiB in a range at 65536. *)
Lemma init_succeeds_witness :
  exists w,
    DebugHeapInit 65536 32768 = Ok (Some w) /\
    m_PageCount (w_heap w) = 8 /\ m_BaseAddress (w_heap w) = 69632 /\
    vm_mapped (w_vm w) = Some (65536, 36864).
Proof.
  destruct (init_succeeds 65536 32768) as (w & Hw & HP & _ & _ & _ & _ & _ & HB & Hm);
    [lia|lia|reflexivity|].
  exists w. split; [done|]. split; [exact HP|]. split; [exact HB|exact Hm].
Defined.

(** X9 (DebugHeapInit, AllocBlockInfo): a budget of one page makes no
    heap.  With [max_allocs] at 0 no record is marked unused, so the
    AllocBlockInfo that is to hand out the root record stops at its
    assertion [Block info corrupted]. *)
Theorem init_one_page_fails (os_range mem_size_bytes : Z) :
  4096 <= mem_size_bytes < 8192 -> 0 < os_range -> os_range mod kPageSize = 0 ->
  DebugHeapInit os_range mem_size_bytes = Err (AssertFatal "Block info corrupted").
Proof.
  intros Hmem Hos Hal.
  assert (mem_size_bytes / kPageSize = 1) as HP1.
  { unfold kPageSize. symmetry.
    apply Z.div_unique with (r := mem_size_bytes - 4096); lia. }
  set (P := mem_size_bytes / kPageSize) in *.
  pose proof (bookkeeping_pages_range P ltac:(lia)) as HB.
  unfold DebugHeapInit. cbv zeta. fold P.
  change (u64 (u64 (sizeof_DebugHeap + 3 * P * sizeof_ptr + sizeof_DebugBlockInfo * P)
               + kPageSize - 1) / kPageSize) with (bookkeeping_pages_of P).
  set (B := bookkeeping_pages_of P) in *.
  unfold VmAllocate.
  assert ((os_range =? 0) = false) as Hnz by (apply Z.eqb_neq; lia).
  rewrite Hnz. simpl. rewrite Hnz.
  unfold VmCommit, range_mapped, page_aligned. simpl.
  rewrite (u64_small (B + P)), (u64_small ((B + P) * kPageSize)),
    (u64_small (B * kPageSize)) by (unfold kPageSize; lia).
  assert ((os_range mod kPageSize =? 0) && (os_range <=? os_range)
          && (os_range + B * kPageSize <=? os_range + (B + P) * kPageSize) = true)
    as ->.
  { rewrite !andb_true_iff, Z.eqb_eq, !Z.leb_le. unfold kPageSize in *. lia. }
  simpl. rewrite HP1. reflexivity.
Qed.

(** A run of X9: a budget of 4096 bytes. *)
Lemma init_one_page_fails_witness :
  DebugHeapInit 65536 4096 = Err (AssertFatal "Block info corrupted").
Proof. apply init_one_page_fails; [lia|lia|reflexivity]. Defined.

(* ===================================================================== *)
(** * Further properties: what is accessible after a call                 *)
(* ===================================================================== *)

Lemma FinalizeAlloc_trace ptr user_size pages user_alignment vm result vm' :
  FinalizeAlloc ptr user_size pages user_alignment vm = Ok (result, vm') ->
  vm_trace vm' =
    CallMemset ptr 252 (placement_offset user_size user_alignment)
    :: CallVmDecommit (u64 (ptr + u64 ((pages - 1) * kPageSize))) kPageSize
    :: CallVmCommit ptr (u64 ((pages - 1) * kPageSize)) :: vm_trace vm.
Proof.
  unfold FinalizeAlloc. intros H.
  apply bind_Ok in H as [vm1 [E1 H]]. apply VmCommit_Ok in E1 as (_ & _ & Ht1).
  apply bind_Ok in H as [vm2 [E2 H]]. apply VmDecommit_Ok in E2 as (_ & _ & Ht2).
  apply bind_Ok in H as [vm3 [E3 H]]. apply memset_Ok in E3 as (_ & Ht3).
  injection H as _ <-. rewrite Ht3, Ht2, Ht1. done.
Qed.

Lemma DebugHeapAllocate_success w size alignment p w' :
  WInv w -> DebugHeapAllocate w size alignment = Ok (p, w') -> p <> 0 ->
  exists hs ls ptr h1,
    InvK 0 ls hs /\
    m_BaseAddress hs = m_BaseAddress (w_heap w) /\
    m_PageCount hs = m_PageCount (w_heap w) /\
    m_BlockLookup hs = m_BlockLookup (w_heap w) /\
    (hs = set_ReentrancyGuard 1 (w_heap w) \/
     FlushPendingFrees (set_ReentrancyGuard 1 (w_heap w)) = Ok hs) /\
    AllocFromFreeList hs (page_requirement size) = Ok (ptr, h1) /\ ptr <> 0 /\
    FinalizeAlloc ptr size (page_requirement size) alignment (w_vm w) = Ok (p, w_vm w') /\
    w_heap w' = set_ReentrancyGuard 0 h1 /\ w_self w' = w_self w.
Proof.
  intros ([l HI] & Hb0 & Hb1 & _) H Hpnz.
  unfold DebugHeapAllocate in H.
  apply bind_Ok in H as [h0 [E0 H]]. apply ENTER_Ok in E0 as ->.
  apply (InvK_set_guard _ _ _ 1) in HI.
  apply bind_Ok in H as [[ptr h1] [E1 H]].
  destruct (negb (ptr =? 0)) eqn:Hptr.
  - apply negb_true_iff, Z.eqb_neq in Hptr.
    apply bind_Ok in H as [[result vm] [E2 H]].
    apply bind_Ok in H as [h2 [E3 H]]. apply LEAVE_Ok in E3 as ->. injection H as <- <-.
    exists (set_ReentrancyGuard 1 (w_heap w)), l, ptr, h1. split_and!; try done. by left.
  - apply negb_false_iff, Z.eqb_eq in Hptr. subst ptr.
    destruct (AllocFromFreeList_null _ _ _ _ _ HI Hb0 Hb1 E1) as [-> _].
    apply bind_Ok in H as [h2 [E2 H]].
    destruct (FlushPendingFrees_inv _ _ _ HI E2) as ([l2 HI2] & _ & HLK2 & HP2 & HB2 & _).
    apply bind_Ok in H as [[ptr h3] [E3 H]].
    destruct (negb (ptr =? 0)) eqn:Hptr.
    + apply negb_true_iff, Z.eqb_neq in Hptr.
      apply bind_Ok in H as [[result vm] [E4 H]].
      apply bind_Ok in H as [h4 [E5 H]]. apply LEAVE_Ok in E5 as ->. injection H as <- <-.
      exists h2, l2, ptr, h3. split_and!; try done. by right.
    + apply bind_Ok in H as [h4 [E5 H]]. by injection H as <- <-.
Qed.

Lemma DebugHeapAllocate_access (os_range mem_size_bytes : Z) (w w' : World)
    (size alignment p : Z) :
  0 <= os_range < 2 ^ 63 -> WInv w -> Shape os_range mem_size_bytes w ->
  0 < mem_size_bytes / kPageSize < 2 ^ 31 ->
  1 <= bookkeeping_pages_of (mem_size_bytes / kPageSize) <= mem_size_bytes / kPageSize + 2 ->
  DebugHeapAllocate w size alignment = Ok (p, w') -> p <> 0 ->
  exists r b,
    m_BlockLookup (w_heap w') !! Z.to_nat (page_index_of (w_heap w') p) = Some (Some r) /\
    m_Blocks (w_heap w') !! r = Some b /\
    block_base (w_heap w') b <= p < block_base (w_heap w') b + kPageSize /\
    (forall x,
        block_base (w_heap w') b <= x
        < block_base (w_heap w') b + (Blk.m_PageCount b - 1) * kPageSize ->
        accessible (vm_trace (w_vm w')) x = true) /\
    (forall x,
        block_base (w_heap w') b + (Blk.m_PageCount b - 1) * kPageSize <= x
        < block_base (w_heap w') b + Blk.m_PageCount b * kPageSize ->
        accessible (vm_trace (w_vm w')) x = false) /\
    (0 <= size <= 2 ^ 31 - 4096 -> 1 <= alignment <= 2 ^ 32 ->
     forall x, p <= x < p + size -> accessible (vm_trace (w_vm w')) x = true).
Proof.
  intros Hos HW HS HPr HBr Halloc Hnz.
  destruct HS as (HG & HP & HB & _).
  destruct (DebugHeapAllocate_success _ _ _ _ _ HW Halloc Hnz)
    as (hs & ls & ptr & h1 & HIs & HBs & HPs & _ & _ & E1 & Hptr & E2 & Hh & _).
  pose proof (page_requirement_range size) as Hreq.
  destruct (AllocFromFreeList_block _ _ _ _ _ _ HIs (proj1 Hreq) E1 Hptr)
    as (r & b & Hb & Hpc & Hpi & Hlk & Hptr1).
  assert (m_BaseAddress h1 = m_BaseAddress hs) as HB1.
  { destruct (AllocFromFreeList_Ok _ _ _ _ E1) as (best & sz & idx & _ & Hbest).
    destruct best; [|by destruct Hbest as [_ ->]].
    destruct Hbest as (? & ? & ? & ? & ? & ? & ? & ? & ? & ? & ? & ? & ? & ? & ?). done. }
  destruct HW as (_ & _ & _ & start & len & Hm & Hlen).
  destruct (FinalizeAlloc_Ok _ _ _ _ _ _ _ _ _ E2 Hm Hlen Hreq) as (Hpos & _ & Hres).
  fold (placement_offset size alignment) in Hres.
  pose proof (FinalizeAlloc_trace _ _ _ _ _ _ _ E2) as Ht.
  pose proof (placement_offset_range size alignment) as Hoff.
  pose proof (inv_pages _ _ _ HIs) as HPs31.
  set (bb := m_BaseAddress hs + Blk.m_PageIndex b * kPageSize) in *.
  assert (0 < bb /\ bb + (m_PageCount hs - Blk.m_PageIndex b) * kPageSize < 2 ^ 64)
    as Hbb.
  { unfold bb. rewrite HBs, HB, HPs, HP. unfold kPageSize in *. lia. }
  assert (page_requirement size <= m_PageCount hs - Blk.m_PageIndex b) as Hfit.
  { destruct (AllocFromFreeList_inv _ _ _ _ _ _ HIs Hpos E1) as [l1 HI1].
    destruct (inv_lookup _ _ _ HI1 _ _ Hlk) as (Hrl & b2 & Hb2 & _).
    rewrite Hb in Hb2. injection Hb2 as <-.
    destruct (InvK_block_range _ _ _ _ _ HI1 Hrl Hb) as (? & ? & Hend & ?).
    assert (m_PageCount h1 = m_PageCount hs) as <-; [|lia].
    destruct (AllocFromFreeList_Ok _ _ _ _ E1) as (best & sz & idx & _ & Hbest).
    destruct best; [|by destruct Hbest as [_ ->]].
    destruct Hbest as (? & ? & ? & ? & ? & ? & ? & ? & ? & ? & ? & ? & ? & ? & ?). done. }
  rewrite (u64_small bb) in Hptr1 by (unfold kPageSize in *; lia). subst ptr.
  rewrite u64_small in Hres by (unfold kPageSize in *; lia).
  rewrite (u64_small ((page_requirement size - 1) * kPageSize)) in Ht
    by (unfold kPageSize in *; lia).
  rewrite (u64_small (bb + _)) in Ht by (unfold kPageSize in *; lia).
  assert (block_base (w_heap w') b = bb) as Hbase.
  { unfold block_base, bb. by rewrite Hh, <- HB1. }
  assert (page_index_of (w_heap w') p = Blk.m_PageIndex b) as Hpg.
  { rewrite (page_index_of_base _ hs) by (by rewrite Hh, <- HB1).
    rewrite Hres. unfold bb.
    apply page_index_of_block; unfold kPageSize in *; lia. }
  exists r, b. rewrite Hpg, Hbase, Ht, Hpc, Hh. simpl.
  split; [done|]. split; [done|]. split; [unfold kPageSize in *; lia|].
  assert (forall x,
             bb <= x < bb + (page_requirement size - 1) * kPageSize ->
             (if (bb + (page_requirement size - 1) * kPageSize <=? x)
                 && (x <? bb + (page_requirement size - 1) * kPageSize + kPageSize)
              then false
              else if (bb <=? x) && (x <? bb + (page_requirement size - 1) * kPageSize)
                   then true else accessible (vm_trace (w_vm w)) x) = true) as Huser.
  { intros x Hx.
    assert ((bb + (page_requirement size - 1) * kPageSize <=? x) = false) as ->
        by (apply Z.leb_gt; lia).
    simpl.
    assert ((bb <=? x) && (x <? bb + (page_requirement size - 1) * kPageSize) = true)
      as ->; [|done].
    apply andb_true_iff. rewrite Z.leb_le, Z.ltb_lt. lia. }
  split; [exact Huser|]. split.
  - intros x Hx.
    assert ((bb + (page_requirement size - 1) * kPageSize <=? x)
            && (x <? bb + (page_requirement size - 1) * kPageSize + kPageSize) = true)
      as ->; [|done].
    apply andb_true_iff. rewrite Z.leb_le, Z.ltb_lt. unfold kPageSize in *. lia.
  - intros Hs Ha x Hx. apply Huser.
    destruct (page_requirement_small _ Hs) as [Hreq' _].
    pose proof (ideal_offset_small _ Hs) as Hideal.
    assert (placement_offset size alignment
            <= u32 (u64 (kPageSize - size)) mod kPageSize) as Hle.
    { unfold placement_offset.
      rewrite (u64_small (alignment - 1)), (u32_small (alignment - 1)) by lia.
      pose proof (Z.mod_pos_bound (u32 (u64 (kPageSize - size))) kPageSize
                    ltac:(unfold kPageSize; lia)).
      rewrite land_not32 by (unfold kPageSize in *; lia).
      pose proof (land_le_r (u32 (u64 (kPageSize - size)) mod kPageSize) (alignment - 1)
                    ltac:(lia) ltac:(lia)). lia. }
    rewrite Hreq'. unfold kPageSize in *. lia.
Qed.

(** X10 (DebugHeapAllocate, FinalizeAlloc): on a heap made by
    DebugHeapInit and used through the public operations, when
    DebugHeapAllocate returns a pointer, the pointer lies in the first
    page of its block, every page of the block but the last is
    accessible, and the last page, the guard page, is not.  For a
    request of at most 2^31 - 4096 bytes with an alignment between 1 and
    2^32, every byte of the request is accessible. *)
Theorem allocation_guarded (os_range mem_size_bytes : Z) (ops : list Op)
    (w w' : World) (size alignment p : Z) :
  0 <= mem_size_bytes < 2 ^ 43 -> 0 <= os_range < 2 ^ 63 ->
  final_world os_range mem_size_bytes ops = Some w ->
  DebugHeapAllocate w size alignment = Ok (p, w') -> p <> 0 ->
  exists r b,
    m_BlockLookup (w_heap w') !! Z.to_nat (page_index_of (w_heap w') p) = Some (Some r) /\
    m_Blocks (w_heap w') !! r = Some b /\
    block_base (w_heap w') b <= p < block_base (w_heap w') b + kPageSize /\
    (forall x,
        block_base (w_heap w') b <= x
        < block_base (w_heap w') b + (Blk.m_PageCount b - 1) * kPageSize ->
        accessible (vm_trace (w_vm w')) x = true) /\
    (forall x,
        block_base (w_heap w') b + (Blk.m_PageCount b - 1) * kPageSize <= x
        < block_base (w_heap w') b + Blk.m_PageCount b * kPageSize ->
        accessible (vm_trace (w_vm w')) x = false) /\
    (0 <= size <= 2 ^ 31 - 4096 -> 1 <= alignment <= 2 ^ 32 ->
     forall x, p <= x < p + size -> accessible (vm_trace (w_vm w')) x = true).
Proof.
  intros Hmem Hos Hw Halloc Hnz.
  destruct (live_heap _ _ _ _ Hmem Hos Hw) as (HW & HS & HPr & HBr).
  by eapply DebugHeapAllocate_access.
Qed.

(** A run of X10: 128 bytes on the heap of eight pages.  The request is
    accessible and ends where the guard page begins. *)
Lemma allocation_guarded_witness :
  exists w w',
    final_world 65536 32768 [] = Some w /\
    DebugHeapAllocate w 128 4 = Ok (73600, w') /\
    (forall x, 73600 <= x < 73600 + 128 -> accessible (vm_trace (w_vm w')) x = true) /\
    (forall x, 73728 <= x < 77824 -> accessible (vm_trace (w_vm w')) x = false).
Proof.
  evar (w : World). evar (w' : World). exists w, w'.
  assert (final_world 65536 32768 [] = Some w) as Hw
      by (subst w; vm_compute; reflexivity).
  assert (DebugHeapAllocate w 128 4 = Ok (73600, w')) as Ha
      by (subst w w'; vm_compute; reflexivity).
  destruct (allocation_guarded 65536 32768 [] _ _ 128 4 73600
              ltac:(lia) ltac:(lia) Hw Ha ltac:(discriminate))
    as (r & b & Hlk & Hb & _ & _ & Hguard & Hreq).
  split; [exact Hw|]. split; [exact Ha|].
  split; [apply Hreq; lia|].
  vm_compute in Hlk. injection Hlk as <-.
  vm_compute in Hb. injection Hb as <-.
  exact Hguard.
Defined.

Lemma DebugHeapFree_trace w ptr w' :
  DebugHeapFree w ptr = Ok w' ->
  exists r b,
    m_BlockLookup (w_heap w) !! Z.to_nat (page_index_of (w_heap w) ptr) = Some (Some r) /\
    m_Blocks (w_heap w) !! r = Some b /\
    m_Blocks (w_heap w')
    = <[r := Blk.set_PendingFree true (Blk.set_Allocated false b)]> (m_Blocks (w_heap w)) /\
    vm_trace (w_vm w')
    = CallVmDecommit (u64 (block_base (w_heap w) b))
        (u64 ((Blk.m_PageCount b - 1) * kPageSize)) :: vm_trace (w_vm w).
Proof.
  intros H. unfold DebugHeapFree in H.
  apply bind_Ok in H as [h0 [E0 H]]. apply ENTER_Ok in E0 as ->.
  apply bind_Ok in H as [[] [Hlt H]].
  apply bind_Ok in H as [block [Hlk H]]. apply arr_get_Ok in Hlk.
  apply bind_Ok in H as [[] [Hnn H]]. apply ASSERT_FATAL_Ok in Hnn.
  destruct block as [r|]; [clear Hnn|done].
  apply bind_Ok in H as [[r0 xr] [Hr H]]. apply deref_Ok in Hr as [[= ->] Hr].
  apply bind_Ok in H as [[] [Ha H]].
  apply bind_Ok in H as [[] [Hp H]].
  apply bind_Ok in H as [h1 [E1 H]].
  apply update_Ok in E1 as (r1 & xr1 & [= ->] & Hr1 & ->).
  rewrite Hr in Hr1. injection Hr1 as <-.
  apply bind_Ok in H as [bl [E2 H]]. apply arr_set_Ok in E2 as [Hlen2 ->].
  apply bind_Ok in H as [[r2 xr2] [E3 H]]. apply deref_Ok in E3 as [[= ->] Hr2].
  apply bind_Ok in H as [[] [_ H]].
  apply bind_Ok in H as [pl [E4 H]]. apply arr_set_Ok in E4 as [Hlen3 ->].
  apply bind_Ok in H as [[r3 xr3] [E5 H]]. apply deref_Ok in E5 as [[= ->] Hr3].
  apply bind_Ok in H as [vm [E6 H]]. apply VmDecommit_Ok in E6 as (_ & _ & Ht).
  apply bind_Ok in H as [h5 [E7 H]]. apply LEAVE_Ok in E7 as ->. injection H as <-.
  simpl in *.
  rewrite list_lookup_insert_eq in Hr3 by (by eapply lookup_lt_Some).
  injection Hr3 as <-.
  exists r, xr. split_and!; done.
Qed.

Lemma DebugHeapFree_access (os_range mem_size_bytes : Z) (w w' : World) (ptr : Z) :
  0 <= os_range < 2 ^ 63 -> WInv w -> Shape os_range mem_size_bytes w ->
  0 < mem_size_bytes / kPageSize < 2 ^ 31 ->
  1 <= bookkeeping_pages_of (mem_size_bytes / kPageSize) <= mem_size_bytes / kPageSize + 2 ->
  DebugHeapFree w ptr = Ok w' ->
  exists r b,
    m_BlockLookup (w_heap w) !! Z.to_nat (page_index_of (w_heap w) ptr) = Some (Some r) /\
    m_Blocks (w_heap w) !! r = Some b /\
    forall x,
      block_base (w_heap w) b <= x
      < block_base (w_heap w) b + (Blk.m_PageCount b - 1) * kPageSize ->
      accessible (vm_trace (w_vm w')) x = false.
Proof.
  intros Hos HW HS HPr HBr Hfree.
  destruct HS as (HG & HP & HB & _).
  destruct (DebugHeapFree_trace _ _ _ Hfree) as (r & b & Hlk & Hb & _ & Ht).
  exists r, b. split; [done|]. split; [done|].
  destruct HW as ([l HI] & _).
  destruct (inv_lookup _ _ _ HI _ _ Hlk) as (Hrl & b2 & Hb2 & _).
  rewrite Hb in Hb2. injection Hb2 as <-.
  destruct (InvK_block_range _ _ _ _ _ HI Hrl Hb) as (Hpi0 & Hpc0 & Hend & _).
  intros x Hx. rewrite Ht. simpl.
  unfold block_base in *.
  rewrite !u64_small by (rewrite ?HB; unfold kPageSize in *; lia).
  assert ((m_BaseAddress (w_heap w) + Blk.m_PageIndex b * kPageSize <=? x)
          && (x <? m_BaseAddress (w_heap w) + Blk.m_PageIndex b * kPageSize
                   + (Blk.m_PageCount b - 1) * kPageSize) = true) as ->; [|done].
  apply andb_true_iff. rewrite Z.leb_le, Z.ltb_lt. lia.
Qed.

(** X11 (DebugHeapFree): on a heap made by DebugHeapInit and used through
    the public operations, after DebugHeapFree of a pointer none of the
    pages that held the allocation is accessible any more: a later read
    or write through the pointer faults. *)
Theorem freed_pages_inaccessible (os_range mem_size_bytes : Z) (ops : list Op)
    (w w' : World) (ptr : Z) :
  0 <= mem_size_bytes < 2 ^ 43 -> 0 <= os_range < 2 ^ 63 ->
  final_world os_range mem_size_bytes ops = Some w ->
  DebugHeapFree w ptr = Ok w' ->
  exists r b,
    m_BlockLookup (w_heap w) !! Z.to_nat (page_index_of (w_heap w) ptr) = Some (Some r) /\
    m_Blocks (w_heap w) !! r = Some b /\
    forall x,
      block_base (w_heap w) b <= x
      < block_base (w_heap w) b + (Blk.m_PageCount b - 1) * kPageSize ->
      accessible (vm_trace (w_vm w')) x = false.
Proof.
  intros Hmem Hos Hw Hfree.
  destruct (live_heap _ _ _ _ Hmem Hos Hw) as (HW & HS & HPr & HBr).
  by eapply DebugHeapFree_access.
Qed.

(** A run of X11: 128 bytes are allocated and freed; the page that held
    them is no longer accessible. *)
Lemma freed_pages_inaccessible_witness :
  exists w w',
    final_world 65536 32768 small_ops = Some w /\
    DebugHeapFree w 73600 = Ok w' /\
    forall x, 69632 <= x < 73728 -> accessible (vm_trace (w_vm w')) x = false.
Proof.
  evar (w : World). evar (w' : World). exists w, w'.
  assert (final_world 65536 32768 small_ops = Some w) as Hw
      by (subst w; vm_compute; reflexivity).
  assert (DebugHeapFree w 73600 = Ok w') as Hf by (subst w w'; vm_compute; reflexivity).
  destruct (freed_pages_inaccessible 65536 32768 small_ops _ _ 73600
              ltac:(lia) ltac:(lia) Hw Hf) as (r & b & Hlk & Hb & Hacc).
  split; [exact Hw|]. split; [exact Hf|].
  vm_compute in Hlk. injection Hlk as <-.
  vm_compute in Hb. injection Hb as <-.
  exact Hacc.
Defined.

(* ===================================================================== *)
(** * Further properties: live allocations                                *)
(* ===================================================================== *)

(** X12 (DebugHeapAllocate, DebugHeapFree): on a heap made by
    DebugHeapInit and used through the public operations, every entry of
    the lookup table points to a block record that is Allocated and not
    PendingFree, starts at the page of the entry, is not empty and lies
    inside the user region; and the blocks of any two entries are
    different records that share no page. *)
Theorem live_allocations_disjoint (os_range mem_size_bytes : Z) (ops : list Op)
    (w : World) (i r : nat) :
  0 <= mem_size_bytes < 2 ^ 43 -> 0 <= os_range < 2 ^ 63 ->
  final_world os_range mem_size_bytes ops = Some w ->
  m_BlockLookup (w_heap w) !! i = Some (Some r) ->
  exists b,
    m_Blocks (w_heap w) !! r = Some b /\
    Blk.m_Allocated b = true /\ Blk.m_PendingFree b = false /\
    Blk.m_PageIndex b = Z.of_nat i /\
    0 < Blk.m_PageCount b /\
    Blk.m_PageIndex b + Blk.m_PageCount b <= m_PageCount (w_heap w) /\
    forall j r' b',
      j <> i ->
      m_BlockLookup (w_heap w) !! j = Some (Some r') ->
      m_Blocks (w_heap w) !! r' = Some b' ->
      r' <> r /\
      (Blk.m_PageIndex b + Blk.m_PageCount b <= Blk.m_PageIndex b' \/
       Blk.m_PageIndex b' + Blk.m_PageCount b' <= Blk.m_PageIndex b).
Proof.
  intros Hmem Hos Hw Hi.
  destruct (live_heap _ _ _ _ Hmem Hos Hw) as (([l HI] & _) & _).
  destruct (inv_lookup _ _ _ HI _ _ Hi) as (Hrl & b & Hb & Ha & Hpi).
  destruct (InvK_block_range _ _ _ _ _ HI Hrl Hb) as (Hpi0 & Hpc0 & Hend & _).
  pose proof (inv_live _ _ _ HI _ _ Hrl Hb) as Hlive.
  exists b. split; [done|]. split; [done|].
  split.
  { destruct (Blk.m_PendingFree b) eqn:Hp; [|done].
    exfalso. apply Hlive. unfold flags. by rewrite Ha, Hp. }
  split; [done|]. split; [done|]. split; [done|].
  intros j r' b' Hne Hj Hb'.
  destruct (inv_lookup _ _ _ HI _ _ Hj) as (Hrl' & b2 & Hb2 & Ha' & Hpi').
  rewrite Hb' in Hb2. injection Hb2 as <-.
  destruct (InvK_block_range _ _ _ _ _ HI Hrl' Hb') as (Hpi0' & Hpc0' & Hend' & _).
  split.
  { intros ->. rewrite Hb in Hb'. injection Hb' as <-. lia. }
  pose proof (inv_chain _ _ _ HI) as HS.
  destruct (decide (Blk.m_PageIndex b + Blk.m_PageCount b <= Blk.m_PageIndex b'))
    as [|Hn1]; [by left|].
  destruct (decide (Blk.m_PageIndex b' + Blk.m_PageCount b' <= Blk.m_PageIndex b))
    as [|Hn2]; [by right|].
  exfalso.
  destruct (decide (Blk.m_PageIndex b <= Blk.m_PageIndex b')) as [Hle|Hgt].
  - assert (r = r') as <- by (eapply (Seg_disjoint _ _ _ _ _ _ r r'); eauto; lia).
    rewrite Hb in Hb'. injection Hb' as <-. lia.
  - assert (r' = r) as -> by (eapply (Seg_disjoint _ _ _ _ _ _ r' r); eauto; lia).
    rewrite Hb in Hb'. injection Hb' as <-. lia.
Qed.

(** A run of X12: two allocations on the heap of eight pages, of two and
    of three pages; the entry of the first. *)
Lemma live_allocations_disjoint_witness :
  exists w b,
    final_world 65536 32768 [OpAllocate 128 4; OpAllocate 8192 1] = Some w /\
    m_Blocks (w_heap w) !! 0%nat = Some b /\
    Blk.m_Allocated b = true /\ Blk.m_PendingFree b = false /\
    Blk.m_PageIndex b = 0 /\
    0 < Blk.m_PageCount b /\
    Blk.m_PageIndex b + Blk.m_PageCount b <= m_PageCount (w_heap w) /\
    forall j r' b',
      j <> 0%nat ->
      m_BlockLookup (w_heap w) !! j = Some (Some r') ->
      m_Blocks (w_heap w) !! r' = Some b' ->
      r' <> 0%nat /\
      (Blk.m_PageIndex b + Blk.m_PageCount b <= Blk.m_PageIndex b' \/
       Blk.m_PageIndex b' + Blk.m_PageCount b' <= Blk.m_PageIndex b).
Proof.
  evar (w : World). exists w.
  assert (final_world 65536 32768 [OpAllocate 128 4; OpAllocate 8192 1] = Some w) as Hw
      by (subst w; vm_compute; reflexivity).
  assert (m_BlockLookup (w_heap w) !! 0%nat = Some (Some 0%nat)) as Hlk
      by (subst w; vm_compute; reflexivity).
  destruct (live_allocations_disjoint 65536 32768 _ w 0 0 ltac:(lia) ltac:(lia) Hw Hlk)
    as (b & H).
  exists b. split; [exact Hw|exact H].
Defined.

Lemma pending_count k l h r b :
  InvK 0 l h -> k = Z.to_nat (m_PendingListSize h) ->
  (k <= length (m_PendingList h))%nat ->
  r ∈ l -> m_Blocks h !! r = Some b -> Blk.m_Allocated b = true ->
  (k < length l)%nat.
Proof.
  intros HI -> Hlen Hrl Hb Ha.
  destruct (inv_pend _ _ _ HI) as [HE Hinj].
  set (n := Z.to_nat (m_PendingListSize h)) in *.
  set (qs := (fun e : blockptr => default 0%nat e) <$> take n (m_PendingList h)).
  assert (length qs = n) as Hqs.
  { unfold qs. rewrite length_fmap, length_take. lia. }
  assert (forall q, q ∈ qs -> exists i, (i < n)%nat /\ m_PendingList h !! i = Some (Some q) /\
                                         block_in h l (false, true) q) as Hel.
  { intros q Hq. unfold qs in Hq. apply list_elem_of_fmap in Hq as (e & -> & He).
    apply list_elem_of_lookup in He as [i Hi].
    assert (i < n)%nat as Hin.
    { apply lookup_lt_Some in Hi. rewrite length_take in Hi. lia. }
    rewrite lookup_take_lt in Hi by done.
    destruct (HE i e ltac:(lia) Hi) as (q & -> & Hq). exists i. done. }
  assert (NoDup qs) as Hnd.
  { unfold qs. apply NoDup_fmap_2_strong.
    - intros x y Hx Hy Hxy.
      apply list_elem_of_lookup in Hx as [i Hi]. apply list_elem_of_lookup in Hy as [j Hj].
      assert (i < n)%nat by (apply lookup_lt_Some in Hi; rewrite length_take in Hi; lia).
      assert (j < n)%nat by (apply lookup_lt_Some in Hj; rewrite length_take in Hj; lia).
      rewrite lookup_take_lt in Hi, Hj by done.
      destruct (HE i x ltac:(lia) Hi) as (q & -> & _).
      destruct (HE j y ltac:(lia) Hj) as (q' & -> & _). simpl in Hxy. by subst.
    - apply NoDup_alt. intros i j x Hi Hj.
      assert (i < n)%nat by (apply lookup_lt_Some in Hi; rewrite length_take in Hi; lia).
      assert (j < n)%nat by (apply lookup_lt_Some in Hj; rewrite length_take in Hj; lia).
      rewrite lookup_take_lt in Hi, Hj by done.
      apply (Hinj i j x); try done; lia. }
  assert (r ∉ qs) as Hr.
  { intros Hq. destruct (Hel _ Hq) as (i & _ & _ & _ & b' & Hb' & Hfl).
    rewrite Hb in Hb'. injection Hb' as <-. unfold flags in Hfl. congruence. }
  assert (r :: qs ⊆+ l) as Hsub.
  { apply NoDup_submseteq; [by constructor|].
    intros q Hq. apply elem_of_cons in Hq as [->|Hq]; [done|].
    by destruct (Hel _ Hq) as (_ & _ & _ & ? & _). }
  apply submseteq_length in Hsub. simpl in Hsub. lia.
Qed.

Lemma check_lookup_null_Ok h page_index max :
  (forall i, 1 <= i < max ->
             m_BlockLookup h !! Z.to_nat (u32 (page_index + i)) = Some None) ->
  check_lookup_null h page_index max = Ok tt.
Proof.
  unfold check_lookup_null. intros H.
  assert (forall n s, 1 <= s -> s + Z.of_nat n <= Z.max max 1 ->
            for_loop n s
              (fun i (_ : unit) =>
                 let* e := arr_get (m_BlockLookup h) (u32 (page_index + i)) in
                 ASSERT_FATAL (is_null e) "block lookup corrupted") tt = Ok tt) as Hloop.
  { induction n as [|n IH]; intros s Hs Hn; [done|].
    simpl. unfold arr_get. rewrite H by lia. simpl. apply IH; lia. }
  apply Hloop; lia.
Qed.

Lemma LEAVE_entered h :
  m_ReentrancyGuard h = 1 -> DEBUG_THREAD_GUARD_LEAVE h = Ok (set_ReentrancyGuard 0 h).
Proof. intros Hg. unfold DEBUG_THREAD_GUARD_LEAVE, AtomicDec32. by rewrite Hg. Qed.

Lemma DebugHeapFree_live (os_range mem_size_bytes : Z) (w : World) (ptr : Z) (r : nat) :
  0 <= os_range < 2 ^ 63 -> WInv w -> Shape os_range mem_size_bytes w ->
  0 < mem_size_bytes / kPageSize < 2 ^ 31 ->
  1 <= bookkeeping_pages_of (mem_size_bytes / kPageSize) <= mem_size_bytes / kPageSize + 2 ->
  m_BlockLookup (w_heap w) !! Z.to_nat (page_index_of (w_heap w) ptr) = Some (Some r) ->
  exists w',
    DebugHeapFree w ptr = Ok w' /\
    m_BlockLookup (w_heap w')
    = <[Z.to_nat (page_index_of (w_heap w) ptr) := None]> (m_BlockLookup (w_heap w)) /\
    m_PendingList (w_heap w') !! Z.to_nat (m_PendingListSize (w_heap w)) = Some (Some r) /\
    m_PendingListSize (w_heap w') = m_PendingListSize (w_heap w) + 1.
Proof.
  intros Hos HW HS HPr HBr Hlk.
  destruct HS as (HG & HP & HB & Hal & _ & Hm & HLK & HPL & HnP).
  destruct HW as ([l HI] & _).
  set (h := w_heap w) in *. set (P := mem_size_bytes / kPageSize) in *.
  set (B := bookkeeping_pages_of P) in *.
  set (pi := page_index_of h ptr) in *.
  assert (0 <= pi < P) as Hpi.
  { split; [unfold pi, page_index_of, u32; apply Z.mod_pos_bound; lia|].
    apply lookup_lt_Some in Hlk. rewrite HLK in Hlk. lia. }
  destruct (inv_lookup _ _ _ HI _ _ Hlk) as (Hrl & b & Hb & Ha & Hpib).
  rewrite Z2Nat.id in Hpib by lia.
  destruct (InvK_block_range _ _ _ _ _ HI Hrl Hb) as (_ & Hpc0 & Hend & _).
  assert (Blk.m_PendingFree b = false) as Hp.
  { pose proof (inv_live _ _ _ HI _ _ Hrl Hb) as Hlive.
    destruct (Blk.m_PendingFree b) eqn:Hp; [|done].
    exfalso. apply Hlive. unfold flags. by rewrite Ha, Hp. }
  pose proof (inv_sizes _ _ _ HI) as (_ & HnP0 & _).
  assert (Z.to_nat (m_PendingListSize h) < length l)%nat as Hcount.
  { eapply (pending_count _ l h r b); try done. rewrite HPL. lia. }
  pose proof (Seg_pages _ _ _ _ _ _ (inv_chain _ _ _ HI)) as Hpages.
  assert (m_PendingListSize h < P) as HnP' by lia.
  set (b' := Blk.set_PendingFree true (Blk.set_Allocated false b)).
  set (lk' := <[Z.to_nat pi := None]> (m_BlockLookup h)).
  set (h1 := set_BlockLookup lk' (store r b' (set_ReentrancyGuard 1 h))).
  assert (check_lookup_null h1 pi (Blk.m_PageCount b) = Ok tt) as Hchk.
  { apply check_lookup_null_Ok. intros i Hi. simpl. unfold lk'.
    rewrite u32_small by lia.
    rewrite list_lookup_insert_ne by lia.
    destruct (lookup_lt_is_Some_2 (m_BlockLookup h) (Z.to_nat (pi + i))) as [e He];
      [rewrite HLK; lia|].
    rewrite He. destruct e as [r'|]; [exfalso|done].
    destruct (inv_lookup _ _ _ HI _ _ He) as (Hrl' & c & Hc & _ & Hpic).
    rewrite Z2Nat.id in Hpic by lia.
    assert (r = r') as <-.
    { eapply (Seg_disjoint _ _ _ _ _ _ r r'); [apply (inv_chain _ _ _ HI)|done..|lia]. }
    rewrite Hb in Hc. injection Hc as <-. lia. }
  unfold DebugHeapFree. fold h. rewrite (ENTER_idle _ HG). simpl.
  change (page_index_of (set_ReentrancyGuard 1 h) ptr) with pi.
  assert ((pi <? m_PageCount h) = true) as -> by (apply Z.ltb_lt; lia).
  simpl. unfold arr_get. rewrite Hlk. simpl. rewrite Hb. simpl.
  rewrite Ha, Hp. simpl. unfold update. simpl. rewrite Hb. simpl.
  unfold arr_set. simpl.
  rewrite decide_True by (by eapply lookup_lt_Some). simpl.
  rewrite list_lookup_insert_eq by (by eapply lookup_lt_Some). simpl.
  fold b' lk'.
  unfold h1 in Hchk. rewrite Hchk. simpl.
  rewrite decide_True by (rewrite HPL; lia). simpl.
  unfold VmDecommit, range_mapped, page_aligned. rewrite Hm.
  rewrite (u64_small (m_BaseAddress h + _)) by (rewrite HB; unfold kPageSize in *; lia).
  rewrite (u64_small ((Blk.m_PageCount b - 1) * kPageSize))
    by (unfold kPageSize in *; lia).
  assert (((m_BaseAddress h + Blk.m_PageIndex b * kPageSize) mod kPageSize =? 0)
          && (os_range <=? m_BaseAddress h + Blk.m_PageIndex b * kPageSize)
          && (m_BaseAddress h + Blk.m_PageIndex b * kPageSize
              + (Blk.m_PageCount b - 1) * kPageSize <=? os_range + (B + P) * kPageSize)
          = true) as ->.
  { rewrite !andb_true_iff, Z.eqb_eq, !Z.leb_le. split; [split|].
    - rewrite HB. unfold kPageSize in *.
      replace (os_range + B * 4096 + Blk.m_PageIndex b * 4096)
        with (os_range + (B + Blk.m_PageIndex b) * 4096) by lia.
      by rewrite Z.mod_add by lia.
    - rewrite HB. unfold kPageSize in *. lia.
    - rewrite HB. unfold kPageSize in *. lia. }
  simpl.
  eexists. split; [done|]. simpl. split_and!; try done.
  - apply list_lookup_insert_eq. rewrite HPL. lia.
  - apply u32_small. lia.
Qed.

(** X13 (DebugHeapFree): on a heap made by DebugHeapInit and used through
    the public operations, DebugHeapFree of a pointer into the first page
    of a live allocation succeeds: none of its assertions fires, the
    pending list has room, and the pages to decommit lie inside the
    mapping.  The block leaves the lookup table and goes on the pending
    list. *)
Theorem free_live_succeeds (os_range mem_size_bytes : Z) (ops : list Op)
    (w : World) (ptr : Z) (r : nat) :
  0 <= mem_size_bytes < 2 ^ 43 -> 0 <= os_range < 2 ^ 63 ->
  final_world os_range mem_size_bytes ops = Some w ->
  m_BlockLookup (w_heap w) !! Z.to_nat (page_index_of (w_heap w) ptr) = Some (Some r) ->
  exists w',
    DebugHeapFree w ptr = Ok w' /\
    m_BlockLookup (w_heap w')
    = <[Z.to_nat (page_index_of (w_heap w) ptr) := None]> (m_BlockLookup (w_heap w)) /\
    m_PendingList (w_heap w') !! Z.to_nat (m_PendingListSize (w_heap w)) = Some (Some r) /\
    m_PendingListSize (w_heap w') = m_PendingListSize (w_heap w) + 1.
Proof.
  intros Hmem Hos Hw Hlk.
  destruct (live_heap _ _ _ _ Hmem Hos Hw) as (HW & HS & HPr & HBr).
  by eapply DebugHeapFree_live.
Qed.

(** A run of X13: the allocation of 128 bytes on the heap of eight pages
    is freed. *)
Lemma free_live_succeeds_witness :
  exists w w',
    final_world 65536 32768 small_ops = Some w /\
    DebugHeapFree w 73600 = Ok w' /\
    m_PendingList (w_heap w') !! 0%nat = Some (Some 0%nat) /\
    m_PendingListSize (w_heap w') = 1.
Proof.
  evar (w : World). exists w.
  assert (final_world 65536 32768 small_ops = Some w) as Hw
      by (subst w; vm_compute; reflexivity).
  destruct (free_live_succeeds 65536 32768 small_ops w 73600 0
              ltac:(lia) ltac:(lia) Hw ltac:(subst w; vm_compute; reflexivity))
    as (w' & Hf & _ & Hpl & Hn).
  exists w'. split; [exact Hw|]. split; [exact Hf|]. split; [exact Hpl|exact Hn].
Defined.

Lemma run_ops_snoc ops op w rs w1 r w2 :
  run_ops ops w = Ok (rs, w1) -> run_op op w1 = Ok (r, w2) ->
  run_ops (ops ++ [op]) w = Ok (rs ++ [r], w2).
Proof.
  revert w rs. induction ops as [|o ops IH]; intros w rs H1 H2; simpl in *.
  - injection H1 as <- <-. by rewrite H2.
  - apply bind_Ok in H1 as [[r0 w0] [E1 H1]].
    apply bind_Ok in H1 as [[rs0 w0'] [E2 H1]]. injection H1 as <- <-.
    rewrite E1. simpl. by rewrite (IH _ _ E2 H2).
Qed.

Lemma final_world_snoc os_range mem_size_bytes ops op w r w' :
  final_world os_range mem_size_bytes ops = Some w -> run_op op w = Ok (r, w') ->
  final_world os_range mem_size_bytes (ops ++ [op]) = Some w'.
Proof.
  intros Hw Hop. destruct (final_world_Some _ _ _ _ Hw) as (w0 & rs & Hinit & Hrun).
  unfold final_world. rewrite Hinit. by rewrite (run_ops_snoc _ _ _ _ _ _ _ Hrun Hop).
Qed.

(** X14 (DebugHeapAllocate, DebugHeapFree): on a heap made by
    DebugHeapInit and used through the public operations, a pointer that
    DebugHeapAllocate returned can be handed to DebugHeapFree at once:
    the call succeeds, and the lookup table is again what it was before
    the allocation. *)
Theorem allocate_then_free (os_range mem_size_bytes : Z) (ops : list Op)
    (w w' : World) (size alignment p : Z) :
  0 <= mem_size_bytes < 2 ^ 43 -> 0 <= os_range < 2 ^ 63 ->
  final_world os_range mem_size_bytes ops = Some w ->
  DebugHeapAllocate w size alignment = Ok (p, w') -> p <> 0 ->
  exists w'',
    DebugHeapFree w' p = Ok w'' /\
    m_BlockLookup (w_heap w'') = m_BlockLookup (w_heap w).
Proof.
  intros Hmem Hos Hw Halloc Hnz.
  destruct (live_heap _ _ _ _ Hmem Hos Hw) as (HW & _).
  assert (run_op (OpAllocate size alignment) w = Ok (RetPtr p, w')) as Hop.
  { simpl. by rewrite Halloc. }
  pose proof (final_world_snoc _ _ _ _ _ _ _ Hw Hop) as Hw'.
  destruct (DebugHeapAllocate_block _ _ _ _ _ HW Halloc Hnz)
    as (r & b & Hb & _ & _ & Hlk & _ & Hpg & _).
  rewrite <- Hpg in Hlk.
  destruct (live_heap _ _ _ _ Hmem Hos Hw') as (HW' & HS' & HPr' & HBr').
  destruct (DebugHeapFree_live _ _ _ _ _ Hos HW' HS' HPr' HBr' Hlk) as (w'' & Hf & Hlk'' & _).
  exists w''. split; [done|]. rewrite Hlk''.
  destruct (DebugHeapAllocate_Ok _ _ _ _ _ HW Halloc) as (_ & HB & _ & _ & Hcase).
  destruct Hcase as [(-> & _)|(_ & _ & _ & r' & Hins)]; [done|].
  rewrite (page_index_of_base _ (w_heap w)) by done.
  rewrite Hins, list_insert_insert_eq.
  apply list_insert_id.
  destruct (DebugHeapAllocate_success _ _ _ _ _ HW Halloc Hnz)
    as (hs & ls & ptr & h1 & HIs & HBs & HPs & HLs & _ & E1 & Hptr & E2 & Hh & _).
  destruct (AllocFromFreeList_Ok _ _ _ _ E1) as (best & sz & idx & _ & Hbest).
  destruct best as [r1|]; [|by destruct Hbest as [-> _]].
  destruct Hbest as (xr & xr' & _ & _ & _ & _ & _ & Hnone & Hlk1 & _).
  rewrite HLs in Hnone, Hlk1.
  assert (m_BlockLookup (w_heap w') = m_BlockLookup h1) as Heq by (by rewrite Hh).
  rewrite Heq, Hlk1 in Hins.
  destruct (decide (Z.to_nat (Blk.m_PageIndex xr)
                    = Z.to_nat (page_index_of (w_heap w) p))) as [<-|Hne]; [done|].
  exfalso.
  assert (<[Z.to_nat (Blk.m_PageIndex xr) := Some r1]> (m_BlockLookup (w_heap w))
          !! Z.to_nat (Blk.m_PageIndex xr) = Some (Some r1)) as H1.
  { apply list_lookup_insert_eq. by eapply lookup_lt_Some. }
  rewrite Hins, list_lookup_insert_ne in H1 by done. congruence.
Qed.

(** A run of X14 on the heap of eight pages. *)
Lemma allocate_then_free_witness :
  exists w w' w'',
    final_world 65536 32768 [] = Some w /\
    DebugHeapAllocate w 128 4 = Ok (73600, w') /\
    DebugHeapFree w' 73600 = Ok w'' /\
    m_BlockLookup (w_heap w'') = m_BlockLookup (w_heap w).
Proof.
  evar (w : World). evar (w' : World). exists w, w'.
  assert (final_world 65536 32768 [] = Some w) as Hw
      by (subst w; vm_compute; reflexivity).
  assert (DebugHeapAllocate w 128 4 = Ok (73600, w')) as Ha
      by (subst w w'; vm_compute; reflexivity).
  destruct (allocate_then_free 65536 32768 [] w w' 128 4 73600
              ltac:(lia) ltac:(lia) Hw Ha ltac:(discriminate)) as (w'' & Hf & Hlk).
  exists w''. split; [exact Hw|]. split; [exact Ha|]. split; [exact Hf|exact Hlk].
Defined.

(** X15 (DebugHeapGetAllocSize): on a heap made by DebugHeapInit and used
    through the public operations, for a pointer into the first page of a
    live allocation of at most 2^19 pages DebugHeapGetAllocSize returns
    [(PageCount - 1) * 4096 - ptr mod 4096], taken as a [size_t], and
    leaves the heap as it is. *)
Theorem alloc_size_of_live (os_range mem_size_bytes : Z) (ops : list Op)
    (w : World) (ptr : Z) (r : nat) (b : DebugBlockInfo) :
  0 <= mem_size_bytes < 2 ^ 43 -> 0 <= os_range < 2 ^ 63 ->
  final_world os_range mem_size_bytes ops = Some w ->
  m_BlockLookup (w_heap w) !! Z.to_nat (page_index_of (w_heap w) ptr) = Some (Some r) ->
  m_Blocks (w_heap w) !! r = Some b ->
  Blk.m_PageCount b <= 2 ^ 19 ->
  DebugHeapGetAllocSize w ptr
  = Ok (u64 ((Blk.m_PageCount b - 1) * kPageSize - ptr mod kPageSize), w).
Proof.
  intros Hmem Hos Hw Hlk Hb Hsmall.
  destruct (live_heap _ _ _ _ Hmem Hos Hw) as (HW & HS & HPr & HBr).
  destruct HS as (HG & HP & _ & _ & _ & _ & HLK & _).
  destruct HW as ([l HI] & _).
  assert (page_index_of (w_heap w) ptr < m_PageCount (w_heap w)) as Hpi.
  { apply lookup_lt_Some in Hlk. rewrite HLK in Hlk.
    assert (0 <= page_index_of (w_heap w) ptr)
      by (unfold page_index_of, u32; apply Z.mod_pos_bound; lia).
    lia. }
  destruct (inv_lookup _ _ _ HI _ _ Hlk) as (Hrl & b1 & Hb1 & _).
  rewrite Hb in Hb1. injection Hb1 as <-.
  destruct (InvK_block_range _ _ _ _ _ HI Hrl Hb) as (_ & Hpc0 & _).
  unfold DebugHeapGetAllocSize. rewrite (ENTER_idle _ HG). simpl.
  change (page_index_of (set_ReentrancyGuard 1 (w_heap w)) ptr)
    with (page_index_of (w_heap w) ptr).
  apply Z.ltb_lt in Hpi. rewrite Hpi. simpl.
  unfold arr_get. rewrite Hlk. simpl. rewrite Hb. simpl.
  unfold int_mul, in_int, INT_MAX.
  assert ((- 2 ^ 31 <=? (Blk.m_PageCount b - 1) * kPageSize)
          && ((Blk.m_PageCount b - 1) * kPageSize <=? 2 ^ 31 - 1) = true) as ->.
  { apply andb_true_iff. rewrite !Z.leb_le. unfold kPageSize. lia. }
  simpl. unfold DEBUG_THREAD_GUARD_LEAVE, AtomicDec32. simpl.
  change (u32 (1 - 1)) with 0. by rewrite (world_eta _ HG).
Qed.

(** A run of X15: the allocation of 128 bytes on the heap of eight
    pages. *)
Lemma alloc_size_of_live_witness :
  exists w,
    final_world 65536 32768 small_ops = Some w /\
    DebugHeapGetAllocSize w 73600 = Ok (128, w).
Proof.
  evar (w : World). exists w.
  assert (final_world 65536 32768 small_ops = Some w) as Hw
      by (subst w; vm_compute; reflexivity).
  split; [exact Hw|].
  evar (b : DebugBlockInfo).
  assert (m_BlockLookup (w_heap w) !! Z.to_nat (page_index_of (w_heap w) 73600)
          = Some (Some 0%nat)) as Hlk by (subst w; vm_compute; reflexivity).
  assert (m_Blocks (w_heap w) !! 0%nat = Some b) as Hb
      by (subst w b; vm_compute; reflexivity).
  assert (Blk.m_PageCount b <= 2 ^ 19) as Hs by (subst b; vm_compute; discriminate).
  rewrite (alloc_size_of_live 65536 32768 small_ops w 73600 0 b
             ltac:(lia) ltac:(lia) Hw Hlk Hb Hs).
  reflexivity.
Defined.

Lemma soft_refl bl : soft bl bl.
Proof. intros q b Hb. by exists b. Qed.

Lemma soft_trans bl1 bl2 bl3 : soft bl1 bl2 -> soft bl2 bl3 -> soft bl1 bl3.
Proof.
  intros H1 H2 q b Hb. destruct (H1 q b Hb) as (b2 & Hb2 & Hf2 & Hk2).
  destruct (H2 q b2 Hb2) as (b3 & Hb3 & Hf3 & Hk3).
  exists b3. split; [done|]. split; [congruence|].
  intros Hfl. destruct (Hk2 Hfl) as [? ?].
  destruct Hk3 as [? ?]; [congruence|]. split; congruence.
Qed.

Lemma soft_live_kept bl bl' : soft bl bl' -> live_kept bl bl'.
Proof.
  intros H q b Hb Hfl. destruct (H q b Hb) as (b' & Hb' & Hf & Hk).
  destruct (Hk Hfl) as [? ?]. exists b'. split_and!; try done. congruence.
Qed.

Lemma live_kept_refl bl : live_kept bl bl.
Proof. intros q b Hb Hfl. by exists b. Qed.

Lemma live_kept_trans bl1 bl2 bl3 :
  live_kept bl1 bl2 -> live_kept bl2 bl3 -> live_kept bl1 bl3.
Proof.
  intros H1 H2 q b Hb Hfl. destruct (H1 q b Hb Hfl) as (b2 & Hb2 & ? & ? & Hf2).
  destruct (H2 q b2 Hb2 Hf2) as (b3 & Hb3 & ? & ? & Hf3).
  exists b3. split_and!; try done; congruence.
Qed.

Lemma soft_store bl i x x' :
  bl !! i = Some x -> flags x' = flags x ->
  (flags x = (true, false) ->
   Blk.m_PageIndex x' = Blk.m_PageIndex x /\ Blk.m_PageCount x' = Blk.m_PageCount x) ->
  soft bl (<[i := x']> bl).
Proof.
  intros Hx Hf Hk q b Hb. destruct (decide (q = i)) as [->|Hne].
  - rewrite Hx in Hb. injection Hb as <-. exists x'.
    split; [apply list_lookup_insert_eq; by eapply lookup_lt_Some|done].
  - exists b. by rewrite list_lookup_insert_ne.
Qed.

Lemma live_kept_store bl i x x' :
  bl !! i = Some x -> flags x <> (true, false) -> live_kept bl (<[i := x']> bl).
Proof.
  intros Hx Hf q b Hb Hfl. destruct (decide (q = i)) as [->|Hne].
  - rewrite Hx in Hb. injection Hb as <-. done.
  - exists b. by rewrite list_lookup_insert_ne.
Qed.

Lemma relink_next_soft b target h h' :
  relink_next b target h = Ok h' -> soft (m_Blocks h) (m_Blocks h').
Proof.
  intros H. apply relink_next_Ok in H as (xb & Hxb & H).
  destruct (Blk.m_Next xb) as [n|]; [|subst; apply soft_refl].
  destruct H as (xn & Hxn & ->). simpl. by apply (soft_store _ _ xn).
Qed.

Lemma merge_left_live_kept x h y removed h' xx :
  m_Blocks h !! x = Some xx -> flags xx = (false, true) ->
  merge_left x h = Ok (y, removed, h') ->
  live_kept (m_Blocks h) (m_Blocks h') /\
  exists xy', m_Blocks h' !! y = Some xy' /\ Blk.m_Allocated xy' = false.
Proof.
  intros Hx Hflx H. unfold merge_left in H.
  apply bind_Ok in H as [[x0 xx0] [E H]]. apply deref_Ok in E as [[= ->] E].
  rewrite Hx in E. injection E as <-.
  assert (live_kept (m_Blocks h) (m_Blocks h) /\
          exists xy', m_Blocks h !! x = Some xy' /\ Blk.m_Allocated xy' = false) as Hsame.
  { split; [apply live_kept_refl|]. exists xx. split; [done|]. unfold flags in Hflx. congruence. }
  destruct (Blk.m_Prev xx) as [a|] eqn:Hpv; [|by injection H as <- <- <-].
  apply bind_Ok in H as [[a0 xa] [E H]]. apply deref_Ok in E as [[= ->] Ha].
  apply bind_Ok in H as [adj [Hadj H]].
  destruct adj; [|by injection H as <- <- <-].
  clear Hsame.
  apply neighbour_free_true in Hadj as [Hfla _].
  assert (a <> x) as Hax by (intros ->; congruence).
  apply bind_Ok in H as [h1 [E1 H]].
  apply update_Ok in E1 as (a1 & xa1 & [= ->] & Ha1 & ->).
  rewrite Ha in Ha1. injection Ha1 as <-.
  assert (soft (m_Blocks h) (m_Blocks (store a (Blk.set_Next (Blk.m_Next xx) xa) h))) as S1.
  { simpl. by apply (soft_store _ _ xa). }
  apply bind_Ok in H as [h2 [E2 H]].
  pose proof (relink_next_soft _ _ _ _ E2) as S2.
  pose proof (soft_trans _ _ _ S1 S2) as S12.
  apply bind_Ok in H as [h3 [E3 H]].
  apply absorb_pages_Ok in E3 as (xa2 & xb & Hxa & Hxb & Hov & ->).
  destruct (S12 a xa Ha) as (xa2' & Hxa2' & Hfa2 & _).
  rewrite Hxa in Hxa2'. injection Hxa2' as <-.
  assert (soft (m_Blocks h2)
            (m_Blocks (store a (Blk.set_PageCount
                                  (Blk.m_PageCount xa2 + Blk.m_PageCount xb) xa2) h2))) as S3.
  { simpl. apply (soft_store _ _ xa2); [done|done|].
    intros Hc. rewrite Hfa2, Hfla in Hc. discriminate. }
  pose proof (soft_trans _ _ _ S12 S3) as S123.
  apply bind_Ok in H as [h4 [E4 H]]. injection H as <- <- <-.
  apply FreeBlockInfo_Ok in E4 as (xd & Hxd & ->).
  destruct (S123 x xx Hx) as (xd' & Hxd' & Hfd & _).
  rewrite Hxd in Hxd'. injection Hxd' as <-.
  split.
  - eapply live_kept_trans; [apply soft_live_kept, S123|].
    simpl. apply (live_kept_store _ _ xd); [done|]. rewrite Hfd, Hflx. discriminate.
  - destruct (S123 a xa Ha) as (xa3 & Hxa3 & Hfa3 & _).
    exists xa3. simpl. rewrite list_lookup_insert_ne by done.
    split; [done|]. rewrite Hfla in Hfa3. unfold flags in Hfa3. congruence.
Qed.

Lemma free_list_find_remove_blocks n fi next h h' :
  free_list_find_remove n fi next h = Ok h' -> m_Blocks h' = m_Blocks h.
Proof.
  revert fi. induction n as [|n IH]; intros fi H; simpl in H.
  - by injection H as <-.
  - apply bind_Ok in H as [e [_ H]].
    destruct (decide (e = Some next)).
    + apply bind_Ok in H as [last [_ H]]. apply bind_Ok in H as [fl [_ H]].
      by injection H as <-.
    + by eapply IH.
Qed.

Lemma merge_right_live_kept y h h' xy :
  m_Blocks h !! y = Some xy -> Blk.m_Allocated xy = false ->
  merge_right y h = Ok h' ->
  live_kept (m_Blocks h) (m_Blocks h').
Proof.
  intros Hy Hay H. unfold merge_right in H.
  apply bind_Ok in H as [[y0 xy0] [E H]]. apply deref_Ok in E as [[= ->] E].
  rewrite Hy in E. injection E as <-.
  destruct (Blk.m_Next xy) as [n|] eqn:Hnx; [|injection H as <-; apply live_kept_refl].
  apply bind_Ok in H as [[n0 xn] [E H]]. apply deref_Ok in E as [[= ->] Hn].
  apply bind_Ok in H as [adj [Hadj H]].
  destruct adj; [|injection H as <-; apply live_kept_refl].
  apply neighbour_free_true in Hadj as [Hfln _].
  apply bind_Ok in H as [h1 [E1 H]].
  apply update_Ok in E1 as (y1 & xy1 & [= ->] & Hy1 & ->).
  rewrite Hy in Hy1. injection Hy1 as <-.
  assert (soft (m_Blocks h) (m_Blocks (store y (Blk.set_Next (Blk.m_Next xn) xy) h))) as S1.
  { simpl. by apply (soft_store _ _ xy). }
  apply bind_Ok in H as [h2 [E2 H]].
  pose proof (relink_next_soft _ _ _ _ E2) as S2.
  pose proof (soft_trans _ _ _ S1 S2) as S12.
  apply bind_Ok in H as [h3 [E3 H]].
  apply absorb_pages_Ok in E3 as (xy2 & xn2 & Hxy2 & Hxn2 & Hov & ->).
  destruct (S12 y xy Hy) as (xy2' & Hxy2' & Hfy2 & _).
  rewrite Hxy2 in Hxy2'. injection Hxy2' as <-.
  assert (soft (m_Blocks h2)
            (m_Blocks (store y (Blk.set_PageCount
                                  (Blk.m_PageCount xy2 + Blk.m_PageCount xn2) xy2) h2)))
    as S3.
  { simpl. apply (soft_store _ _ xy2); [done|done|].
    intros Hc. rewrite Hfy2 in Hc. unfold flags in Hc. congruence. }
  pose proof (soft_trans _ _ _ S12 S3) as S123.
  apply bind_Ok in H as [h4 [E4 H]].
  apply free_list_find_remove_blocks in E4.
  apply FreeBlockInfo_Ok in H as (xd & Hxd & ->).
  rewrite E4 in Hxd.
  destruct (S123 n xn Hn) as (xd' & Hxd' & Hfd & _).
  rewrite Hxd in Hxd'. injection Hxd' as <-.
  eapply live_kept_trans; [apply soft_live_kept, S123|].
  simpl. rewrite E4. simpl.
  apply (live_kept_store _ _ xd); [done|]. rewrite Hfd, Hfln. discriminate.
Qed.

Lemma flush_body_live_kept i h h' x xx :
  m_PendingList h !! Z.to_nat i = Some (Some x) ->
  m_Blocks h !! x = Some xx -> flags xx = (false, true) ->
  flush_body i h = Ok h' ->
  live_kept (m_Blocks h) (m_Blocks h').
Proof.
  intros Hpl Hx Hflx H. unfold flush_body in H.
  apply bind_Ok in H as [e [He H]]. apply arr_get_Ok in He.
  rewrite Hpl in He. injection He as <-.
  apply bind_Ok in H as [[x0 xx0] [Hd H]]. apply deref_Ok in Hd as [[= ->] _].
  apply bind_Ok in H as [[[y removed] h1] [HL H]].
  destruct (merge_left_live_kept _ _ _ _ _ _ Hx Hflx HL) as (K1 & xy & Hy & Hay).
  apply bind_Ok in H as [h2 [HR H]].
  pose proof (merge_right_live_kept _ _ _ _ Hy Hay HR) as K2.
  pose proof (live_kept_trans _ _ _ K1 K2) as K12.
  destruct removed; [by injection H as <-|].
  apply bind_Ok in H as [h3 [E3 H]].
  apply update_Ok in E3 as (y3 & xy3 & [= ->] & Hy3 & ->).
  apply free_list_push_Ok in H as [_ ->]. simpl.
  eapply live_kept_trans; [exact K12|].
  intros q b Hb Hfl. destruct (decide (q = y)) as [->|Hne].
  - rewrite Hy3 in Hb. injection Hb as ->.
    exists (Blk.set_PendingFree false b).
    split; [apply list_lookup_insert_eq; by eapply lookup_lt_Some|].
    split_and!; try done. unfold flags in *. simpl. congruence.
  - exists b. by rewrite list_lookup_insert_ne.
Qed.

Lemma FlushPendingFrees_live_kept l h h' :
  InvK 0 l h -> FlushPendingFrees h = Ok h' ->
  live_kept (m_Blocks h) (m_Blocks h').
Proof.
  intros HI H. unfold FlushPendingFrees in H.
  apply bind_Ok in H as [h1 [E H]]. injection H as <-.
  pose proof (inv_sizes _ _ _ HI) as (_ & HnP0 & _).
  apply (for_loop_ind
           (fun j t => 0 <= j <= m_PendingListSize h /\
                       (exists l', InvK (Z.to_nat j) l' t) /\ merge_frame h t /\
                       live_kept (m_Blocks h) (m_Blocks t))) in E.
  - by destruct E as (_ & _ & _ & K).
  - split; [lia|]. split; [by exists l|]. split; [apply merge_frame_refl|].
    apply live_kept_refl.
  - intros j t t' Hj (Hj0 & [l1 HI1] & Hfr & K) Hb.
    assert (Z.to_nat j < Z.to_nat (m_PendingListSize t))%nat as Hjt.
    { destruct Hfr as (_ & -> & _). lia. }
    pose proof Hb as Hb'.
    rewrite <- (Z2Nat.id j) in Hb by lia.
    destruct (flush_body_inv _ _ _ _ HI1 Hjt Hb) as (l2 & HI2 & Hfr2).
    split; [lia|]. split; [|split; [by eapply merge_frame_trans|]].
    { exists l2. by replace (Z.to_nat (j + 1)) with (S (Z.to_nat j)) by lia. }
    eapply live_kept_trans; [exact K|].
    pose proof Hb' as Hb''. unfold flush_body in Hb''.
    apply bind_Ok in Hb'' as [e [He _]]. apply arr_get_Ok in He.
    destruct (inv_pend _ _ _ HI1) as [HE _].
    destruct (HE (Z.to_nat j) e ltac:(lia) He) as (x & -> & _ & xx & Hx & Hflx).
    by eapply flush_body_live_kept.
Qed.

Lemma AllocFromFreeList_live_kept h page_req ptr h' :
  AllocFromFreeList h page_req = Ok (ptr, h') ->
  live_kept (m_Blocks h) (m_Blocks h').
Proof.
  unfold AllocFromFreeList. intros H.
  apply bind_Ok in H as [[[best size] idx] [Hscan H]].
  destruct best as [r|]; [|injection H as <- <-; apply live_kept_refl].
  apply scan_free_list_spec in Hscan as [_ (Hidx & Hfl & xr & Hxr & Hflg & Hsz & Hfit)].
  apply pair_equal_spec in Hflg as [Hfa Hfp].
  apply bind_Ok in H as [h1 [E1 H]].
  apply free_list_remove_Ok in E1 as (Hbl1 & _).
  apply bind_Ok in H as [h2 [E2 H]].
  assert (live_kept (m_Blocks h) (m_Blocks h2) /\
          exists x2, m_Blocks h2 !! r = Some x2 /\ Blk.m_Allocated x2 = false)
    as (K2 & x2 & Hx2 & Ha2).
  { destruct (0 <? u32 (u64 (size - page_req))) eqn:Hc.
    - rewrite <- Hbl1 in Hxr.
      destruct (carve_tail_Ok _ _ _ _ _ _ E2 Hxr Hfa)
        as (t & xt & _ & Hxt & Hflt & Htr & _ & _ & Hr' & Ht' & Hoth & _).
      split.
      + rewrite <- Hbl1. intros q b Hb Hflb.
        assert (q <> r) by (intros ->; rewrite Hxr in Hb; injection Hb as <-;
                            unfold flags in Hflb; congruence).
        assert (q <> t) by (intros ->; rewrite Hxt in Hb; injection Hb as <-; congruence).
        exists b. by rewrite Hoth.
      + eexists. split; [exact Hr'|]. done.
    - injection E2 as <-. rewrite Hbl1. split; [apply live_kept_refl|]. by exists xr. }
  apply bind_Ok in H as [h3 [E3 H]].
  apply update_Ok in E3 as (r3 & x3 & [= ->] & Hx3 & ->).
  rewrite Hx2 in Hx3. injection Hx3 as <-.
  apply bind_Ok in H as [[r4 x4] [_ H]].
  apply bind_Ok in H as [e [_ H]].
  apply bind_Ok in H as [[] [_ H]].
  apply bind_Ok in H as [bl [_ H]].
  apply bind_Ok in H as [[] [_ H]]. injection H as _ <-. simpl.
  eapply live_kept_trans; [exact K2|].
  apply (live_kept_store _ _ x2); [done|]. unfold flags. congruence.
Qed.

Lemma InvK_live k l h i r b :
  InvK k l h -> m_BlockLookup h !! i = Some (Some r) -> m_Blocks h !! r = Some b ->
  r ∈ l /\ flags b = (true, false) /\ Blk.m_PageIndex b = Z.of_nat i /\
  0 < Blk.m_PageCount b /\ Blk.m_PageIndex b + Blk.m_PageCount b <= m_PageCount h.
Proof.
  intros HI Hi Hb.
  destruct (inv_lookup _ _ _ HI _ _ Hi) as (Hrl & b1 & Hb1 & Ha & Hpi).
  rewrite Hb in Hb1. injection Hb1 as <-.
  destruct (InvK_block_range _ _ _ _ _ HI Hrl Hb) as (_ & Hpc0 & Hend & _).
  pose proof (inv_live _ _ _ HI _ _ Hrl Hb) as Hlive.
  split_and!; try done.
  unfold flags in *. destruct (Blk.m_PendingFree b); [|by rewrite Ha].
  exfalso. apply Hlive. by rewrite Ha.
Qed.

Lemma InvK_live_overlap k l h i j r r' b b' :
  InvK k l h ->
  m_BlockLookup h !! i = Some (Some r) -> m_BlockLookup h !! j = Some (Some r') ->
  m_Blocks h !! r = Some b -> m_Blocks h !! r' = Some b' ->
  Blk.m_PageIndex b < Blk.m_PageIndex b' + Blk.m_PageCount b' ->
  Blk.m_PageIndex b' < Blk.m_PageIndex b + Blk.m_PageCount b ->
  i = j /\ r = r' /\ b = b'.
Proof.
  intros HI Hi Hj Hb Hb' H1 H2.
  destruct (InvK_live _ _ _ _ _ _ HI Hi Hb) as (Hrl & _ & Hpi & _).
  destruct (InvK_live _ _ _ _ _ _ HI Hj Hb') as (Hrl' & _ & Hpi' & _).
  pose proof (inv_chain _ _ _ HI) as HS.
  assert (r = r') as <-.
  { destruct (decide (Blk.m_PageIndex b <= Blk.m_PageIndex b')).
    - eapply (Seg_disjoint _ _ _ _ _ _ r r'); eauto; lia.
    - symmetry. eapply (Seg_disjoint _ _ _ _ _ _ r' r); eauto; lia. }
  rewrite Hb in Hb'. injection Hb' as <-. split_and!; try done. lia.
Qed.

Lemma Protected_keep k l h h' trace :
  InvK k l h ->
  m_BaseAddress h' = m_BaseAddress h -> m_PageCount h' = m_PageCount h ->
  m_BlockLookup h' = m_BlockLookup h ->
  live_kept (m_Blocks h) (m_Blocks h') ->
  Protected h trace -> Protected h' trace.
Proof.
  intros HI HB HP HLK K Hp x Hx. rewrite HB, HP in Hx. rewrite (Hp x Hx).
  unfold in_user_pages, block_base. rewrite HB, HLK.
  split; intros (i & r & b & Hi & Hb & Hin).
  - destruct (InvK_live _ _ _ _ _ _ HI Hi Hb) as (_ & Hfl & _).
    destruct (K r b Hb Hfl) as (b' & Hb' & Hpi & Hpc & _).
    exists i, r, b'. by rewrite Hpi, Hpc.
  - destruct (inv_lookup _ _ _ HI _ _ Hi) as (_ & b0 & Hb0 & _).
    destruct (InvK_live _ _ _ _ _ _ HI Hi Hb0) as (_ & Hfl & _).
    destruct (K r b0 Hb0 Hfl) as (b' & Hb' & Hpi & Hpc & _).
    rewrite Hb in Hb'. injection Hb' as <-.
    exists i, r, b0. by rewrite <- Hpi, <- Hpc.
Qed.

Lemma Protected_alloc ls hs trace page_req ptr h1 off :
  InvK 0 ls hs -> Protected hs trace ->
  0 < m_BaseAddress hs -> m_BaseAddress hs + m_PageCount hs * kPageSize < 2 ^ 64 ->
  0 < page_req ->
  AllocFromFreeList hs page_req = Ok (ptr, h1) -> ptr <> 0 ->
  Protected h1
    (CallMemset ptr 252 off
     :: CallVmDecommit (u64 (ptr + u64 ((page_req - 1) * kPageSize))) kPageSize
     :: CallVmCommit ptr (u64 ((page_req - 1) * kPageSize)) :: trace).
Proof.
  intros HIs Hp Hb0 Hb1 Hreq E1 Hptr.
  pose proof (AllocFromFreeList_live_kept _ _ _ _ E1) as K.
  destruct (AllocFromFreeList_inv _ _ _ _ _ _ HIs Hreq E1) as [l1 HI1].
  destruct (AllocFromFreeList_Ok _ _ _ _ E1) as (best & sz & idx & _ & Hbest).
  destruct best as [r|]; [|by destruct Hbest as [-> _]].
  destruct Hbest as (xr & b & Hxr & Hb & Hfl & Hpi & _ & Hnone & Hlk1 & Hptr1 & _ & _
                     & HP1 & HB1 & _).
  assert (0 <= page_req) as Hreq0 by lia.
  destruct (AllocFromFreeList_block _ _ _ _ _ _ HIs Hreq0 E1 Hptr)
    as (r2 & b2 & Hb2 & Hpc2 & Hpi2 & Hlk2 & Hptr2).
  pose proof (inv_pages _ _ _ HIs) as HPs.
  assert (Blk.m_PageIndex b2 = Blk.m_PageIndex xr) as Hsame.
  { assert (0 <= Blk.m_PageIndex xr < m_PageCount hs) as Hxr0.
    { assert (m_BlockLookup h1 !! Z.to_nat (Blk.m_PageIndex xr) = Some (Some r)) as Hl.
      { rewrite Hlk1. apply list_lookup_insert_eq. by eapply lookup_lt_Some. }
      destruct (InvK_live _ _ _ _ _ _ HI1 Hl Hb) as (_ & _ & Hpib & Hpc0 & Hend).
      rewrite Hpi in Hpib, Hend. rewrite HP1 in Hend. lia. }
    rewrite Hptr1 in Hptr2.
    rewrite !u64_small in Hptr2 by (unfold kPageSize in *; lia).
    unfold kPageSize in *. lia. }
  assert (r2 = r /\ b2 = b) as [-> ->].
  { rewrite Hsame, Hlk1 in Hlk2.
    rewrite list_lookup_insert_eq in Hlk2 by (by eapply lookup_lt_Some).
    injection Hlk2 as ->. rewrite Hb in Hb2. by injection Hb2 as ->. }
  clear Hb2 Hlk2 Hptr2.
  assert (m_BlockLookup h1 !! Z.to_nat (Blk.m_PageIndex b) = Some (Some r)) as Hl.
  { rewrite Hlk1, Hpi. apply list_lookup_insert_eq. by eapply lookup_lt_Some. }
  destruct (InvK_live _ _ _ _ _ _ HI1 Hl Hb) as (_ & _ & Hpib & Hpc0 & Hend).
  rewrite HP1 in Hend.
  set (bb := m_BaseAddress hs + Blk.m_PageIndex b * kPageSize) in *.
  assert (ptr = bb) as ->.
  { rewrite Hptr1, <- Hpi. apply u64_small. unfold bb, kPageSize in *. lia. }
  rewrite (u64_small ((page_req - 1) * kPageSize)) by (unfold kPageSize in *; lia).
  rewrite (u64_small (bb + _)) by (unfold bb, kPageSize in *; lia).
  intros x Hx. rewrite HB1, HP1 in Hx. simpl.
  unfold in_user_pages, block_base. rewrite HB1.
  destruct ((bb + (page_req - 1) * kPageSize <=? x)
            && (x <? bb + (page_req - 1) * kPageSize + kPageSize)) eqn:Hg.
  - (* the guard page of the new block *)
    apply andb_true_iff in Hg as [Hg1 Hg2]. apply Z.leb_le in Hg1. apply Z.ltb_lt in Hg2.
    split; [done|]. intros (i & r0 & b0 & Hi & Hb0' & Hin). exfalso.
    destruct (InvK_live _ _ _ _ _ _ HI1 Hi Hb0') as (_ & _ & Hpi0 & Hpc00 & Hend0).
    destruct (InvK_live_overlap _ _ _ _ _ _ _ _ _ HI1 Hi Hl Hb0' Hb) as (_ & _ & ->).
    + unfold bb, kPageSize in *. lia.
    + unfold bb, kPageSize in *. lia.
    + unfold bb, kPageSize in *. lia.
  - destruct ((bb <=? x) && (x <? bb + (page_req - 1) * kPageSize)) eqn:Hu.
    + (* the user pages of the new block *)
      apply andb_true_iff in Hu as [Hu1 Hu2]. apply Z.leb_le in Hu1. apply Z.ltb_lt in Hu2.
      split; [intros _|done].
      exists (Z.to_nat (Blk.m_PageIndex b)), r, b. rewrite Hpc2. done.
    + (* elsewhere *)
      rewrite (Hp x Hx). unfold in_user_pages, block_base.
      apply andb_false_iff in Hu. rewrite Z.leb_gt, Z.ltb_ge in Hu.
      split; intros (i & r0 & b0 & Hi & Hb0' & Hin).
      * destruct (InvK_live _ _ _ _ _ _ HIs Hi Hb0') as (_ & Hfl0 & _).
        destruct (K r0 b0 Hb0' Hfl0) as (b0'' & Hb0'' & Hpi0 & Hpc0' & _).
        exists i, r0, b0''. rewrite Hpi0, Hpc0'. split; [|done].
        rewrite Hlk1. rewrite list_lookup_insert_ne; [done|].
        intros <-. congruence.
      * destruct (decide (i = Z.to_nat (Blk.m_PageIndex b))) as [->|Hne].
        { rewrite Hl in Hi. injection Hi as <-. rewrite Hb in Hb0'. injection Hb0' as <-.
          rewrite Hpc2 in Hin. fold bb in Hin. lia. }
        rewrite Hlk1, list_lookup_insert_ne in Hi by (rewrite <- Hpi; done).
        destruct (inv_lookup _ _ _ HIs _ _ Hi) as (_ & c & Hc & _).
        destruct (InvK_live _ _ _ _ _ _ HIs Hi Hc) as (_ & Hflc & _).
        destruct (K r0 c Hc Hflc) as (c' & Hc' & Hpic & Hpcc & _).
        rewrite Hb0' in Hc'. injection Hc' as <-.
        exists i, r0, c. by rewrite <- Hpic, <- Hpcc.
Qed.

Lemma Protected_free w ptr w' :
  WInv w ->
  m_BaseAddress (w_heap w) + m_PageCount (w_heap w) * kPageSize < 2 ^ 64 ->
  Protected (w_heap w) (vm_trace (w_vm w)) ->
  DebugHeapFree w ptr = Ok w' ->
  Protected (w_heap w') (vm_trace (w_vm w')).
Proof.
  intros ([l HI] & Hb0 & _) Hb1 Hp Hfree.
  destruct (DebugHeapFree_trace _ _ _ Hfree) as (r & b & Hlk & Hb & Hbl' & Ht).
  destruct (DebugHeapFree_Ok _ _ _ Hfree) as (_ & _ & Hlk' & HP' & HB' & _).
  destruct (InvK_live _ _ _ _ _ _ HI Hlk Hb) as (_ & Hfl & Hpi & Hpc0 & Hend).
  set (pi := Z.to_nat (page_index_of (w_heap w) ptr)) in *.
  set (bb := m_BaseAddress (w_heap w) + Blk.m_PageIndex b * kPageSize).
  intros x Hx. rewrite HB', HP' in Hx. rewrite Ht. simpl.
  unfold block_base. fold bb.
  rewrite (u64_small bb) by (unfold bb, kPageSize in *; lia).
  rewrite (u64_small ((Blk.m_PageCount b - 1) * kPageSize))
    by (unfold kPageSize in *; lia).
  unfold in_user_pages, block_base. rewrite HB', Hlk', Hbl'.
  destruct ((bb <=? x) && (x <? bb + (Blk.m_PageCount b - 1) * kPageSize)) eqn:Hd.
  - apply andb_true_iff in Hd as [Hd1 Hd2]. apply Z.leb_le in Hd1. apply Z.ltb_lt in Hd2.
    split; [done|]. intros (i & r0 & b0 & Hi & Hb0' & Hin). exfalso.
    assert (i <> pi) as Hne.
    { intros ->. rewrite list_lookup_insert_eq in Hi by (by eapply lookup_lt_Some). done. }
    rewrite list_lookup_insert_ne in Hi by done.
    assert (r0 <> r) as Hner.
    { intros ->. destruct (inv_lookup _ _ _ HI _ _ Hi) as (_ & c & Hc & _ & Hpic).
      rewrite Hb in Hc. injection Hc as <-. lia. }
    rewrite list_lookup_insert_ne in Hb0' by done.
    destruct (InvK_live_overlap _ _ _ _ _ _ _ _ _ HI Hi Hlk Hb0' Hb) as (? & _); [..|done].
    + unfold bb, kPageSize in *. lia.
    + unfold bb, kPageSize in *. lia.
  - apply andb_false_iff in Hd. rewrite Z.leb_gt, Z.ltb_ge in Hd.
    rewrite (Hp x Hx). unfold in_user_pages, block_base.
    split; intros (i & r0 & b0 & Hi & Hb0' & Hin).
    + assert (i <> pi) as Hne.
      { intros ->. rewrite Hlk in Hi. injection Hi as <-.
        rewrite Hb in Hb0'. injection Hb0' as <-. fold bb in Hin. lia. }
      assert (r0 <> r) as Hner.
      { intros ->. rewrite Hb in Hb0'. injection Hb0' as <-.
        destruct (inv_lookup _ _ _ HI _ _ Hi) as (_ & c & Hc & _ & Hpic).
        rewrite Hb in Hc. injection Hc as <-. lia. }
      exists i, r0, b0. by rewrite !list_lookup_insert_ne by done.
    + assert (i <> pi) as Hne.
      { intros ->. rewrite list_lookup_insert_eq in Hi by (by eapply lookup_lt_Some).
        done. }
      rewrite list_lookup_insert_ne in Hi by done.
      assert (r0 <> r) as Hner.
      { intros ->. destruct (inv_lookup _ _ _ HI _ _ Hi) as (_ & c & Hc & _ & Hpic).
        rewrite Hb in Hc. injection Hc as <-. lia. }
      rewrite list_lookup_insert_ne in Hb0' by done.
      by exists i, r0, b0.
Qed.

Lemma DebugHeapInit_trace os_range mem_size_bytes w :
  DebugHeapInit os_range mem_size_bytes = Ok (Some w) ->
  exists size total, vm_trace (w_vm w)
                     = [CallVmCommit os_range size; CallVmAllocate total os_range] /\
    size = u64 (bookkeeping_pages_of (mem_size_bytes / kPageSize) * kPageSize).
Proof.
  intros H. unfold DebugHeapInit in H. cbv zeta in H.
  apply bind_Ok in H as [[range vm] [E1 H]].
  unfold VmAllocate in E1. apply bind_Ok in E1 as [[] [Hnz E1]].
  apply ASSERT_FATAL_Ok, negb_true_iff in Hnz. injection E1 as <- <-.
  rewrite Hnz in H.
  apply bind_Ok in H as [vm1 [E2 H]]. apply VmCommit_Ok in E2 as (_ & _ & Ht).
  apply bind_Ok in H as [blocks [_ H]].
  apply bind_Ok in H as [[root self1] [_ H]].
  apply bind_Ok in H as [self2 [_ H]].
  apply bind_Ok in H as [fl [_ H]]. injection H as <-. simpl.
  rewrite Ht. simpl. eauto.
Qed.

Lemma Protected_op os_range mem_size_bytes op w r w' :
  0 <= mem_size_bytes < 2 ^ 43 -> 0 <= os_range < 2 ^ 63 ->
  WInv w -> Shape os_range mem_size_bytes w ->
  Protected (w_heap w) (vm_trace (w_vm w)) ->
  run_op op w = Ok (r, w') ->
  Protected (w_heap w') (vm_trace (w_vm w')).
Proof.
  intros Hmem Hos HW HS Hp H.
  pose proof HW as ([l HI] & Hb0 & _).
  pose proof HS as (HG & HP & HB & _).
  assert (0 < mem_size_bytes / kPageSize < 2 ^ 31) as HPr.
  { rewrite <- HP. apply (inv_pages _ _ _ HI). }
  pose proof (bookkeeping_pages_range (mem_size_bytes / kPageSize) ltac:(lia)) as HBr.
  assert (m_BaseAddress (w_heap w) + m_PageCount (w_heap w) * kPageSize < 2 ^ 64) as Hb1.
  { rewrite HB, HP. unfold kPageSize in *. lia. }
  destruct op as [size alignment|ptr|ptr|buffer]; simpl in H.
  - (* DebugHeapAllocate *)
    apply bind_Ok in H as [[p w1] [E H]]. injection H as <- <-.
    pose proof (InvK_set_guard _ _ _ 1 HI) as HI1.
    assert (Protected (set_ReentrancyGuard 1 (w_heap w)) (vm_trace (w_vm w))) as Hp1.
    { apply (Protected_keep _ _ _ _ _ HI); try done. apply live_kept_refl. }
    destruct (decide (p = 0)) as [->|Hnz].
    + destruct (DebugHeapAllocate_Ok _ _ _ _ _ HW E) as (_ & _ & _ & _ & Hcase).
      destruct Hcase as [(_ & _ & -> & _ & hf & Hfl & _ & ->)|(? & _)]; [|done].
      destruct (FlushPendingFrees_inv _ _ _ HI1 Hfl) as ([l2 HI2] & _ & HLK2 & HP2 & HB2 & _).
      pose proof (FlushPendingFrees_live_kept _ _ _ HI1 Hfl) as K.
      apply (Protected_keep _ _ _ _ _ HI2); try done; [apply live_kept_refl|].
      by apply (Protected_keep _ _ _ _ _ HI1).
    + destruct (DebugHeapAllocate_success _ _ _ _ _ HW E Hnz)
        as (hs & ls & ptr & h1 & HIs & HBs & HPs & HLs & Hhs & E1 & Hptr & E2 & Hh & _).
      assert (Protected hs (vm_trace (w_vm w))) as Hps.
      { destruct Hhs as [->|Hfl]; [done|].
        apply (Protected_keep _ _ _ _ _ HI1); try done.
        by eapply FlushPendingFrees_live_kept. }
      pose proof (page_requirement_range size) as Hreq.
      destruct HW as (_ & _ & _ & start & len & Hm & Hlen).
      destruct (FinalizeAlloc_Ok _ _ _ _ _ _ _ _ _ E2 Hm Hlen Hreq) as (Hpos & _).
      rewrite (FinalizeAlloc_trace _ _ _ _ _ _ _ E2), Hh.
      destruct (AllocFromFreeList_inv _ _ _ _ _ _ HIs Hpos E1) as [l1 HI1'].
      apply (Protected_keep _ _ _ _ _ HI1'); try done; [apply live_kept_refl|].
      apply (Protected_alloc ls hs); try done; [by rewrite HBs|by rewrite HBs, HPs].
  - (* DebugHeapFree *)
    apply bind_Ok in H as [w1 [E H]]. injection H as <- <-.
    by eapply Protected_free.
  - (* DebugHeapGetAllocSize *)
    apply bind_Ok in H as [[n w1] [E H]]. injection H as <- <-.
    unfold DebugHeapGetAllocSize in E.
    apply bind_Ok in E as [h0 [E0 E]]. apply ENTER_Ok in E0 as ->.
    run_inv E.
    match goal with E : DEBUG_THREAD_GUARD_LEAVE _ = Ok _ |- _ => apply LEAVE_Ok in E as -> end.
    injection E as <- <-. simpl.
    apply (Protected_keep _ _ _ _ _ HI); try done. apply live_kept_refl.
  - (* DebugHeapOwns *)
    apply bind_Ok in H as [[s w1] [E H]]. injection H as <- <-.
    unfold DebugHeapOwns in E.
    apply bind_Ok in E as [h0 [E0 E]]. apply ENTER_Ok in E0 as ->.
    apply bind_Ok in E as [h1 [E1 E]]. apply LEAVE_Ok in E1 as ->.
    injection E as <- <-. simpl.
    apply (Protected_keep _ _ _ _ _ HI); try done. apply live_kept_refl.
Qed.

Lemma Protected_ops os_range mem_size_bytes ops w rs w' :
  0 <= mem_size_bytes < 2 ^ 43 -> 0 <= os_range < 2 ^ 63 ->
  WInv w -> Shape os_range mem_size_bytes w ->
  Protected (w_heap w) (vm_trace (w_vm w)) ->
  run_ops ops w = Ok (rs, w') ->
  Protected (w_heap w') (vm_trace (w_vm w')).
Proof.
  intros Hmem Hos. revert w rs.
  induction ops as [|op ops IH]; intros w rs HW HS Hp H; simpl in H.
  - by injection H as <- <-.
  - apply bind_Ok in H as [[r w1] [E1 H]].
    apply bind_Ok in H as [[rs1 w2] [E2 H]]. injection H as <- <-.
    eapply IH; [by eapply run_op_inv|by eapply run_op_shape| |done].
    by eapply Protected_op.
Qed.

(* ===================================================================== *)
(** * Further properties: the protection of the user region               *)
(* ===================================================================== *)

(** X16 (DebugHeapAllocate, DebugHeapFree, FinalizeAlloc,
    FlushPendingFrees): on a heap made by DebugHeapInit and used through
    the public operations, an address of the user region is accessible
    exactly when it lies in a block entered in the lookup table, that is
    in a live allocation, and not in the last page of that block.  So
    the guard page of every live allocation, every freed block and every
    block never handed out fault on access, at any time. *)
Theorem user_region_protected (os_range mem_size_bytes : Z) (ops : list Op)
    (w : World) (x : Z) :
  0 <= mem_size_bytes < 2 ^ 43 -> 0 <= os_range < 2 ^ 63 ->
  final_world os_range mem_size_bytes ops = Some w ->
  m_BaseAddress (w_heap w) <= x
  < m_BaseAddress (w_heap w) + m_PageCount (w_heap w) * kPageSize ->
  accessible (vm_trace (w_vm w)) x = true <->
  exists i r b,
    m_BlockLookup (w_heap w) !! i = Some (Some r) /\
    m_Blocks (w_heap w) !! r = Some b /\
    block_base (w_heap w) b <= x
    < block_base (w_heap w) b + (Blk.m_PageCount b - 1) * kPageSize.
Proof.
  intros Hmem Hos Hw.
  destruct (final_world_Some _ _ _ _ Hw) as (w0 & rs & Hinit & Hrun).
  pose proof (DebugHeapInit_inv _ _ _ Hinit Hmem Hos) as HW0.
  assert (final_world os_range mem_size_bytes [] = Some w0) as Hw0.
  { unfold final_world. by rewrite Hinit. }
  destruct (live_heap _ _ _ _ Hmem Hos Hw0) as (_ & HS0 & HPr & HBr).
  revert x. change (Protected (w_heap w) (vm_trace (w_vm w))).
  eapply Protected_ops; [exact Hmem|exact Hos|exact HW0|exact HS0| |exact Hrun].
  destruct HS0 as (_ & HP & HB & _).
  destruct (DebugHeapInit_Ok _ _ _ Hinit Hmem) as (_ & _ & _ & _ & _ & _ & _ & _ & _
                                                   & _ & _ & HLK & _).
  destruct (DebugHeapInit_trace _ _ _ Hinit) as (size & total & Ht & ->).
  intros x Hx. rewrite Ht. simpl.
  rewrite u64_small by (unfold kPageSize in *; lia).
  assert ((os_range <=? x)
          && (x <? os_range + bookkeeping_pages_of (mem_size_bytes / kPageSize) * kPageSize)
          = false) as ->.
  { apply andb_false_iff. right. apply Z.ltb_ge. lia. }
  split; [done|]. intros (i & r & b & Hi & _). rewrite HLK in Hi.
  apply lookup_replicate in Hi as [? _]. done.
Qed.

(** A run of X16: with 128 bytes allocated on the heap of eight pages,
    the byte after the allocation is not accessible, nor is any address
    of the pages never handed out. *)
Lemma user_region_protected_witness :
  exists w,
    final_world 65536 32768 small_ops = Some w /\
    accessible (vm_trace (w_vm w)) 73727 = true /\
    accessible (vm_trace (w_vm w)) 73728 = false /\
    accessible (vm_trace (w_vm w)) 102399 = false.
Proof.
  evar (w : World). exists w.
  assert (final_world 65536 32768 small_ops = Some w) as Hw
      by (subst w; vm_compute; reflexivity).
  split; [exact Hw|].
  pose proof (fun x => user_region_protected 65536 32768 small_ops w x
                         ltac:(lia) ltac:(lia) Hw) as H.
  split; [|subst w; vm_compute; done].
  apply H; [subst w; vm_compute; intuition congruence|].
  exists 0%nat, 0%nat. eexists. split; [subst w; vm_compute; reflexivity|].
  split; [subst w; vm_compute; reflexivity|]. subst w. vm_compute. intuition congruence.
Defined.

(* ===================================================================== *)
(** * Further properties: the first allocation on a fresh heap           *)
(* ===================================================================== *)

Lemma init_loop_next count n i blocks blocks' :
  0 <= i -> (Z.to_nat i + n <= length blocks)%nat ->
  for_loop n i (init_block count) blocks = Ok blocks' ->
  forall j b, (Z.to_nat i <= j < Z.to_nat i + n)%nat -> blocks' !! j = Some b ->
    Blk.m_Next b = if Z.of_nat j + 1 <? count then Some (S j) else None.
Proof.
  revert i blocks. induction n as [|n IH]; intros i blocks Hi Hlen H j b Hj Hb; [lia|].
  simpl in H. apply bind_Ok in H as [blocks1 [E H]].
  unfold init_block in E. apply bind_Ok in E as [bi [Ebi E]].
  unfold arr_set in E. destruct (decide _) as [Hlt|]; [|done]. injection E as <-.
  set (b' := Blk.set_Next _ _) in H.
  destruct (decide (j = Z.to_nat i)) as [->|Hne].
  - destruct (init_loop_Ok count n (i + 1) (<[Z.to_nat i := b']> blocks))
      as (blocks'' & Hrun & Hlo & _); [lia|rewrite length_insert; lia|].
    rewrite H in Hrun. injection Hrun as <-.
    rewrite Hlo in Hb by lia.
    rewrite list_lookup_insert_eq in Hb by exact Hlt. injection Hb as <-.
    unfold b'. simpl. rewrite Z2Nat.id by lia.
    destruct (i + 1 <? count); [|done]. f_equal. lia.
  - eapply (IH (i + 1) (<[Z.to_nat i := b']> blocks)); [lia|rewrite length_insert; lia|exact H| |exact Hb]. lia.
Qed.

Lemma DebugHeapInit_fresh os_range mem_size_bytes :
  16384 <= mem_size_bytes < 2 ^ 43 -> 0 < os_range < 2 ^ 63 ->
  os_range mod kPageSize = 0 ->
  exists w b1 rest,
    DebugHeapInit os_range mem_size_bytes = Ok (Some w) /\
    m_Blocks (w_heap w)
    = Blk.mk false (mem_size_bytes / kPageSize) false 0 None None :: b1 :: rest /\
    flags b1 = (true, true) /\
    m_FirstUnusedBlockInfo (w_heap w) = Some 1%nat.
Proof.
  intros Hmem Hos Hal.
  set (P := mem_size_bytes / kPageSize).
  assert (4 <= P < 2 ^ 31) as HP.
  { unfold P, kPageSize. split; [apply Z.div_le_lower_bound; lia|].
    apply Z.div_lt_upper_bound; lia. }
  pose proof (bookkeeping_pages_range P ltac:(lia)) as HB.
  unfold DebugHeapInit. cbv zeta. fold P.
  change (u64 (u64 (sizeof_DebugHeap + 3 * P * sizeof_ptr + sizeof_DebugBlockInfo * P)
               + kPageSize - 1) / kPageSize) with (bookkeeping_pages_of P).
  set (B := bookkeeping_pages_of P) in *.
  unfold VmAllocate.
  assert ((os_range =? 0) = false) as Hnz by (apply Z.eqb_neq; lia).
  rewrite Hnz. simpl. rewrite Hnz.
  unfold VmCommit, range_mapped, page_aligned. simpl.
  rewrite (u64_small (B + P)), (u64_small ((B + P) * kPageSize)),
    (u64_small (B * kPageSize)) by (unfold kPageSize; lia).
  assert ((os_range mod kPageSize =? 0) && (os_range <=? os_range)
          && (os_range + B * kPageSize <=? os_range + (B + P) * kPageSize) = true)
    as ->.
  { rewrite !andb_true_iff, Z.eqb_eq, !Z.leb_le. unfold kPageSize in *. lia. }
  simpl.
  assert (2 <= P / 2 <= P) as HP2.
  { split; [apply Z.div_le_lower_bound; lia|apply Z.div_le_upper_bound; lia]. }
  rewrite (u32_small (P / 2)) by lia.
  destruct (init_loop_Ok (P / 2) (Z.to_nat (P / 2)) 0 (replicate (Z.to_nat P) Blk.zero))
    as (blocks & Hrun & _ & Hhi); [lia|rewrite length_replicate; lia|].
  pose proof (init_loop_next (P / 2) (Z.to_nat (P / 2)) 0
                (replicate (Z.to_nat P) Blk.zero) blocks ltac:(lia)
                ltac:(rewrite length_replicate; lia) Hrun) as Hnext.
  rewrite Hrun. simpl.
  destruct (Hhi 0%nat ltac:(lia)) as (b0 & Hb0 & Hfl).
  destruct (Hhi 1%nat ltac:(lia)) as (b1 & Hb1 & Hfl1).
  pose proof (Hnext 0%nat b0 ltac:(lia) Hb0) as Hn0.
  change (Z.of_nat 0 + 1) with 1 in Hn0.
  assert ((1 <? P / 2) = true) as Hlt by (apply Z.ltb_lt; lia).
  rewrite Hlt in Hn0.
  apply pair_equal_spec in Hfl as [Hfa Hfp].
  unfold AllocBlockInfo. simpl. rewrite Hb0. simpl. rewrite Hfa, Hfp. simpl.
  unfold update, deref, store. simpl.
  rewrite list_lookup_insert_eq by (by eapply lookup_lt_Some). simpl.
  unfold arr_set. simpl. rewrite decide_True by (rewrite length_replicate; lia).
  simpl.
  destruct blocks as [|c0 [|c1 rest]]; [done..|].
  simpl in Hb0, Hb1. injection Hb0 as ->. injection Hb1 as ->.
  eexists _, b1, rest. split; [reflexivity|]. simpl.
  split; [|done].
  unfold Blk.set_Next, Blk.set_Prev, Blk.set_PageCount, Blk.set_PendingFree,
    Blk.set_Allocated, Blk.set_PageIndex. simpl.
  rewrite (u32_small P), (u31_small P) by lia. done.
Qed.

Lemma page_requirement_fits size P :
  0 < P < 2 ^ 31 -> 0 <= size <= (P - 1) * kPageSize ->
  page_requirement size = 1 + (size + 4095) / 4096 /\
  1 <= page_requirement size <= P /\
  (size + 4095) / 4096 * 4096 - u32 (u64 (kPageSize - size)) mod kPageSize = size.
Proof.
  intros HP Hs. unfold page_requirement, kPageSize in *.
  assert (0 <= (size + 4095) / 4096 <= P - 1).
  { split; [apply Z.div_pos; lia|].
    apply Z.lt_succ_r. apply Z.div_lt_upper_bound; lia. }
  rewrite (u64_small (size + 4096 - 1)) by lia.
  replace (size + 4096 - 1) with (size + 4095) by lia.
  rewrite (u32_small ((size + 4095) / 4096)), u32_small by lia.
  split; [done|]. split; [lia|].
  unfold u32, u64. Z.div_mod_to_equations. lia.
Qed.

(** One step of a run followed forwards: the first call returns [a], and
    the rest goes on from there. *)
Lemma bind_run {A B} (m : Result A) (k : A -> Result B) a r :
  m = Ok a -> k a = r -> bind m k = r.
Proof. intros -> <-. done. Qed.

(** A step whose call can be evaluated on the spot. *)
Ltac run_step :=
  eapply bind_run;
  [simpl;
   unfold store, set_Blocks, set_FreeList, set_FreeListSize, set_FirstUnusedBlockInfo,
     set_BlockLookup;
   simpl; reflexivity
  |cbv beta iota].

(** AllocFromFreeList on the heap DebugHeapInit leaves: the root block is
    taken, and split when the request is smaller than the heap. *)
Lemma AllocFromFreeList_fresh Ma P base m b1 rest g PL req :
  1 <= req <= P -> P < 2 ^ 31 -> Z.to_nat P = S (S m) ->
  Blk.m_Allocated b1 = true -> Blk.m_PendingFree b1 = true ->
  0 <= base < 2 ^ 64 ->
  exists h',
    AllocFromFreeList
      (mkHeap Ma P base 1 (Some 0%nat :: None :: replicate m None) 0 PL
         (None :: None :: replicate m None) (Some 1%nat)
         (Blk.mk false P false 0 None None :: b1 :: rest) g) req
    = Ok (base, h') /\
    m_ReentrancyGuard h' = g.
Proof.
  intros Hreq HP HnP Hfa Hfp Hbase.
  assert (forall h0 n,
             m_BlockLookup h0 = Some 0%nat :: None :: replicate m None -> n <= P ->
             check_lookup_null h0 0 n = Ok tt) as Hchk.
  { intros h0 n Hlk Hn. apply check_lookup_null_Ok. intros i Hi. rewrite Hlk.
    rewrite u32_small by lia. change (0 + i) with i.
    destruct (Z.to_nat i) as [|[|k]] eqn:E; [lia|reflexivity|]. simpl.
    apply lookup_replicate_2. lia. }
  assert (base = u64 (base + 0 * kPageSize)) as Hres.
  { replace (base + 0 * kPageSize) with base by lia. by rewrite u64_small. }
  unfold AllocFromFreeList, scan_free_list.
  destruct (0 <? P - req) eqn:Hcarve; (eexists; split; [|shelve]).
  - eapply bind_run.
    { simpl.
      assert ((req <=? P) && (P <? not32 0) = true) as ->.
      { change (not32 0) with 4294967295.
        rewrite andb_true_iff, Z.leb_le, Z.ltb_lt. lia. }
      reflexivity. }
    cbv beta iota.
    eapply bind_run; [simpl; reflexivity|cbv beta iota].
    rewrite (u64_small (P - req)), (u32_small (P - req)), Hcarve by lia.
    eapply bind_run.
    { unfold carve_tail.
      eapply bind_run.
      { unfold AllocBlockInfo. simpl. rewrite Hfa, Hfp. reflexivity. }
      cbv beta iota.
      run_step.
      eapply bind_run.
      { unfold int_add. cbn [Blk.m_PageIndex Blk.m_PageCount].
        assert (in_int (0 + P) = true) as ->
            by (unfold in_int, INT_MAX; rewrite andb_true_iff, !Z.leb_le; lia).
        reflexivity. }
      cbv beta iota.
      do 6 run_step.
      simpl. reflexivity. }
    cbv beta iota.
    do 5 run_step.
    eapply bind_run.
    { apply Hchk; [reflexivity|].
      cbn [Blk.m_PageCount Blk.set_Allocated Blk.set_PageCount Blk.set_Next].
      rewrite (u32_small req), (u31_small req) by lia. lia. }
    cbv beta iota.
    match goal with
    | |- Ok (_, ?y) = _ => transitivity (Ok (u64 (base + 0 * kPageSize), y)); [reflexivity|]
    end.
    rewrite <- Hres. reflexivity.
  - eapply bind_run.
    { simpl.
      assert ((req <=? P) && (P <? not32 0) = true) as ->.
      { change (not32 0) with 4294967295.
        rewrite andb_true_iff, Z.leb_le, Z.ltb_lt. lia. }
      reflexivity. }
    cbv beta iota.
    eapply bind_run; [simpl; reflexivity|cbv beta iota].
    rewrite (u64_small (P - req)), (u32_small (P - req)), Hcarve by lia.
    do 6 run_step.
    eapply bind_run.
    { apply Hchk; [reflexivity|]. cbn [Blk.m_PageCount Blk.set_Allocated]. lia. }
    cbv beta iota.
    match goal with
    | |- Ok (_, ?y) = _ => transitivity (Ok (u64 (base + 0 * kPageSize), y)); [reflexivity|]
    end.
    rewrite <- Hres. reflexivity.
  Unshelve. all: reflexivity.
Qed.

Lemma placement_offset_le size alignment :
  placement_offset size alignment <= u32 (u64 (kPageSize - size)) mod kPageSize.
Proof.
  unfold placement_offset.
  pose proof (Z.mod_pos_bound (u32 (u64 (kPageSize - size))) kPageSize
                ltac:(unfold kPageSize; lia)) as Hx.
  rewrite land_not32 by (unfold kPageSize in *; lia).
  assert (0 <= Z.land (u32 (u64 (kPageSize - size)) mod kPageSize)
                 (u32 (u64 (alignment - 1)))); [|lia].
  apply Z.land_nonneg. left. lia.
Qed.

(** FinalizeAlloc goes through on a block that lies inside the mapping. *)
Lemma FinalizeAlloc_runs ptr size req alignment vm start len :
  vm_mapped vm = Some (start, len) ->
  ptr mod kPageSize = 0 -> start <= ptr -> ptr + req * kPageSize <= start + len ->
  0 <= ptr -> ptr + req * kPageSize < 2 ^ 64 -> 1 <= req ->
  (0 < placement_offset size alignment -> 2 <= req) ->
  exists vm',
    FinalizeAlloc ptr size req alignment vm
    = Ok (ptr + placement_offset size alignment, vm').
Proof.
  intros Hm Hal Hlo Hhi Hp0 Hp64 Hreq Hoff2.
  pose proof (placement_offset_range size alignment) as Hoff.
  unfold FinalizeAlloc. fold (placement_offset size alignment).
  rewrite (u64_small ((req - 1) * kPageSize)) by (unfold kPageSize in *; lia).
  rewrite (u64_small (ptr + (req - 1) * kPageSize)) by (unfold kPageSize in *; lia).
  rewrite (u64_small (ptr + placement_offset size alignment))
    by (unfold kPageSize in *; lia).
  unfold VmCommit.
  assert (range_mapped vm ptr ((req - 1) * kPageSize) = true) as ->.
  { unfold range_mapped, page_aligned. rewrite Hm.
    rewrite !andb_true_iff, Z.eqb_eq, !Z.leb_le. unfold kPageSize in *. lia. }
  cbn [ASSERT_FATAL bind]. unfold VmDecommit.
  assert (range_mapped (mkVm (vm_mapped vm)
                          (CallVmCommit ptr ((req - 1) * kPageSize) :: vm_trace vm))
            (ptr + (req - 1) * kPageSize) kPageSize = true) as ->.
  { unfold range_mapped, page_aligned. cbn [vm_mapped]. rewrite Hm.
    rewrite !andb_true_iff, Z.eqb_eq, !Z.leb_le. split; [split|].
    - unfold kPageSize in *. rewrite Z.add_mod, Z.mod_mul, Hal by lia. done.
    - unfold kPageSize in *. lia.
    - unfold kPageSize in *. lia. }
  cbn [ASSERT_FATAL bind vm_mapped vm_trace]. unfold memset.
  cbn [vm_trace vm_mapped accessible].
  destruct (0 <? placement_offset size alignment) eqn:Hpos.
  - apply Z.ltb_lt in Hpos. specialize (Hoff2 Hpos).
    assert (forall x, ptr <= x < ptr + kPageSize ->
              (if (ptr + (req - 1) * kPageSize <=? x)
                  && (x <? ptr + (req - 1) * kPageSize + kPageSize)
               then false
               else if (ptr <=? x) && (x <? ptr + (req - 1) * kPageSize)
                    then true else accessible (vm_trace vm) x) = true) as Hacc.
    { intros x Hx.
      assert ((ptr + (req - 1) * kPageSize <=? x) = false) as ->
          by (apply Z.leb_gt; unfold kPageSize in *; lia).
      cbn [andb].
      assert ((ptr <=? x) && (x <? ptr + (req - 1) * kPageSize) = true) as ->; [|done].
      rewrite andb_true_iff, Z.leb_le, Z.ltb_lt. unfold kPageSize in *. lia. }
    rewrite !Hacc by (unfold kPageSize in *; lia).
    cbn [andb negb bind]. by eexists.
  - cbn [andb bind]. by eexists.
Qed.

Lemma first_allocation os_range mem_size_bytes size alignment :
  16384 <= mem_size_bytes < 2 ^ 43 -> 0 < os_range < 2 ^ 63 ->
  os_range mod kPageSize = 0 ->
  0 <= size <= (mem_size_bytes / kPageSize - 1) * kPageSize ->
  exists w w',
    DebugHeapInit os_range mem_size_bytes = Ok (Some w) /\
    DebugHeapAllocate w size alignment
    = Ok (m_BaseAddress (w_heap w) + placement_offset size alignment, w').
Proof.
  intros Hmem Hos Hal Hsize.
  destruct (DebugHeapInit_fresh _ _ Hmem Hos Hal) as (w & b1 & rest & Hw & Hbl & Hfl1 & HFU).
  exists w.
  destruct (DebugHeapInit_Ok _ _ _ Hw ltac:(lia))
    as (_ & _ & Hself & Hm & HPc & HMa & HBa & HnF & HFL & HnP & HPL & HLK & HG & _).
  set (P := mem_size_bytes / kPageSize) in *.
  assert (4 <= P < 2 ^ 31) as HP.
  { unfold P, kPageSize. split; [apply Z.div_le_lower_bound; lia|].
    apply Z.div_lt_upper_bound; lia. }
  pose proof (bookkeeping_pages_range P ltac:(lia)) as HB.
  set (B := bookkeeping_pages_of P) in *.
  rewrite u64_small in HBa by (unfold kPageSize; lia).
  destruct (page_requirement_fits size P ltac:(lia) Hsize) as (Hreq & Hreq1 & Hideal).
  pose proof (placement_offset_range size alignment) as Hoff.
  apply pair_equal_spec in Hfl1 as [Hfa Hfp].
  destruct w as [self [Ma Pc base nF FL nP PL LK FU bl g] [mapped trace]].
  simpl in *. subst.
  destruct (Z.to_nat P) as [|[|m]] eqn:HnP; [lia|lia|].
  set (req := page_requirement size) in *.
  destruct (AllocFromFreeList_fresh (P / 2) P (os_range + kPageSize * B) m b1 rest 1
              (None :: None :: replicate m None) req
              Hreq1 ltac:(lia) HnP Hfa Hfp ltac:(unfold kPageSize; lia))
    as (h' & HA & Hg').
  destruct (FinalizeAlloc_runs (os_range + kPageSize * B) size req alignment
              (mkVm (Some (os_range, (B + P) * kPageSize)) trace)
              os_range ((B + P) * kPageSize)) as (vm' & HF).
  { reflexivity. }
  { unfold kPageSize in *. rewrite Z.add_mod, Z.mul_comm, Z.mod_mul, Hal by lia. done. }
  { unfold kPageSize. lia. }
  { unfold kPageSize. lia. }
  { unfold kPageSize. lia. }
  { unfold kPageSize. lia. }
  { lia. }
  { intros Hpos.
    pose proof (placement_offset_le size alignment) as Hle.
    rewrite Hreq. unfold kPageSize in *. lia. }
  eexists. split; [exact Hw|]. clear Hw.
  unfold DebugHeapAllocate. cbn [w_heap w_vm w_self].
  rewrite ENTER_idle by done. cbn [bind]. fold req.
  eapply bind_run; [exact HA|cbv beta iota].
  assert ((os_range + kPageSize * B =? 0) = false) as ->
      by (apply Z.eqb_neq; unfold kPageSize; lia).
  cbn [negb].
  eapply bind_run; [exact HF|cbv beta iota].
  eapply bind_run; [apply LEAVE_entered; exact Hg'|cbv beta iota].
  reflexivity.
Qed.

(** X17 (DebugHeapInit, DebugHeapAllocate, AllocFromFreeList,
    FinalizeAlloc): on a fresh heap of at least four pages, made on a
    page-aligned range, the first DebugHeapAllocate succeeds for every
    request that leaves room for the guard page, whatever the alignment:
    it returns the base address of the user region plus the offset of
    FinalizeAlloc, which is not NULL. *)
Theorem first_allocation_succeeds (os_range mem_size_bytes size alignment : Z) :
  16384 <= mem_size_bytes < 2 ^ 43 -> 0 < os_range < 2 ^ 63 ->
  os_range mod kPageSize = 0 ->
  0 <= size <= (mem_size_bytes / kPageSize - 1) * kPageSize ->
  exists w p w',
    final_world os_range mem_size_bytes [] = Some w /\
    DebugHeapAllocate w size alignment = Ok (p, w') /\
    p = m_BaseAddress (w_heap w) + placement_offset size alignment /\
    p <> 0.
Proof.
  intros Hmem Hos Hal Hsize.
  destruct (first_allocation _ _ _ alignment Hmem Hos Hal Hsize) as (w & w' & Hw & HA).
  exists w, (m_BaseAddress (w_heap w) + placement_offset size alignment), w'.
  assert (final_world os_range mem_size_bytes [] = Some w) as Hf.
  { unfold final_world. by rewrite Hw. }
  split; [done|]. split; [done|]. split; [done|].
  destruct (live_heap os_range mem_size_bytes [] w ltac:(lia) ltac:(lia) Hf)
    as (_ & HS & _ & HBr).
  destruct HS as (_ & _ & HB & _).
  pose proof (placement_offset_range size alignment). rewrite HB.
  unfold kPageSize in *. lia.
Qed.

(** A run of X17: a request of 10000 bytes, aligned to 64, on a heap of
    eight pages. *)
Lemma first_allocation_succeeds_witness :
  exists w w',
    final_world 65536 32768 [] = Some w /\
    DebugHeapAllocate w 10000 64 = Ok (71872, w').
Proof.
  destruct (first_allocation_succeeds 65536 32768 10000 64)
    as (w & p & w' & Hw & HA & Hp & _); [lia|lia|reflexivity|vm_compute; split; discriminate|].
  exists w, w'. split; [exact Hw|].
  rewrite HA. f_equal. f_equal. rewrite Hp.
  unfold final_world in Hw. vm_compute in Hw. injection Hw as <-. reflexivity.
Defined.

(* ===================================================================== *)
(** * Further properties: the demo program                               *)
(* ===================================================================== *)

Lemma WInv_trace w w' :
  w_heap w' = w_heap w -> vm_mapped (w_vm w') = vm_mapped (w_vm w) -> WInv w -> WInv w'.
Proof. unfold WInv. by intros -> ->. Qed.

Lemma Shape_trace os_range mem_size_bytes w w' :
  w_heap w' = w_heap w -> w_self w' = w_self w ->
  vm_mapped (w_vm w') = vm_mapped (w_vm w) ->
  Shape os_range mem_size_bytes w -> Shape os_range mem_size_bytes w'.
Proof. unfold Shape. by intros -> -> ->. Qed.

Lemma store_char_Ok ptr i c w :
  0 <= ptr + i < 2 ^ 64 -> accessible (vm_trace (w_vm w)) (ptr + i) = true ->
  exists w', store_char ptr i c w = Ok w' /\
             w_heap w' = w_heap w /\ w_self w' = w_self w /\
             vm_mapped (w_vm w') = vm_mapped (w_vm w).
Proof.
  intros Hr Ha. unfold store_char, memset. rewrite u64_small by lia.
  replace (ptr + i + 1 - 1) with (ptr + i) by lia. rewrite Ha.
  cbn [andb negb Z.ltb Z.compare bind]. by eexists.
Qed.

Lemma store_char_fault ptr i c w :
  0 <= ptr + i < 2 ^ 64 -> accessible (vm_trace (w_vm w)) (ptr + i) = false ->
  store_char ptr i c w = Err AccessViolation.
Proof.
  intros Hr Ha. unfold store_char, memset. rewrite u64_small by lia.
  rewrite Ha. reflexivity.
Qed.

Lemma DebugHeapDestroy_runs os_range mem_size_bytes w :
  Shape os_range mem_size_bytes w -> 0 < mem_size_bytes / kPageSize < 2 ^ 20 ->
  exists vm, DebugHeapDestroy w = Ok vm.
Proof.
  intros (_ & HP & _ & Hal & Hself & _) HPr.
  unfold DebugHeapDestroy, VmFree. rewrite Hself, HP.
  assert (page_aligned os_range && (0 <? u32 (mem_size_bytes / kPageSize * kPageSize))
          = true) as ->.
  { unfold page_aligned. rewrite andb_true_iff, Z.eqb_eq, Z.ltb_lt.
    split; [done|]. rewrite u32_small; unfold kPageSize in *; lia. }
  cbn [ASSERT_FATAL bind]. by eexists.
Qed.

Lemma test_case_default testcase w :
  testcase < 0 \/ 3 < testcase -> test_case testcase w = Ok w.
Proof.
  intros H. destruct testcase as [|[[q|q|]|[q|q|]|]|q]; try lia; reflexivity.
Qed.

(** The heap of demo.c after its allocation of 128 bytes: the block of
    the pointer has one user page and one guard page, and the request
    sits at the end of the user page. *)
Lemma demo_allocation os_range :
  0 < os_range < 2 ^ 63 -> os_range mod kPageSize = 0 ->
  exists w0 w1 p r b,
    DebugHeapInit os_range 2097152 = Ok (Some w0) /\
    WInv w0 /\ Shape os_range 2097152 w0 /\
    DebugHeapAllocate w0 128 4 = Ok (p, w1) /\
    WInv w1 /\ Shape os_range 2097152 w1 /\
    m_BlockLookup (w_heap w1) !! Z.to_nat (page_index_of (w_heap w1) p) = Some (Some r) /\
    m_Blocks (w_heap w1) !! r = Some b /\
    Blk.m_PageCount b = 2 /\
    p = block_base (w_heap w1) b + 3968 /\
    0 < p /\ p + kPageSize < 2 ^ 64 /\
    (forall x, block_base (w_heap w1) b <= x < block_base (w_heap w1) b + kPageSize ->
               accessible (vm_trace (w_vm w1)) x = true) /\
    (forall x, block_base (w_heap w1) b + kPageSize <= x
               < block_base (w_heap w1) b + 2 * kPageSize ->
               accessible (vm_trace (w_vm w1)) x = false).
Proof.
  intros Hos Hal.
  destruct (first_allocation os_range 2097152 128 4) as (w0 & w1 & Hinit & HA);
    [lia|lia|done|vm_compute; split; discriminate|].
  change (placement_offset 128 4) with 3968 in HA.
  set (p := m_BaseAddress (w_heap w0) + 3968) in *.
  assert (final_world os_range 2097152 [] = Some w0) as Hf.
  { unfold final_world. by rewrite Hinit. }
  destruct (live_heap os_range 2097152 [] w0 ltac:(lia) ltac:(lia) Hf)
    as (HW0 & HS0 & HPr & HBr).
  change (2097152 / kPageSize) with 512 in HPr, HBr.
  pose proof HS0 as (_ & HP0 & HB0 & _).
  change (2097152 / kPageSize) with 512 in HP0, HB0.
  assert (p <> 0) as Hpnz by (unfold p; rewrite HB0; unfold kPageSize; lia).
  pose proof (DebugHeapAllocate_inv _ _ _ _ _ HW0 HA) as HW1.
  assert (Shape os_range 2097152 w1) as HS1.
  { eapply (run_op_shape _ _ (OpAllocate 128 4)); [exact HW0|exact HS0|].
    simpl. rewrite HA. reflexivity. }
  destruct (DebugHeapAllocate_block _ _ _ _ _ HW0 HA Hpnz)
    as (r & b & Hb & Hpc & Hpi & Hlk & Hp & Hpg & _).
  change (page_requirement 128) with 2 in Hpc.
  change (placement_offset 128 4) with 3968 in Hp.
  destruct (DebugHeapAllocate_access os_range 2097152 w0 w1 128 4 p
              ltac:(lia) HW0 HS0 ltac:(done) ltac:(done) HA Hpnz)
    as (r' & b' & Hlk' & Hb' & _ & Hacc & Hguard & _).
  rewrite Hpg, Hlk in Hlk'. injection Hlk' as <-.
  rewrite Hb in Hb'. injection Hb' as <-.
  pose proof HS1 as (_ & HP1 & HB1 & _).
  change (2097152 / kPageSize) with 512 in HP1, HB1.
  rewrite Hpc in Hacc, Hguard.
  exists w0, w1, p, r, b. rewrite Hpg.
  split_and!; try done.
  - unfold p. rewrite HB0. unfold kPageSize. lia.
  - unfold p. rewrite HB0. unfold kPageSize in *. lia.
Qed.

(** X18 (demo.c, main): what the demo program does for each test case,
    wherever the kernel places the reservation.  Without an argument it
    exits with status 1.  Test case 0 runs to the end; test case 1 faults
    on the byte past the allocation, test case 2 stops at the assertion
    [Double free of %p], test case 3 faults on the read of the freed
    allocation, and any other number runs to the end without touching
    the heap. *)
Theorem demo_test_cases (os_range : Z) :
  0 < os_range < 2 ^ 63 -> os_range mod kPageSize = 0 ->
  main os_range None = Ok 1 /\
  main os_range (Some 0) = Ok 0 /\
  main os_range (Some 1) = Err AccessViolation /\
  main os_range (Some 2) = Err (AssertFatal "Double free of %p") /\
  main os_range (Some 3) = Err AccessViolation /\
  (forall testcase,
      testcase < 0 \/ 3 < testcase -> main os_range (Some testcase) = Ok 0).
Proof.
  intros Hos Hal.
  destruct (demo_allocation _ Hos Hal)
    as (w0 & w1 & p & r & b & Hinit & HW0 & HS0 & HA & HW1 & HS1 & Hlk & Hb & Hpc
        & Hp & Hp0 & Hp64 & Hacc & Hguard).
  assert (0 < 2097152 / kPageSize < 2 ^ 31) as HPr by (by vm_compute).
  assert (1 <= bookkeeping_pages_of (2097152 / kPageSize) <= 2097152 / kPageSize + 2)
    as HBr by (vm_compute; split; discriminate).
  assert (0 < 2097152 / kPageSize < 2 ^ 20) as HPd by (by vm_compute).
  assert (0 <= os_range < 2 ^ 63) as Hos' by lia.
  unfold main. change (2 * 1024 * 1024) with 2097152. rewrite Hinit. cbn [bind].
  split; [done|].
  (* the free of the live allocation *)
  destruct (DebugHeapFree_live _ _ _ _ _ Hos' HW1 HS1 HPr HBr Hlk) as (w2 & Hfree & _).
  destruct (DebugHeapFree_Ok _ _ _ Hfree) as (Hlt & _ & Hlk2 & HP2 & HB2 & HG2).
  assert (block_base (w_heap w1) b <= p < block_base (w_heap w1) b + kPageSize) as Hin
      by (unfold kPageSize; lia).
  split; [|split; [|split; [|split]]].
  - unfold test_case. rewrite HA. cbn [bind].
    destruct (store_char_Ok p 127 97 w1) as (w1' & -> & Hh & Hs & Hm).
    { unfold kPageSize in *. lia. }
    { apply Hacc. unfold kPageSize in *. lia. }
    cbn [bind].
    pose proof (WInv_trace _ _ Hh Hm HW1) as HW1'.
    pose proof (Shape_trace _ _ _ _ Hh Hs Hm HS1) as HS1'.
    rewrite <- Hh in Hlk.
    destruct (DebugHeapFree_live _ _ _ _ _ Hos' HW1' HS1' HPr HBr Hlk) as (w3 & Hfree3 & _).
    rewrite Hfree3. cbn [bind].
    assert (Shape os_range 2097152 w3) as HS3.
    { eapply (run_op_shape _ _ (OpFree p)); [exact HW1'|exact HS1'|].
      simpl. rewrite Hfree3. reflexivity. }
    destruct (DebugHeapDestroy_runs _ _ _ HS3 HPd) as (vm & ->). done.
  - unfold test_case. rewrite HA. cbn [bind].
    rewrite store_char_fault; [done|unfold kPageSize in *; lia|].
    apply Hguard. unfold kPageSize in *. lia.
  - unfold test_case. rewrite HA. cbn [bind]. rewrite Hfree. cbn [bind].
    rewrite DebugHeapFree_null_entry; [done|done|..].
    + rewrite HP2, (page_index_of_base _ (w_heap w1)) by done. done.
    + rewrite Hlk2, (page_index_of_base _ (w_heap w1)) by done.
      apply list_lookup_insert_eq. by eapply lookup_lt_Some.
  - unfold test_case. rewrite HA. cbn [bind]. rewrite Hfree. cbn [bind].
    rewrite store_char_fault; [done|unfold kPageSize in *; lia|].
    destruct (DebugHeapFree_access _ _ _ _ _ Hos' HW1 HS1 HPr HBr Hfree)
      as (r' & b' & Hlk' & Hb' & Hgone).
    rewrite Hlk in Hlk'. injection Hlk' as <-.
    rewrite Hb in Hb'. injection Hb' as <-.
    apply Hgone. rewrite Hpc. unfold kPageSize in *. lia.
  - intros testcase Ht. rewrite test_case_default by done. cbn [bind].
    destruct (DebugHeapDestroy_runs _ _ _ HS0 HPd) as (vm & ->). done.
Qed.

(** A run of X18 with the reservation at 65536. *)
Lemma demo_test_cases_witness :
  main 65536 (Some 0) = Ok 0 /\
  main 65536 (Some 1) = Err AccessViolation /\
  main 65536 (Some 2) = Err (AssertFatal "Double free of %p") /\
  main 65536 (Some 3) = Err AccessViolation /\
  main 65536 (Some 7) = Ok 0.
Proof.
  destruct (demo_test_cases 65536) as (_ & H0 & H1 & H2 & H3 & Hd); [lia|reflexivity|].
  split; [exact H0|]. split; [exact H1|]. split; [exact H2|]. split; [exact H3|].
  apply Hd. lia.
Defined.

(* ===================================================================== *)
(** * Further properties: what a call leaves alone                       *)
(* ===================================================================== *)

Lemma run_op_live_kept op w ret w' i r b :
  WInv w ->
  m_BlockLookup (w_heap w) !! i = Some (Some r) -> m_Blocks (w_heap w) !! r = Some b ->
  run_op op w = Ok (ret, w') ->
  (forall ptr, op = OpFree ptr -> Z.to_nat (page_index_of (w_heap w) ptr) <> i) ->
  m_BlockLookup (w_heap w') !! i = Some (Some r) /\
  exists b', m_Blocks (w_heap w') !! r = Some b' /\
             Blk.m_PageIndex b' = Blk.m_PageIndex b /\
             Blk.m_PageCount b' = Blk.m_PageCount b.
Proof.
  intros HW Hi Hb H Hop.
  pose proof HW as ([l HI] & Hb0 & _).
  destruct (InvK_live _ _ _ _ _ _ HI Hi Hb) as (Hrl & Hfl & Hpi & _).
  assert (forall bl', live_kept (m_Blocks (w_heap w)) bl' ->
            exists b', bl' !! r = Some b' /\
                       Blk.m_PageIndex b' = Blk.m_PageIndex b /\
                       Blk.m_PageCount b' = Blk.m_PageCount b) as Hkeep.
  { intros bl' K. destruct (K r b Hb Hfl) as (b' & Hb' & ? & ? & _). by exists b'. }
  destruct op as [size alignment|ptr|ptr|buffer]; simpl in H.
  - (* DebugHeapAllocate *)
    apply bind_Ok in H as [[p w1] [E H]]. injection H as <- <-.
    pose proof (InvK_set_guard _ _ _ 1 HI) as HI1.
    destruct (decide (p = 0)) as [->|Hnz].
    + destruct (DebugHeapAllocate_Ok _ _ _ _ _ HW E) as (_ & _ & _ & _ & Hcase).
      destruct Hcase as [(_ & _ & _ & _ & hf & Hflush & _ & ->)|(? & _)]; [|done].
      destruct (FlushPendingFrees_inv _ _ _ HI1 Hflush) as (_ & _ & HLK2 & _).
      pose proof (FlushPendingFrees_live_kept _ _ _ HI1 Hflush) as K.
      simpl. rewrite HLK2. split; [done|]. by apply Hkeep.
    + destruct (DebugHeapAllocate_success _ _ _ _ _ HW E Hnz)
        as (hs & ls & ptr & h1 & HIs & HBs & HPs & HLs & Hhs & E1 & Hptr & E2 & Hh & _).
      assert (live_kept (m_Blocks (w_heap w)) (m_Blocks hs)) as Ks.
      { destruct Hhs as [->|Hflush]; [apply live_kept_refl|].
        by apply (FlushPendingFrees_live_kept _ _ _ HI1 Hflush). }
      pose proof (AllocFromFreeList_live_kept _ _ _ _ E1) as K1.
      destruct (AllocFromFreeList_Ok _ _ _ _ E1) as (best & sz & idx & _ & Hbest).
      destruct best as [r1|]; [|by destruct Hbest as [-> _]].
      destruct Hbest as (xr & xr' & _ & _ & _ & _ & _ & Hnone & Hlk1 & _).
      rewrite Hh. simpl. rewrite Hlk1, HLs. split.
      * rewrite list_lookup_insert_ne; [done|].
        intros <-. rewrite HLs in Hnone. congruence.
      * apply Hkeep. by eapply live_kept_trans.
  - (* DebugHeapFree *)
    apply bind_Ok in H as [w1 [E H]]. injection H as <- <-.
    specialize (Hop ptr eq_refl).
    destruct (DebugHeapFree_trace _ _ _ E) as (r0 & b0 & Hlk0 & Hb0' & Hbl' & _).
    destruct (DebugHeapFree_Ok _ _ _ E) as (_ & _ & Hlk' & _).
    rewrite Hlk', Hbl'. split.
    + by rewrite list_lookup_insert_ne.
    + exists b. rewrite list_lookup_insert_ne; [done|].
      intros <-.
      destruct (InvK_live _ _ _ _ _ _ HI Hlk0 Hb0') as (_ & _ & Hpi0 & _).
      rewrite Hb in Hb0'. injection Hb0' as <-. lia.
  - (* DebugHeapGetAllocSize *)
    apply bind_Ok in H as [[n w1] [E H]]. injection H as <- <-.
    unfold DebugHeapGetAllocSize in E.
    apply bind_Ok in E as [h0 [E0 E]]. apply ENTER_Ok in E0 as ->.
    run_inv E.
    match goal with E : DEBUG_THREAD_GUARD_LEAVE _ = Ok _ |- _ => apply LEAVE_Ok in E as -> end.
    injection E as <- <-. simpl. split; [done|]. by exists b.
  - (* DebugHeapOwns *)
    apply bind_Ok in H as [[s w1] [E H]]. injection H as <- <-.
    unfold DebugHeapOwns in E.
    apply bind_Ok in E as [h0 [E0 E]]. apply ENTER_Ok in E0 as ->.
    apply bind_Ok in E as [h1 [E1 E]]. apply LEAVE_Ok in E1 as ->.
    injection E as <- <-. simpl. split; [done|]. by exists b.
Qed.

Lemma run_ops_live_kept ops w rs w' i r b :
  WInv w ->
  m_BlockLookup (w_heap w) !! i = Some (Some r) -> m_Blocks (w_heap w) !! r = Some b ->
  run_ops ops w = Ok (rs, w') ->
  (forall ptr, OpFree ptr ∈ ops -> Z.to_nat (page_index_of (w_heap w) ptr) <> i) ->
  m_BlockLookup (w_heap w') !! i = Some (Some r) /\
  exists b', m_Blocks (w_heap w') !! r = Some b' /\
             Blk.m_PageIndex b' = Blk.m_PageIndex b /\
             Blk.m_PageCount b' = Blk.m_PageCount b.
Proof.
  revert w rs b. induction ops as [|op ops IH]; intros w rs b HW Hi Hb H Hops; simpl in H.
  - injection H as <- <-. split; [done|]. by exists b.
  - apply bind_Ok in H as [[r1 w1] [E1 H]].
    apply bind_Ok in H as [[rs1 w2] [E2 H]]. injection H as <- <-.
    destruct (run_op_live_kept _ _ _ _ _ _ _ HW Hi Hb E1) as (Hi1 & b1 & Hb1 & Hpi1 & Hpc1).
    { intros ptr ->. apply Hops. left. }
    destruct (run_op_frame _ _ _ _ 0 HW E1) as (_ & HB1 & _).
    destruct (IH w1 rs1 b1 (run_op_inv _ _ _ _ HW E1) Hi1 Hb1 E2) as (Hi2 & b2 & Hb2 & ? & ?).
    { intros ptr Hin. rewrite (page_index_of_base _ (w_heap w)) by done.
      apply Hops. by right. }
    split; [done|]. exists b2. split; [done|]. split; congruence.
Qed.

(** X19 (DebugHeapAllocate, DebugHeapFree, FlushPendingFrees,
    AllocFromFreeList): on a heap made by DebugHeapInit and used through
    the public operations, a live allocation is left alone by every
    later call that is not a DebugHeapFree of a pointer into its first
    page: its block stays entered in the lookup table under the same
    page, with the same first page and the same number of pages, while
    other blocks are allocated, freed, split and merged around it. *)
Theorem live_allocation_kept (os_range mem_size_bytes : Z) (ops later : list Op)
    (w w' : World) (rs : list Ret) (i r : nat) (b : DebugBlockInfo) :
  0 <= mem_size_bytes < 2 ^ 43 -> 0 <= os_range < 2 ^ 63 ->
  final_world os_range mem_size_bytes ops = Some w ->
  m_BlockLookup (w_heap w) !! i = Some (Some r) -> m_Blocks (w_heap w) !! r = Some b ->
  run_ops later w = Ok (rs, w') ->
  (forall ptr, OpFree ptr ∈ later -> Z.to_nat (page_index_of (w_heap w) ptr) <> i) ->
  m_BlockLookup (w_heap w') !! i = Some (Some r) /\
  exists b', m_Blocks (w_heap w') !! r = Some b' /\
             Blk.m_PageIndex b' = Blk.m_PageIndex b /\
             Blk.m_PageCount b' = Blk.m_PageCount b.
Proof.
  intros Hmem Hos Hw Hi Hb Hrun Hfree.
  destruct (live_heap _ _ _ _ Hmem Hos Hw) as (HW & _).
  by eapply run_ops_live_kept.
Qed.

(** A run of X19: after the allocation of 128 bytes, a second block is
    allocated and freed, the size of the first is asked for, and a third
    block is allocated; the first block is still entered under page 0. *)
Lemma live_allocation_kept_witness :
  exists w w' rs,
    final_world 65536 32768 small_ops = Some w /\
    run_ops [OpAllocate 5000 8; OpFree 81016; OpGetAllocSize 73600; OpAllocate 128 4] w
    = Ok (rs, w') /\
    m_BlockLookup (w_heap w') !! 0%nat = Some (Some 0%nat).
Proof.
  evar (w : World). evar (w' : World). evar (rs : list Ret). exists w, w', rs.
  assert (final_world 65536 32768 small_ops = Some w) as Hw
      by (subst w; vm_compute; reflexivity).
  assert (run_ops [OpAllocate 5000 8; OpFree 81016; OpGetAllocSize 73600; OpAllocate 128 4] w
          = Ok (rs, w')) as Hrun by (subst w w' rs; vm_compute; reflexivity).
  split; [exact Hw|]. split; [exact Hrun|].
  evar (b : DebugBlockInfo).
  refine (proj1 (live_allocation_kept 65536 32768 small_ops _ w w' rs 0 0 b
                   ltac:(lia) ltac:(lia) Hw _ _ Hrun _)).
  - subst w. vm_compute. reflexivity.
  - subst w b. vm_compute. reflexivity.
  - intros ptr Hin.
    apply elem_of_cons in Hin as [Hin|Hin]; [discriminate|].
    apply elem_of_cons in Hin as [Hin|Hin].
    + injection Hin as ->. subst w. vm_compute. intros E. discriminate E.
    + apply elem_of_cons in Hin as [Hin|Hin]; [discriminate|].
      apply elem_of_cons in Hin as [Hin|Hin]; [discriminate|].
      apply elem_of_nil in Hin. destruct Hin.
Defined.

(* ===================================================================== *)
(** * Further properties: the quarantine of freed blocks                 *)
(* ===================================================================== *)

(** X20 (DebugHeapAllocate, AllocFromFreeList, DebugHeapFree): freed
    blocks are held back.  On a heap made by DebugHeapInit and used
    through the public operations, while some block of the free list
    has the page count computed for the request, a call of
    DebugHeapAllocate that returns, returns a pointer that is not null,
    and it has not flushed: the pending list and its size are left as
    they were, and the pointer lies outside the pages of every block on
    the pending list. *)
Theorem freed_block_quarantined (os_range mem_size_bytes : Z) (ops : list Op)
    (w w' : World) (size alignment p : Z) :
  0 <= mem_size_bytes < 2 ^ 43 -> 0 <= os_range < 2 ^ 63 ->
  final_world os_range mem_size_bytes ops = Some w ->
  fits (w_heap w) (page_requirement size) ->
  DebugHeapAllocate w size alignment = Ok (p, w') ->
  p <> 0 /\
  m_PendingListSize (w_heap w') = m_PendingListSize (w_heap w) /\
  m_PendingList (w_heap w') = m_PendingList (w_heap w) /\
  forall (j : Z) (r : nat) (b : DebugBlockInfo),
    0 <= j < m_PendingListSize (w_heap w) ->
    m_PendingList (w_heap w) !! Z.to_nat j = Some (Some r) ->
    m_Blocks (w_heap w) !! r = Some b ->
    ~ (block_base (w_heap w) b <= p
       < block_base (w_heap w) b + Blk.m_PageCount b * kPageSize).
Proof.
  intros Hmem Hos Hw Hfits H.
  destruct (live_heap _ _ _ _ Hmem Hos Hw) as (HW & HS & HPr & HBr).
  destruct HS as (HG & HP & HB & _).
  destruct HW as ([l HI] & Hb0 & Hb1 & start & len & Hm & Hlen).
  pose proof (page_requirement_range size) as Hreq.
  pose proof (placement_offset_range size alignment) as Hoff.
  unfold DebugHeapAllocate in H.
  apply bind_Ok in H as [h0 [E0 H]]. apply ENTER_Ok in E0 as ->.
  pose proof (InvK_set_guard _ _ _ 1 HI) as HI1.
  apply bind_Ok in H as [[ptr h1] [E1 H]].
  destruct (AllocFromFreeList_pending _ _ _ _ E1) as [HPL1 HnP1]. simpl in HPL1, HnP1.
  destruct (AllocFromFreeList_cases _ _ _ _ _ _ HI1 Hb0 Hb1 E1)
    as [(_ & _ & Hnf)|(_ & r1 & xr & Hxr & Hpi & Hptr & _)]; [done|].
  simpl in Hxr, Hpi, Hptr.
  assert (negb (ptr =? 0) = true) as Hnz.
  { apply negb_true_iff, Z.eqb_neq. rewrite Hptr. unfold kPageSize. lia. }
  rewrite Hnz in H.
  apply bind_Ok in H as [[result vm] [E2 H]].
  apply bind_Ok in H as [h2 [E3 H]]. apply LEAVE_Ok in E3 as ->. injection H as <- <-.
  destruct (FinalizeAlloc_Ok _ _ _ _ _ _ _ _ _ E2 Hm Hlen Hreq) as (_ & _ & ->).
  fold (placement_offset size alignment).
  rewrite u64_small
    by (rewrite Hptr, HB in *; rewrite HP in *; unfold kPageSize in *; lia).
  simpl. split; [rewrite Hptr; unfold kPageSize; lia|].
  split; [done|]. split; [done|].
  (* the block taken is on the free list, the block [r] on the pending list *)
  intros j r b Hj Hpl Hb.
  destruct (AllocFromFreeList_Ok _ _ _ _ E1) as (best & sz & idx & Hscan & Hbest).
  apply scan_free_list_spec in Hscan.
  destruct best as [r2|]; [|destruct Hbest as [-> _]; unfold kPageSize in *; lia].
  destruct Hscan as [_ (Hidx & Hfl & xr2 & Hxr2 & Hflg & _)].
  destruct Hbest as (xr3 & _ & Hxr3 & _ & _ & _ & _ & _ & _ & Hptr3 & _).
  simpl in Hxr2, Hxr3, Hptr3, Hfl, Hidx.
  rewrite Hxr3 in Hxr2. injection Hxr2 as ->.
  pose proof (inv_sizes _ _ _ HI) as (HnF0 & HnP0 & _).
  destruct (inv_free _ _ _ HI) as [HF _].
  destruct (HF (Z.to_nat idx) (Some r2)) as (r0 & [= <-] & Hrl2 & _); [lia|done|].
  destruct (inv_pend _ _ _ HI) as [HPd _].
  destruct (HPd (Z.to_nat j) (Some r)) as (r0 & [= <-] & Hrl & b0 & Hb0' & Hflb);
    [lia|done|].
  rewrite Hb in Hb0'. injection Hb0' as <-.
  destruct (InvK_block_range _ _ _ _ _ HI Hrl2 Hxr3) as (Hpi2 & Hpc2 & Hend2 & _).
  destruct (InvK_block_range _ _ _ _ _ HI Hrl Hb) as (Hpib & Hpcb & Hendb & _).
  rewrite u64_small in Hptr3 by (rewrite HB, HP in *; unfold kPageSize in *; lia).
  subst ptr. unfold block_base. intros Hin.
  assert (r = r2) as <-.
  { eapply (Seg_disjoint _ _ _ _ _ _ r r2); [apply (inv_chain _ _ _ HI)|done..|].
    unfold kPageSize in *. lia. }
  rewrite Hb in Hxr3. injection Hxr3 as <-. congruence.
Qed.

(** A run of X20: the 128 bytes allocated first are freed; the next
    request is served from the free block behind them, and the freed
    block stays on the pending list. *)
Lemma freed_block_quarantined_witness :
  exists w w',
    final_world 65536 32768 [OpAllocate 128 4; OpFree 73600] = Some w /\
    DebugHeapAllocate w 128 4 = Ok (81792, w') /\
    m_PendingListSize (w_heap w') = 1 /\
    m_PendingList (w_heap w') !! 0%nat = Some (Some 0%nat).
Proof.
  evar (w : World). evar (w' : World). exists w, w'.
  assert (final_world 65536 32768 [OpAllocate 128 4; OpFree 73600] = Some w) as Hw
      by (subst w; vm_compute; reflexivity).
  assert (DebugHeapAllocate w 128 4 = Ok (81792, w')) as HA
      by (subst w w'; vm_compute; reflexivity).
  assert (fits (w_heap w) (page_requirement 128)) as Hfits.
  { eexists 0, 1%nat, _. subst w.
    split; [split; vm_compute; [intros E; discriminate E|reflexivity]|].
    split; [vm_compute; reflexivity|]. split; [vm_compute; reflexivity|].
    vm_compute. intros E. discriminate E. }
  destruct (freed_block_quarantined 65536 32768 _ w w' 128 4 81792
              ltac:(lia) ltac:(lia) Hw Hfits HA)
    as (_ & Hn & Hl & _).
  split; [exact Hw|]. split; [exact HA|]. split.
  - rewrite Hn. subst w. vm_compute. reflexivity.
  - rewrite Hl. subst w. vm_compute. reflexivity.
Defined.

(* ===================================================================== *)
(** * Further properties: pointers past the first page                   *)
(* ===================================================================== *)

(** X21 (DebugHeapFree, DebugHeapGetAllocSize): on a heap made by
    DebugHeapInit and used through the public operations, only a pointer
    into the first page of a live allocation is recognised.  A pointer
    into any later page of its block, the guard page included, finds a
    null lookup entry: DebugHeapFree stops at the assertion
    [Double free of %p], and DebugHeapGetAllocSize reads through the
    null block pointer. *)
Theorem interior_pointer_unknown (os_range mem_size_bytes : Z) (ops : list Op)
    (w : World) (ptr : Z) (i r : nat) (b : DebugBlockInfo) :
  0 <= mem_size_bytes < 2 ^ 43 -> 0 <= os_range < 2 ^ 63 ->
  final_world os_range mem_size_bytes ops = Some w ->
  m_BlockLookup (w_heap w) !! i = Some (Some r) -> m_Blocks (w_heap w) !! r = Some b ->
  block_base (w_heap w) b + kPageSize <= ptr
  < block_base (w_heap w) b + Blk.m_PageCount b * kPageSize ->
  DebugHeapFree w ptr = Err (AssertFatal "Double free of %p") /\
  DebugHeapGetAllocSize w ptr = Err NullDeref.
Proof.
  intros Hmem Hos Hw Hi Hb Hptr.
  destruct (live_heap _ _ _ _ Hmem Hos Hw) as (HW & HS & HPr & HBr).
  destruct HS as (HG & HP & HB & _ & _ & _ & HLK & _).
  destruct HW as ([l HI] & Hb0 & Hb1 & _).
  destruct (InvK_live _ _ _ _ _ _ HI Hi Hb) as (Hrl & _ & Hpi & Hpc0 & Hend).
  set (h := w_heap w) in *. unfold block_base in Hptr.
  set (d := ptr - m_BaseAddress h).
  assert (0 <= d mod kPageSize < kPageSize) as Hoff
      by (apply Z.mod_pos_bound; unfold kPageSize; lia).
  assert (Blk.m_PageIndex b + 1 <= d / kPageSize < Blk.m_PageIndex b + Blk.m_PageCount b)
    as Hq.
  { unfold d, kPageSize in *. split.
    - apply Z.div_le_lower_bound; lia.
    - apply Z.div_lt_upper_bound; lia. }
  assert (ptr = m_BaseAddress h + d / kPageSize * kPageSize + d mod kPageSize) as Hsplit.
  { pose proof (Z.div_mod d kPageSize ltac:(unfold kPageSize; lia)). unfold d in *. lia. }
  destruct (page_index_of_block h (d / kPageSize) (d mod kPageSize))
    as [_ Hpg]; [done|done|lia|lia|unfold kPageSize in *; lia|].
  rewrite <- Hsplit in Hpg.
  assert (m_BlockLookup h !! Z.to_nat (page_index_of h ptr) = Some None) as Hnull.
  { rewrite Hpg.
    destruct (lookup_lt_is_Some_2 (m_BlockLookup h) (Z.to_nat (d / kPageSize))) as [e He];
      [rewrite HLK; lia|].
    rewrite He. destruct e as [r'|]; [exfalso|done].
    destruct (inv_lookup _ _ _ HI _ _ He) as (Hrl' & b' & Hb' & _ & Hpi').
    rewrite Z2Nat.id in Hpi' by lia.
    assert (r = r') as <-.
    { eapply (Seg_disjoint _ _ _ _ _ _ r r'); [apply (inv_chain _ _ _ HI)|done..|lia]. }
    rewrite Hb in Hb'. injection Hb' as <-. lia. }
  split.
  - apply DebugHeapFree_null_entry; [done|fold h; rewrite Hpg; lia|done].
  - apply DebugHeapGetAllocSize_null_entry; [done|fold h; rewrite Hpg; lia|done].
Qed.

(** A run of X21: 8192 bytes are allocated at 69632; the pointer to
    their second page is not known to the heap. *)
Lemma interior_pointer_unknown_witness :
  exists w,
    final_world 65536 32768 [OpAllocate 8192 1] = Some w /\
    DebugHeapFree w 73728 = Err (AssertFatal "Double free of %p") /\
    DebugHeapGetAllocSize w 73728 = Err NullDeref.
Proof.
  evar (w : World). exists w.
  assert (final_world 65536 32768 [OpAllocate 8192 1] = Some w) as Hw
      by (subst w; vm_compute; reflexivity).
  split; [exact Hw|].
  evar (b : DebugBlockInfo).
  apply (interior_pointer_unknown 65536 32768 _ w 73728 0 0 b
           ltac:(lia) ltac:(lia) Hw).
  - subst w. vm_compute. reflexivity.
  - subst w b. vm_compute. reflexivity.
  - subst w b. vm_compute. split; [intros E; discriminate E|reflexivity].
Defined.

(* ===================================================================== *)
(** * Further properties: the end of the quarantine                      *)
(* ===================================================================== *)

(** X22 (DebugHeapAllocate, FlushPendingFrees): the quarantine ends when
    the free list runs short.  On a heap made by DebugHeapInit and used
    through the public operations, a DebugHeapAllocate that finds no
    block of the free list large enough flushes the pending list before
    it answers: whether it then returns a pointer or NULL, the pending
    list is empty afterwards. *)
Theorem allocation_empties_quarantine (os_range mem_size_bytes : Z) (ops : list Op)
    (w w' : World) (size alignment p : Z) :
  0 <= mem_size_bytes < 2 ^ 43 -> 0 <= os_range < 2 ^ 63 ->
  final_world os_range mem_size_bytes ops = Some w ->
  ~ fits (w_heap w) (page_requirement size) ->
  DebugHeapAllocate w size alignment = Ok (p, w') ->
  m_PendingListSize (w_heap w') = 0.
Proof.
  intros Hmem Hos Hw Hnf H.
  destruct (live_heap _ _ _ _ Hmem Hos Hw) as (HW & _).
  destruct HW as ([l HI] & Hb0 & Hb1 & _).
  unfold DebugHeapAllocate in H.
  apply bind_Ok in H as [h0 [E0 H]]. apply ENTER_Ok in E0 as ->.
  pose proof (InvK_set_guard _ _ _ 1 HI) as HI1.
  apply bind_Ok in H as [[ptr h1] [E1 H]].
  destruct (AllocFromFreeList_cases _ _ _ _ _ _ HI1 Hb0 Hb1 E1)
    as [(-> & -> & _)|(Hf & _)]; [|done].
  change (negb (0 =? 0)) with false in H. cbv iota in H.
  apply bind_Ok in H as [h2 [E2 H]].
  destruct (FlushPendingFrees_inv _ _ _ HI1 E2) as (_ & HnP2 & _).
  apply bind_Ok in H as [[ptr h3] [E3 H]].
  destruct (AllocFromFreeList_pending _ _ _ _ E3) as [_ HnP3].
  destruct (negb (ptr =? 0)).
  - apply bind_Ok in H as [[result vm] [E4 H]].
    apply bind_Ok in H as [h4 [E5 H]]. apply LEAVE_Ok in E5 as ->. injection H as <- <-.
    simpl. congruence.
  - apply bind_Ok in H as [h4 [E5 H]]. apply LEAVE_Ok in E5 as ->. injection H as <- <-.
    simpl. congruence.
Qed.

(** A run of X22: two blocks of three pages fill the heap of eight pages
    but for two pages; the first is freed.  The next request for three
    pages does not fit the free list, the pending block is flushed and
    handed out again. *)
Lemma allocation_empties_quarantine_witness :
  exists w w',
    final_world 65536 32768 [OpAllocate 8192 1; OpAllocate 8192 1; OpFree 69632] = Some w /\
    m_PendingListSize (w_heap w) = 1 /\
    DebugHeapAllocate w 8192 1 = Ok (69632, w') /\
    m_PendingListSize (w_heap w') = 0.
Proof.
  evar (w : World). evar (w' : World). exists w, w'.
  assert (final_world 65536 32768 [OpAllocate 8192 1; OpAllocate 8192 1; OpFree 69632]
          = Some w) as Hw by (subst w; vm_compute; reflexivity).
  assert (DebugHeapAllocate w 8192 1 = Ok (69632, w')) as HA
      by (subst w w'; vm_compute; reflexivity).
  assert (m_FreeListSize (w_heap w) = 1) as HnF by (subst w; vm_compute; reflexivity).
  assert (m_FreeList (w_heap w) !! 0%nat = Some (Some 2%nat)) as HFL
      by (subst w; vm_compute; reflexivity).
  assert (m_Blocks (w_heap w) !! 2%nat
          = Some (Blk.mk false 2 false 6 (Some 1%nat) None)) as HB2
      by (subst w; vm_compute; reflexivity).
  assert (~ fits (w_heap w) (page_requirement 8192)) as Hnf.
  { intros (j & r & b & Hj & Hfl & Hb & Hle).
    rewrite HnF in Hj. assert (j = 0) as -> by lia.
    change (Z.to_nat 0) with 0%nat in Hfl.
    rewrite HFL in Hfl. injection Hfl as <-.
    rewrite HB2 in Hb. injection Hb as <-.
    revert Hle. vm_compute. intros Hle. apply Hle. reflexivity. }
  split; [exact Hw|]. split; [subst w; vm_compute; reflexivity|]. split; [exact HA|].
  exact (allocation_empties_quarantine 65536 32768 _ w w' 8192 1 69632
           ltac:(lia) ltac:(lia) Hw Hnf HA).
Defined.

(* ===================================================================== *)
(** * Further properties: DebugHeapDestroy                               *)
(* ===================================================================== *)

(** X23 (DebugHeapDestroy): on a heap made by DebugHeapInit and used
    through the public operations, DebugHeapDestroy goes through when the
    page count is not a multiple of 2^20.  When it is, so from a budget
    of 4 GiB on, the size it computes in 32 bits is 0 and it stops at the
    assertion [Failed to free memory]. *)
Theorem destroy_outcome (os_range mem_size_bytes : Z) (ops : list Op) (w : World) :
  0 <= mem_size_bytes < 2 ^ 43 -> 0 <= os_range < 2 ^ 63 ->
  final_world os_range mem_size_bytes ops = Some w ->
  ((mem_size_bytes / kPageSize) mod 2 ^ 20 <> 0 -> exists vm, DebugHeapDestroy w = Ok vm) /\
  ((mem_size_bytes / kPageSize) mod 2 ^ 20 = 0 ->
   DebugHeapDestroy w = Err (AssertFatal "Failed to free memory")).
Proof.
  intros Hmem Hos Hw.
  destruct (live_heap _ _ _ _ Hmem Hos Hw) as (_ & HS & HPr & _).
  destruct HS as (_ & HP & _ & Hal & Hself & _).
  unfold DebugHeapDestroy, VmFree. rewrite Hself, HP.
  set (P := mem_size_bytes / kPageSize) in *.
  assert (page_aligned os_range = true) as -> by (by apply Z.eqb_eq).
  assert (u32 (P * kPageSize) = P mod 2 ^ 20 * kPageSize) as ->.
  { unfold u32, kPageSize. change (2 ^ 32) with (2 ^ 20 * 4096).
    rewrite Z.mul_mod_distr_r by lia. done. }
  pose proof (Z.mod_pos_bound P (2 ^ 20) ltac:(lia)) as Hr.
  split; intros Hc.
  - assert ((0 <? P mod 2 ^ 20 * kPageSize) = true) as ->
        by (apply Z.ltb_lt; unfold kPageSize; lia).
    cbn [andb ASSERT_FATAL bind]. by eexists.
  - rewrite Hc. reflexivity.
Qed.

(** Runs of X23: the heap of eight pages is destroyed; a heap of 4 GiB is
    not. *)
Lemma destroy_outcome_witness :
  (exists w vm, final_world 65536 32768 [] = Some w /\ DebugHeapDestroy w = Ok vm) /\
  (exists w, final_world 65536 4294967296 [] = Some w /\
             DebugHeapDestroy w = Err (AssertFatal "Failed to free memory")).
Proof.
  split.
  - evar (w : World). exists w.
    assert (final_world 65536 32768 [] = Some w) as Hw
        by (subst w; vm_compute; reflexivity).
    destruct (proj1 (destroy_outcome 65536 32768 [] w ltac:(lia) ltac:(lia) Hw)) as [vm Hd].
    { vm_compute. intros E. discriminate E. }
    exists vm. split; [exact Hw|exact Hd].
  - destruct (DebugHeapInit_fresh 65536 4294967296) as (w & _ & _ & Hinit & _);
      [lia|lia|reflexivity|].
    assert (final_world 65536 4294967296 [] = Some w) as Hw.
    { unfold final_world. rewrite Hinit. reflexivity. }
    exists w. split; [exact Hw|].
    apply (destroy_outcome 65536 4294967296 [] w ltac:(lia) ltac:(lia) Hw).
    reflexivity.
Defined.

(* ===================================================================== *)
(** * Further properties: usable size and alignment                      *)
(* ===================================================================== *)

(** X24 (DebugHeapAllocate, FinalizeAlloc, DebugHeapGetAllocSize): on a
    heap made by DebugHeapInit and used through the public operations,
    for a request of at most 2^31 - 4096 bytes with an alignment between
    1 and 2^32, the size DebugHeapGetAllocSize reports for the pointer
    DebugHeapAllocate returned is at least the size asked for, and
    exceeds it by less than the alignment. *)
Theorem usable_size_covers_request (os_range mem_size_bytes : Z) (ops : list Op)
    (w w' : World) (size alignment p : Z) :
  0 <= mem_size_bytes < 2 ^ 43 -> 0 <= os_range < 2 ^ 63 ->
  final_world os_range mem_size_bytes ops = Some w ->
  DebugHeapAllocate w size alignment = Ok (p, w') -> p <> 0 ->
  0 <= size <= 2 ^ 31 - 4096 -> 1 <= alignment <= 2 ^ 32 ->
  exists n,
    DebugHeapGetAllocSize w' p = Ok (n, w') /\ size <= n <= size + alignment - 1.
Proof.
  intros Hmem Hos Hw HA Hnz Hs Ha.
  destruct (final_world_Some _ _ _ _ Hw) as (w0 & rs & Hinit & Hrun).
  destruct (alloc_size_within_int _ _ _ _ _ _ _ _ _ _ Hmem Hos Hinit Hrun HA Hnz Hs Ha)
    as (r & b & n & _ & _ & Hn & _ & Hle).
  by exists n.
Qed.

(** A run of X24: 10000 bytes aligned to 64 get 10048 usable bytes. *)
Lemma usable_size_covers_request_witness :
  exists w w',
    final_world 65536 32768 small_ops = Some w /\
    DebugHeapAllocate w 10000 64 = Ok (80064, w') /\
    DebugHeapGetAllocSize w' 80064 = Ok (10048, w').
Proof.
  evar (w : World). evar (w' : World). exists w, w'.
  assert (final_world 65536 32768 small_ops = Some w) as Hw
      by (subst w; vm_compute; reflexivity).
  assert (DebugHeapAllocate w 10000 64 = Ok (80064, w')) as HA
      by (subst w w'; vm_compute; reflexivity).
  split; [exact Hw|]. split; [exact HA|].
  destruct (usable_size_covers_request 65536 32768 _ w w' 10000 64 80064
              ltac:(lia) ltac:(lia) Hw HA ltac:(discriminate) ltac:(lia) ltac:(lia))
    as (n & Hn & _).
  rewrite Hn. f_equal. f_equal.
  assert (DebugHeapGetAllocSize w' 80064 = Ok (10048, w')) as E
      by (subst w'; vm_compute; reflexivity).
  rewrite E in Hn. injection Hn as <-. reflexivity.
Defined.

(** X25 (DebugHeapAllocate, FinalizeAlloc): on a heap made by
    DebugHeapInit and used through the public operations, the pointer
    DebugHeapAllocate returns for an alignment that is a power of two up
    to the page size is a multiple of that alignment. *)
Theorem pointer_aligned (os_range mem_size_bytes : Z) (ops : list Op)
    (w w' : World) (size k p : Z) :
  0 <= mem_size_bytes < 2 ^ 43 -> 0 <= os_range < 2 ^ 63 ->
  final_world os_range mem_size_bytes ops = Some w ->
  0 <= k <= 12 ->
  DebugHeapAllocate w size (2 ^ k) = Ok (p, w') ->
  p mod 2 ^ k = 0.
Proof.
  intros Hmem Hos Hw Hk HA.
  destruct (decide (p = 0)) as [->|Hnz].
  { apply Z.mod_0_l. pose proof (Z.pow_pos_nonneg 2 k). lia. }
  destruct (final_world_Some _ _ _ _ Hw) as (w0 & rs & Hinit & Hrun).
  destruct (placement_up_to_page_size _ _ _ _ _ _ _ _ _ _ Hmem Hos Hinit Hrun HA Hnz)
    as (r & b & _ & _ & _ & _ & Hal).
  by apply (Hal k).
Qed.

(** A run of X25: 100 bytes aligned to 256. *)
Lemma pointer_aligned_witness :
  exists w w',
    final_world 65536 32768 small_ops = Some w /\
    DebugHeapAllocate w 100 256 = Ok (81664, w') /\ 81664 mod 256 = 0.
Proof.
  evar (w : World). evar (w' : World). exists w, w'.
  assert (final_world 65536 32768 small_ops = Some w) as Hw
      by (subst w; vm_compute; reflexivity).
  assert (DebugHeapAllocate w 100 (2 ^ 8) = Ok (81664, w')) as HA
      by (subst w w'; vm_compute; reflexivity).
  split; [exact Hw|]. split; [exact HA|].
  exact (pointer_aligned 65536 32768 _ w w' 100 8 81664
           ltac:(lia) ltac:(lia) Hw ltac:(lia) HA).
Defined.

(* ===================================================================== *)
(** * Further properties: requests for no bytes                          *)
(* ===================================================================== *)

(** X26 (DebugHeapAllocate, FinalizeAlloc, DebugHeapGetAllocSize): a
    request for no bytes is served.  On a heap made by DebugHeapInit and
    used through the public operations, DebugHeapAllocate of size 0 that
    returns a pointer returns the start of a block that is a guard page
    alone: the pointer is not accessible, and DebugHeapGetAllocSize
    reports 0 usable bytes for it. *)
Theorem zero_size_allocation (os_range mem_size_bytes : Z) (ops : list Op)
    (w w' : World) (alignment p : Z) :
  0 <= mem_size_bytes < 2 ^ 43 -> 0 <= os_range < 2 ^ 63 ->
  final_world os_range mem_size_bytes ops = Some w ->
  1 <= alignment <= 2 ^ 32 ->
  DebugHeapAllocate w 0 alignment = Ok (p, w') -> p <> 0 ->
  p mod kPageSize = 0 /\
  accessible (vm_trace (w_vm w')) p = false /\
  DebugHeapGetAllocSize w' p = Ok (0, w').
Proof.
  intros Hmem Hos Hw Ha HA Hnz.
  destruct (live_heap _ _ _ _ Hmem Hos Hw) as (HW & HS & HPr & HBr).
  destruct (final_world_Some _ _ _ _ Hw) as (w0 & rs & Hinit & Hrun).
  destruct (alloc_size_within_int _ _ _ _ _ _ _ _ _ _ Hmem Hos Hinit Hrun HA Hnz
              ltac:(lia) Ha)
    as (r & b & n & Hlk & Hb & Hn & Hneq & Hle).
  destruct (DebugHeapAllocate_block _ _ _ _ _ HW HA Hnz)
    as (r1 & b1 & Hb1 & Hpc & _ & Hlk1 & Hp & Hpg & _).
  rewrite Hpg, Hlk1 in Hlk. injection Hlk as <-.
  rewrite Hb1 in Hb. injection Hb as <-.
  change (page_requirement 0) with 1 in Hpc.
  assert (placement_offset 0 alignment = 0) as Hoff by apply Z.land_0_l.
  rewrite Hoff in Hp. rewrite Hpc in Hneq.
  pose proof (Z.mod_pos_bound p 4096 ltac:(lia)) as Hm.
  assert (n = 0) as -> by lia.
  split; [unfold kPageSize; lia|]. split; [|done].
  destruct (DebugHeapAllocate_access _ _ _ _ _ _ _ Hos HW HS HPr HBr HA Hnz)
    as (r2 & b2 & Hlk2 & Hb2 & _ & _ & Hguard & _).
  rewrite Hpg, Hlk1 in Hlk2. injection Hlk2 as <-.
  rewrite Hb1 in Hb2. injection Hb2 as <-.
  apply Hguard. unfold block_base. rewrite Hpc. unfold kPageSize in *. lia.
Qed.

(** A run of X26 on the heap of eight pages. *)
Lemma zero_size_allocation_witness :
  exists w w',
    final_world 65536 32768 small_ops = Some w /\
    DebugHeapAllocate w 0 16 = Ok (77824, w') /\
    accessible (vm_trace (w_vm w')) 77824 = false /\
    DebugHeapGetAllocSize w' 77824 = Ok (0, w').
Proof.
  evar (w : World). evar (w' : World). exists w, w'.
  assert (final_world 65536 32768 small_ops = Some w) as Hw
      by (subst w; vm_compute; reflexivity).
  assert (DebugHeapAllocate w 0 16 = Ok (77824, w')) as HA
      by (subst w w'; vm_compute; reflexivity).
  split; [exact Hw|]. split; [exact HA|].
  exact (proj2 (zero_size_allocation 65536 32768 _ w w' 16 77824
                  ltac:(lia) ltac:(lia) Hw ltac:(lia) HA ltac:(discriminate))).
Defined.
